(** * RandomX CUDA: the batched hashing pipeline of [kernel.cu]

    A shallow embedding of the host program of [kernel.cu] (the search loop
    [test_mining], the validation harness [tests] and [main]) together with
    models of the device kernels and sequential references it calls, and the
    properties of the pipeline stated over them.

    The header files [randomx_cuda.hpp], [blake2b_cuda.hpp], [aes_cuda.hpp],
    [blake2/blake2.h] and [aes/hashAes1Rx4.hpp] are not part of the sources:
    the constants they define are section variables, and the kernels and
    references they define are modelled, each under a comment that says so. *)

From Stdlib Require Import String Ascii ZArith Arith Bool List Lia.
Import ListNotations.

Local Open Scope Z_scope.

(** ** Bytes, words and C memory *)

(** A byte is a [Z] in [0, 256); a [uint64_t] is a [Z] in [0, 2^64).
    Buffers are byte-addressed: [mem] maps a byte offset to the byte there. *)

Definition mem := nat -> Z.

Definition load (m : mem) (off n : nat) : list Z := map m (seq off n).

Definition store (m : mem) (off : nat) (bs : list Z) : mem :=
  fun a => if (off <=? a)%nat && (a <? off + length bs)%nat
           then nth (a - off) bs 0 else m a.

(** [memcmp (p1, p2, n) == 0] on two buffers at the given offsets. *)
Definition memcmp_eq (m1 : mem) (o1 : nat) (m2 : mem) (o2 : nat) (n : nat) : bool :=
  forallb (fun k => m1 (o1 + k)%nat =? m2 (o2 + k)%nat) (seq 0 n).

Definition zero_mem : mem := fun _ => 0.

(** Little-endian serialisation of a [w]-byte unsigned integer. *)
Fixpoint le_bytes (w : nat) (x : Z) : list Z :=
  match w with
  | O => []
  | S w' => (x mod 256) :: le_bytes w' (x / 256)
  end.

Fixpoint le_value (bs : list Z) : Z :=
  match bs with
  | [] => 0
  | b :: bs' => b + 256 * le_value bs'
  end.

(** ** BLAKE2b *)

Module Blake2b.

(** Modelled from the spec: the sequential reference hash [blake2b] of
    [blake2/blake2.h], which is not part of the sources.  The harness calls it
    as [blake2b(out, outlen, in, inlen, nullptr, 0)]; the spec calls it the
    keyed sponge hash whose selected digest width is encoded inside the
    primitive.  The definition is the unkeyed BLAKE2b of RFC 7693. *)

Definition w64 (x : Z) : Z := x mod 2 ^ 64.

Definition add64 (a b : Z) : Z := w64 (a + b).

Definition rotr64 (x : Z) (n : Z) : Z :=
  Z.lor (Z.shiftr x n) (w64 (Z.shiftl x (64 - n))).

Definition IV : list Z :=
  [ 0x6a09e667f3bcc908; 0xbb67ae8584caa73b; 0x3c6ef372fe94f82b; 0xa54ff53a5f1d36f1;
    0x510e527fade682d1; 0x9b05688c2b3e6c1f; 0x1f83d9abfb41bd6b; 0x5be0cd19137e2179 ].

Definition SIGMA : list (list nat) :=
  [ [ 0; 1; 2; 3; 4; 5; 6; 7; 8; 9; 10; 11; 12; 13; 14; 15 ];
    [ 14; 10; 4; 8; 9; 15; 13; 6; 1; 12; 0; 2; 11; 7; 5; 3 ];
    [ 11; 8; 12; 0; 5; 2; 15; 13; 10; 14; 3; 6; 7; 1; 9; 4 ];
    [ 7; 9; 3; 1; 13; 12; 11; 14; 2; 6; 5; 10; 4; 0; 15; 8 ];
    [ 9; 0; 5; 7; 2; 4; 10; 15; 14; 1; 11; 12; 6; 8; 3; 13 ];
    [ 2; 12; 6; 10; 0; 11; 8; 3; 4; 13; 7; 5; 15; 14; 1; 9 ];
    [ 12; 5; 1; 15; 14; 13; 4; 10; 0; 7; 6; 3; 9; 2; 8; 11 ];
    [ 13; 11; 7; 14; 12; 1; 3; 9; 5; 0; 15; 4; 8; 6; 2; 10 ];
    [ 6; 15; 14; 9; 11; 3; 0; 8; 12; 2; 13; 7; 1; 4; 10; 5 ];
    [ 10; 2; 8; 4; 7; 6; 1; 5; 15; 11; 9; 14; 3; 12; 13; 0 ];
    [ 0; 1; 2; 3; 4; 5; 6; 7; 8; 9; 10; 11; 12; 13; 14; 15 ];
    [ 14; 10; 4; 8; 9; 15; 13; 6; 1; 12; 0; 2; 11; 7; 5; 3 ] ]%nat.

Fixpoint upd (l : list Z) (i : nat) (x : Z) : list Z :=
  match l, i with
  | [], _ => []
  | _ :: t, O => x :: t
  | h :: t, S i' => h :: upd t i' x
  end.

Definition G (v : list Z) (a b c d : nat) (x y : Z) : list Z :=
  let va := add64 (add64 (nth a v 0) (nth b v 0)) x in
  let vd := rotr64 (Z.lxor (nth d v 0) va) 32 in
  let vc := add64 (nth c v 0) vd in
  let vb := rotr64 (Z.lxor (nth b v 0) vc) 24 in
  let va := add64 (add64 va vb) y in
  let vd := rotr64 (Z.lxor vd va) 16 in
  let vc := add64 vc vd in
  let vb := rotr64 (Z.lxor vb vc) 63 in
  upd (upd (upd (upd v a va) b vb) c vc) d vd.

Definition round (m : list Z) (v : list Z) (s : list nat) : list Z :=
  let mi k := nth (nth k s O) m 0 in
  let v := G v 0 4 8 12 (mi 0%nat) (mi 1%nat) in
  let v := G v 1 5 9 13 (mi 2%nat) (mi 3%nat) in
  let v := G v 2 6 10 14 (mi 4%nat) (mi 5%nat) in
  let v := G v 3 7 11 15 (mi 6%nat) (mi 7%nat) in
  let v := G v 0 5 10 15 (mi 8%nat) (mi 9%nat) in
  let v := G v 1 6 11 12 (mi 10%nat) (mi 11%nat) in
  let v := G v 2 7 8 13 (mi 12%nat) (mi 13%nat) in
  G v 3 4 9 14 (mi 14%nat) (mi 15%nat).

(** The compression function [F]: [h] the chaining value, [m] the sixteen
    message words, [t] the byte counter, [last] the finalisation flag. *)
Definition compress (h : list Z) (m : list Z) (t : Z) (last : bool) : list Z :=
  let v := h ++ IV in
  let v := upd v 12 (Z.lxor (nth 12 v 0) (w64 t)) in
  let v := upd v 13 (Z.lxor (nth 13 v 0) (w64 (t / 2 ^ 64))) in
  let v := if last then upd v 14 (Z.lxor (nth 14 v 0) (2 ^ 64 - 1)) else v in
  let v := fold_left (round m) SIGMA v in
  map (fun i => Z.lxor (Z.lxor (nth i h 0) (nth i v 0)) (nth (i + 8) v 0))
      (seq 0 8).

(** The sixteen little-endian words of a block, zero-padded to 128 bytes. *)
Definition block_words (bs : list Z) : list Z :=
  map (fun i => le_value (firstn 8 (skipn (8 * i) (bs ++ repeat 0 128))))
      (seq 0 16).

(** Absorbs the message: every block but the last is compressed with the
    running byte count; the last one (possibly empty or partial) is
    zero-padded and compressed with the finalisation flag. *)
Fixpoint absorb (fuel : nat) (h : list Z) (t : Z) (msg : list Z) : list Z :=
  match fuel with
  | O => h
  | S fuel' =>
      if (length msg <=? 128)%nat
      then compress h (block_words msg) (t + Z.of_nat (length msg)) true
      else absorb fuel' (compress h (block_words (firstn 128 msg)) (t + 128) false)
                  (t + 128) (skipn 128 msg)
  end.

Definition init (outlen : Z) : list Z :=
  upd IV 0 (Z.lxor (nth 0 IV 0) (Z.lxor 0x01010000 outlen)).

Definition blake2b (outlen : nat) (msg : list Z) : list Z :=
  firstn outlen
    (flat_map (le_bytes 8) (absorb (S (length msg)) (init (Z.of_nat outlen)) 0 msg)).

End Blake2b.

(** ** The CUDA runtime as the host program sees it *)

Inductive cudaError_t :=
| cudaSuccess
| cudaError (code : nat).

Definition is_success (e : cudaError_t) : bool :=
  match e with cudaSuccess => true | cudaError _ => false end.

(** Device allocations, named after the [GPUPtr] object that owns them. *)
Inductive buffer :=
| tmp | dataset_gpu | scratchpads_gpu | hashes_gpu | programs_gpu
| registers_gpu | blockTemplate_gpu
| hash_gpu | block_template_gpu | nonce_gpu | states_gpu.

Definition buffer_eqb (a b : buffer) : bool :=
  match a, b with
  | tmp, tmp | dataset_gpu, dataset_gpu | scratchpads_gpu, scratchpads_gpu
  | hashes_gpu, hashes_gpu | programs_gpu, programs_gpu
  | registers_gpu, registers_gpu | blockTemplate_gpu, blockTemplate_gpu
  | hash_gpu, hash_gpu | block_template_gpu, block_template_gpu
  | nonce_gpu, nonce_gpu | states_gpu, states_gpu => true
  | _, _ => false
  end.

(** Host arrays of [tests] and the global [blockTemplate]. *)
Inductive hostbuf :=
| blockTemplate | hash | hash2 | scratchpads | programs | registers | registers2.

Definition hostbuf_eqb (a b : hostbuf) : bool :=
  match a, b with
  | blockTemplate, blockTemplate | hash, hash | hash2, hash2
  | scratchpads, scratchpads | programs, programs
  | registers, registers | registers2, registers2 => true
  | _, _ => false
  end.

(** The kernels, with their template arguments. *)
Inductive kernel :=
| blake2b_initial_hash (len : Z)
| fillAes1Rx4 (outputSize : Z) (flag : bool)
| initGroupA_registers
| hashAes1Rx4 (inputSize outputOffset outputStride : Z)
| blake2b_hash_registers (len outlen : Z).

(** One launch [k<<<grid, block>>>(a, b, x)]: two pointer arguments and, for
    the kernels that take one, a scalar (the start nonce or the batch size). *)
Record launch := Launch {
  l_kernel : kernel;
  l_grid : Z;
  l_block : Z;
  l_arg0 : buffer;
  l_arg1 : buffer;
  l_scalar : Z
}.

Inductive event :=
| EvSetDevice (id : Z)
| EvDeviceReset
| EvMalloc (b : buffer) (size : Z)
| EvFree (b : buffer)
| EvMemGetInfo
| EvMemset (b : buffer) (size : Z)
| EvMemcpyHtoD (dst : buffer) (src : hostbuf) (size : Z)
| EvMemcpyDtoH (dst : hostbuf) (src : buffer) (size : Z)
| EvLaunch (l : launch)
| EvGetLastError
| EvDeviceSynchronize
| EvClock
| EvPrintf (fmt : string) (args : list Z)
| EvStderr (fmt : string).

(** What the runtime answers.  Calls of one kind are numbered from 0 in the
    order the program makes them. *)
Record cuda_env := {
  set_device_status : cudaError_t;
  reset_status : cudaError_t;
  mem_info : nat -> cudaError_t * (Z * Z);
  malloc_ok : buffer -> bool;
  memset_status : cudaError_t;
  memcpy_status : nat -> cudaError_t;
  launch_status : nat -> cudaError_t;
  sync_status : nat -> cudaError_t
}.

(** The device code: what a launch that was issued does to device memory. *)
Definition devmem := buffer -> mem.

Definition gpu_kernels := launch -> devmem -> devmem.

Definition set_buf (d : devmem) (b : buffer) (m : mem) : devmem :=
  fun b' => if buffer_eqb b' b then m else d b'.

Definition hostmem := hostbuf -> mem.

Definition set_host (h : hostmem) (b : hostbuf) (m : mem) : hostmem :=
  fun b' => if hostbuf_eqb b' b then m else h b'.

(** The state the host program threads through: what it did so far, the
    runtime's pending error (a failed launch sets it, [cudaGetLastError]
    returns and clears it), the call counters, the [GPUPtr] objects alive
    (innermost first), and the two memories. *)
Record host := Host {
  trace : list event;
  last_error : cudaError_t;
  n_meminfo : nat;
  n_memcpy : nat;
  n_launch : nat;
  n_sync : nat;
  live : list buffer;
  dev : devmem;
  hst : hostmem
}.

Definition emit (e : event) (s : host) : host :=
  Host (trace s ++ [e]) (last_error s) (n_meminfo s) (n_memcpy s) (n_launch s)
       (n_sync s) (live s) (dev s) (hst s).

(** A statement either falls through with a value, returns from the enclosing
    function, or is still executing when the model's fuel runs out. *)
Inductive outcome (R A : Type) :=
| Next (a : A)
| Returned (r : R)
| Running.
Arguments Next {R A} a.
Arguments Returned {R A} r.
Arguments Running {R A}.

Definition M (R A : Type) := host -> outcome R A * host.

Definition ret {R A} (a : A) : M R A := fun s => (Next a, s).

Definition bind {R A B} (m : M R A) (k : A -> M R B) : M R B :=
  fun s => match m s with
           | (Next a, s') => k a s'
           | (Returned r, s') => (Returned r, s')
           | (Running, s') => (Running, s')
           end.

Definition return_ {R A} (r : R) : M R A := fun s => (Returned r, s).

Notation "x <- m ;; k" := (bind m (fun x => k))
  (at level 61, m at next level, right associativity).
Notation "m ;; k" := (bind m (fun _ => k))
  (at level 61, right associativity).

Definition tell {R} (e : event) : M R unit := fun s => (Next tt, emit e s).

Definition printf {R} (fmt : string) (args : list Z) : M R unit :=
  tell (EvPrintf fmt args).

Definition fprintf_stderr {R} (fmt : string) : M R unit := tell (EvStderr fmt).

(** [if (c) { fprintf(stderr, msg); return r; }] *)
Definition fail_if {R} (c : bool) (msg : string) (r : R) : M R unit :=
  if c then fprintf_stderr msg ;; return_ r else ret tt.

Section Runtime.

Variable env : cuda_env.
Variable gpu : gpu_kernels.

(** [GPUPtr b(size)]: the constructor calls [cudaMalloc] and keeps a null
    pointer when it fails; the result is [!b]. *)
Definition GPUPtr_new {R} (b : buffer) (size : Z) : M R bool :=
  fun s =>
    let s := emit (EvMalloc b size) s in
    if malloc_ok env b
    then (Next false,
          Host (trace s) (last_error s) (n_meminfo s) (n_memcpy s) (n_launch s)
               (n_sync s) (b :: live s) (dev s) (hst s))
    else (Next true, s).

(** The destructors of the live objects, innermost first. *)
Definition destroy_all (s : host) : host :=
  Host (trace s ++ map EvFree (live s)) (last_error s) (n_meminfo s) (n_memcpy s)
       (n_launch s) (n_sync s) [] (dev s) (hst s).

(** The end of the block that declared the innermost live object [b]. *)
Definition GPUPtr_end {R} (b : buffer) : M R unit :=
  fun s =>
    match live s with
    | b' :: rest =>
        if buffer_eqb b' b
        then (Next tt,
              Host (trace s ++ [EvFree b]) (last_error s) (n_meminfo s) (n_memcpy s)
                   (n_launch s) (n_sync s) rest (dev s) (hst s))
        else (Next tt, s)
    | [] => (Next tt, s)
    end.

Definition cudaMemGetInfo {R} : M R (cudaError_t * (Z * Z)) :=
  fun s =>
    let s := emit EvMemGetInfo s in
    (Next (mem_info env (n_meminfo s)),
     Host (trace s) (last_error s) (S (n_meminfo s)) (n_memcpy s) (n_launch s)
          (n_sync s) (live s) (dev s) (hst s)).

Definition cudaMemset {R} (b : buffer) (size : Z) : M R cudaError_t :=
  fun s =>
    let s := emit (EvMemset b size) s in
    let d := if is_success (memset_status env)
             then set_buf (dev s) b
                    (fun a => if (a <? Z.to_nat size)%nat then 0 else dev s b a)
             else dev s in
    (Next (memset_status env),
     Host (trace s) (last_error s) (n_meminfo s) (n_memcpy s) (n_launch s)
          (n_sync s) (live s) d (hst s)).

Definition copy (dst src : mem) (size : Z) : mem :=
  fun a => if (a <? Z.to_nat size)%nat then src a else dst a.

Definition cudaMemcpyHostToDevice {R} (dst : buffer) (src : hostbuf) (size : Z)
  : M R cudaError_t :=
  fun s =>
    let s := emit (EvMemcpyHtoD dst src size) s in
    let st := memcpy_status env (n_memcpy s) in
    let d := if is_success st
             then set_buf (dev s) dst (copy (dev s dst) (hst s src) size)
             else dev s in
    (Next st,
     Host (trace s) (last_error s) (n_meminfo s) (S (n_memcpy s)) (n_launch s)
          (n_sync s) (live s) d (hst s)).

Definition cudaMemcpyDeviceToHost {R} (dst : hostbuf) (src : buffer) (size : Z)
  : M R cudaError_t :=
  fun s =>
    let s := emit (EvMemcpyDtoH dst src size) s in
    let st := memcpy_status env (n_memcpy s) in
    let h := if is_success st
             then set_host (hst s) dst (copy (hst s dst) (dev s src) size)
             else hst s in
    (Next st,
     Host (trace s) (last_error s) (n_meminfo s) (S (n_memcpy s)) (n_launch s)
          (n_sync s) (live s) (dev s) h).

(** [k<<<grid, block>>>(...)]: a launch that cannot be issued leaves the
    device memory alone and records its error as the pending one. *)
Definition launch_kernel {R} (l : launch) : M R unit :=
  fun s =>
    let s := emit (EvLaunch l) s in
    let st := launch_status env (n_launch s) in
    (Next tt,
     Host (trace s) (if is_success st then last_error s else st)
          (n_meminfo s) (n_memcpy s) (S (n_launch s)) (n_sync s) (live s)
          (if is_success st then gpu l (dev s) else dev s) (hst s)).

Definition cudaGetLastError {R} : M R cudaError_t :=
  fun s =>
    let s := emit EvGetLastError s in
    (Next (last_error s),
     Host (trace s) cudaSuccess (n_meminfo s) (n_memcpy s) (n_launch s)
          (n_sync s) (live s) (dev s) (hst s)).

Definition cudaDeviceSynchronize {R} : M R cudaError_t :=
  fun s =>
    let s := emit EvDeviceSynchronize s in
    (Next (sync_status env (n_sync s)),
     Host (trace s) (last_error s) (n_meminfo s) (n_memcpy s) (n_launch s)
          (S (n_sync s)) (live s) (dev s) (hst s)).

End Runtime.

(** ** The search loop: [test_mining] *)

Definition size_t (x : Z) : Z := x mod 2 ^ 64.
Definition uint32_t (x : Z) : Z := x mod 2 ^ 32.

(** [sizeof(blockTemplate)]: the array has 76 initialisers. *)
Definition sizeof_blockTemplate : Z := 76.

Section Mining.

(** The constants of [randomx_cuda.hpp], which is not part of the sources;
    they are taken to be of type [size_t]. *)
Variables DATASET_SIZE SCRATCHPAD_SIZE HASH_SIZE PROGRAM_SIZE REGISTERS_SIZE : Z.
Variable PROGRAM_COUNT : nat.

Variable env : cuda_env.
Variable gpu : gpu_kernels.

(** [DATASET_SIZE + (32U * SCRATCHPAD_SIZE) + (64U << 20)] *)
Definition required_memory : Z :=
  size_t (size_t (DATASET_SIZE + size_t (32 * SCRATCHPAD_SIZE)) + Z.shiftl 64 20).

(** [(((free_mem - DATASET_SIZE - (64U << 20)) / SCRATCHPAD_SIZE) / 32) * 32] *)
Definition batch_size_of (free_mem : Z) : Z :=
  size_t
    (size_t (size_t (free_mem - DATASET_SIZE) - Z.shiftl 64 20)
     / SCRATCHPAD_SIZE / 32 * 32).

(** A launch followed by [cudaGetLastError] and the test of its status. *)
Definition launch_checked (l : launch) (msg : string) : M bool unit :=
  launch_kernel env gpu l ;;
  cudaStatus <- cudaGetLastError ;;
  fail_if (negb (is_success cudaStatus)) msg false.

(** The body of [for (size_t i = 0; i < PROGRAM_COUNT; ++i)]. *)
Definition program_round (batch_size : Z) (i : nat) : M bool unit :=
  launch_checked
    (Launch (fillAes1Rx4 PROGRAM_SIZE false) (batch_size / 32) (32 * 4)
            hashes_gpu programs_gpu batch_size)
    "fillAes1Rx4 launch failed: %s\n" ;;
  launch_kernel env gpu
    (Launch initGroupA_registers (batch_size / 32) 32 programs_gpu registers_gpu 0) ;;
  (* TODO: execute VM *)
  if (i =? PROGRAM_COUNT - 1)%nat
  then
    launch_checked
      (Launch (hashAes1Rx4 SCRATCHPAD_SIZE 192 REGISTERS_SIZE) (batch_size / 32) (32 * 4)
              scratchpads_gpu registers_gpu batch_size)
      "hashAes1Rx4 launch failed: %s\n" ;;
    launch_checked
      (Launch (blake2b_hash_registers REGISTERS_SIZE 32) (batch_size / 32) 32
              hashes_gpu registers_gpu 0)
      "blake2b_hash_registers launch failed: %s\n"
  else
    launch_checked
      (Launch (blake2b_hash_registers REGISTERS_SIZE 64) (batch_size / 32) 32
              hashes_gpu registers_gpu 0)
      "blake2b_hash_registers launch failed: %s\n".

Fixpoint program_rounds (todo : nat) (batch_size : Z) (i : nat) : M bool unit :=
  match todo with
  | O => ret tt
  | S todo' => program_round batch_size i ;; program_rounds todo' batch_size (S i)
  end.

(** The throughput report at the head of the loop body; the rate it prints
    is a floating-point quotient of clock readings and is left out. *)
Definition report_rate (k : Z) : M bool unit :=
  if k mod 16 =? 0
  then tell EvClock ;; (if 0 <? k then printf "%.0f h/s        \r" [] else ret tt)
  else ret tt.

(** One iteration of the search loop: one batch of [batch_size] nonces. *)
Definition batch (batch_size nonce k : Z) : M bool unit :=
  report_rate k ;;
  launch_checked
    (Launch (blake2b_initial_hash sizeof_blockTemplate) (batch_size / 32) 32
            hashes_gpu blockTemplate_gpu nonce)
    "blake2b_initial_hash launch failed: %s\n" ;;
  launch_checked
    (Launch (fillAes1Rx4 SCRATCHPAD_SIZE true) (batch_size / 32) (32 * 4)
            hashes_gpu scratchpads_gpu batch_size)
    "fillAes1Rx4 launch failed: %s\n" ;;
  program_rounds PROGRAM_COUNT batch_size 0 ;;
  cudaStatus <- cudaDeviceSynchronize env ;;
  fail_if (negb (is_success cudaStatus))
          "cudaDeviceSynchronize returned error code %d!\n" false.

(** [for (uint32_t nonce = 0, k = 0; nonce < 0xFFFFFFFFUL; nonce += batch_size, ++k)],
    observed for [fuel] iterations. *)
Fixpoint search_loop (fuel : nat) (batch_size nonce k : Z) : M bool unit :=
  match fuel with
  | O => fun s => (Running, s)
  | S fuel' =>
      if nonce <? 0xFFFFFFFF
      then batch batch_size nonce k ;;
           search_loop fuel' batch_size (uint32_t (nonce + batch_size)) (uint32_t (k + 1))
      else ret tt
  end.

Definition test_mining_body (fuel : nat) : M bool unit :=
  GPUPtr_new env tmp 256 ;;
  info <- cudaMemGetInfo env ;;
  fail_if (negb (is_success (fst info))) "Failed to get free memory info!" false ;;
  GPUPtr_end tmp ;;
  let free_mem := fst (snd info) in
  let total_mem := snd (snd info) in
  printf "%zu MB GPU memory free\n" [Z.shiftr free_mem 20] ;;
  printf "%zu MB GPU memory total\n" [Z.shiftr total_mem 20] ;;
  (* There should be enough GPU memory for the 2 GB dataset, 32 scratchpads
     and 64 MB for everything else *)
  fail_if (free_mem <=? required_memory) "Not enough free GPU memory!" false ;;
  let batch_size := batch_size_of free_mem in
  null <- GPUPtr_new env dataset_gpu DATASET_SIZE ;;
  fail_if null "Failed to allocate GPU memory for dataset!" false ;;
  printf "Allocated 2 GB dataset\n" [] ;;
  (* TODO: initialize dataset *)
  null <- GPUPtr_new env scratchpads_gpu (size_t (batch_size * SCRATCHPAD_SIZE)) ;;
  fail_if null "Failed to allocate GPU memory for scratchpads!" false ;;
  printf "Allocated %zu scratchpads\n" [batch_size] ;;
  null <- GPUPtr_new env hashes_gpu (size_t (batch_size * HASH_SIZE)) ;;
  fail_if null "Failed to allocate GPU memory for hashes!" false ;;
  null <- GPUPtr_new env programs_gpu (size_t (batch_size * PROGRAM_SIZE)) ;;
  fail_if null "Failed to allocate GPU memory for programs!" false ;;
  null <- GPUPtr_new env registers_gpu (size_t (batch_size * REGISTERS_SIZE)) ;;
  fail_if null "Failed to allocate GPU memory for registers!" false ;;
  cudaStatus <- cudaMemset env registers_gpu (size_t (batch_size * REGISTERS_SIZE)) ;;
  fail_if (negb (is_success cudaStatus))
          "Failed to initialize GPU memory for registers!" false ;;
  null <- GPUPtr_new env blockTemplate_gpu sizeof_blockTemplate ;;
  fail_if null "Failed to allocate GPU memory for block template!" false ;;
  cudaStatus <- cudaMemcpyHostToDevice env blockTemplate_gpu blockTemplate
                                       sizeof_blockTemplate ;;
  fail_if (negb (is_success cudaStatus))
          "Failed to copy block template to GPU: %s\n" false ;;
  info <- cudaMemGetInfo env ;;
  fail_if (negb (is_success (fst info))) "Failed to get free memory info!" false ;;
  printf "%zu MB free GPU memory left\n" [Z.shiftr (fst (snd info)) 20] ;;
  search_loop fuel batch_size 0 0 ;;
  return_ true.

(** [test_mining], observed for [fuel] batches: [Returned r] when it returned
    [r] (its [GPUPtr] objects are destroyed on the way out), [Running] when it
    is still searching. *)
Definition test_mining (fuel : nat) (s : host) : outcome bool unit * host :=
  match test_mining_body fuel s with
  | (Returned r, s') => (Returned r, destroy_all s')
  | os => os
  end.

End Mining.

(** ** The kernels and their sequential references *)

(** The nonce is the 32-bit little-endian field at byte 39 of the template:
    [*(uint32_t* )(blockTemplate + 39) = i]. *)
Definition nonce_offset : nat := 39.

Definition set_nonce (m : mem) (nonce : Z) : mem :=
  store m nonce_offset (le_bytes 4 nonce).

(** A [uint4] (one 128-bit cipher block) in memory. *)
Definition load_block (m : mem) (off : nat) : Z := le_value (load m off 16).
Definition store_block (m : mem) (off : nat) (x : Z) : mem := store m off (le_bytes 16 x).

Module Kernels.

(** Modelled from the spec: the kernel [blake2b_initial_hash] of
    [blake2b_cuda.hpp], which is not part of the sources.  Thread
    [blockIdx * blockDim + threadIdx] hashes the template with its nonce field
    overwritten by [start_nonce] plus its index, and writes the 64-byte digest
    to its slot of [out]. *)
Definition initial_hash_lane (len : nat) (tmpl : mem) (start_nonce : Z) (gidx : nat)
  : list Z :=
  Blake2b.blake2b 64
    (load (set_nonce tmpl (uint32_t (start_nonce + Z.of_nat gidx))) 0 len).

Definition blake2b_initial_hash (len grid block : nat) (out tmpl : mem) (start_nonce : Z)
  : mem :=
  fold_left (fun o gidx => store o (gidx * 64) (initial_hash_lane len tmpl start_nonce gidx))
            (seq 0 (grid * block)) out.

(** Modelled from the spec: the kernel [blake2b_hash_registers] of
    [blake2b_cuda.hpp], which is not part of the sources.  Each thread hashes
    its lane's [len]-byte register file to a digest of the selected width and
    writes it to its slot of [out]. *)
Definition hash_registers_lane (len outlen : nat) (regs : mem) (gidx : nat) : list Z :=
  Blake2b.blake2b outlen (load regs (gidx * len) len).

Definition blake2b_hash_registers (len outlen grid block : nat) (out regs : mem) : mem :=
  fold_left (fun o gidx => store o (gidx * outlen) (hash_registers_lane len outlen regs gidx))
            (seq 0 (grid * block)) out.

End Kernels.

Section Aes.

(** One round of the block cipher, decrypting and encrypting, on a 128-bit
    state with a 128-bit round key, and the four keys of the generator.  The
    round function is outside the scope of the pipeline; nothing is assumed
    of it. *)
Variables aesdec aesenc : Z -> Z -> Z.
Variables key0 key1 key2 key3 : Z.

(** Modelled from the spec: the sequential reference [fillAes1Rx4] of
    [aes/hashAes1Rx4.hpp], which is not part of the sources.  It expands the
    64-byte state at [state] into [outputSize] bytes at [buffer]: four
    128-bit streams, each advanced one round per 64-byte output block, stored
    one after the other; the final state replaces the seed. *)
Fixpoint fill_ref_loop (n : nat) (s0 s1 s2 s3 : Z) (buffer : mem) (outptr : nat)
  : (Z * Z * Z * Z) * mem :=
  match n with
  | O => ((s0, s1, s2, s3), buffer)
  | S n' =>
      let s0 := aesdec s0 key0 in
      let s1 := aesenc s1 key1 in
      let s2 := aesdec s2 key2 in
      let s3 := aesenc s3 key3 in
      let buffer := store_block buffer outptr s0 in
      let buffer := store_block buffer (outptr + 16) s1 in
      let buffer := store_block buffer (outptr + 32) s2 in
      let buffer := store_block buffer (outptr + 48) s3 in
      fill_ref_loop n' s0 s1 s2 s3 buffer (outptr + 64)
  end.

Definition fillAes1Rx4_ref (state : mem) (state_off : nat) (outputSize : nat)
    (buffer : mem) (buf_off : nat) : mem * mem :=
  let s0 := load_block state state_off in
  let s1 := load_block state (state_off + 16) in
  let s2 := load_block state (state_off + 32) in
  let s3 := load_block state (state_off + 48) in
  match fill_ref_loop (outputSize / 64) s0 s1 s2 s3 buffer buf_off with
  | ((s0, s1, s2, s3), buffer) =>
      let state := store_block state state_off s0 in
      let state := store_block state (state_off + 16) s1 in
      let state := store_block state (state_off + 32) s2 in
      let state := store_block state (state_off + 48) s3 in
      (state, buffer)
  end.

(** Modelled from the spec: the kernel [fillAes1Rx4] of [aes_cuda.hpp], which
    is not part of the sources.  Four consecutive threads form the
    cooperating group of one lane; thread [sub] of the group drives stream
    [sub] and stores each block into its 16-byte slot of the lane's current
    64-byte chunk.  The second template argument is the layout: [true]
    places the chunks of one lane [batch_size] chunks apart (this is how
    [tests] reads the scratchpads back), [false] places them one after the
    other, the lanes [outputSize] bytes apart (this is how [tests] reads the
    programs back).  The stream's final block replaces its part of the seed. *)
Definition fill_round (sub : nat) (x : Z) : Z :=
  match sub with
  | 0%nat => aesdec x key0
  | 1%nat => aesenc x key1
  | 2%nat => aesdec x key2
  | _ => aesenc x key3
  end.

Fixpoint fill_thread_loop (n : nat) (sub : nat) (x : Z) (out : mem) (p stride : nat)
  : Z * mem :=
  match n with
  | O => (x, out)
  | S n' =>
      let x := fill_round sub x in
      fill_thread_loop n' sub x (store_block out p x) (p + stride) stride
  end.

Definition fill_thread (outputSize : nat) (strided : bool) (batch_size : nat)
    (d : mem * mem) (gidx : nat) : mem * mem :=
  if (batch_size * 4 <=? gidx)%nat then d
  else
    let idx := (gidx / 4)%nat in
    let sub := (gidx mod 4)%nat in
    let x := load_block (fst d) (idx * 64 + sub * 16) in
    let p := if strided then (idx * 64 + sub * 16)%nat
             else (idx * outputSize + sub * 16)%nat in
    let stride := if strided then (batch_size * 64)%nat else 64%nat in
    match fill_thread_loop (outputSize / 64) sub x (snd d) p stride with
    | (x, out) => (store_block (fst d) (idx * 64 + sub * 16) x, out)
    end.

Definition fillAes1Rx4_kernel (outputSize : nat) (strided : bool) (grid block : nat)
    (state out : mem) (batch_size : nat) : mem * mem :=
  fold_left (fill_thread outputSize strided batch_size) (seq 0 (grid * block))
            (state, out).

(** The other device code and its reference are external collaborators:
    [initGroupA_registers] and [hashAes1Rx4] of the device, taking the launch
    dimensions, their two buffers and the batch size and giving the new
    contents of the second buffer, and the sequential [hashAes1Rx4], giving
    the 64 output bytes for the input region. *)
Variable initGroupA_registers_kernel : nat -> nat -> mem -> mem -> mem.
Variable hashAes1Rx4_kernel : Z -> Z -> Z -> nat -> nat -> mem -> mem -> nat -> mem.
Variable hashAes1Rx4_ref : list Z -> list Z.

(** The device code assembled: what each launch does to the device memory. *)
Definition device_code (l : launch) (d : devmem) : devmem :=
  let grid := Z.to_nat (l_grid l) in
  let block := Z.to_nat (l_block l) in
  let a0 := d (l_arg0 l) in
  let a1 := d (l_arg1 l) in
  match l_kernel l with
  | blake2b_initial_hash len =>
      set_buf d (l_arg0 l)
        (Kernels.blake2b_initial_hash (Z.to_nat len) grid block a0 a1 (l_scalar l))
  | fillAes1Rx4 outputSize flag =>
      match fillAes1Rx4_kernel (Z.to_nat outputSize) flag grid block a0 a1
                               (Z.to_nat (l_scalar l)) with
      | (state, out) => set_buf (set_buf d (l_arg0 l) state) (l_arg1 l) out
      end
  | initGroupA_registers =>
      set_buf d (l_arg1 l) (initGroupA_registers_kernel grid block a0 a1)
  | hashAes1Rx4 inputSize outputOffset outputStride =>
      set_buf d (l_arg1 l)
        (hashAes1Rx4_kernel inputSize outputOffset outputStride grid block a0 a1
                            (Z.to_nat (l_scalar l)))
  | blake2b_hash_registers len outlen =>
      set_buf d (l_arg0 l)
        (Kernels.blake2b_hash_registers (Z.to_nat len) (Z.to_nat outlen) grid block a0 a1)
  end.

End Aes.

(** ** The validation harness: [tests] *)

Definition get_host {R} : M R hostmem := fun s => (Next (hst s), s).

Definition modify_host {R} (f : hostmem -> hostmem) : M R unit :=
  fun s =>
    (Next tt,
     Host (trace s) (last_error s) (n_meminfo s) (n_memcpy s) (n_launch s)
          (n_sync s) (live s) (dev s) (f (hst s))).

(** A [for] loop over the given values of its counter. *)
Fixpoint for_each {R} (l : list nat) (body : nat -> M R unit) : M R unit :=
  match l with
  | [] => ret tt
  | i :: l' => body i ;; for_each l' body
  end.

(** The values [0, step, 2 step, ...] below [bound]. *)
Definition steps (bound step : nat) : list nat :=
  map (fun q => (q * step)%nat) (seq 0 ((bound + (step - 1)) / step)).

Definition NUM_SCRATCHPADS_TEST : nat := 128.
Definition NUM_SCRATCHPADS_BENCH : nat := 2048.

(** [sizeof(hash)]: [NUM_SCRATCHPADS_TEST * 8] words of 8 bytes. *)
Definition sizeof_hash : Z := 8192.

Section Harness.

Variables SCRATCHPAD_SIZE PROGRAM_SIZE REGISTERS_SIZE : Z.

Variable env : cuda_env.

(** The device code under test. *)
Variable gpu : gpu_kernels.

(** The sequential references the harness compares with: [blake2b] is
    [Blake2b.blake2b]; the other two take the cipher round as a parameter. *)
Variables aesdec aesenc : Z -> Z -> Z.
Variables key0 key1 key2 key3 : Z.
Variable hashAes1Rx4_ref : list Z -> list Z.

Let SP : nat := Z.to_nat SCRATCHPAD_SIZE.
Let PS : nat := Z.to_nat PROGRAM_SIZE.
Let RS : nat := Z.to_nat REGISTERS_SIZE.
Let N : nat := NUM_SCRATCHPADS_TEST.

Definition sync_checked : M unit unit :=
  cudaStatus <- cudaDeviceSynchronize env ;;
  fail_if (negb (is_success cudaStatus))
    "cudaDeviceSynchronize returned error code %d after launching blake2b_512_double_block_test!\n"
    tt.

Definition memcpy_to_host (dst : hostbuf) (src : buffer) (size : Z) : M unit unit :=
  cudaStatus <- cudaMemcpyDeviceToHost env dst src size ;;
  fail_if (negb (is_success cudaStatus)) "cudaMemcpy failed!" tt.

Definition alloc_checked (b : buffer) (size : Z) : M unit unit :=
  null <- GPUPtr_new env b size ;;
  fail_if null "cudaMalloc failed!" tt.

(** [fillAes1Rx4<false>(hash2 + i * 8, size, buf.data() + size * (N + i))] *)
Definition ref_fill (buf : hostbuf) (size : nat) (i : nat) (h : hostmem) : hostmem :=
  match fillAes1Rx4_ref aesdec aesenc key0 key1 key2 key3
          (h hash2) (i * 64) size (h buf) (size * (N + i)) with
  | (state, buffer) => set_host (set_host h hash2 state) buf buffer
  end.

Definition test_blake2b_initial_hash : M unit unit :=
  launch_kernel env gpu
    (Launch (blake2b_initial_hash sizeof_blockTemplate)
            (Z.of_nat N / 32) 32 hash_gpu block_template_gpu 0) ;;
  sync_checked ;;
  memcpy_to_host hash hash_gpu sizeof_hash ;;
  for_each (seq 0 N) (fun i =>
    modify_host (fun h =>
      set_host h blockTemplate (set_nonce (h blockTemplate) (Z.of_nat i))) ;;
    modify_host (fun h =>
      set_host h hash2
        (store (h hash2) (i * 64)
           (Blake2b.blake2b 64 (load (h blockTemplate) 0 (Z.to_nat sizeof_blockTemplate)))))) ;;
  h <- get_host ;;
  fail_if (negb (memcmp_eq (h hash) 0 (h hash2) 0 (Z.to_nat sizeof_hash)))
          "blake2b_initial_hash test failed!" tt ;;
  printf "blake2b_initial_hash test passed\n" [].

Definition test_fill_scratchpads : M unit unit :=
  launch_kernel env gpu
    (Launch (fillAes1Rx4 SCRATCHPAD_SIZE true)
            (Z.of_nat N / 32) (32 * 4) hash_gpu scratchpads_gpu (Z.of_nat N)) ;;
  sync_checked ;;
  memcpy_to_host hash hash_gpu sizeof_hash ;;
  memcpy_to_host scratchpads scratchpads_gpu (size_t (SCRATCHPAD_SIZE * Z.of_nat N)) ;;
  for_each (seq 0 N) (fun i =>
    modify_host (ref_fill scratchpads SP i) ;;
    h <- get_host ;;
    fail_if (negb (memcmp_eq (h hash) (i * 64) (h hash2) (i * 64) 64))
            "fillAes1Rx4 test (hash) failed!" tt ;;
    let p1 := (i * 64)%nat in
    let p2 := (SP * (N + i))%nat in
    for_each (steps SP 64) (fun j =>
      fail_if (negb (memcmp_eq (h scratchpads) (p1 + j * N) (h scratchpads) (p2 + j) 64))
              "fillAes1Rx4 test (scratchpad) failed!" tt)) ;;
  printf "fillAes1Rx4 (scratchpads) test passed\n" [].

Definition test_fill_programs : M unit unit :=
  launch_kernel env gpu
    (Launch (fillAes1Rx4 PROGRAM_SIZE false)
            (Z.of_nat N / 32) (32 * 4) hash_gpu programs_gpu (Z.of_nat N)) ;;
  sync_checked ;;
  memcpy_to_host hash hash_gpu sizeof_hash ;;
  memcpy_to_host programs programs_gpu (size_t (PROGRAM_SIZE * Z.of_nat N)) ;;
  for_each (seq 0 N) (fun i =>
    modify_host (ref_fill programs PS i) ;;
    h <- get_host ;;
    fail_if (negb (memcmp_eq (h hash) (i * 64) (h hash2) (i * 64) 64))
            "fillAes1Rx4 test (hash) failed!" tt ;;
    fail_if (negb (memcmp_eq (h programs) (i * PS) (h programs) ((N + i) * PS) PS))
            "fillAes1Rx4 test (program) failed!" tt) ;;
  printf "fillAes1Rx4 (programs) test passed\n" [].

Definition test_hashAes1Rx4 : M unit unit :=
  launch_kernel env gpu
    (Launch (hashAes1Rx4 SCRATCHPAD_SIZE 192 REGISTERS_SIZE)
            (Z.of_nat N / 32) (32 * 4) scratchpads_gpu registers_gpu (Z.of_nat N)) ;;
  sync_checked ;;
  memcpy_to_host registers registers_gpu (size_t (Z.of_nat N * REGISTERS_SIZE)) ;;
  for_each (seq 0 N) (fun i =>
    modify_host (fun h =>
      set_host h registers2
        (store (h registers2) (RS * i + 192)
           (hashAes1Rx4_ref (load (h scratchpads) (SP * (N + i)) SP)))) ;;
    h <- get_host ;;
    fail_if (negb (memcmp_eq (h registers) (i * RS) (h registers2) (i * RS) RS))
            "hashAes1Rx4 test failed!" tt) ;;
  printf "hashAes1Rx4 test passed\n" [].

Definition test_blake2b_hash_registers (outlen : nat) (failed passed : string)
  : M unit unit :=
  launch_kernel env gpu
    (Launch (blake2b_hash_registers REGISTERS_SIZE (Z.of_nat outlen))
            (Z.of_nat N / 32) 32 hash_gpu registers_gpu 0) ;;
  cudaStatus <- cudaGetLastError ;;
  fail_if (negb (is_success cudaStatus)) "blake2b_hash_registers launch failed: %s\n" tt ;;
  memcpy_to_host hash hash_gpu sizeof_hash ;;
  for_each (seq 0 N) (fun i =>
    modify_host (fun h =>
      set_host h hash2
        (store (h hash2) (i * outlen)
           (Blake2b.blake2b outlen (load (h registers2) (i * RS) RS))))) ;;
  h <- get_host ;;
  fail_if (negb (memcmp_eq (h hash) 0 (h hash2) 0 (N * outlen))) failed tt ;;
  printf passed [].

(** The six test cases of [tests], in the order they are written. *)
Definition test_cases : list (M unit unit) :=
  [ test_blake2b_initial_hash;
    test_fill_scratchpads;
    test_fill_programs;
    test_hashAes1Rx4;
    test_blake2b_hash_registers 32
      "blake2b_hash_registers (32 byte hash) test failed!"
      "blake2b_hash_registers (32 byte hash) test passed\n";
    test_blake2b_hash_registers 64
      "blake2b_hash_registers (64 byte hash) test failed!"
      "blake2b_hash_registers (64 byte hash) test passed\n" ].

(** Blocks written one after the other: a [return] in one leaves the
    function, so the later ones are not reached. *)
Fixpoint in_sequence (blocks : list (M unit unit)) : M unit unit :=
  match blocks with
  | [] => ret tt
  | b :: rest => b ;; in_sequence rest
  end.

(** The allocations at the head of [tests] and the upload of the template. *)
Definition tests_setup : M unit unit :=
  alloc_checked hash_gpu sizeof_hash ;;
  alloc_checked block_template_gpu sizeof_blockTemplate ;;
  alloc_checked nonce_gpu 8 ;;
  null <- GPUPtr_new env states_gpu (sizeof_hash * Z.of_nat NUM_SCRATCHPADS_BENCH) ;;
  (if null : bool then return_ tt else ret tt) ;;
  alloc_checked scratchpads_gpu (size_t (SCRATCHPAD_SIZE * Z.of_nat NUM_SCRATCHPADS_BENCH)) ;;
  alloc_checked programs_gpu (size_t (SCRATCHPAD_SIZE * Z.of_nat N)) ;;
  alloc_checked registers_gpu (size_t (REGISTERS_SIZE * Z.of_nat N)) ;;
  cudaStatus <- cudaMemcpyHostToDevice env block_template_gpu blockTemplate
                                       sizeof_blockTemplate ;;
  fail_if (negb (is_success cudaStatus)) "cudaMemcpy failed!" tt.

(** [tests], up to the end of its last test case; the benchmark loops that
    follow it in the source check nothing and are left out. *)
Definition tests_body : M unit unit :=
  tests_setup ;; in_sequence test_cases.

Definition tests (s : host) : outcome unit unit * host :=
  match tests_body s with
  | (Returned r, s') => (Returned r, destroy_all s')
  | os => os
  end.

End Harness.

(** ** The entry point: [main] *)

(** [atoi] on an optional sign followed by decimal digits. *)
Fixpoint atoi_digits (acc : Z) (s : string) : Z :=
  match s with
  | String c rest =>
      let d := Z.of_nat (nat_of_ascii c) - 48 in
      if (0 <=? d) && (d <=? 9) then atoi_digits (10 * acc + d) rest else acc
  | EmptyString => acc
  end.

Definition atoi (s : string) : Z :=
  match s with
  | String "-"%char rest => - atoi_digits 0 rest
  | String "+"%char rest => atoi_digits 0 rest
  | _ => atoi_digits 0 s
  end.

Section Program.

Variables DATASET_SIZE SCRATCHPAD_SIZE HASH_SIZE PROGRAM_SIZE REGISTERS_SIZE : Z.
Variable PROGRAM_COUNT : nat.
Variable env : cuda_env.
Variable gpu : gpu_kernels.
Variables aesdec aesenc : Z -> Z -> Z.
Variables key0 key1 key2 key3 : Z.
Variable hashAes1Rx4_ref : list Z -> list Z.

(** The mode selected by [argv[1]]; an unknown mode runs nothing. *)
Definition run_mode (fuel : nat) (mode : string) (s : host) : outcome Z unit * host :=
  if String.eqb mode "--mine"
  then match test_mining DATASET_SIZE SCRATCHPAD_SIZE HASH_SIZE PROGRAM_SIZE
               REGISTERS_SIZE PROGRAM_COUNT env gpu fuel s with
       | (Running, s') => (Running, s')
       | (_, s') => (Next tt, s')
       end
  else if String.eqb mode "--test"
  then match tests SCRATCHPAD_SIZE PROGRAM_SIZE REGISTERS_SIZE env gpu
               aesdec aesenc key0 key1 key2 key3 hashAes1Rx4_ref s with
       | (Running, s') => (Running, s')
       | (_, s') => (Next tt, s')
       end
  else (Next tt, s).

(** [main]: the exit status when it returns; [argv] includes the program
    name, so [argc] is its length. *)
Definition main (fuel : nat) (argv : list string) : M Z unit :=
  if (List.length argv <? 3)%nat
  then printf "Usage: RandomX_CUDA.exe --[mine|test] device_id\n" [] ;;
       printf "Examples:\nRandomX_CUDA.exe --test 0\nRandomX_CUDA.exe --mine 0\n" [] ;;
       return_ 0
  else
    let device_id := atoi (nth 2 argv EmptyString) in
    tell (EvSetDevice device_id) ;;
    fail_if (negb (is_success (set_device_status env)))
            "cudaSetDevice failed! Do you have a CUDA-capable GPU installed?" 1 ;;
    run_mode fuel (nth 1 argv EmptyString) ;;
    tell EvDeviceReset ;;
    fail_if (negb (is_success (reset_status env))) "cudaDeviceReset failed!" 1 ;;
    return_ 0.

End Program.

(** ** Concrete instances *)

Module Example.

(** The initial contents of the global [blockTemplate]. *)
Definition blockTemplate_bytes : list Z :=
  [ 0x07; 0x07; 0xf7; 0xa4; 0xf0; 0xd6; 0x05; 0xb3; 0x03; 0x26; 0x08; 0x16; 0xba;
    0x3f; 0x10; 0x90; 0x2e; 0x1a; 0x14;
    0x5a; 0xc5; 0xfa; 0xd3; 0xaa; 0x3a; 0xf6; 0xea; 0x44; 0xc1; 0x18; 0x69; 0xdc;
    0x4f; 0x85; 0x3f; 0x00; 0x2b; 0x2e;
    0xea; 0x00; 0x00; 0x00; 0x00; 0x77; 0xb2; 0x06; 0xa0; 0x2c; 0xa5; 0xb1; 0xd4;
    0xce; 0x6b; 0xbf; 0xdf; 0x0a; 0xca;
    0xc3; 0x8b; 0xde; 0xd3; 0x4d; 0x2d; 0xcd; 0xee; 0xf9; 0x5c; 0xd2; 0x0c; 0xef;
    0xc1; 0x2f; 0x61; 0xd5; 0x61; 0x09 ].

(** The host memory at program start: [blockTemplate] initialised, the
    arrays of [tests] zero. *)
Definition host_memory : hostmem :=
  set_host (fun _ => zero_mem) blockTemplate (store zero_mem 0 blockTemplate_bytes).

Definition start (d : devmem) : host :=
  Host [] cudaSuccess 0 0 0 0 [] d host_memory.

(** A runtime on which every call succeeds and that reports [free] bytes of
    free memory out of [total]. *)
Definition env_ok (free total : Z) : cuda_env :=
  {| set_device_status := cudaSuccess;
     reset_status := cudaSuccess;
     mem_info := fun _ => (cudaSuccess, (free, total));
     malloc_ok := fun _ => true;
     memset_status := cudaSuccess;
     memcpy_status := fun _ => cudaSuccess;
     launch_status := fun _ => cudaSuccess;
     sync_status := fun _ => cudaSuccess |}.

(** The same runtime, except that the launch numbered [bad] cannot be
    issued. *)
Definition env_launch_fails (free total : Z) (bad : nat) : cuda_env :=
  {| set_device_status := cudaSuccess;
     reset_status := cudaSuccess;
     mem_info := fun _ => (cudaSuccess, (free, total));
     malloc_ok := fun _ => true;
     memset_status := cudaSuccess;
     memcpy_status := fun _ => cudaSuccess;
     launch_status := fun k => if (k =? bad)%nat then cudaError 9 else cudaSuccess;
     sync_status := fun _ => cudaSuccess |}.

(** Sizes in the range the source comments give: a 2 GB dataset, 2 MB
    scratchpads, 64-byte hashes, programs of a few kilobytes, eight programs
    per hash, 256-byte register files. *)
Definition DATASET_SIZE : Z := 2 ^ 31.
Definition SCRATCHPAD_SIZE : Z := 2 ^ 21.
Definition HASH_SIZE : Z := 64.
Definition PROGRAM_SIZE : Z := 2176.
Definition REGISTERS_SIZE : Z := 256.
Definition PROGRAM_COUNT : nat := 8.

(** Device code that does nothing, and a device memory of zeros. *)
Definition idle_gpu : gpu_kernels := fun _ d => d.
Definition zero_dev : devmem := fun _ => zero_mem.

(** A stand-in for the cipher round, for evaluating the cipher kernels, and
    a buffer of distinct lane seeds. *)
Definition mix (x k : Z) : Z := (3 * x + k + 1) mod 2 ^ 128.
Definition seeds : mem := fun a => Z.of_nat (a * 7 + 3) mod 256.

(** A host and a device whose buffers all hold the seeds. *)
Definition seeded : host :=
  Host [] cudaSuccess 0 0 0 0 [] (fun _ => seeds) (fun _ => seeds).

(** Device code that interleaves the output of every fill, the program fill
    included. *)
Definition interleaving_gpu : gpu_kernels :=
  fun l d =>
    device_code mix mix 1 2 3 4 (fun _ _ _ regs => regs) (fun _ _ _ _ _ _ regs _ => regs)
      (match l_kernel l with
       | fillAes1Rx4 size _ =>
           Launch (fillAes1Rx4 size true) (l_grid l) (l_block l) (l_arg0 l) (l_arg1 l)
                  (l_scalar l)
       | _ => l
       end) d.

End Example.

(** ** What a run is expected to do *)

(** The launches among the events, and the kernels among those. *)
Definition launches_of (tr : list event) : list launch :=
  flat_map (fun e => match e with EvLaunch l => [l] | _ => [] end) tr.

Definition kernels_of (tr : list event) : list kernel := map l_kernel (launches_of tr).

Definition is_hashAes1Rx4 (k : kernel) : bool :=
  match k with hashAes1Rx4 _ _ _ => true | _ => false end.

Definition is_malloc (e : event) : bool :=
  match e with EvMalloc _ _ => true | _ => false end.

(** The host's writes into a device buffer: uploads and [cudaMemset]. *)
Definition writes_buffer (b : buffer) (e : event) : bool :=
  match e with
  | EvMemcpyHtoD dst _ _ => buffer_eqb dst b
  | EvMemset dst _ => buffer_eqb dst b
  | _ => false
  end.

Definition host_writes (b : buffer) (tr : list event) : nat :=
  List.length (filter (writes_buffer b) tr).

(** The nonce base of the batch numbered [n]: [nonce += batch_size], [n]
    times from 0, in [uint32_t]. *)
Fixpoint nonce_of_batch (batch_size : Z) (n : nat) : Z :=
  match n with
  | O => 0
  | S n' => uint32_t (nonce_of_batch batch_size n' + batch_size)
  end.

(** Where the cipher kernel puts block [j] of thread [gidx], in either
    layout. *)
Definition fill_slot (outputSize : nat) (strided : bool) (batch_size gidx j : nat) : nat :=
  ((if strided then gidx / 4 * 64 + gidx mod 4 * 16
    else gidx / 4 * outputSize + gidx mod 4 * 16)
   + j * (if strided then batch_size * 64 else 64))%nat.

(** Undoing the interleaving: the [n] 64-byte chunks of lane [idx], read
    [batch_size] chunks apart, one after the other. *)
Definition deinterleave (m : mem) (batch_size idx n : nat) : list Z :=
  flat_map (fun j => load m (idx * 64 + j * 64 * batch_size) 64) (seq 0 n).

Section Expected.

Variables SCRATCHPAD_SIZE PROGRAM_SIZE REGISTERS_SIZE : Z.
Variable PROGRAM_COUNT : nat.
Variable gpu : gpu_kernels.

(** The state after the events [evs], of which [ls] are the launches and
    [syncs] the number of synchronisations, when nothing failed. *)
Definition advance (evs : list event) (ls : list launch) (syncs : nat) (s : host) : host :=
  Host (trace s ++ evs) cudaSuccess (n_meminfo s) (n_memcpy s)
       (n_launch s + List.length ls) (n_sync s + syncs) (live s)
       (fold_left (fun d l => gpu l d) ls (dev s)) (hst s).

Definition round_launches (batch_size : Z) (i : nat) : list launch :=
  [ Launch (fillAes1Rx4 PROGRAM_SIZE false) (batch_size / 32) (32 * 4)
           hashes_gpu programs_gpu batch_size;
    Launch initGroupA_registers (batch_size / 32) 32 programs_gpu registers_gpu 0 ]
  ++ (if (i =? PROGRAM_COUNT - 1)%nat
      then [ Launch (hashAes1Rx4 SCRATCHPAD_SIZE 192 REGISTERS_SIZE) (batch_size / 32)
                    (32 * 4) scratchpads_gpu registers_gpu batch_size;
             Launch (blake2b_hash_registers REGISTERS_SIZE 32) (batch_size / 32) 32
                    hashes_gpu registers_gpu 0 ]
      else [ Launch (blake2b_hash_registers REGISTERS_SIZE 64) (batch_size / 32) 32
                    hashes_gpu registers_gpu 0 ]).

(** Every launch of a round but that of [initGroupA_registers] is followed
    by [cudaGetLastError]. *)
Definition with_check (l : launch) : list event :=
  match l_kernel l with
  | initGroupA_registers => [EvLaunch l]
  | _ => [EvLaunch l; EvGetLastError]
  end.

Definition round_events (batch_size : Z) (i : nat) : list event :=
  flat_map with_check (round_launches batch_size i).

Definition rounds_launches (batch_size : Z) (first count : nat) : list launch :=
  flat_map (round_launches batch_size) (seq first count).

Definition rounds_events (batch_size : Z) (first count : nat) : list event :=
  flat_map (round_events batch_size) (seq first count).

Definition head_launches (batch_size nonce : Z) : list launch :=
  [ Launch (blake2b_initial_hash sizeof_blockTemplate) (batch_size / 32) 32
           hashes_gpu blockTemplate_gpu nonce;
    Launch (fillAes1Rx4 SCRATCHPAD_SIZE true) (batch_size / 32) (32 * 4)
           hashes_gpu scratchpads_gpu batch_size ].

Definition batch_launches (batch_size nonce : Z) : list launch :=
  head_launches batch_size nonce ++ rounds_launches batch_size 0 PROGRAM_COUNT.

Definition rate_events (k : Z) : list event :=
  if k mod 16 =? 0
  then EvClock :: (if 0 <? k then [EvPrintf "%.0f h/s        \r" []] else [])
  else [].

Definition batch_events (batch_size nonce k : Z) : list event :=
  rate_events k
  ++ flat_map with_check (head_launches batch_size nonce)
  ++ rounds_events batch_size 0 PROGRAM_COUNT
  ++ [EvDeviceSynchronize].

(** The first [n] batches of the search, from batch number [first]. *)
Fixpoint search_events (batch_size : Z) (first n : nat) : list event :=
  match n with
  | O => []
  | S n' =>
      batch_events batch_size (nonce_of_batch batch_size first) (uint32_t (Z.of_nat first))
      ++ search_events batch_size (S first) n'
  end.

Fixpoint search_launches (batch_size : Z) (first n : nat) : list launch :=
  match n with
  | O => []
  | S n' =>
      batch_launches batch_size (nonce_of_batch batch_size first)
      ++ search_launches batch_size (S first) n'
  end.

(** What [test_mining] does before the search loop when nothing fails:
    [free] and [total] are the answers of the first memory query, [left] the
    free memory the second one reports. *)
Definition prologue_events (DATASET_SIZE HASH_SIZE free total left batch_size : Z)
  : list event :=
  [ EvMalloc tmp 256; EvMemGetInfo; EvFree tmp;
    EvPrintf "%zu MB GPU memory free\n" [Z.shiftr free 20];
    EvPrintf "%zu MB GPU memory total\n" [Z.shiftr total 20];
    EvMalloc dataset_gpu DATASET_SIZE;
    EvPrintf "Allocated 2 GB dataset\n" [];
    EvMalloc scratchpads_gpu (size_t (batch_size * SCRATCHPAD_SIZE));
    EvPrintf "Allocated %zu scratchpads\n" [batch_size];
    EvMalloc hashes_gpu (size_t (batch_size * HASH_SIZE));
    EvMalloc programs_gpu (size_t (batch_size * PROGRAM_SIZE));
    EvMalloc registers_gpu (size_t (batch_size * REGISTERS_SIZE));
    EvMemset registers_gpu (size_t (batch_size * REGISTERS_SIZE));
    EvMalloc blockTemplate_gpu sizeof_blockTemplate;
    EvMemcpyHtoD blockTemplate_gpu blockTemplate sizeof_blockTemplate;
    EvMemGetInfo;
    EvPrintf "%zu MB free GPU memory left\n" [Z.shiftr left 20] ].

(** What it does when the first memory query reports too little; [tmp_ok]
    says whether the temporary allocation around the query succeeded. *)
Definition insufficient_events (tmp_ok : bool) (free total : Z) : list event :=
  [ EvMalloc tmp 256; EvMemGetInfo ]
  ++ (if tmp_ok then [EvFree tmp] else [])
  ++ [ EvPrintf "%zu MB GPU memory free\n" [Z.shiftr free 20];
       EvPrintf "%zu MB GPU memory total\n" [Z.shiftr total 20];
       EvStderr "Not enough free GPU memory!" ].

(** The kernels one program round launches, in order. *)
Definition round_kernels (i : nat) : list kernel :=
  [ fillAes1Rx4 PROGRAM_SIZE false; initGroupA_registers ]
  ++ (if (i =? PROGRAM_COUNT - 1)%nat
      then [ hashAes1Rx4 SCRATCHPAD_SIZE 192 REGISTERS_SIZE;
             blake2b_hash_registers REGISTERS_SIZE 32 ]
      else [ blake2b_hash_registers REGISTERS_SIZE 64 ]).

(** The start nonces of the initial-hash launches among the events. *)
Definition nonces_of (tr : list event) : list Z :=
  flat_map (fun l => match l_kernel l with
                     | blake2b_initial_hash _ => [l_scalar l]
                     | _ => []
                     end) (launches_of tr).

End Expected.

(** ** Statements and what they establish *)

(** [m], started in a state of [P], ends in a state of [Q a] when it falls
    through with the value [a], in a state of [E r] when it returns [r] from
    the function, and in a state of [W] when the fuel ran out. *)
Definition hoare {R A} (P : host -> Prop) (m : M R A)
    (Q : A -> host -> Prop) (E : R -> host -> Prop) (W : host -> Prop) : Prop :=
  forall s, P s ->
    match m s with
    | (Next a, s') => Q a s'
    | (Returned r, s') => E r s'
    | (Running, s') => W s'
    end.

(** [m] keeps [I], however it ends. *)
Definition keeps {R A} (I : host -> Prop) (m : M R A) : Prop :=
  hoare I m (fun _ => I) (fun _ => I) I.

(** ** The device allocations of a run *)

(** The events replayed on the stack of live allocations, innermost first: a
    [cudaMalloc] that succeeds pushes its buffer, a [cudaFree] pops the
    innermost one and is an error ([None]) for any other pointer. *)
Definition replay_event (env : cuda_env) (st : option (list buffer)) (e : event)
  : option (list buffer) :=
  match st with
  | None => None
  | Some l =>
      match e with
      | EvMalloc b _ => Some (if malloc_ok env b then b :: l else l)
      | EvFree b =>
          match l with
          | b' :: rest => if buffer_eqb b' b then Some rest else None
          | [] => None
          end
      | _ => Some l
      end
  end.

Definition replay (env : cuda_env) (tr : list event) : option (list buffer) :=
  fold_left (replay_event env) tr (Some []).

(** The state accounts for its allocations: replaying what was done gives the
    [GPUPtr] objects that are alive. *)
Definition accounted (env : cuda_env) (s : host) : Prop :=
  replay env (trace s) = Some (live s).

(** An event that is neither an allocation nor a release. *)
Definition plain (e : event) : bool :=
  match e with EvMalloc _ _ | EvFree _ => false | _ => true end.

(** ** Failures of the runtime and what the program makes of them *)

(** A statement that always falls through and leaves the pending error and
    the numbers of launches and synchronisations as they were. *)
Definition neutral {R A} (m : M R A) : Prop :=
  forall s, exists a s',
    m s = (Next a, s')
    /\ last_error s' = last_error s /\ n_launch s' = n_launch s /\ n_sync s' = n_sync s.

(** A property of the pending error and the two numbers. *)
Definition on_counters (F : cudaError_t -> nat -> nat -> Prop) : host -> Prop :=
  fun s => F (last_error s) (n_launch s) (n_sync s).

(** The trace ends with a message on [stderr]. *)
Definition reported (s : host) : Prop :=
  exists pre msg, trace s = pre ++ [EvStderr msg].

(** [m] returns only [false], and only after a message on [stderr]. *)
Definition loud {A} (m : M bool A) : Prop :=
  hoare (fun _ => True) m (fun _ _ => True)
        (fun r s => r = false /\ reported s) (fun _ => True).

Section Vigilance.

Variable env : cuda_env.

(** The first [n] launches were all issued; the first [n] synchronisations
    all succeeded. *)
Definition launched (n : nat) : Prop :=
  forall i, (i < n)%nat -> launch_status env i = cudaSuccess.

Definition synchronised (n : nat) : Prop :=
  forall i, (i < n)%nat -> sync_status env i = cudaSuccess.

(** Nothing has failed and no error is pending. *)
Definition clean : host -> Prop :=
  on_counters (fun e l y => e = cudaSuccess /\ launched l /\ synchronised y).

(** Up to [k] launches were made since the last check of the pending error:
    the launches before them were issued, and so were they unless an error
    is pending. *)
Definition unchecked (k : nat) : host -> Prop :=
  on_counters (fun e l y =>
    launched (l - k) /\ (e = cudaSuccess -> launched l) /\ synchronised y).

(** At most the last two launches and the last synchronisation failed. *)
Definition caught : host -> Prop :=
  on_counters (fun e l y => launched (l - 2) /\ synchronised (y - 1)).

(** [m], started with nothing failed, continues only with nothing failed,
    and returns with a failure no older than that. *)
Definition vigilant {R A} (m : M R A) : Prop :=
  hoare clean m (fun _ => clean) (fun _ => caught) clean.

End Vigilance.

(** ** Runtimes that fail *)

Module Scenario.

(** A runtime on which everything succeeds but the synchronisation numbered
    [bad]. *)
Definition env_sync_fails (free total : Z) (bad : nat) : cuda_env :=
  {| set_device_status := cudaSuccess;
     reset_status := cudaSuccess;
     mem_info := fun _ => (cudaSuccess, (free, total));
     malloc_ok := fun _ => true;
     memset_status := cudaSuccess;
     memcpy_status := fun _ => cudaSuccess;
     launch_status := fun _ => cudaSuccess;
     sync_status := fun k => if (k =? bad)%nat then cudaError 4 else cudaSuccess |}.

(** A runtime on which everything succeeds but the allocation of [bad]. *)
Definition env_malloc_fails (free total : Z) (bad : buffer) : cuda_env :=
  {| set_device_status := cudaSuccess;
     reset_status := cudaSuccess;
     mem_info := fun _ => (cudaSuccess, (free, total));
     malloc_ok := fun b => negb (buffer_eqb b bad);
     memset_status := cudaSuccess;
     memcpy_status := fun _ => cudaSuccess;
     launch_status := fun _ => cudaSuccess;
     sync_status := fun _ => cudaSuccess |}.

(** A runtime with no usable device: [cudaSetDevice] fails. *)
Definition env_no_device : cuda_env :=
  {| set_device_status := cudaError 100;
     reset_status := cudaSuccess;
     mem_info := fun _ => (cudaSuccess, (0, 0));
     malloc_ok := fun _ => true;
     memset_status := cudaSuccess;
     memcpy_status := fun _ => cudaSuccess;
     launch_status := fun _ => cudaSuccess;
     sync_status := fun _ => cudaSuccess |}.

(** The modelled device code with the stand-in cipher round, the two
    kernels that are not modelled leaving the registers as they are. *)
Definition model_gpu : gpu_kernels :=
  device_code Example.mix Example.mix 1 2 3 4
              (fun _ _ _ regs => regs) (fun _ _ _ _ _ _ regs _ => regs).

(** A host and a device of zeros, and a reference compression that gives 64
    zero bytes. *)
Definition blank : host :=
  Host [] cudaSuccess 0 0 0 0 [] Example.zero_dev (fun _ => zero_mem).

Definition zero_hash : list Z -> list Z := fun _ => repeat 0 64.

End Scenario.

(** ** What a function puts into the trace *)

(** Whatever the state, [m] adds to the trace only events of [A]. *)
Definition emits_only (A : event -> Prop) {R X} (m : M R X) : Prop :=
  forall s, exists evs, trace (snd (m s)) = trace s ++ evs /\ Forall A evs.

(** The launch has the buffer among its pointer arguments. *)
Definition uses (b : buffer) (l : launch) : bool :=
  buffer_eqb (l_arg0 l) b || buffer_eqb (l_arg1 l) b.

(** A copy from the device to the host. *)
Definition is_read_back (e : event) : bool :=
  match e with EvMemcpyDtoH _ _ _ => true | _ => false end.

(** The events of [test_mining]: no launch has the dataset among its
    arguments or the template as its first argument, the one upload is that
    of the template, the one buffer cleared is the registers, and nothing is
    copied back. *)
Definition mining_event (e : event) : Prop :=
  match e with
  | EvLaunch l =>
      uses dataset_gpu l = false /\ buffer_eqb (l_arg0 l) blockTemplate_gpu = false
  | EvMemcpyHtoD dst src size =>
      dst = blockTemplate_gpu /\ src = blockTemplate /\ size = sizeof_blockTemplate
  | EvMemset dst _ => dst = registers_gpu
  | EvMemcpyDtoH _ _ _ => False
  | EvSetDevice _ => False
  | EvDeviceReset => False
  | _ => True
  end.

(** ** Launch dimensions and counts *)

(** The threads a kernel is given for one lane: the cipher kernels are
    launched with blocks of [32 * 4] threads, the others with blocks of 32. *)
Definition threads_per_lane (k : kernel) : Z :=
  match k with
  | fillAes1Rx4 _ _ | hashAes1Rx4 _ _ _ => 4
  | _ => 1
  end.

Definition is_check (e : event) : bool :=
  match e with EvGetLastError => true | _ => false end.

Definition is_sync (e : event) : bool :=
  match e with EvDeviceSynchronize => true | _ => false end.

Definition count_events (p : event -> bool) (tr : list event) : nat :=
  List.length (filter p tr).

(** ** The register files the compression test expects *)

(** What the reference loop of the fourth test case leaves in register file
    [i] of [registers2]: the 64 bytes of the sequential [hashAes1Rx4] over
    the reference scratchpad of lane [i] at offset 192, in what the array
    held before. *)
Definition expected_registers (SCRATCHPAD_SIZE REGISTERS_SIZE : Z)
    (hashAes1Rx4_ref : list Z -> list Z) (h : hostmem) (i : nat) : list Z :=
  load (store (h registers2) (Z.to_nat REGISTERS_SIZE * i + 192)
          (hashAes1Rx4_ref
             (load (h scratchpads)
                   (Z.to_nat SCRATCHPAD_SIZE * (NUM_SCRATCHPADS_TEST + i))
                   (Z.to_nat SCRATCHPAD_SIZE))))
       (i * Z.to_nat REGISTERS_SIZE) (Z.to_nat REGISTERS_SIZE).

(** [m] returns only after a message on [stderr], unless [X]. *)
Definition reports (X : Prop) {R A} (m : M R A) : Prop :=
  hoare (fun _ => True) m (fun _ _ => True) (fun _ s => reported s \/ X) (fun _ => True).

(** ** The benchmarks of [tests] *)

Section Benchmarks.

Variable SCRATCHPAD_SIZE : Z.
Variable env : cuda_env.
Variable gpu : gpu_kernels.

(** A launch followed by [cudaGetLastError] and the test of its status, in a
    function that returns nothing. *)
Definition launch_checked_void (l : launch) (msg : string) : M unit unit :=
  launch_kernel env gpu l ;;
  cudaStatus <- cudaGetLastError ;;
  fail_if (negb (is_success cudaStatus)) msg tt.

(** One benchmark loop: a hundred rounds of ten launches and one
    synchronisation, with a progress line before each round; the rate the
    line shows from the second round on is a floating-point quotient of
    clock readings and is left out. *)
Definition benchmark (progress : string) (l : launch) (launch_msg sync_msg : string)
  : M unit unit :=
  tell EvClock ;;
  for_each (seq 0 100) (fun i =>
    printf progress [Z.of_nat i + 1] ;;
    (if (0 <? i)%nat
     then tell EvClock ;; printf ", %.0f scratchpads/s" []
     else ret tt) ;;
    printf "\r" [] ;;
    for_each (seq 0 10) (fun _ => launch_checked_void l launch_msg) ;;
    cudaStatus <- cudaDeviceSynchronize env ;;
    fail_if (negb (is_success cudaStatus)) sync_msg tt) ;;
  printf "\n" [].

Definition fill_benchmark_launch : launch :=
  Launch (fillAes1Rx4 SCRATCHPAD_SIZE true) (Z.of_nat NUM_SCRATCHPADS_BENCH / 32) (32 * 4)
         states_gpu scratchpads_gpu (Z.of_nat NUM_SCRATCHPADS_BENCH).

Definition hash_benchmark_launch : launch :=
  Launch (hashAes1Rx4 SCRATCHPAD_SIZE 0 64) (Z.of_nat NUM_SCRATCHPADS_BENCH / 32) (32 * 4)
         scratchpads_gpu states_gpu (Z.of_nat NUM_SCRATCHPADS_BENCH).

Definition benchmark_fillAes1Rx4 : M unit unit :=
  benchmark "Benchmarking fillAes1Rx4 %d/100" fill_benchmark_launch
    "fillAes1Rx4 launch failed: %s\n"
    "cudaDeviceSynchronize returned error code %d after launching fillAes1Rx4!\n".

Definition benchmark_hashAes1Rx4 : M unit unit :=
  benchmark "Benchmarking hashAes1Rx4 %d/100" hash_benchmark_launch
    "hashAes1Rx4 launch failed: %s\n"
    "cudaDeviceSynchronize returned error code %d after launching hashAes1Rx4!\n".

(** The part of [tests] that follows its test cases, up to the upload of the
    template before the two BLAKE2b benchmarks; those launch kernels of
    [blake2b_cuda.hpp] that nothing else uses, and are left out. *)
Definition benchmarks : M unit unit :=
  benchmark_fillAes1Rx4 ;;
  benchmark_hashAes1Rx4 ;;
  cudaStatus <- cudaMemcpyHostToDevice env block_template_gpu blockTemplate
                                       sizeof_blockTemplate ;;
  fail_if (negb (is_success cudaStatus)) "cudaMemcpy failed!" tt.

End Benchmarks.

(** The launches of a benchmark that has made [rounds] rounds. *)
Definition benchmark_launches (l : launch) (rounds : nat) : list launch :=
  repeat l (rounds * 10).

(** The launches numbered from [first] up to [n] (excluded) were all issued. *)
Definition launched_from (env : cuda_env) (first n : nat) : Prop :=
  forall i, (first <= i < n)%nat -> launch_status env i = cudaSuccess.

(** Since launch number [first] nothing has failed and no error is pending;
    at most the last launch since then failed. *)
Definition prompt (env : cuda_env) (first : nat) : host -> Prop :=
  on_counters (fun e l _ => e = cudaSuccess /\ launched_from env first l).

Definition late (env : cuda_env) (first : nat) : host -> Prop :=
  on_counters (fun _ l _ => launched_from env first (l - 1)).

(** [m] checks each of its launches before the next. *)
Definition swift (env : cuda_env) (first : nat) {R A} (m : M R A) : Prop :=
  hoare (prompt env first) m (fun _ => prompt env first) (fun _ => late env first)
        (prompt env first).

(** The events of [tests]: the host writes device memory only by the upload
    of the template. *)
Definition tests_event (e : event) : Prop :=
  match e with
  | EvMemset _ _ => False
  | EvMemcpyHtoD dst src size =>
      dst = block_template_gpu /\ src = blockTemplate /\ size = sizeof_blockTemplate
  | EvSetDevice _ => False
  | EvDeviceReset => False
  | _ => True
  end.

(** * Properties *)

(** ** Sequencing *)

Lemma bind_next {R A B} (m : M R A) (k : A -> M R B) s a s' :
  m s = (Next a, s') -> bind m k s = k a s'.
Proof. intros H. unfold bind. now rewrite H. Qed.

Lemma bind_returned {R A B} (m : M R A) (k : A -> M R B) s r s' :
  m s = (Returned r, s') -> bind m k s = (Returned r, s').
Proof. intros H. unfold bind. now rewrite H. Qed.

Lemma bind_running {R A B} (m : M R A) (k : A -> M R B) s s' :
  m s = (Running, s') -> bind m k s = (Running, s').
Proof. intros H. unfold bind. now rewrite H. Qed.

Lemma host_eta s :
  s = Host (trace s) (last_error s) (n_meminfo s) (n_memcpy s) (n_launch s)
           (n_sync s) (live s) (dev s) (hst s).
Proof. now destruct s. Qed.

(** ** A batch on which nothing fails *)

Section BatchProofs.

Variables SCRATCHPAD_SIZE PROGRAM_SIZE REGISTERS_SIZE : Z.
Variable PROGRAM_COUNT : nat.
Variable env : cuda_env.
Variable gpu : gpu_kernels.

Hypothesis launches_succeed : forall n, launch_status env n = cudaSuccess.
Hypothesis syncs_succeed : forall n, sync_status env n = cudaSuccess.

Lemma advance_advance e1 l1 n1 e2 l2 n2 s :
  advance gpu e2 l2 n2 (advance gpu e1 l1 n1 s) = advance gpu (e1 ++ e2) (l1 ++ l2) (n1 + n2) s.
Proof.
  unfold advance; simpl.
  rewrite <- app_assoc, length_app, fold_left_app, !Nat.add_assoc. reflexivity.
Qed.

Lemma advance_last_error e l n s : last_error (advance gpu e l n s) = cudaSuccess.
Proof. reflexivity. Qed.

Lemma advance_nil s :
  last_error s = cudaSuccess -> advance gpu [] [] 0 s = s.
Proof.
  intros H. unfold advance; simpl.
  rewrite app_nil_r, !Nat.add_0_r, <- H. symmetry. apply host_eta.
Qed.

Lemma launch_kernel_ok (l : launch) s :
  last_error s = cudaSuccess ->
  launch_kernel env gpu l s = (Next tt : outcome bool unit, advance gpu [EvLaunch l] [l] 0 s).
Proof.
  intros H. unfold launch_kernel, advance, emit; simpl.
  rewrite launches_succeed; simpl. rewrite H, Nat.add_0_r, Nat.add_1_r. reflexivity.
Qed.

Lemma launch_checked_ok (l : launch) msg s :
  last_error s = cudaSuccess ->
  launch_checked env gpu l msg s
  = (Next tt, advance gpu [EvLaunch l; EvGetLastError] [l] 0 s).
Proof.
  intros H. unfold launch_checked.
  rewrite (bind_next _ _ _ _ _ (launch_kernel_ok l s H)).
  unfold bind, cudaGetLastError, fail_if, ret, advance, emit; simpl.
  rewrite <- app_assoc, !Nat.add_0_r. reflexivity.
Qed.

Lemma program_round_ok batch_size i s :
  last_error s = cudaSuccess ->
  program_round SCRATCHPAD_SIZE PROGRAM_SIZE REGISTERS_SIZE PROGRAM_COUNT env gpu
                batch_size i s
  = (Next tt,
     advance gpu (round_events SCRATCHPAD_SIZE PROGRAM_SIZE REGISTERS_SIZE PROGRAM_COUNT
                           batch_size i)
             (round_launches SCRATCHPAD_SIZE PROGRAM_SIZE REGISTERS_SIZE PROGRAM_COUNT
                             batch_size i) 0 s).
Proof.
  intros H. unfold program_round, round_events, round_launches.
  rewrite (bind_next _ _ _ _ _ (launch_checked_ok _ _ s H)).
  rewrite (bind_next _ _ _ _ _ (launch_kernel_ok _ _ (advance_last_error _ _ _ _))).
  rewrite advance_advance.
  destruct (i =? PROGRAM_COUNT - 1)%nat.
  - rewrite (bind_next _ _ _ _ _ (launch_checked_ok _ _ _ (advance_last_error _ _ _ _))).
    rewrite launch_checked_ok by apply advance_last_error.
    rewrite !advance_advance. reflexivity.
  - rewrite launch_checked_ok by apply advance_last_error.
    rewrite !advance_advance. reflexivity.
Qed.

Lemma program_rounds_ok batch_size todo : forall i s,
  last_error s = cudaSuccess ->
  program_rounds SCRATCHPAD_SIZE PROGRAM_SIZE REGISTERS_SIZE PROGRAM_COUNT env gpu
                 todo batch_size i s
  = (Next tt,
     advance gpu (rounds_events SCRATCHPAD_SIZE PROGRAM_SIZE REGISTERS_SIZE PROGRAM_COUNT
                            batch_size i todo)
             (rounds_launches SCRATCHPAD_SIZE PROGRAM_SIZE REGISTERS_SIZE PROGRAM_COUNT
                              batch_size i todo) 0 s).
Proof.
  induction todo as [|todo IH]; intros i s H; simpl.
  - unfold ret. now rewrite advance_nil.
  - rewrite (bind_next _ _ _ _ _ (program_round_ok batch_size i s H)).
    rewrite IH by apply advance_last_error.
    rewrite advance_advance. reflexivity.
Qed.

Lemma report_rate_ok k s :
  last_error s = cudaSuccess ->
  report_rate k s = (Next tt, advance gpu (rate_events k) [] 0 s).
Proof.
  intros H. unfold report_rate, rate_events.
  destruct (k mod 16 =? 0); [destruct (0 <? k)|].
  - unfold bind, tell, printf, tell, advance, emit; simpl.
    rewrite <- app_assoc, !Nat.add_0_r, <- H. reflexivity.
  - unfold bind, tell, ret, advance, emit; simpl.
    rewrite !Nat.add_0_r, <- H. reflexivity.
  - unfold ret. now rewrite advance_nil.
Qed.

Lemma batch_ok batch_size nonce k s :
  last_error s = cudaSuccess ->
  batch SCRATCHPAD_SIZE PROGRAM_SIZE REGISTERS_SIZE PROGRAM_COUNT env gpu
        batch_size nonce k s
  = (Next tt,
     advance gpu (batch_events SCRATCHPAD_SIZE PROGRAM_SIZE REGISTERS_SIZE PROGRAM_COUNT
                           batch_size nonce k)
             (batch_launches SCRATCHPAD_SIZE PROGRAM_SIZE REGISTERS_SIZE PROGRAM_COUNT
                             batch_size nonce) 1 s).
Proof.
  intros H. unfold batch, batch_events, batch_launches, head_launches.
  rewrite (bind_next _ _ _ _ _ (report_rate_ok k s H)).
  rewrite (bind_next _ _ _ _ _ (launch_checked_ok _ _ _ (advance_last_error _ _ _ _))).
  rewrite (bind_next _ _ _ _ _ (launch_checked_ok _ _ _ (advance_last_error _ _ _ _))).
  rewrite (bind_next _ _ _ _ _ (program_rounds_ok _ _ _ _ (advance_last_error _ _ _ _))).
  rewrite !advance_advance.
  unfold bind, cudaDeviceSynchronize, fail_if, ret, advance, emit; simpl.
  rewrite syncs_succeed; simpl.
  f_equal; f_equal; rewrite ?Nat.add_0_r, ?Nat.add_1_r; try reflexivity.
  rewrite <- !app_assoc; simpl. rewrite <- ?app_assoc. reflexivity.
Qed.

End BatchProofs.

(** ** The search loop on a runtime that does not fail *)

Lemma uint32_t_succ (n : nat) :
  uint32_t (uint32_t (Z.of_nat n) + 1) = uint32_t (Z.of_nat (S n)).
Proof.
  unfold uint32_t. rewrite Nat2Z.inj_succ, Zplus_mod_idemp_l. reflexivity.
Qed.

Lemma nonce_of_batch_range batch_size n :
  0 <= nonce_of_batch batch_size n < 2 ^ 32.
Proof.
  destruct n; simpl; [lia|]. unfold uint32_t. apply Z.mod_pos_bound. lia.
Qed.

Lemma nonce_of_batch_closed batch_size n :
  nonce_of_batch batch_size n = (Z.of_nat n * batch_size) mod 2 ^ 32.
Proof.
  induction n as [|n IH]; [reflexivity|].
  cbn [nonce_of_batch]. unfold uint32_t. rewrite IH, Zplus_mod_idemp_l.
  f_equal. lia.
Qed.

Lemma nonce_of_batch_aligned batch_size n :
  batch_size mod 32 = 0 -> nonce_of_batch batch_size n mod 32 = 0.
Proof.
  intros H. rewrite nonce_of_batch_closed.
  rewrite Z.mod_mod_divide by (exists (2 ^ 27); reflexivity).
  rewrite <- Z.mul_mod_idemp_r, H, Z.mul_0_r by lia. reflexivity.
Qed.

Lemma nonce_guard batch_size n :
  batch_size mod 32 = 0 -> (nonce_of_batch batch_size n <? 0xFFFFFFFF) = true.
Proof.
  intros H. apply Z.ltb_lt.
  pose proof (nonce_of_batch_range batch_size n) as R.
  pose proof (nonce_of_batch_aligned batch_size n H) as A.
  assert (nonce_of_batch batch_size n <> 0xFFFFFFFF).
  { intros E. rewrite E in A. discriminate A. }
  change (2 ^ 32) with 4294967296 in R. lia.
Qed.

Section SearchProofs.

Variables DATASET_SIZE SCRATCHPAD_SIZE HASH_SIZE PROGRAM_SIZE REGISTERS_SIZE : Z.
Variable PROGRAM_COUNT : nat.
Variable env : cuda_env.
Variable gpu : gpu_kernels.

Hypothesis launches_succeed : forall n, launch_status env n = cudaSuccess.
Hypothesis syncs_succeed : forall n, sync_status env n = cudaSuccess.

Lemma search_loop_ok batch_size fuel : forall first s,
  batch_size mod 32 = 0 ->
  last_error s = cudaSuccess ->
  search_loop SCRATCHPAD_SIZE PROGRAM_SIZE REGISTERS_SIZE PROGRAM_COUNT env gpu fuel
              batch_size (nonce_of_batch batch_size first) (uint32_t (Z.of_nat first)) s
  = (Running,
     advance gpu
       (search_events SCRATCHPAD_SIZE PROGRAM_SIZE REGISTERS_SIZE PROGRAM_COUNT
                      batch_size first fuel)
       (search_launches SCRATCHPAD_SIZE PROGRAM_SIZE REGISTERS_SIZE PROGRAM_COUNT
                        batch_size first fuel)
       fuel s).
Proof.
  induction fuel as [|fuel IH]; intros first s A H.
  - simpl. now rewrite advance_nil.
  - cbn [search_loop search_events search_launches].
    rewrite (nonce_guard batch_size first A).
    rewrite (bind_next _ _ _ _ _
               (batch_ok _ _ _ _ env gpu launches_succeed syncs_succeed _ _ _ s H)).
    change (uint32_t (nonce_of_batch batch_size first + batch_size))
      with (nonce_of_batch batch_size (S first)).
    rewrite uint32_t_succ.
    rewrite IH by (auto using advance_last_error).
    rewrite advance_advance. reflexivity.
Qed.

End SearchProofs.

(** ** A run on a runtime that does not fail *)

Lemma batch_size_aligned DATASET_SIZE SCRATCHPAD_SIZE free_mem :
  batch_size_of DATASET_SIZE SCRATCHPAD_SIZE free_mem mod 32 = 0.
Proof.
  unfold batch_size_of, size_t.
  rewrite Z.mod_mod_divide by (exists (2 ^ 59); reflexivity).
  apply Z.mod_mul. lia.
Qed.

Lemma launches_of_app a b : launches_of (a ++ b) = launches_of a ++ launches_of b.
Proof. unfold launches_of. apply flat_map_app. Qed.

Lemma kernels_of_app a b : kernels_of (a ++ b) = kernels_of a ++ kernels_of b.
Proof. unfold kernels_of. now rewrite launches_of_app, map_app. Qed.

Lemma nonces_of_app a b : nonces_of (a ++ b) = nonces_of a ++ nonces_of b.
Proof. unfold nonces_of. now rewrite launches_of_app, flat_map_app. Qed.

Lemma host_writes_app b x y : host_writes b (x ++ y) = (host_writes b x + host_writes b y)%nat.
Proof. unfold host_writes. now rewrite filter_app, length_app. Qed.

Section TraceFacts.

Variables SCRATCHPAD_SIZE PROGRAM_SIZE REGISTERS_SIZE : Z.
Variable PROGRAM_COUNT : nat.

Lemma launches_of_with_check ls :
  launches_of (flat_map with_check ls) = ls.
Proof.
  induction ls as [|l ls IH]; [reflexivity|].
  cbn [flat_map]. rewrite launches_of_app, IH.
  unfold with_check. destruct (l_kernel l); reflexivity.
Qed.

Lemma launches_of_rounds_events batch_size first count :
  launches_of (rounds_events SCRATCHPAD_SIZE PROGRAM_SIZE REGISTERS_SIZE PROGRAM_COUNT
                             batch_size first count)
  = rounds_launches SCRATCHPAD_SIZE PROGRAM_SIZE REGISTERS_SIZE PROGRAM_COUNT
                    batch_size first count.
Proof.
  unfold rounds_events, rounds_launches.
  induction (seq first count) as [|i l IH]; [reflexivity|].
  cbn [flat_map]. rewrite launches_of_app, IH.
  unfold round_events. now rewrite launches_of_with_check.
Qed.

Lemma launches_of_rate_events k : launches_of (rate_events k) = [].
Proof.
  unfold rate_events. destruct (k mod 16 =? 0); [destruct (0 <? k)|]; reflexivity.
Qed.

Lemma launches_of_batch_events batch_size nonce k :
  launches_of (batch_events SCRATCHPAD_SIZE PROGRAM_SIZE REGISTERS_SIZE PROGRAM_COUNT
                            batch_size nonce k)
  = batch_launches SCRATCHPAD_SIZE PROGRAM_SIZE REGISTERS_SIZE PROGRAM_COUNT
                   batch_size nonce.
Proof.
  unfold batch_events, batch_launches.
  rewrite !launches_of_app, launches_of_rate_events, launches_of_with_check,
    launches_of_rounds_events.
  cbn [launches_of flat_map app]. now rewrite app_nil_r.
Qed.

Lemma kernels_of_rounds batch_size first count :
  map l_kernel (rounds_launches SCRATCHPAD_SIZE PROGRAM_SIZE REGISTERS_SIZE PROGRAM_COUNT
                                batch_size first count)
  = flat_map (round_kernels SCRATCHPAD_SIZE PROGRAM_SIZE REGISTERS_SIZE PROGRAM_COUNT)
             (seq first count).
Proof.
  unfold rounds_launches.
  induction (seq first count) as [|i l IH]; [reflexivity|].
  cbn [flat_map]. rewrite map_app, IH. f_equal.
  unfold round_launches, round_kernels.
  destruct (i =? PROGRAM_COUNT - 1)%nat; reflexivity.
Qed.

(** The compression is launched in the round numbered [PROGRAM_COUNT - 1]
    and in no other. *)
Lemma hashAes_in_rounds count : forall first,
  List.length
    (filter is_hashAes1Rx4
       (flat_map (round_kernels SCRATCHPAD_SIZE PROGRAM_SIZE REGISTERS_SIZE PROGRAM_COUNT)
                 (seq first count)))
  = if ((first <=? PROGRAM_COUNT - 1) && (PROGRAM_COUNT - 1 <? first + count))%nat
    then 1%nat else 0%nat.
Proof.
  induction count as [|count IH]; intros first.
  - cbn [seq flat_map filter List.length].
    destruct (first <=? PROGRAM_COUNT - 1)%nat eqn:E1;
      destruct (PROGRAM_COUNT - 1 <? first + 0)%nat eqn:E2; try reflexivity.
    apply Nat.leb_le in E1. apply Nat.ltb_lt in E2. lia.
  - cbn [seq flat_map]. rewrite filter_app, length_app, IH.
    unfold round_kernels.
    destruct (first =? PROGRAM_COUNT - 1)%nat eqn:E; cbn [app filter is_hashAes1Rx4 List.length].
    + apply Nat.eqb_eq in E.
      replace (S first <=? PROGRAM_COUNT - 1)%nat with false
        by (symmetry; apply Nat.leb_gt; lia).
      replace (first <=? PROGRAM_COUNT - 1)%nat with true
        by (symmetry; apply Nat.leb_le; lia).
      replace (PROGRAM_COUNT - 1 <? first + S count)%nat with true
        by (symmetry; apply Nat.ltb_lt; lia).
      reflexivity.
    + apply Nat.eqb_neq in E.
      destruct (S first <=? PROGRAM_COUNT - 1)%nat eqn:E1.
      * apply Nat.leb_le in E1.
        replace (first <=? PROGRAM_COUNT - 1)%nat with true
          by (symmetry; apply Nat.leb_le; lia).
        replace (first + S count)%nat with (S first + count)%nat by lia.
        reflexivity.
      * apply Nat.leb_gt in E1.
        replace (first <=? PROGRAM_COUNT - 1)%nat with false
          by (symmetry; apply Nat.leb_gt; lia).
        reflexivity.
Qed.

Lemma nonces_of_rounds batch_size first count :
  flat_map (fun l => match l_kernel l with
                     | blake2b_initial_hash _ => [l_scalar l]
                     | _ => []
                     end)
    (rounds_launches SCRATCHPAD_SIZE PROGRAM_SIZE REGISTERS_SIZE PROGRAM_COUNT
                     batch_size first count) = [].
Proof.
  unfold rounds_launches.
  induction (seq first count) as [|i l IH]; [reflexivity|].
  cbn [flat_map]. rewrite flat_map_app, IH.
  unfold round_launches. destruct (i =? PROGRAM_COUNT - 1)%nat; reflexivity.
Qed.

Lemma nonces_of_batch_events batch_size nonce k :
  nonces_of (batch_events SCRATCHPAD_SIZE PROGRAM_SIZE REGISTERS_SIZE PROGRAM_COUNT
                          batch_size nonce k) = [nonce].
Proof.
  unfold nonces_of. rewrite launches_of_batch_events.
  unfold batch_launches. rewrite flat_map_app, nonces_of_rounds. reflexivity.
Qed.

Lemma nonces_of_search_events batch_size n : forall first,
  nonces_of (search_events SCRATCHPAD_SIZE PROGRAM_SIZE REGISTERS_SIZE PROGRAM_COUNT
                           batch_size first n)
  = map (nonce_of_batch batch_size) (seq first n).
Proof.
  induction n as [|n IH]; intros first; [reflexivity|].
  cbn [search_events seq map]. rewrite nonces_of_app, nonces_of_batch_events, IH.
  reflexivity.
Qed.

Lemma host_writes_with_check b ls : host_writes b (flat_map with_check ls) = 0%nat.
Proof.
  induction ls as [|l ls IH]; [reflexivity|].
  cbn [flat_map]. rewrite host_writes_app, IH.
  unfold with_check. destruct (l_kernel l); reflexivity.
Qed.

Lemma host_writes_batch_events b batch_size nonce k :
  host_writes b (batch_events SCRATCHPAD_SIZE PROGRAM_SIZE REGISTERS_SIZE PROGRAM_COUNT
                              batch_size nonce k) = 0%nat.
Proof.
  unfold batch_events. rewrite !host_writes_app, host_writes_with_check.
  assert (R : host_writes b (rate_events k) = 0%nat).
  { unfold rate_events. destruct (k mod 16 =? 0); [destruct (0 <? k)|]; reflexivity. }
  rewrite R. unfold rounds_events.
  assert (Q : forall l, host_writes b
                (flat_map (round_events SCRATCHPAD_SIZE PROGRAM_SIZE REGISTERS_SIZE
                             PROGRAM_COUNT batch_size) l) = 0%nat).
  { induction l as [|i l IH]; [reflexivity|].
    cbn [flat_map]. rewrite host_writes_app, IH.
    unfold round_events. now rewrite host_writes_with_check. }
  rewrite Q. reflexivity.
Qed.

Lemma host_writes_search_events b batch_size n : forall first,
  host_writes b (search_events SCRATCHPAD_SIZE PROGRAM_SIZE REGISTERS_SIZE PROGRAM_COUNT
                               batch_size first n) = 0%nat.
Proof.
  induction n as [|n IH]; intros first; [reflexivity|].
  cbn [search_events]. now rewrite host_writes_app, host_writes_batch_events, IH.
Qed.

End TraceFacts.

Section RunProofs.

Variables DATASET_SIZE SCRATCHPAD_SIZE HASH_SIZE PROGRAM_SIZE REGISTERS_SIZE : Z.
Variable PROGRAM_COUNT : nat.
Variable env : cuda_env.
Variable gpu : gpu_kernels.
Variables free total left total' : Z.

Hypothesis first_query : mem_info env 0 = (cudaSuccess, (free, total)).
Hypothesis second_query : mem_info env 1 = (cudaSuccess, (left, total')).
Hypothesis mallocs_succeed : forall b, malloc_ok env b = true.
Hypothesis memset_succeeds : memset_status env = cudaSuccess.
Hypothesis memcpys_succeed : forall n, memcpy_status env n = cudaSuccess.
Hypothesis launches_succeed : forall n, launch_status env n = cudaSuccess.
Hypothesis syncs_succeed : forall n, sync_status env n = cudaSuccess.
Hypothesis enough : required_memory DATASET_SIZE SCRATCHPAD_SIZE < free.

Lemma prologue_ok fuel d h :
  exists s,
    test_mining_body DATASET_SIZE SCRATCHPAD_SIZE HASH_SIZE PROGRAM_SIZE REGISTERS_SIZE
                     PROGRAM_COUNT env gpu fuel (Host [] cudaSuccess 0 0 0 0 [] d h)
    = (search_loop SCRATCHPAD_SIZE PROGRAM_SIZE REGISTERS_SIZE PROGRAM_COUNT env gpu fuel
                   (batch_size_of DATASET_SIZE SCRATCHPAD_SIZE free) 0 0 ;;
       return_ true) s
    /\ trace s = prologue_events SCRATCHPAD_SIZE PROGRAM_SIZE REGISTERS_SIZE
                   DATASET_SIZE HASH_SIZE free total left
                   (batch_size_of DATASET_SIZE SCRATCHPAD_SIZE free)
    /\ last_error s = cudaSuccess
    /\ n_sync s = 0%nat
    /\ dev s blockTemplate_gpu
       = copy (d blockTemplate_gpu) (h blockTemplate) sizeof_blockTemplate.
Proof.
  assert (E : (free <=? required_memory DATASET_SIZE SCRATCHPAD_SIZE) = false)
    by (apply Z.leb_gt; exact enough).
  eexists. split; [|split; [|split; [|split]]].
  - unfold test_mining_body, bind, GPUPtr_new, GPUPtr_end, cudaMemGetInfo, cudaMemset,
      cudaMemcpyHostToDevice, fail_if, printf, fprintf_stderr, tell, ret, emit.
    cbn -[search_loop batch_size_of required_memory size_t Z.shiftr Z.leb].
    repeat (first [ rewrite mallocs_succeed | rewrite first_query | rewrite second_query
                  | rewrite E | rewrite memset_succeeds | rewrite memcpys_succeed ];
            cbn -[search_loop batch_size_of required_memory size_t Z.shiftr Z.leb]).
    reflexivity.
  - reflexivity.
  - reflexivity.
  - reflexivity.
  - reflexivity.
Qed.

(** The whole run, observed for [fuel] batches: it is still searching, and
    it did the prologue and then one batch after the other. *)
Lemma run_ok fuel d h :
  let run := test_mining DATASET_SIZE SCRATCHPAD_SIZE HASH_SIZE PROGRAM_SIZE REGISTERS_SIZE
                         PROGRAM_COUNT env gpu fuel (Host [] cudaSuccess 0 0 0 0 [] d h) in
  let batch_size := batch_size_of DATASET_SIZE SCRATCHPAD_SIZE free in
  fst run = Running
  /\ trace (snd run)
     = prologue_events SCRATCHPAD_SIZE PROGRAM_SIZE REGISTERS_SIZE DATASET_SIZE HASH_SIZE
                       free total left batch_size
       ++ search_events SCRATCHPAD_SIZE PROGRAM_SIZE REGISTERS_SIZE PROGRAM_COUNT
                        batch_size 0 fuel
  /\ n_sync (snd run) = fuel.
Proof.
  cbv zeta. unfold test_mining.
  destruct (prologue_ok fuel d h) as (s & -> & Htr & Herr & Hs & _).
  pose proof (search_loop_ok SCRATCHPAD_SIZE PROGRAM_SIZE REGISTERS_SIZE PROGRAM_COUNT
                env gpu launches_succeed syncs_succeed
                (batch_size_of DATASET_SIZE SCRATCHPAD_SIZE free) fuel 0 s
                (batch_size_aligned _ _ _) Herr) as L.
  change (nonce_of_batch (batch_size_of DATASET_SIZE SCRATCHPAD_SIZE free) 0) with 0 in L.
  change (uint32_t (Z.of_nat 0)) with 0 in L.
  rewrite (bind_running _ _ _ _ L). cbn [fst snd advance trace n_sync].
  rewrite Htr, Hs. auto.
Qed.

(** The device memory of the run: what the launches of the search made, one
    after the other, of the memory the prologue left, in which the template
    buffer holds the 76 bytes uploaded. *)
Lemma run_memory fuel d h :
  let run := test_mining DATASET_SIZE SCRATCHPAD_SIZE HASH_SIZE PROGRAM_SIZE REGISTERS_SIZE
                         PROGRAM_COUNT env gpu fuel (Host [] cudaSuccess 0 0 0 0 [] d h) in
  exists d0,
    d0 blockTemplate_gpu = copy (d blockTemplate_gpu) (h blockTemplate) sizeof_blockTemplate
    /\ dev (snd run)
       = fold_left (fun d l => gpu l d)
           (search_launches SCRATCHPAD_SIZE PROGRAM_SIZE REGISTERS_SIZE PROGRAM_COUNT
                            (batch_size_of DATASET_SIZE SCRATCHPAD_SIZE free) 0 fuel) d0.
Proof.
  cbv zeta. unfold test_mining.
  destruct (prologue_ok fuel d h) as (s & -> & _ & Herr & _ & D).
  pose proof (search_loop_ok SCRATCHPAD_SIZE PROGRAM_SIZE REGISTERS_SIZE PROGRAM_COUNT
                env gpu launches_succeed syncs_succeed
                (batch_size_of DATASET_SIZE SCRATCHPAD_SIZE free) fuel 0 s
                (batch_size_aligned _ _ _) Herr) as L.
  change (nonce_of_batch (batch_size_of DATASET_SIZE SCRATCHPAD_SIZE free) 0) with 0 in L.
  change (uint32_t (Z.of_nat 0)) with 0 in L.
  rewrite (bind_running _ _ _ _ L). cbn [fst snd advance dev].
  exists (dev s). split; [exact D | reflexivity].
Qed.


(** C9: in the search loop the nonce base starts at 0 and advances by the
    batch size after each batch, wrapping at 32 bits; when the batch size is
    a positive multiple of 32 every nonce base is a multiple of 32, so the
    loop guard [nonce < 0xFFFFFFFF] holds at every iteration and the search is
    still running after any number of batches. *)
Theorem search_iterates_nonce_windows (batch_size : Z) (fuel : nat) (s : host) :
  0 < batch_size ->
  batch_size mod 32 = 0 ->
  last_error s = cudaSuccess ->
  let run := search_loop SCRATCHPAD_SIZE PROGRAM_SIZE REGISTERS_SIZE PROGRAM_COUNT
                         env gpu fuel batch_size 0 0 s in
  fst run = Running
  /\ n_sync (snd run) = (n_sync s + fuel)%nat
  /\ (exists evs, trace (snd run) = trace s ++ evs
                  /\ nonces_of evs = map (nonce_of_batch batch_size) (seq 0 fuel))
  /\ nonce_of_batch batch_size 0 = 0
  /\ (forall n, nonce_of_batch batch_size (S n)
                = (nonce_of_batch batch_size n + batch_size) mod 2 ^ 32)
  /\ (forall n, nonce_of_batch batch_size n mod 32 = 0
                /\ (nonce_of_batch batch_size n <? 0xFFFFFFFF) = true).
Proof.
  intros _ A H. cbv zeta.
  pose proof (search_loop_ok SCRATCHPAD_SIZE PROGRAM_SIZE REGISTERS_SIZE PROGRAM_COUNT
                env gpu launches_succeed syncs_succeed batch_size fuel 0 s A H) as L.
  change (nonce_of_batch batch_size 0) with 0 in L.
  change (uint32_t (Z.of_nat 0)) with 0 in L.
  rewrite L. cbn [fst snd advance trace n_sync].
  repeat split; auto using nonce_of_batch_aligned, nonce_guard.
  eexists. split; [reflexivity|]. apply nonces_of_search_events.
Qed.

(** C3: in a batch on which nothing fails the scratchpad is compressed into
    the registers by exactly one launch, in the last of the
    [PROGRAM_COUNT] rounds and before that round's register hash; the
    register hash has width 64 in every round but the last and width 32 in
    the last. *)
Theorem compress_in_last_round_only (batch_size nonce k : Z) (s : host) :
  (1 <= PROGRAM_COUNT)%nat ->
  last_error s = cudaSuccess ->
  let run := batch SCRATCHPAD_SIZE PROGRAM_SIZE REGISTERS_SIZE PROGRAM_COUNT env gpu
                   batch_size nonce k s in
  fst run = Next tt
  /\ exists evs,
       trace (snd run) = trace s ++ evs
       /\ kernels_of evs
          = [ blake2b_initial_hash sizeof_blockTemplate; fillAes1Rx4 SCRATCHPAD_SIZE true ]
            ++ flat_map (fun i =>
                 [ fillAes1Rx4 PROGRAM_SIZE false; initGroupA_registers ]
                 ++ (if (i =? PROGRAM_COUNT - 1)%nat
                     then [ hashAes1Rx4 SCRATCHPAD_SIZE 192 REGISTERS_SIZE;
                            blake2b_hash_registers REGISTERS_SIZE 32 ]
                     else [ blake2b_hash_registers REGISTERS_SIZE 64 ]))
                 (seq 0 PROGRAM_COUNT)
       /\ List.length (filter is_hashAes1Rx4 (kernels_of evs)) = 1%nat.
Proof.
  intros N H. cbv zeta.
  rewrite (batch_ok _ _ _ _ env gpu launches_succeed syncs_succeed _ _ _ s H).
  cbn [fst snd advance trace]. split; [reflexivity|].
  eexists. split; [reflexivity|].
  unfold kernels_of. rewrite launches_of_batch_events.
  unfold batch_launches. rewrite map_app, kernels_of_rounds.
  split; [reflexivity|].
  rewrite filter_app, length_app, hashAes_in_rounds.
  cbn [head_launches map l_kernel filter is_hashAes1Rx4 List.length Nat.add].
  replace (0 <=? PROGRAM_COUNT - 1)%nat with true by (symmetry; apply Nat.leb_le; lia).
  replace (PROGRAM_COUNT - 1 <? PROGRAM_COUNT)%nat with true
    by (symmetry; apply Nat.ltb_lt; lia).
  reflexivity.
Qed.

(** C8, as the code has it: the host writes the device copy of the template
    exactly once in the whole run, the upload that precedes the search loop
    and every launch; no batch writes it, however many batches the run
    makes. *)
Theorem template_uploaded_once_per_run (fuel : nat) (d : devmem) (h : hostmem) :
  let run := test_mining DATASET_SIZE SCRATCHPAD_SIZE HASH_SIZE PROGRAM_SIZE REGISTERS_SIZE
                         PROGRAM_COUNT env gpu fuel (Host [] cudaSuccess 0 0 0 0 [] d h) in
  fst run = Running
  /\ n_sync (snd run) = fuel
  /\ host_writes blockTemplate_gpu (trace (snd run)) = 1%nat
  /\ exists pre post,
       trace (snd run)
       = pre ++ EvMemcpyHtoD blockTemplate_gpu blockTemplate sizeof_blockTemplate :: post
       /\ launches_of pre = []
       /\ host_writes blockTemplate_gpu pre = 0%nat
       /\ host_writes blockTemplate_gpu post = 0%nat.
Proof.
  destruct (run_ok fuel d h) as (R & T & S). cbv zeta.
  split; [exact R|]. split; [exact S|]. rewrite T.
  split.
  - rewrite host_writes_app, host_writes_search_events. reflexivity.
  - exists (firstn 14 (prologue_events SCRATCHPAD_SIZE PROGRAM_SIZE REGISTERS_SIZE
                         DATASET_SIZE HASH_SIZE free total left
                         (batch_size_of DATASET_SIZE SCRATCHPAD_SIZE free))).
    exists (skipn 15 (prologue_events SCRATCHPAD_SIZE PROGRAM_SIZE REGISTERS_SIZE
                        DATASET_SIZE HASH_SIZE free total left
                        (batch_size_of DATASET_SIZE SCRATCHPAD_SIZE free))
            ++ search_events SCRATCHPAD_SIZE PROGRAM_SIZE REGISTERS_SIZE PROGRAM_COUNT
                 (batch_size_of DATASET_SIZE SCRATCHPAD_SIZE free) 0 fuel).
    split; [|split; [|split]].
    + reflexivity.
    + reflexivity.
    + reflexivity.
    + rewrite host_writes_app, host_writes_search_events. reflexivity.
Qed.

End RunProofs.

(** ** Sizing the batch *)

Section BatchSizing.

Variables DATASET_SIZE SCRATCHPAD_SIZE HASH_SIZE PROGRAM_SIZE REGISTERS_SIZE : Z.
Variable PROGRAM_COUNT : nat.
Variable env : cuda_env.
Variable gpu : gpu_kernels.
Variables free total : Z.

Hypothesis scratchpad_positive : 0 < SCRATCHPAD_SIZE.
Hypothesis dataset_nonneg : 0 <= DATASET_SIZE.
Hypothesis no_overflow : DATASET_SIZE + 32 * SCRATCHPAD_SIZE + 2 ^ 26 < 2 ^ 64.
Hypothesis free_range : 0 <= free < 2 ^ 64.

Lemma required_memory_exact :
  required_memory DATASET_SIZE SCRATCHPAD_SIZE
  = DATASET_SIZE + 32 * SCRATCHPAD_SIZE + 2 ^ 26.
Proof.
  unfold required_memory, size_t.
  change (Z.shiftl 64 20) with (2 ^ 26).
  change (2 ^ 26) with 67108864 in *. change (2 ^ 64) with 18446744073709551616 in *.
  rewrite (Z.mod_small (32 * SCRATCHPAD_SIZE)) by lia.
  rewrite (Z.mod_small (DATASET_SIZE + 32 * SCRATCHPAD_SIZE)) by lia.
  apply Z.mod_small. lia.
Qed.

Lemma batch_size_exact :
  DATASET_SIZE + 32 * SCRATCHPAD_SIZE + 2 ^ 26 < free ->
  batch_size_of DATASET_SIZE SCRATCHPAD_SIZE free
  = (free - DATASET_SIZE - 2 ^ 26) / SCRATCHPAD_SIZE / 32 * 32
  /\ 32 <= batch_size_of DATASET_SIZE SCRATCHPAD_SIZE free.
Proof.
  intros E. unfold batch_size_of, size_t.
  change (Z.shiftl 64 20) with (2 ^ 26).
  change (2 ^ 26) with 67108864 in *. change (2 ^ 64) with 18446744073709551616 in *.
  rewrite (Z.mod_small (free - DATASET_SIZE)) by lia.
  rewrite (Z.mod_small (free - DATASET_SIZE - 67108864)) by lia.
  set (X := free - DATASET_SIZE - 67108864) in *.
  assert (X0 : 32 * SCRATCHPAD_SIZE < X) by (subst X; lia).
  assert (Q1 : 32 <= X / SCRATCHPAD_SIZE) by (apply Z.div_le_lower_bound; lia).
  assert (Q2 : X / SCRATCHPAD_SIZE <= X) by (apply Z.div_le_upper_bound; nia).
  assert (Q3 : 1 <= X / SCRATCHPAD_SIZE / 32) by (apply Z.div_le_lower_bound; lia).
  assert (Q4 : 32 * (X / SCRATCHPAD_SIZE / 32) <= X / SCRATCHPAD_SIZE)
    by (apply Z.mul_div_le; lia).
  rewrite Z.mod_small by (subst X; lia).
  split; [reflexivity | lia].
Qed.

(** C5, as the code has it: the batch size is a function of the free memory
    the first query reports.  When that exceeds the dataset, 32 scratchpads
    and the 64 MB of headroom, the check passes and the batch size is
    [(free - dataset - headroom) / scratchpad_size / 32 * 32], a positive
    multiple of 32.  Otherwise the run returns [false] with the
    insufficient-memory message before it allocates any of its buffers; the
    one allocation made before the check is the 256-byte temporary around
    the memory query, which is released before the check. *)
Theorem batch_size_from_free_memory (fuel : nat) (d : devmem) (h : hostmem) :
  mem_info env 0 = (cudaSuccess, (free, total)) ->
  let L := batch_size_of DATASET_SIZE SCRATCHPAD_SIZE free in
  let run := test_mining DATASET_SIZE SCRATCHPAD_SIZE HASH_SIZE PROGRAM_SIZE REGISTERS_SIZE
                         PROGRAM_COUNT env gpu fuel (Host [] cudaSuccess 0 0 0 0 [] d h) in
  (DATASET_SIZE + 32 * SCRATCHPAD_SIZE + 2 ^ 26 < free ->
     (free <=? required_memory DATASET_SIZE SCRATCHPAD_SIZE) = false
     /\ L = (free - DATASET_SIZE - 2 ^ 26) / SCRATCHPAD_SIZE / 32 * 32
     /\ 0 < L
     /\ L mod 32 = 0)
  /\ (free <= DATASET_SIZE + 32 * SCRATCHPAD_SIZE + 2 ^ 26 ->
     fst run = Returned false
     /\ trace (snd run) = insufficient_events (malloc_ok env tmp) free total
     /\ live (snd run) = []).
Proof.
  intros Q. cbv zeta. split; intros E.
  - rewrite required_memory_exact.
    destruct (batch_size_exact E) as [F P].
    repeat split.
    + apply Z.leb_gt. exact E.
    + exact F.
    + lia.
    + apply batch_size_aligned.
  - assert (C : (free <=? required_memory DATASET_SIZE SCRATCHPAD_SIZE) = true)
      by (rewrite required_memory_exact; apply Z.leb_le; exact E).
    unfold test_mining, test_mining_body, bind, GPUPtr_new, GPUPtr_end, cudaMemGetInfo,
      fail_if, printf, fprintf_stderr, tell, ret, emit, insufficient_events.
    cbn -[search_loop batch_size_of required_memory size_t Z.shiftr Z.leb].
    destruct (malloc_ok env tmp);
      cbn -[search_loop batch_size_of required_memory size_t Z.shiftr Z.leb];
      rewrite Q;
      cbn -[search_loop batch_size_of required_memory size_t Z.shiftr Z.leb];
      rewrite C;
      cbn -[search_loop batch_size_of required_memory size_t Z.shiftr Z.leb];
      auto.
Qed.

End BatchSizing.

(** ** The search on a device with 8 GB free *)

(** A runtime that reports 8 GB free out of 16 GB gives a batch of 3040. *)
Lemma batch_size_from_free_memory_witness :
  let L := batch_size_of Example.DATASET_SIZE Example.SCRATCHPAD_SIZE (2 ^ 33) in
  (2 ^ 33 <=? required_memory Example.DATASET_SIZE Example.SCRATCHPAD_SIZE) = false
  /\ L = (2 ^ 33 - Example.DATASET_SIZE - 2 ^ 26) / Example.SCRATCHPAD_SIZE / 32 * 32
  /\ 0 < L
  /\ L mod 32 = 0.
Proof.
  refine (proj1 (batch_size_from_free_memory
                   Example.DATASET_SIZE Example.SCRATCHPAD_SIZE Example.HASH_SIZE
                   Example.PROGRAM_SIZE Example.REGISTERS_SIZE Example.PROGRAM_COUNT
                   (Example.env_ok (2 ^ 33) (2 ^ 34)) Example.idle_gpu (2 ^ 33) (2 ^ 34)
                   _ _ _ _ 1%nat Example.zero_dev Example.host_memory _) _).
  - reflexivity.
  - discriminate.
  - reflexivity.
  - split; [discriminate | reflexivity].
  - reflexivity.
  - reflexivity.
Defined.

(** With 2 GB free the run fails, and the temporary allocation around the
    memory query has been attempted by then. *)
Lemma insufficient_memory_after_an_allocation :
  let run := test_mining Example.DATASET_SIZE Example.SCRATCHPAD_SIZE Example.HASH_SIZE
               Example.PROGRAM_SIZE Example.REGISTERS_SIZE Example.PROGRAM_COUNT
               (Example.env_ok (2 ^ 31) (2 ^ 34)) Example.idle_gpu 1
               (Example.start Example.zero_dev) in
  fst run = Returned false
  /\ trace (snd run)
     = [ EvMalloc tmp 256; EvMemGetInfo; EvFree tmp;
         EvPrintf "%zu MB GPU memory free\n" [2048];
         EvPrintf "%zu MB GPU memory total\n" [16384];
         EvStderr "Not enough free GPU memory!" ]
  /\ existsb is_malloc (trace (snd run)) = true.
Proof. vm_compute. auto. Qed.

Lemma search_iterates_nonce_windows_witness :
  let run := search_loop Example.SCRATCHPAD_SIZE Example.PROGRAM_SIZE
               Example.REGISTERS_SIZE Example.PROGRAM_COUNT
               (Example.env_ok (2 ^ 33) (2 ^ 34)) Example.idle_gpu 3 3040 0 0
               (Example.start Example.zero_dev) in
  fst run = Running
  /\ n_sync (snd run) = 3%nat
  /\ (exists evs, trace (snd run) = [] ++ evs
                  /\ nonces_of evs = map (nonce_of_batch 3040) (seq 0 3))
  /\ nonce_of_batch 3040 0 = 0
  /\ (forall n, nonce_of_batch 3040 (S n) = (nonce_of_batch 3040 n + 3040) mod 2 ^ 32)
  /\ (forall n, nonce_of_batch 3040 n mod 32 = 0
                /\ (nonce_of_batch 3040 n <? 0xFFFFFFFF) = true).
Proof.
  refine (search_iterates_nonce_windows
            Example.SCRATCHPAD_SIZE Example.PROGRAM_SIZE Example.REGISTERS_SIZE
            Example.PROGRAM_COUNT (Example.env_ok (2 ^ 33) (2 ^ 34)) Example.idle_gpu
            _ _ 3040 3 (Example.start Example.zero_dev) _ _ _).
  - intros; reflexivity.
  - intros; reflexivity.
  - reflexivity.
  - reflexivity.
  - reflexivity.
Defined.

Lemma compress_in_last_round_only_witness :
  let run := batch Example.SCRATCHPAD_SIZE Example.PROGRAM_SIZE Example.REGISTERS_SIZE
               Example.PROGRAM_COUNT (Example.env_ok (2 ^ 33) (2 ^ 34)) Example.idle_gpu
               3040 0 0 (Example.start Example.zero_dev) in
  fst run = Next tt
  /\ List.length (filter is_hashAes1Rx4 (kernels_of (trace (snd run)))) = 1%nat
  /\ nth_error (kernels_of (trace (snd run))) 25
     = Some (hashAes1Rx4 Example.SCRATCHPAD_SIZE 192 Example.REGISTERS_SIZE)
  /\ nth_error (kernels_of (trace (snd run))) 26
     = Some (blake2b_hash_registers Example.REGISTERS_SIZE 32).
Proof.
  destruct (compress_in_last_round_only
              Example.SCRATCHPAD_SIZE Example.PROGRAM_SIZE Example.REGISTERS_SIZE
              Example.PROGRAM_COUNT (Example.env_ok (2 ^ 33) (2 ^ 34)) Example.idle_gpu
              (fun _ => eq_refl) (fun _ => eq_refl)
              3040 0 0 (Example.start Example.zero_dev)
              (le_S _ _ (le_S _ _ (le_S _ _ (le_S _ _ (le_S _ _ (le_S _ _ (le_S _ _ (le_n 1))))))))
              eq_refl)
    as (R & evs & T & K & C).
  split; [exact R|].
  rewrite T. cbn [Example.start trace app]. rewrite K.
  split; [rewrite <- K; exact C|].
  split; reflexivity.
Defined.

Lemma template_uploaded_once_per_run_witness :
  let run := test_mining Example.DATASET_SIZE Example.SCRATCHPAD_SIZE Example.HASH_SIZE
               Example.PROGRAM_SIZE Example.REGISTERS_SIZE Example.PROGRAM_COUNT
               (Example.env_ok (2 ^ 33) (2 ^ 34)) Example.idle_gpu 3
               (Example.start Example.zero_dev) in
  fst run = Running
  /\ n_sync (snd run) = 3%nat
  /\ host_writes blockTemplate_gpu (trace (snd run)) = 1%nat.
Proof.
  destruct (template_uploaded_once_per_run
              Example.DATASET_SIZE Example.SCRATCHPAD_SIZE Example.HASH_SIZE
              Example.PROGRAM_SIZE Example.REGISTERS_SIZE Example.PROGRAM_COUNT
              (Example.env_ok (2 ^ 33) (2 ^ 34)) Example.idle_gpu
              (2 ^ 33) (2 ^ 34) (2 ^ 33) (2 ^ 34)
              eq_refl eq_refl (fun _ => eq_refl) eq_refl (fun _ => eq_refl)
              (fun _ => eq_refl) (fun _ => eq_refl) eq_refl
              3%nat Example.zero_dev Example.host_memory)
    as (R & S & W & _).
  split; [exact R|]. split; [exact S | exact W].
Defined.

(** Two batches into the search the template has been written once, not
    twice: the upload before the loop is the only write. *)
Lemma template_not_written_per_batch :
  let run := test_mining Example.DATASET_SIZE Example.SCRATCHPAD_SIZE Example.HASH_SIZE
               Example.PROGRAM_SIZE Example.REGISTERS_SIZE Example.PROGRAM_COUNT
               (Example.env_ok (2 ^ 33) (2 ^ 34)) Example.idle_gpu 2
               (Example.start Example.zero_dev) in
  fst run = Running
  /\ n_sync (snd run) = 2%nat
  /\ nonces_of (trace (snd run)) = [0; 3040]
  /\ host_writes blockTemplate_gpu (trace (snd run)) = 1%nat
  /\ host_writes blockTemplate_gpu
       (batch_events Example.SCRATCHPAD_SIZE Example.PROGRAM_SIZE Example.REGISTERS_SIZE
                     Example.PROGRAM_COUNT 3040 3040 1) = 0%nat.
Proof. vm_compute. auto 6. Qed.

(** C6: the launch of [initGroupA_registers] is the one launch of the
    pipeline that no check follows.  On a runtime where that launch (the
    fourth of the run) cannot be issued, the program launches the next
    kernel, [blake2b_hash_registers], before it looks at any status; the
    check after that launch then finds the pending error and the run
    returns [false], blaming [blake2b_hash_registers]. *)
Theorem initGroupA_registers_launch_unchecked :
  let run := test_mining Example.DATASET_SIZE Example.SCRATCHPAD_SIZE Example.HASH_SIZE
               Example.PROGRAM_SIZE Example.REGISTERS_SIZE Example.PROGRAM_COUNT
               (Example.env_launch_fails (2 ^ 33) (2 ^ 34) 3) Example.idle_gpu 1
               (Example.start Example.zero_dev) in
  fst run = Returned false
  /\ firstn 4 (skipn 24 (trace (snd run)))
     = [ EvLaunch (Launch initGroupA_registers 95 32 programs_gpu registers_gpu 0);
         EvLaunch (Launch (blake2b_hash_registers Example.REGISTERS_SIZE 64) 95 32
                          hashes_gpu registers_gpu 0);
         EvGetLastError;
         EvStderr "blake2b_hash_registers launch failed: %s\n" ]
  /\ n_launch (snd run) = 5%nat.
Proof. vm_compute. auto. Qed.

(** ** The harness stops at the first failure *)

Lemma in_sequence_app (pre post : list (M unit unit)) s s1 :
  in_sequence pre s = (Next tt, s1) ->
  in_sequence (pre ++ post) s = in_sequence post s1.
Proof.
  revert s. induction pre as [|b pre IH]; intros s H.
  - cbn in H. injection H as <-. reflexivity.
  - cbn [in_sequence app] in *. unfold bind in *.
    destruct (b s) as [[[]| |] s'] eqn:E; try discriminate.
    now apply IH.
Qed.

Lemma in_sequence_returns (c : M unit unit) (post : list (M unit unit)) s r s' :
  c s = (Returned r, s') -> in_sequence (c :: post) s = (Returned r, s').
Proof. intros H. cbn [in_sequence]. now apply bind_returned. Qed.

Section HarnessProofs.

Variables SCRATCHPAD_SIZE PROGRAM_SIZE REGISTERS_SIZE : Z.
Variables DATASET_SIZE HASH_SIZE : Z.
Variable PROGRAM_COUNT : nat.
Variable env : cuda_env.
Variable gpu : gpu_kernels.
Variables aesdec aesenc : Z -> Z -> Z.
Variables key0 key1 key2 key3 : Z.
Variable hashAes1Rx4_ref : list Z -> list Z.

(** C7, as the code has it: when a test case of [tests] fails (each one
    does so by printing its message and returning), [tests] returns there
    and then: the trace ends with what the failing case did, followed only by
    the release of the buffers, so no later test case runs.  The process is
    unaffected: [main] resets the device and exits with status 0. *)
Theorem failed_test_case_ends_tests
    (k fuel : nat) (prog device : string) (s s0 s1 s2 : host) :
  let cases := test_cases SCRATCHPAD_SIZE PROGRAM_SIZE REGISTERS_SIZE env gpu
                          aesdec aesenc key0 key1 key2 key3 hashAes1Rx4_ref in
  set_device_status env = cudaSuccess ->
  reset_status env = cudaSuccess ->
  tests_setup SCRATCHPAD_SIZE REGISTERS_SIZE env (emit (EvSetDevice (atoi device)) s)
  = (Next tt, s0) ->
  in_sequence (firstn k cases) s0 = (Next tt, s1) ->
  (k < List.length cases)%nat ->
  nth k cases (ret tt) s1 = (Returned tt, s2) ->
  tests SCRATCHPAD_SIZE PROGRAM_SIZE REGISTERS_SIZE env gpu
        aesdec aesenc key0 key1 key2 key3 hashAes1Rx4_ref
        (emit (EvSetDevice (atoi device)) s)
  = (Returned tt, destroy_all s2)
  /\ main DATASET_SIZE SCRATCHPAD_SIZE HASH_SIZE PROGRAM_SIZE REGISTERS_SIZE PROGRAM_COUNT
          env gpu aesdec aesenc key0 key1 key2 key3 hashAes1Rx4_ref
          fuel [prog; "--test"%string; device] s
     = (Returned 0, emit EvDeviceReset (destroy_all s2)).
Proof.
  intros cases Hset Hreset Hsetup Hpre Hk Hc.
  assert (T : tests SCRATCHPAD_SIZE PROGRAM_SIZE REGISTERS_SIZE env gpu
                aesdec aesenc key0 key1 key2 key3 hashAes1Rx4_ref
                (emit (EvSetDevice (atoi device)) s)
              = (Returned tt, destroy_all s2)).
  { unfold tests, tests_body.
    rewrite (bind_next _ _ _ _ _ Hsetup).
    fold cases. rewrite <- (firstn_skipn k cases) at 1.
    rewrite (in_sequence_app _ _ _ _ Hpre).
    assert (Sk : skipn k cases = nth k cases (ret tt) :: skipn (S k) cases).
    { clear - Hk. revert Hk. generalize cases as l. revert k.
      induction k as [|k IH]; intros [|c l] H; cbn in *; try lia; [reflexivity|].
      apply IH. lia. }
    rewrite Sk, (in_sequence_returns _ _ _ _ _ Hc). reflexivity. }
  split; [exact T|].
  unfold main. cbn [List.length Nat.ltb Nat.leb nth].
  unfold bind at 1. unfold tell at 1.
  unfold bind at 1. unfold fail_if at 1. rewrite Hset. cbn [is_success negb ret].
  unfold bind at 1. unfold run_mode. cbn [String.eqb Ascii.eqb Bool.eqb].
  rewrite T.
  unfold bind, tell, fail_if. rewrite Hreset. cbn [is_success negb ret return_].
  reflexivity.
Qed.

End HarnessProofs.


(** With device code that computes nothing, the first test case fails and
    is the last one to run: of the six kernels under test only the first is
    ever launched, and the process still exits with status 0. *)
Lemma mismatch_skips_remaining_test_cases :
  let run := main Example.DATASET_SIZE Example.SCRATCHPAD_SIZE Example.HASH_SIZE
               Example.PROGRAM_SIZE Example.REGISTERS_SIZE Example.PROGRAM_COUNT
               (Example.env_ok (2 ^ 33) (2 ^ 34)) Example.idle_gpu
               Example.mix Example.mix 1 2 3 4 (fun _ => [])
               1 ["RandomX_CUDA.exe"; "--test"; "0"]%string
               (Example.start Example.zero_dev) in
  fst run = Returned 0
  /\ trace (snd run)
     = [ EvSetDevice 0; EvMalloc hash_gpu 8192; EvMalloc block_template_gpu 76;
         EvMalloc nonce_gpu 8; EvMalloc states_gpu 16777216;
         EvMalloc scratchpads_gpu 4294967296; EvMalloc programs_gpu 268435456;
         EvMalloc registers_gpu 32768;
         EvMemcpyHtoD block_template_gpu blockTemplate 76;
         EvLaunch (Launch (blake2b_initial_hash 76) 4 32 hash_gpu block_template_gpu 0);
         EvDeviceSynchronize; EvMemcpyDtoH hash hash_gpu 8192;
         EvStderr "blake2b_initial_hash test failed!";
         EvFree registers_gpu; EvFree programs_gpu; EvFree scratchpads_gpu;
         EvFree states_gpu; EvFree nonce_gpu; EvFree block_template_gpu;
         EvFree hash_gpu; EvDeviceReset ]
  /\ List.length (launches_of (trace (snd run))) = 1%nat.
Proof. lazy. auto. Qed.

Lemma pair_of_fst {A B : Type} (p : A * B) (a : A) : fst p = a -> p = (a, snd p).
Proof. intros <-. now destruct p. Defined.

Lemma failed_test_case_ends_tests_witness :
  fst (main Example.DATASET_SIZE Example.SCRATCHPAD_SIZE Example.HASH_SIZE
            Example.PROGRAM_SIZE Example.REGISTERS_SIZE Example.PROGRAM_COUNT
            (Example.env_ok (2 ^ 33) (2 ^ 34)) Example.idle_gpu
            Example.mix Example.mix 1 2 3 4 (fun _ => [])
            1 ["RandomX_CUDA.exe"; "--test"; "0"]%string
            (Example.start Example.zero_dev))
  = Returned 0.
Proof.
  pose (s := Example.start Example.zero_dev).
  pose (s0 := snd (tests_setup Example.SCRATCHPAD_SIZE Example.REGISTERS_SIZE
                     (Example.env_ok (2 ^ 33) (2 ^ 34))
                     (emit (EvSetDevice (atoi "0")) s))).
  pose (c := nth 0 (test_cases Example.SCRATCHPAD_SIZE Example.PROGRAM_SIZE
                      Example.REGISTERS_SIZE (Example.env_ok (2 ^ 33) (2 ^ 34))
                      Example.idle_gpu Example.mix Example.mix 1 2 3 4 (fun _ => []))
                (ret tt)).
  assert (H1 : tests_setup Example.SCRATCHPAD_SIZE Example.REGISTERS_SIZE
                 (Example.env_ok (2 ^ 33) (2 ^ 34)) (emit (EvSetDevice (atoi "0")) s)
               = (Next tt, s0))
    by (refine (pair_of_fst _ _ _); lazy; reflexivity).
  assert (H3 : c s0 = (Returned tt, snd (c s0)))
    by (refine (pair_of_fst _ _ _); lazy; reflexivity).
  exact (f_equal fst (proj2 (failed_test_case_ends_tests
                    Example.SCRATCHPAD_SIZE Example.PROGRAM_SIZE Example.REGISTERS_SIZE
                    Example.DATASET_SIZE Example.HASH_SIZE Example.PROGRAM_COUNT
                    (Example.env_ok (2 ^ 33) (2 ^ 34)) Example.idle_gpu
                    Example.mix Example.mix 1 2 3 4 (fun _ => [])
                    0 1 "RandomX_CUDA.exe" "0" s s0 s0 (snd (c s0))
                    eq_refl eq_refl H1 eq_refl
                    (le_S _ _ (le_S _ _ (le_S _ _ (le_S _ _ (le_S _ _ (le_n 1))))))
                    H3))).
Defined.

(** ** Memory *)

Lemma store_inside m off bs a :
  (off <= a < off + List.length bs)%nat -> store m off bs a = nth (a - off) bs 0.
Proof.
  intros [H1 H2]. unfold store.
  apply Nat.leb_le in H1. apply Nat.ltb_lt in H2. now rewrite H1, H2.
Qed.

Lemma store_outside m off bs a :
  (a < off \/ off + List.length bs <= a)%nat -> store m off bs a = m a.
Proof.
  intros H. unfold store.
  destruct (off <=? a)%nat eqn:E1; [|reflexivity].
  destruct (a <? off + List.length bs)%nat eqn:E2; [|reflexivity].
  apply Nat.leb_le in E1. apply Nat.ltb_lt in E2. lia.
Qed.

Lemma load_ext m1 m2 off n :
  (forall a, (off <= a < off + n)%nat -> m1 a = m2 a) -> load m1 off n = load m2 off n.
Proof.
  intros H. unfold load. apply map_ext_in. intros a I.
  apply in_seq in I. apply H. lia.
Qed.

Lemma load_length m off n : List.length (load m off n) = n.
Proof. unfold load. now rewrite length_map, length_seq. Qed.

Lemma map_nth_seq (bs : list Z) : forall off,
  map (fun a => nth (a - off) bs 0) (seq off (List.length bs)) = bs.
Proof.
  induction bs as [|b bs IH]; intros off; [reflexivity|].
  cbn [List.length seq map]. rewrite Nat.sub_diag. cbn [nth]. f_equal.
  rewrite <- (IH (S off)) at 2. apply map_ext_in. intros a I.
  apply in_seq in I. replace (a - off)%nat with (S (a - S off)) by lia. reflexivity.
Qed.

Lemma load_store m off bs : load (store m off bs) off (List.length bs) = bs.
Proof.
  unfold load.
  transitivity (map (fun a => nth (a - off) bs 0) (seq off (List.length bs)));
    [|apply map_nth_seq].
  apply map_ext_in. intros a I. apply in_seq in I. apply store_inside. lia.
Qed.

Lemma load_app m off n k : load m off (n + k) = load m off n ++ load m (off + n) k.
Proof. unfold load. now rewrite seq_app, map_app. Qed.

(** ** Lanes writing their slots *)

Section Lanes.

Variable f : nat -> list Z.
Variable w : nat.
Hypothesis f_length : forall g, List.length (f g) = w.

Lemma lanes_frame l : forall out a,
  (forall g, In g l -> (a < g * w \/ g * w + w <= a)%nat) ->
  fold_left (fun o g => store o (g * w) (f g)) l out a = out a.
Proof.
  induction l as [|g l IH]; intros out a H; [reflexivity|].
  cbn [fold_left]. rewrite IH by (intros; apply H; now right).
  apply store_outside. rewrite f_length. apply H. now left.
Qed.

Lemma lanes_lookup l : forall out i,
  NoDup l -> In i l ->
  load (fold_left (fun o g => store o (g * w) (f g)) l out) (i * w) w = f i.
Proof.
  induction l as [|g l IH]; intros out i N I; [destruct I|].
  inversion N as [|? ? Ng Nl]; subst. cbn [fold_left].
  destruct (Nat.eq_dec g i) as [->|D].
  - transitivity (load (store out (i * w) (f i)) (i * w) w);
      [|pose proof (load_store out (i * w) (f i)) as E;
        rewrite (f_length i) in E; exact E].
    apply load_ext. intros a A.
    apply lanes_frame. intros g G.
    assert (g <> i) by (intros ->; contradiction).
    destruct (Nat.lt_ge_cases g i); [right|left]; nia.
  - apply IH; [assumption|]. destruct I; [contradiction|assumption].
Qed.

End Lanes.

(** ** The keyed-hash kernels *)

Lemma upd_length l : forall i x, List.length (Blake2b.upd l i x) = List.length l.
Proof.
  induction l as [|h l IH]; intros [|i] x; cbn; auto.
Qed.

Lemma compress_length h m t last : List.length (Blake2b.compress h m t last) = 8%nat.
Proof. unfold Blake2b.compress. now rewrite length_map, length_seq. Qed.

Lemma absorb_length fuel : forall h t msg,
  List.length h = 8%nat -> List.length (Blake2b.absorb fuel h t msg) = 8%nat.
Proof.
  induction fuel as [|fuel IH]; intros h t msg H; cbn [Blake2b.absorb]; [assumption|].
  destruct (List.length msg <=? 128)%nat.
  - apply compress_length.
  - apply IH. apply compress_length.
Qed.

Lemma le_bytes_length w : forall x, List.length (le_bytes w x) = w.
Proof. induction w; intros x; cbn; auto. Qed.

Lemma flat_map_le_bytes_length l :
  List.length (flat_map (le_bytes 8) l) = (8 * List.length l)%nat.
Proof.
  induction l as [|x l IH]; [reflexivity|].
  cbn [flat_map]. rewrite length_app, le_bytes_length, IH. cbn [List.length]. lia.
Qed.

Lemma blake2b_length outlen msg :
  (outlen <= 64)%nat -> List.length (Blake2b.blake2b outlen msg) = outlen.
Proof.
  intros H. unfold Blake2b.blake2b.
  rewrite length_firstn, flat_map_le_bytes_length, absorb_length.
  - lia.
  - unfold Blake2b.init. now rewrite upd_length.
Qed.

(** C2: for every template, nonce base and launch dimensions, the digest the
    initial-hash kernel leaves in the slot of lane [i] is the sequential
    BLAKE2b-512 of the 76-byte template whose 32-bit little-endian nonce
    field at byte 39 holds the nonce base plus [i] (in 32 bits), whatever
    the other lanes and the previous contents of the output buffer. *)
Theorem initial_hash_matches_reference
    (grid block : nat) (out tmpl : mem) (nonce_base : Z) (i : nat) :
  (i < grid * block)%nat ->
  load (Kernels.blake2b_initial_hash 76 grid block out tmpl nonce_base) (i * 64) 64
  = Blake2b.blake2b 64
      (load (store tmpl 39 (le_bytes 4 ((nonce_base + Z.of_nat i) mod 2 ^ 32))) 0 76).
Proof.
  intros H. unfold Kernels.blake2b_initial_hash.
  rewrite (lanes_lookup (Kernels.initial_hash_lane 76 tmpl nonce_base) 64).
  - reflexivity.
  - intros g. apply blake2b_length. lia.
  - apply seq_NoDup.
  - apply in_seq. lia.
Qed.

(** C4, as the code has it: for every register file and either width, the
    digest the register-hash kernel leaves in the slot of lane [i] is the
    sequential BLAKE2b of that width over the lane's register bytes. *)
Theorem hash_registers_matches_reference
    (len outlen grid block : nat) (out regs : mem) (i : nat) :
  (i < grid * block)%nat ->
  (outlen <= 64)%nat ->
  load (Kernels.blake2b_hash_registers len outlen grid block out regs) (i * outlen) outlen
  = Blake2b.blake2b outlen (load regs (i * len) len).
Proof.
  intros H W. unfold Kernels.blake2b_hash_registers.
  rewrite (lanes_lookup (Kernels.hash_registers_lane len outlen regs) outlen).
  - reflexivity.
  - intros g. now apply blake2b_length.
  - apply seq_NoDup.
  - apply in_seq. lia.
Qed.

(** The model of BLAKE2b on the test vector of RFC 7693 and on the empty
    message. *)
Example blake2b_512_abc :
  Blake2b.blake2b 64 [0x61; 0x62; 0x63]
  = [ 0xba; 0x80; 0xa5; 0x3f; 0x98; 0x1c; 0x4d; 0x0d; 0x6a; 0x27; 0x97; 0xb6; 0x9f; 0x12;
      0xf6; 0xe9; 0x4c; 0x21; 0x2f; 0x14; 0x68; 0x5a; 0xc4; 0xb7; 0x4b; 0x12; 0xbb; 0x6f;
      0xdb; 0xff; 0xa2; 0xd1; 0x7d; 0x87; 0xc5; 0x39; 0x2a; 0xab; 0x79; 0x2d; 0xc2; 0x52;
      0xd5; 0xde; 0x45; 0x33; 0xcc; 0x95; 0x18; 0xd3; 0x8a; 0xa8; 0xdb; 0xf1; 0x92; 0x5a;
      0xb9; 0x23; 0x86; 0xed; 0xd4; 0x00; 0x99; 0x23 ].
Proof. vm_compute. reflexivity. Qed.

Example blake2b_256_empty :
  Blake2b.blake2b 32 []
  = [ 0x0e; 0x57; 0x51; 0xc0; 0x26; 0xe5; 0x43; 0xb2; 0xe8; 0xab; 0x2e; 0xb0; 0x60; 0x99;
      0xda; 0xa1; 0xd1; 0xe5; 0xdf; 0x47; 0x77; 0x8f; 0x77; 0x87; 0xfa; 0xab; 0x45; 0xcd;
      0xf1; 0x2f; 0xe3; 0xa8 ].
Proof. vm_compute. reflexivity. Qed.

(** Lane 5 of a batch of 128 on the template of the source with nonce base
    0: the digest of the template with nonce 5. *)
Lemma initial_hash_matches_reference_witness :
  load (Kernels.blake2b_initial_hash 76 4 32 zero_mem
          (store zero_mem 0 Example.blockTemplate_bytes) 0) (5 * 64) 64
  = Blake2b.blake2b 64
      (load (store (store zero_mem 0 Example.blockTemplate_bytes) 39
                   (le_bytes 4 ((0 + Z.of_nat 5) mod 2 ^ 32))) 0 76)
  /\ Blake2b.blake2b 64
       (load (store (store zero_mem 0 Example.blockTemplate_bytes) 39
                    (le_bytes 4 ((0 + Z.of_nat 5) mod 2 ^ 32))) 0 76)
     = [ 0xdc; 0x41; 0x2b; 0x13; 0xe9; 0x7a; 0x66; 0xcf; 0x57; 0xee; 0xf9; 0xdb; 0xa0;
         0xf6; 0x07; 0x03; 0x6a; 0xdc; 0x22; 0xcd; 0xfa; 0x9b; 0xbf; 0x89; 0x3e; 0xc5;
         0x31; 0x1d; 0x5e; 0xe8; 0x1c; 0x2b; 0xeb; 0xbd; 0xd4; 0xe4; 0x51; 0x85; 0xfd;
         0xb2; 0xee; 0xc0; 0x57; 0xd8; 0xe7; 0x55; 0xa0; 0xd5; 0xff; 0xd8; 0xe3; 0x31;
         0xeb; 0x3b; 0xdb; 0xbc; 0x59; 0x1d; 0x9c; 0xae; 0x6a; 0x66; 0x22; 0x6f ].
Proof.
  split.
  - apply (initial_hash_matches_reference 4 32 zero_mem
             (store zero_mem 0 Example.blockTemplate_bytes) 0 5).
    vm_compute. lia.
  - vm_compute. reflexivity.
Defined.

Lemma hash_registers_matches_reference_witness :
  load (Kernels.blake2b_hash_registers 256 32 4 32 zero_mem zero_mem) (5 * 32) 32
  = Blake2b.blake2b 32 (load zero_mem (5 * 256) 256).
Proof.
  apply (hash_registers_matches_reference 256 32 4 32 zero_mem zero_mem 5);
    vm_compute; lia.
Defined.

(** On a register file of 256 zero bytes the 32-byte digest and the first 32
    bytes of the 64-byte digest differ from their first byte on. *)
Lemma digest_32_is_not_a_prefix_of_digest_64 :
  let d32 := load (Kernels.blake2b_hash_registers 256 32 1 1 zero_mem zero_mem) 0 32 in
  let d64 := load (Kernels.blake2b_hash_registers 256 64 1 1 zero_mem zero_mem) 0 64 in
  d32 = [ 0x2b; 0x69; 0x70; 0x2a; 0x88; 0x92; 0x48; 0xa4; 0xd6; 0x62; 0x04; 0x75; 0xa1;
          0x05; 0xdc; 0xcd; 0x5e; 0x0d; 0x42; 0x30; 0xac; 0xa8; 0xa4; 0x92; 0xaa; 0xf6;
          0x51; 0x0e; 0x55; 0xd5; 0x5b; 0x02 ]
  /\ firstn 32 d64
     = [ 0xec; 0x9c; 0x6b; 0x30; 0x1a; 0x6c; 0x98; 0x94; 0x6d; 0x74; 0x2a; 0x74; 0x71;
         0x0e; 0x65; 0x8f; 0x02; 0x43; 0xe0; 0xe6; 0xd3; 0x52; 0x5f; 0x4a; 0xfa; 0x94;
         0xdf; 0xc2; 0x39; 0x54; 0x56; 0xfa ]
  /\ forallb (fun p => negb (fst p =? snd p)) (combine d32 (firstn 32 d64)) = true.
Proof. vm_compute. auto. Qed.

(** ** The cipher fill *)

Section FillProofs.

Variables aesdec aesenc : Z -> Z -> Z.
Variables key0 key1 key2 key3 : Z.

Local Abbreviation round := (fill_round aesdec aesenc key0 key1 key2 key3).
Local Abbreviation thread_loop := (fill_thread_loop aesdec aesenc key0 key1 key2 key3).
Local Abbreviation thread := (fill_thread aesdec aesenc key0 key1 key2 key3).
Local Abbreviation kernel := (fillAes1Rx4_kernel aesdec aesenc key0 key1 key2 key3).
Local Abbreviation ref_loop := (fill_ref_loop aesdec aesenc key0 key1 key2 key3).
Local Abbreviation reference := (fillAes1Rx4_ref aesdec aesenc key0 key1 key2 key3).

Lemma store_block_inside m off x a :
  (off <= a < off + 16)%nat ->
  store_block m off x a = nth (a - off) (le_bytes 16 x) 0.
Proof. intros H. unfold store_block. apply store_inside. now rewrite le_bytes_length. Qed.

Lemma store_block_outside m off x a :
  (a < off \/ off + 16 <= a)%nat -> store_block m off x a = m a.
Proof. intros H. unfold store_block. apply store_outside. now rewrite le_bytes_length. Qed.

Lemma load_store_block m off x : load (store_block m off x) off 16 = le_bytes 16 x.
Proof.
  unfold store_block. pose proof (load_store m off (le_bytes 16 x)) as E.
  now rewrite le_bytes_length in E.
Qed.

(** One thread: its stream, and where its blocks land. *)

Lemma thread_loop_state n sub : forall x out p stride,
  fst (thread_loop n sub x out p stride) = Nat.iter n (round sub) x.
Proof.
  induction n as [|n IH]; intros; [reflexivity|].
  cbn [fill_thread_loop]. rewrite IH. now rewrite Nat.iter_succ_r.
Qed.

Lemma thread_loop_frame n sub : forall x out p stride a,
  (forall j, (j < n)%nat -> (a < p + j * stride \/ p + j * stride + 16 <= a)%nat) ->
  snd (thread_loop n sub x out p stride) a = out a.
Proof.
  induction n as [|n IH]; intros x out p stride a H; [reflexivity|].
  cbn [fill_thread_loop]. rewrite IH.
  - apply store_block_outside. specialize (H 0%nat). cbn in H. rewrite Nat.add_0_r in H.
    apply H. lia.
  - intros j J. specialize (H (S j)). cbn [Nat.mul] in H. 
    replace (p + stride + j * stride)%nat with (p + (stride + j * stride))%nat by lia.
    apply H. lia.
Qed.

Lemma thread_loop_hit n sub : forall x out p stride j,
  (16 <= stride)%nat -> (j < n)%nat ->
  load (snd (thread_loop n sub x out p stride)) (p + j * stride) 16
  = le_bytes 16 (Nat.iter (S j) (round sub) x).
Proof.
  induction n as [|n IH]; intros x out p stride j S16 J; [lia|].
  cbn [fill_thread_loop]. destruct j as [|j].
  - rewrite Nat.mul_0_l, Nat.add_0_r. cbn [Nat.iter nat_rect].
    rewrite <- (load_store_block out p (round sub x)).
    apply load_ext. intros a A. apply thread_loop_frame. intros j' J'. left. nia.
  - replace (p + S j * stride)%nat with (p + stride + j * stride)%nat by (cbn; lia).
    rewrite IH by lia. now rewrite <- Nat.iter_succ_r.
Qed.


(** The cooperating group: thread [g] owns bytes [16 g .. 16 g + 15] of the
    states, and the slots of different threads and blocks do not overlap. *)

Lemma state_slot g : (g / 4 * 64 + g mod 4 * 16 = 16 * g)%nat.
Proof. pose proof (Nat.div_mod_eq g 4). lia. Qed.

Lemma fill_slot_apart outputSize strided batch_size n g j g' j' :
  outputSize = (64 * n)%nat ->
  (g < batch_size * 4)%nat -> (g' < batch_size * 4)%nat ->
  (j < n)%nat -> (j' < n)%nat ->
  g <> g' \/ j <> j' ->
  (fill_slot outputSize strided batch_size g j + 16
   <= fill_slot outputSize strided batch_size g' j'
   \/ fill_slot outputSize strided batch_size g' j' + 16
      <= fill_slot outputSize strided batch_size g j)%nat.
Proof.
  intros -> G G' J J' D. unfold fill_slot.
  pose proof (Nat.div_mod_eq g 4) as E. pose proof (Nat.mod_upper_bound g 4) as U.
  pose proof (Nat.div_mod_eq g' 4) as E'. pose proof (Nat.mod_upper_bound g' 4) as U'.
  set (i := (g / 4)%nat) in *. set (s := (g mod 4)%nat) in *.
  set (i' := (g' / 4)%nat) in *. set (s' := (g' mod 4)%nat) in *.
  assert (s < 4)%nat by (apply U; lia). assert (s' < 4)%nat by (apply U'; lia).
  clearbody i s i' s'. clear U U'.
  destruct strided.
  - destruct (Nat.lt_trichotomy j j') as [L|[L|L]].
    + left. nia.
    + subst j'. assert (g <> g') by (destruct D; congruence). lia.
    + right. nia.
  - destruct (Nat.lt_trichotomy i i') as [L|[L|L]].
    + left. nia.
    + subst i'. assert (4 * j + s <> 4 * j' + s')%nat by (destruct D; lia). lia.
    + right. nia.
Qed.

Section Kernel.

Variable outputSize : nat.
Variable strided : bool.
Variable batch_size : nat.
Variable n : nat.
Hypothesis whole_chunks : outputSize = (64 * n)%nat.

Local Abbreviation slot := (fill_slot outputSize strided batch_size).

Lemma chunks : (outputSize / 64 = n)%nat.
Proof. rewrite whole_chunks, Nat.mul_comm. apply Nat.div_mul. lia. Qed.

(** What one active thread does. *)
Lemma thread_active d g :
  (g < batch_size * 4)%nat ->
  thread outputSize strided batch_size d g
  = (store_block (fst d) (16 * g)
       (Nat.iter n (round (g mod 4)) (load_block (fst d) (16 * g))),
     snd (thread_loop n (g mod 4) (load_block (fst d) (16 * g)) (snd d)
            (slot g 0) (if strided then batch_size * 64 else 64)%nat)).
Proof.
  intros G. unfold fill_thread.
  replace (batch_size * 4 <=? g)%nat with false by (symmetry; apply Nat.leb_gt; lia).
  rewrite chunks. unfold fill_slot. rewrite Nat.mul_0_l, Nat.add_0_r.
  destruct (thread_loop n (g mod 4) _ (snd d) _ _) as [x out] eqn:E.
  change out with (snd (x, out)). change x with (fst (x, out)) at 1.
  rewrite <- E, thread_loop_state, !state_slot. reflexivity.
Qed.

Lemma thread_idle d g :
  (batch_size * 4 <= g)%nat -> thread outputSize strided batch_size d g = d.
Proof.
  intros G. unfold fill_thread.
  now replace (batch_size * 4 <=? g)%nat with true by (symmetry; apply Nat.leb_le; lia).
Qed.

Lemma slot_step g j :
  (slot g 0 + j * (if strided then batch_size * 64 else 64) = slot g j)%nat.
Proof. unfold fill_slot. lia. Qed.

Lemma stride_wide g :
  (g < batch_size * 4)%nat -> (16 <= (if strided then batch_size * 64 else 64))%nat.
Proof. destruct strided; lia. Qed.

Lemma thread_state_frame d g a :
  (g < batch_size * 4 -> a < 16 * g \/ 16 * g + 16 <= a)%nat ->
  fst (thread outputSize strided batch_size d g) a = fst d a.
Proof.
  intros H. destruct (Nat.lt_ge_cases g (batch_size * 4)) as [G|G].
  - rewrite thread_active by assumption. cbn [fst]. apply store_block_outside. auto.
  - now rewrite thread_idle.
Qed.

Lemma thread_out_frame d g a :
  (g < batch_size * 4 ->
   forall j, j < n -> a < slot g j \/ slot g j + 16 <= a)%nat ->
  snd (thread outputSize strided batch_size d g) a = snd d a.
Proof.
  intros H. destruct (Nat.lt_ge_cases g (batch_size * 4)) as [G|G].
  - rewrite thread_active by assumption. cbn [snd]. apply thread_loop_frame.
    intros j J. rewrite slot_step. auto.
  - now rewrite thread_idle.
Qed.

(** All the threads of a launch, one after the other. *)

Lemma threads_state_frame l : forall d a,
  (forall g, In g l -> g < batch_size * 4 -> a < 16 * g \/ 16 * g + 16 <= a)%nat ->
  fst (fold_left (thread outputSize strided batch_size) l d) a = fst d a.
Proof.
  induction l as [|g l IH]; intros d a H; [reflexivity|].
  cbn [fold_left]. rewrite IH by (intros; apply H; [now right|assumption]).
  apply thread_state_frame. intros G. apply H; [now left|assumption].
Qed.

Lemma threads_out_frame l : forall d a,
  (forall g, In g l -> g < batch_size * 4 ->
   forall j, j < n -> a < slot g j \/ slot g j + 16 <= a)%nat ->
  snd (fold_left (thread outputSize strided batch_size) l d) a = snd d a.
Proof.
  induction l as [|g l IH]; intros d a H; [reflexivity|].
  cbn [fold_left]. rewrite IH by (intros; apply H; [now right|assumption..]).
  apply thread_out_frame. intros G; intros. apply H; [now left|assumption..].
Qed.

Lemma threads_state l : forall d g,
  NoDup l -> In g l -> (g < batch_size * 4)%nat ->
  load (fst (fold_left (thread outputSize strided batch_size) l d)) (16 * g) 16
  = le_bytes 16 (Nat.iter n (round (g mod 4)) (load_block (fst d) (16 * g))).
Proof.
  induction l as [|g0 l IH]; intros d g N I G; [destruct I|].
  inversion_clear N as [|? ? N0 Nl]. cbn [fold_left].
  destruct (Nat.eq_dec g0 g) as [->|D].
  - transitivity (load (fst (thread outputSize strided batch_size d g)) (16 * g) 16).
    + apply load_ext. intros a A. apply threads_state_frame.
      intros g' I' G'. assert (g' <> g) by (intros ->; contradiction). lia.
    + rewrite thread_active by assumption. cbn [fst]. apply load_store_block.
  - rewrite IH; [|assumption|destruct I; [contradiction|assumption]|assumption].
    do 2 f_equal. unfold load_block. f_equal. apply load_ext. intros a A.
    apply thread_state_frame. intros _. lia.
Qed.

Lemma threads_out l : forall d g j,
  NoDup l -> In g l -> (g < batch_size * 4)%nat -> (j < n)%nat ->
  load (snd (fold_left (thread outputSize strided batch_size) l d)) (slot g j) 16
  = le_bytes 16 (Nat.iter (S j) (round (g mod 4)) (load_block (fst d) (16 * g))).
Proof.
  induction l as [|g0 l IH]; intros d g j N I G J; [destruct I|].
  inversion_clear N as [|? ? N0 Nl]. cbn [fold_left].
  destruct (Nat.eq_dec g0 g) as [->|D].
  - transitivity (load (snd (thread outputSize strided batch_size d g)) (slot g j) 16).
    + apply load_ext. intros a A. apply threads_out_frame.
      intros g' I' G' j' J'. assert (g' <> g) by (intros ->; contradiction).
      destruct (fill_slot_apart outputSize strided batch_size n g j g' j'
                  whole_chunks G G' J J'); [left; congruence| |]; lia.
    + rewrite thread_active by assumption. cbn [snd].
      rewrite <- (slot_step g j). apply thread_loop_hit; [now apply (stride_wide g)|assumption].
  - rewrite IH; [|assumption|destruct I; [contradiction|assumption]|assumption..].
    do 2 f_equal. unfold load_block. f_equal. apply load_ext. intros a A.
    apply thread_state_frame. intros _. lia.
Qed.

End Kernel.

(** The sequential reference. *)

Lemma ref_loop_state n : forall s0 s1 s2 s3 buffer outptr,
  fst (ref_loop n s0 s1 s2 s3 buffer outptr)
  = (Nat.iter n (round 0) s0, Nat.iter n (round 1) s1,
     Nat.iter n (round 2) s2, Nat.iter n (round 3) s3).
Proof.
  induction n as [|n IH]; intros; [reflexivity|].
  cbn [fill_ref_loop]. rewrite IH, !Nat.iter_succ_r. reflexivity.
Qed.

Lemma ref_loop_frame n : forall s0 s1 s2 s3 buffer outptr a,
  (a < outptr \/ outptr + 64 * n <= a)%nat ->
  snd (ref_loop n s0 s1 s2 s3 buffer outptr) a = buffer a.
Proof.
  induction n as [|n IH]; intros s0 s1 s2 s3 buffer outptr a H; [reflexivity|].
  cbn [fill_ref_loop]. rewrite IH by lia.
  rewrite !store_block_outside by lia. reflexivity.
Qed.

Lemma ref_loop_hit n : forall s0 s1 s2 s3 buffer outptr j sub,
  (j < n)%nat -> (sub < 4)%nat ->
  load (snd (ref_loop n s0 s1 s2 s3 buffer outptr)) (outptr + 64 * j + 16 * sub) 16
  = le_bytes 16
      (Nat.iter (S j) (round sub)
         (match sub with 0%nat => s0 | 1%nat => s1 | 2%nat => s2 | _ => s3 end)).
Proof.
  induction n as [|n IH]; intros s0 s1 s2 s3 buffer outptr j sub J S4; [lia|].
  cbn [fill_ref_loop]. destruct j as [|j].
  - rewrite Nat.mul_0_r, Nat.add_0_r. cbn [Nat.iter nat_rect].
    erewrite load_ext; [|intros a A; apply ref_loop_frame; lia].
    destruct sub as [|[|[|[|]]]]; try lia; cbn [fill_round].
    + rewrite Nat.mul_0_r, Nat.add_0_r.
      erewrite load_ext; [apply load_store_block|].
      intros a A. rewrite !store_block_outside by lia. reflexivity.
    + erewrite load_ext; [apply load_store_block|].
      intros a A. rewrite (store_block_outside _ (outptr + 48)),
        (store_block_outside _ (outptr + 32)) by lia.
      f_equal; lia.
    + erewrite load_ext; [apply load_store_block|].
      intros a A. rewrite (store_block_outside _ (outptr + 48)) by lia.
      f_equal; lia.
    + erewrite load_ext; [apply load_store_block|].
      intros a A. f_equal; lia.
  - replace (outptr + 64 * S j + 16 * sub)%nat
      with (outptr + 64 + 64 * j + 16 * sub)%nat by lia.
    rewrite IH by lia.
    destruct sub as [|[|[|[|]]]]; try lia;
      rewrite (Nat.iter_succ_r (S j)); reflexivity.
Qed.


(** Reading memory byte by byte. *)

Lemma load_pointwise m off n l b :
  load m off n = l -> (b < n)%nat -> m (off + b)%nat = nth b l 0.
Proof.
  intros <- B. unfold load.
  rewrite (nth_indep _ 0 (m 0%nat)) by (now rewrite length_map, length_seq).
  now rewrite map_nth, seq_nth.
Qed.

Lemma load_eq_pointwise n : forall m1 o1 m2 o2,
  (forall b, (b < n)%nat -> m1 (o1 + b)%nat = m2 (o2 + b)%nat) ->
  load m1 o1 n = load m2 o2 n.
Proof.
  unfold load. induction n as [|n IH]; intros m1 o1 m2 o2 H; [reflexivity|].
  cbn [seq map]. f_equal.
  - specialize (H 0%nat). rewrite !Nat.add_0_r in H. apply H. lia.
  - apply IH. intros b B. specialize (H (S b)).
    rewrite <- !Nat.add_succ_comm in H. apply H. lia.
Qed.

Lemma load_eq_inv m1 o1 m2 o2 n b :
  load m1 o1 n = load m2 o2 n -> (b < n)%nat -> m1 (o1 + b)%nat = m2 (o2 + b)%nat.
Proof.
  intros E B.
  rewrite (load_pointwise m1 o1 n _ b eq_refl B), E.
  symmetry. exact (load_pointwise m2 o2 n _ b eq_refl B).
Qed.

Lemma flat_map_ext_within {A B : Type} (f g : A -> list B) l :
  (forall a, In a l -> f a = g a) -> flat_map f l = flat_map g l.
Proof.
  induction l as [|a l IH]; intros H; [reflexivity|].
  cbn [flat_map]. rewrite H by now left. rewrite IH; [reflexivity|].
  intros; apply H; now right.
Qed.

Lemma load_chunks m off n :
  flat_map (fun j => load m (off + 64 * j) 64) (seq 0 n) = load m off (64 * n).
Proof.
  induction n as [|n IH]; [reflexivity|].
  rewrite seq_S, flat_map_app, IH. cbn [flat_map Nat.add]. rewrite app_nil_r.
  replace (64 * S n)%nat with (64 * n + 64)%nat by lia.
  now rewrite load_app.
Qed.

(** The kernel against the reference, lane by lane. *)

Section Refinement.

Variables outputSize n batch_size grid block idx : nat.
Variables state out rstate rbuf : mem.
Variables soff boff : nat.

Hypothesis whole_chunks : outputSize = (64 * n)%nat.
Hypothesis lane : (idx < batch_size)%nat.
Hypothesis enough_threads : (batch_size * 4 <= grid * block)%nat.
Hypothesis same_seed : load rstate soff 64 = load state (idx * 64) 64.

Lemma seed_block sub :
  (sub < 4)%nat ->
  load_block rstate (soff + 16 * sub) = load_block state (16 * (4 * idx + sub)).
Proof.
  intros S4. unfold load_block. f_equal. apply load_eq_pointwise. intros b B.
  replace (soff + 16 * sub + b)%nat with (soff + (16 * sub + b))%nat by lia.
  replace (16 * (4 * idx + sub) + b)%nat with (idx * 64 + (16 * sub + b))%nat by lia.
  apply (load_eq_inv _ _ _ _ 64); [exact same_seed | lia].
Qed.

Lemma lane_thread sub :
  (sub < 4)%nat ->
  ((4 * idx + sub) / 4 = idx /\ (4 * idx + sub) mod 4 = sub
   /\ 4 * idx + sub < batch_size * 4 /\ In (4 * idx + sub) (seq 0 (grid * block)))%nat.
Proof.
  intros S4.
  assert ((4 * idx + sub) / 4 = idx)%nat
    by (symmetry; apply (Nat.div_unique _ 4 idx sub); lia).
  assert ((4 * idx + sub) mod 4 = sub)%nat
    by (symmetry; apply (Nat.mod_unique _ 4 idx sub); lia).
  repeat split; try assumption; [lia | apply in_seq; lia].
Qed.

Lemma kernel_block strided j sub :
  (j < n)%nat -> (sub < 4)%nat ->
  load (snd (kernel outputSize strided grid block state out batch_size))
       (fill_slot outputSize strided batch_size (4 * idx) j + 16 * sub) 16
  = le_bytes 16 (Nat.iter (S j) (round sub) (load_block state (16 * (4 * idx + sub)))).
Proof.
  intros J S4. destruct (lane_thread sub S4) as (Q & R & G & I).
  pose proof (threads_out outputSize strided batch_size n whole_chunks
                (seq 0 (grid * block)) (state, out) (4 * idx + sub) j
                (seq_NoDup _ _) I G J) as T.
  rewrite R in T. cbn [fst] in T. rewrite <- T. f_equal.
  unfold fill_slot. rewrite Q, R.
  destruct (lane_thread 0 ltac:(lia)) as (Q0 & R0 & _).
  rewrite Nat.add_0_r in Q0, R0. rewrite Q0, R0. destruct strided; lia.
Qed.

Lemma kernel_state strided sub :
  (sub < 4)%nat ->
  load (fst (kernel outputSize strided grid block state out batch_size))
       (idx * 64 + 16 * sub) 16
  = le_bytes 16 (Nat.iter n (round sub) (load_block state (16 * (4 * idx + sub)))).
Proof.
  intros S4. destruct (lane_thread sub S4) as (Q & R & G & I).
  pose proof (threads_state outputSize strided batch_size n whole_chunks
                (seq 0 (grid * block)) (state, out) (4 * idx + sub)
                (seq_NoDup _ _) I G) as T.
  rewrite R in T. cbn [fst] in T. rewrite <- T. f_equal. lia.
Qed.

Lemma reference_block j sub :
  (j < n)%nat -> (sub < 4)%nat ->
  load (snd (reference rstate soff outputSize rbuf boff)) (boff + 64 * j + 16 * sub) 16
  = le_bytes 16 (Nat.iter (S j) (round sub) (load_block rstate (soff + 16 * sub))).
Proof.
  intros J S4. unfold fillAes1Rx4_ref. rewrite (chunks outputSize n whole_chunks).
  pose proof (ref_loop_hit n (load_block rstate soff) (load_block rstate (soff + 16))
                (load_block rstate (soff + 32)) (load_block rstate (soff + 48))
                rbuf boff j sub J S4) as T.
  destruct (ref_loop n _ _ _ _ rbuf boff) as [[[[s0 s1] s2] s3] buffer].
  cbn [snd] in *. rewrite T.
  destruct sub as [|[|[|[|]]]]; try lia; cbn [Nat.mul Nat.add];
    rewrite ?Nat.add_0_r; reflexivity.
Qed.

Lemma reference_state sub :
  (sub < 4)%nat ->
  load (fst (reference rstate soff outputSize rbuf boff)) (soff + 16 * sub) 16
  = le_bytes 16 (Nat.iter n (round sub) (load_block rstate (soff + 16 * sub))).
Proof.
  intros S4. unfold fillAes1Rx4_ref. rewrite (chunks outputSize n whole_chunks).
  pose proof (ref_loop_state n (load_block rstate soff) (load_block rstate (soff + 16))
                (load_block rstate (soff + 32)) (load_block rstate (soff + 48))
                rbuf boff) as T.
  destruct (ref_loop n _ _ _ _ rbuf boff) as [[[[s0 s1] s2] s3] buffer].
  cbn [fst] in *. injection T as -> -> -> ->.
  destruct sub as [|[|[|[|]]]]; try lia; cbn [Nat.mul Nat.add]; rewrite ?Nat.add_0_r.
  - erewrite load_ext; [apply load_store_block|].
    intros a A. rewrite !store_block_outside by lia. reflexivity.
  - erewrite load_ext; [apply load_store_block|].
    intros a A. rewrite (store_block_outside _ (soff + 48)),
      (store_block_outside _ (soff + 32)) by lia. reflexivity.
  - erewrite load_ext; [apply load_store_block|].
    intros a A. rewrite (store_block_outside _ (soff + 48)) by lia. reflexivity.
  - apply load_store_block.
Qed.

(** Chunk [j] of the lane, where the kernel put it, is chunk [j] of the
    reference's stream. *)
Lemma chunk_matches strided j :
  (j < n)%nat ->
  load (snd (kernel outputSize strided grid block state out batch_size))
       (fill_slot outputSize strided batch_size (4 * idx) j) 64
  = load (snd (reference rstate soff outputSize rbuf boff)) (boff + 64 * j) 64.
Proof.
  intros J. apply load_eq_pointwise. intros b B.
  pose proof (Nat.div_mod_eq b 16) as E.
  assert (S4 : (b / 16 < 4)%nat) by (apply Nat.Div0.div_lt_upper_bound; lia).
  assert (C : (b mod 16 < 16)%nat) by (apply Nat.mod_upper_bound; lia).
  replace (fill_slot outputSize strided batch_size (4 * idx) j + b)%nat
    with (fill_slot outputSize strided batch_size (4 * idx) j + 16 * (b / 16)
          + b mod 16)%nat by lia.
  replace (boff + 64 * j + b)%nat
    with (boff + 64 * j + 16 * (b / 16) + b mod 16)%nat by lia.
  apply (load_eq_inv _ _ _ _ 16); [|assumption].
  rewrite kernel_block, reference_block by assumption.
  now rewrite seed_block.
Qed.

Lemma state_matches strided :
  load (fst (kernel outputSize strided grid block state out batch_size)) (idx * 64) 64
  = load (fst (reference rstate soff outputSize rbuf boff)) soff 64.
Proof.
  apply load_eq_pointwise. intros b B.
  pose proof (Nat.div_mod_eq b 16) as E.
  assert (S4 : (b / 16 < 4)%nat) by (apply Nat.Div0.div_lt_upper_bound; lia).
  assert (C : (b mod 16 < 16)%nat) by (apply Nat.mod_upper_bound; lia).
  replace (idx * 64 + b)%nat with (idx * 64 + 16 * (b / 16) + b mod 16)%nat by lia.
  replace (soff + b)%nat with (soff + 16 * (b / 16) + b mod 16)%nat by lia.
  apply (load_eq_inv _ _ _ _ 16); [|assumption].
  rewrite kernel_state, reference_state by assumption.
  now rewrite seed_block.
Qed.

Lemma strided_matches :
  deinterleave (snd (kernel outputSize true grid block state out batch_size))
               batch_size idx n
  = load (snd (reference rstate soff outputSize rbuf boff)) boff outputSize.
Proof.
  rewrite whole_chunks at 3. rewrite <- load_chunks. unfold deinterleave.
  apply flat_map_ext_within. intros j I. apply in_seq in I.
  rewrite <- (chunk_matches true) by lia. f_equal.
  unfold fill_slot. destruct (lane_thread 0 ltac:(lia)) as (Q0 & R0 & _).
  rewrite Nat.add_0_r in Q0, R0. rewrite Q0, R0. lia.
Qed.

Lemma contiguous_matches :
  load (snd (kernel outputSize false grid block state out batch_size))
       (idx * outputSize) outputSize
  = load (snd (reference rstate soff outputSize rbuf boff)) boff outputSize.
Proof.
  rewrite whole_chunks at 3 5. rewrite <- !load_chunks.
  apply flat_map_ext_within. intros j I. apply in_seq in I.
  rewrite <- (chunk_matches false) by lia. f_equal.
  unfold fill_slot. destruct (lane_thread 0 ltac:(lia)) as (Q0 & R0 & _).
  rewrite Nat.add_0_r in Q0, R0. rewrite Q0, R0. lia.
Qed.

End Refinement.

End FillProofs.

(** C1, as the code has it: for every lane seed and every region size that
    is a whole number of 64-byte chunks, the output of the fill kernel is
    byte for byte the sequential expansion of the lane's seed.  In the
    interleaved layout (second template argument [true], the scratchpad
    fill) the expansion is what de-interleaving gives: the lane's 64-byte
    chunks read [batch_size] chunks apart.  In the other layout (argument
    [false], the program fill) nothing is interleaved: the expansion is the
    lane's region itself, [outputSize] bytes at [idx * outputSize]. *)
Theorem fill_output_matches_reference
    (aesdec aesenc : Z -> Z -> Z) (key0 key1 key2 key3 : Z)
    (outputSize batch_size grid block idx : nat)
    (state out rstate rbuf : mem) (soff boff : nat) :
  (outputSize mod 64 = 0)%nat ->
  (idx < batch_size)%nat ->
  (batch_size * 4 <= grid * block)%nat ->
  load rstate soff 64 = load state (idx * 64) 64 ->
  let expansion :=
    load (snd (fillAes1Rx4_ref aesdec aesenc key0 key1 key2 key3
                               rstate soff outputSize rbuf boff)) boff outputSize in
  deinterleave
    (snd (fillAes1Rx4_kernel aesdec aesenc key0 key1 key2 key3
                             outputSize true grid block state out batch_size))
    batch_size idx (outputSize / 64)
  = expansion
  /\ load (snd (fillAes1Rx4_kernel aesdec aesenc key0 key1 key2 key3
                                   outputSize false grid block state out batch_size))
          (idx * outputSize) outputSize
     = expansion.
Proof.
  intros W L T S. cbv zeta.
  assert (E : outputSize = (64 * (outputSize / 64))%nat)
    by (apply Nat.Div0.div_exact; exact W).
  split.
  - now apply strided_matches.
  - now apply (contiguous_matches aesdec aesenc key0 key1 key2 key3
                 outputSize (outputSize / 64)).
Qed.

Section Pipeline.

Variables aesdec aesenc : Z -> Z -> Z.
Variables key0 key1 key2 key3 : Z.
Variable initGroupA_registers_kernel : nat -> nat -> mem -> mem -> mem.
Variable hashAes1Rx4_kernel : Z -> Z -> Z -> nat -> nat -> mem -> mem -> nat -> mem.

(** C10: the fill kernel replaces each lane's 64-byte hash state by the
    state the sequential expansion of the same seed leaves, and the next
    stage starts from it.  In a batch of [test_mining] the scratchpad fill
    and the program fill of round 0 are consecutive launches on the same
    hash buffer: after the first, lane [idx]'s state is the reference's
    state after the scratchpad expansion; the second expands that state, not
    the original seed, into the lane's program and again leaves the
    reference's state. *)
Theorem fill_updates_state_in_place
    (scratchpad_size program_size batch_size idx : nat) (REGISTERS_SIZE nonce : Z)
    (rounds : nat) (d : devmem)
    (rstate rbuf1 rbuf2 : mem) (soff boff1 boff2 : nat) :
  (scratchpad_size mod 64 = 0)%nat ->
  (program_size mod 64 = 0)%nat ->
  (batch_size mod 32 = 0)%nat ->
  (idx < batch_size)%nat ->
  load rstate soff 64 = load (d hashes_gpu) (idx * 64) 64 ->
  let fill_scratchpad :=
    Launch (fillAes1Rx4 (Z.of_nat scratchpad_size) true) (Z.of_nat batch_size / 32)
           (32 * 4) hashes_gpu scratchpads_gpu (Z.of_nat batch_size) in
  let fill_program :=
    Launch (fillAes1Rx4 (Z.of_nat program_size) false) (Z.of_nat batch_size / 32)
           (32 * 4) hashes_gpu programs_gpu (Z.of_nat batch_size) in
  let run := device_code aesdec aesenc key0 key1 key2 key3
                         initGroupA_registers_kernel hashAes1Rx4_kernel in
  let d1 := run fill_scratchpad d in
  let d2 := run fill_program d1 in
  let r1 := fillAes1Rx4_ref aesdec aesenc key0 key1 key2 key3
                            rstate soff scratchpad_size rbuf1 boff1 in
  let r2 := fillAes1Rx4_ref aesdec aesenc key0 key1 key2 key3
                            (fst r1) soff program_size rbuf2 boff2 in
  firstn 2 (skipn 1 (batch_launches (Z.of_nat scratchpad_size) (Z.of_nat program_size)
                                    REGISTERS_SIZE (S rounds) (Z.of_nat batch_size) nonce))
  = [fill_scratchpad; fill_program]
  /\ load (d1 hashes_gpu) (idx * 64) 64 = load (fst r1) soff 64
  /\ load (d2 programs_gpu) (idx * program_size) program_size
     = load (snd r2) boff2 program_size
  /\ load (d2 hashes_gpu) (idx * 64) 64 = load (fst r2) soff 64.
Proof.
  intros WS WP A L S. cbv zeta.
  assert (ES : scratchpad_size = (64 * (scratchpad_size / 64))%nat)
    by (apply Nat.Div0.div_exact; exact WS).
  assert (EP : program_size = (64 * (program_size / 64))%nat)
    by (apply Nat.Div0.div_exact; exact WP).
  assert (G : Z.to_nat (Z.of_nat batch_size / 32) = (batch_size / 32)%nat).
  { change 32 with (Z.of_nat 32). now rewrite <- Nat2Z.inj_div, Nat2Z.id. }
  assert (T : (batch_size * 4 <= batch_size / 32 * 128)%nat).
  { pose proof (Nat.Div0.div_exact batch_size 32) as [_ X]. specialize (X A). lia. }
  unfold device_code. cbn [l_kernel l_grid l_block l_arg0 l_arg1 l_scalar].
  rewrite !Nat2Z.id, G. change (Z.to_nat (32 * 4)) with 128%nat.
  destruct (fillAes1Rx4_kernel aesdec aesenc key0 key1 key2 key3 scratchpad_size true
              (batch_size / 32) 128 (d hashes_gpu) (d scratchpads_gpu) batch_size)
    as [st1 out1] eqn:K1.
  cbn [set_buf buffer_eqb].
  destruct (fillAes1Rx4_kernel aesdec aesenc key0 key1 key2 key3 program_size false
              (batch_size / 32) 128 st1 (d programs_gpu) batch_size)
    as [st2 out2] eqn:K2.
  cbn [set_buf buffer_eqb].
  assert (S1 : load st1 (idx * 64) 64
               = load (fst (fillAes1Rx4_ref aesdec aesenc key0 key1 key2 key3
                              rstate soff scratchpad_size rbuf1 boff1)) soff 64).
  { change st1 with (fst (st1, out1)). rewrite <- K1.
    now apply (state_matches aesdec aesenc key0 key1 key2 key3
                 scratchpad_size (scratchpad_size / 64)). }
  split; [reflexivity|]. split; [exact S1|].
  split.
  - change out2 with (snd (st2, out2)). rewrite <- K2.
    now apply (contiguous_matches aesdec aesenc key0 key1 key2 key3
                 program_size (program_size / 64)).
  - change st2 with (fst (st2, out2)). rewrite <- K2.
    now apply (state_matches aesdec aesenc key0 key1 key2 key3
                 program_size (program_size / 64)).
Qed.

End Pipeline.

(** Lane 1 of the harness's batch of 128, on a region of two chunks. *)
Lemma fill_output_matches_reference_witness :
  let expansion :=
    load (snd (fillAes1Rx4_ref Example.mix Example.mix 1 2 3 4
                               Example.seeds 64 128 zero_mem 0)) 0 128 in
  deinterleave
    (snd (fillAes1Rx4_kernel Example.mix Example.mix 1 2 3 4
                             128 true 4 128 Example.seeds zero_mem 128))
    128 1 (128 / 64)
  = expansion
  /\ load (snd (fillAes1Rx4_kernel Example.mix Example.mix 1 2 3 4
                                   128 false 4 128 Example.seeds zero_mem 128))
          (1 * 128) 128
     = expansion.
Proof.
  apply (fill_output_matches_reference Example.mix Example.mix 1 2 3 4
           128 128 4 128 1 Example.seeds zero_mem Example.seeds zero_mem 64 0).
  - reflexivity.
  - vm_compute; lia.
  - vm_compute; lia.
  - reflexivity.
Defined.

(** The program fill as [tests] launches it (128 lanes, layout [false]) on a
    program of 2176 bytes: the bytes that de-interleaving would take for the
    start of lane 1's program are bytes 64 to 79 of lane 0's, not the start
    of the expansion of lane 1's seed. *)
Lemma program_buffer_is_not_interleaved :
  let programs :=
    snd (fillAes1Rx4_kernel Example.mix Example.mix 1 2 3 4
                            2176 false 4 128 Example.seeds zero_mem 128) in
  let lane0 :=
    snd (fillAes1Rx4_ref Example.mix Example.mix 1 2 3 4
                         Example.seeds 0 2176 zero_mem 0) in
  let lane1 :=
    snd (fillAes1Rx4_ref Example.mix Example.mix 1 2 3 4
                         Example.seeds 64 2176 zero_mem 0) in
  firstn 16 (deinterleave programs 128 1 (2176 / 64))
  = [35; 90; 153; 216; 23; 87; 150; 213; 20; 84; 147; 210; 17; 81; 144; 207]
  /\ firstn 16 (load lane1 0 2176)
     = [75; 96; 117; 138; 159; 180; 201; 222; 243; 8; 27; 48; 69; 90; 111; 132]
  /\ load lane0 64 16
     = [35; 90; 153; 216; 23; 87; 150; 213; 20; 84; 147; 210; 17; 81; 144; 207].
Proof. lazy. auto. Qed.

Lemma fill_updates_state_in_place_witness :
  let d : devmem := fun _ => Example.seeds in
  let fill_scratchpad :=
    Launch (fillAes1Rx4 (Z.of_nat (Z.to_nat Example.SCRATCHPAD_SIZE)) true) (Z.of_nat 128 / 32)
           (32 * 4) hashes_gpu scratchpads_gpu (Z.of_nat 128) in
  let fill_program :=
    Launch (fillAes1Rx4 (Z.of_nat 2176) false) (Z.of_nat 128 / 32)
           (32 * 4) hashes_gpu programs_gpu (Z.of_nat 128) in
  let run := device_code Example.mix Example.mix 1 2 3 4
                         (fun _ _ _ regs => regs) (fun _ _ _ _ _ _ regs _ => regs) in
  let d1 := run fill_scratchpad d in
  let d2 := run fill_program d1 in
  let r1 := fillAes1Rx4_ref Example.mix Example.mix 1 2 3 4
                            Example.seeds 320 (Z.to_nat Example.SCRATCHPAD_SIZE) zero_mem 0 in
  let r2 := fillAes1Rx4_ref Example.mix Example.mix 1 2 3 4
                            (fst r1) 320 2176 zero_mem 0 in
  load (d1 hashes_gpu) (5 * 64) 64 = load (fst r1) 320 64
  /\ load (d2 programs_gpu) (5 * 2176) 2176 = load (snd r2) 0 2176
  /\ load (d2 hashes_gpu) (5 * 64) 64 = load (fst r2) 320 64.
Proof.
  refine (proj2 (fill_updates_state_in_place Example.mix Example.mix 1 2 3 4
                   (fun _ _ _ regs => regs) (fun _ _ _ _ _ _ regs _ => regs)
                   (Z.to_nat Example.SCRATCHPAD_SIZE) 2176 128 5 Example.REGISTERS_SIZE 0 7
                   (fun _ => Example.seeds) Example.seeds zero_mem zero_mem 320 0 0
                   _ _ _ _ _)).
  - vm_compute; reflexivity.
  - vm_compute; reflexivity.
  - vm_compute; reflexivity.
  - vm_compute; lia.
  - reflexivity.
Defined.

(** ** The harness on the modelled device code *)

Lemma memcmp_eq_true m1 o1 m2 o2 n :
  load m1 o1 n = load m2 o2 n -> memcmp_eq m1 o1 m2 o2 n = true.
Proof.
  intros E. unfold memcmp_eq. apply forallb_forall. intros k I.
  apply in_seq in I. apply Z.eqb_eq. apply (load_eq_inv _ _ _ _ n); [exact E | lia].
Qed.

Lemma copy_inside dst src size a :
  (a < Z.to_nat size)%nat -> copy dst src size a = src a.
Proof. intros H. unfold copy. apply Nat.ltb_lt in H. now rewrite H. Qed.

Lemma for_each_seq {R : Type} (P : nat -> host -> Prop) (body : nat -> M R unit) count :
  forall first s,
  P first s ->
  (forall i s, (first <= i < first + count)%nat -> P i s ->
               exists s', body i s = (Next tt, s') /\ P (S i) s') ->
  exists s', for_each (seq first count) body s = (Next tt, s') /\ P (first + count)%nat s'.
Proof.
  induction count as [|count IH]; intros first s H0 Hstep.
  - exists s. rewrite Nat.add_0_r. now split.
  - destruct (Hstep first s ltac:(lia) H0) as (s1 & B & H1).
    destruct (IH (S first) s1 H1) as (s2 & F & H2).
    { intros i s' I. apply Hstep. lia. }
    exists s2. split.
    + cbn [seq for_each]. now rewrite (bind_next _ _ _ _ _ B).
    + now replace (first + S count)%nat with (S first + count)%nat by lia.
Qed.

Lemma for_each_checks {R : Type} (c : nat -> bool) (msg : string) (r : R) l s :
  (forall j, In j l -> c j = true) ->
  for_each l (fun j => fail_if (negb (c j)) msg r) s = (Next tt, s).
Proof.
  induction l as [|j l IH]; intros H; [reflexivity|].
  cbn [for_each]. unfold bind, fail_if. rewrite (H j) by now left.
  cbn [negb ret]. apply IH. intros; apply H; now right.
Qed.

Section ReferenceFrame.

Variables aesdec aesenc : Z -> Z -> Z.
Variables key0 key1 key2 key3 : Z.

Lemma reference_state_frame rstate soff size rbuf boff a :
  (a < soff \/ soff + 64 <= a)%nat ->
  fst (fillAes1Rx4_ref aesdec aesenc key0 key1 key2 key3 rstate soff size rbuf boff) a
  = rstate a.
Proof.
  intros H. unfold fillAes1Rx4_ref.
  destruct (fill_ref_loop _ _ _ _ _ _ _ _ _ _ _ _ _) as [[[[s0 s1] s2] s3] buffer].
  cbn [fst]. rewrite !store_block_outside by lia. reflexivity.
Qed.

Lemma reference_buffer_frame rstate soff size rbuf boff a :
  (a < boff \/ boff + 64 * (size / 64) <= a)%nat ->
  snd (fillAes1Rx4_ref aesdec aesenc key0 key1 key2 key3 rstate soff size rbuf boff) a
  = rbuf a.
Proof.
  intros H. unfold fillAes1Rx4_ref.
  pose proof (ref_loop_frame aesdec aesenc key0 key1 key2 key3 (size / 64)
                (load_block rstate soff) (load_block rstate (soff + 16))
                (load_block rstate (soff + 32)) (load_block rstate (soff + 48))
                rbuf boff a H) as F.
  destruct (fill_ref_loop _ _ _ _ _ _ _ _ _ _ _ _ _) as [[[[s0 s1] s2] s3] buffer].
  exact F.
Qed.

End ReferenceFrame.

Section HarnessFill.

Variables SCRATCHPAD_SIZE PROGRAM_SIZE : Z.
Variable env : cuda_env.
Variables aesdec aesenc : Z -> Z -> Z.
Variables key0 key1 key2 key3 : Z.
Variable initGroupA_registers_kernel : nat -> nat -> mem -> mem -> mem.
Variable hashAes1Rx4_kernel : Z -> Z -> Z -> nat -> nat -> mem -> mem -> nat -> mem.

Hypothesis launches_succeed : forall n, launch_status env n = cudaSuccess.
Hypothesis syncs_succeed : forall n, sync_status env n = cudaSuccess.
Hypothesis memcpys_succeed : forall n, memcpy_status env n = cudaSuccess.

Local Abbreviation gpu :=
  (device_code aesdec aesenc key0 key1 key2 key3
               initGroupA_registers_kernel hashAes1Rx4_kernel).

(** The program test of [tests] passes on the modelled kernel: the programs
    it reads back contiguously are the reference's. *)
Lemma test_fill_programs_passes (s : host) :
  0 <= PROGRAM_SIZE -> PROGRAM_SIZE * 128 < 2 ^ 64 ->
  (Z.to_nat PROGRAM_SIZE mod 64 = 0)%nat ->
  (forall i, (i < 128)%nat ->
             load (hst s hash2) (i * 64) 64 = load (dev s hash_gpu) (i * 64) 64) ->
  exists s',
    test_fill_programs PROGRAM_SIZE env gpu aesdec aesenc key0 key1 key2 key3 s
    = (Next tt, s')
    /\ trace s'
       = trace s
         ++ [ EvLaunch (Launch (fillAes1Rx4 PROGRAM_SIZE false) 4 128
                               hash_gpu programs_gpu 128);
              EvDeviceSynchronize;
              EvMemcpyDtoH hash hash_gpu sizeof_hash;
              EvMemcpyDtoH programs programs_gpu (PROGRAM_SIZE * 128);
              EvPrintf "fillAes1Rx4 (programs) test passed\n" [] ].
Proof.
  intros P0 P64 W Seeds.
  set (PS := Z.to_nat PROGRAM_SIZE) in *.
  assert (E : PS = (64 * (PS / 64))%nat) by (apply Nat.Div0.div_exact; exact W).
  set (K := fillAes1Rx4_kernel aesdec aesenc key0 key1 key2 key3 PS false 4 128
              (dev s hash_gpu) (dev s programs_gpu) 128).
  assert (D : gpu (Launch (fillAes1Rx4 PROGRAM_SIZE false)
                          (Z.of_nat NUM_SCRATCHPADS_TEST / 32) (32 * 4)
                          hash_gpu programs_gpu (Z.of_nat NUM_SCRATCHPADS_TEST)) (dev s)
              = set_buf (set_buf (dev s) hash_gpu (fst K)) programs_gpu (snd K)).
  { unfold device_code. cbn [l_kernel l_grid l_block l_arg0 l_arg1 l_scalar].
    change (Z.to_nat (Z.of_nat NUM_SCRATCHPADS_TEST / 32)) with 4%nat.
    change (Z.to_nat (32 * 4)) with 128%nat.
    change (Z.to_nat (Z.of_nat NUM_SCRATCHPADS_TEST)) with 128%nat.
    fold PS. fold K. now destruct K. }
  assert (SZ : Z.to_nat (size_t (PROGRAM_SIZE * Z.of_nat NUM_SCRATCHPADS_TEST))
               = (PS * 128)%nat).
  { unfold size_t. change (Z.of_nat NUM_SCRATCHPADS_TEST) with 128.
    rewrite Z.mod_small by lia. subst PS. rewrite Z2Nat.inj_mul by lia. reflexivity. }
  unfold test_fill_programs. fold PS.
  set (body := fun i : nat => _).
  unfold bind at 1. unfold launch_kernel.
  cbn [is_success emit trace last_error n_meminfo n_memcpy n_launch n_sync live dev hst].
  rewrite launches_succeed, D.
  cbn [is_success emit trace last_error n_meminfo n_memcpy n_launch n_sync live dev hst].
  unfold bind at 1. unfold sync_checked, bind at 1. unfold cudaDeviceSynchronize.
  cbn [is_success emit trace last_error n_meminfo n_memcpy n_launch n_sync live dev hst].
  rewrite syncs_succeed.
  cbn [is_success negb fail_if ret].
  unfold bind at 1. unfold memcpy_to_host at 1, bind at 1. unfold cudaMemcpyDeviceToHost.
  cbn [is_success emit trace last_error n_meminfo n_memcpy n_launch n_sync live dev hst].
  rewrite memcpys_succeed.
  cbn [is_success negb fail_if ret].
  unfold bind at 1. unfold memcpy_to_host at 1, bind at 1. unfold cudaMemcpyDeviceToHost.
  cbn [is_success emit trace last_error n_meminfo n_memcpy n_launch n_sync live dev hst].
  rewrite memcpys_succeed.
  cbn [is_success negb fail_if ret set_buf buffer_eqb set_host hostbuf_eqb].
  match goal with
  | |- exists s', (for_each _ _ ;; _) ?st = _ /\ _ => set (s4 := st)
  end.
  set (P := fun (i : nat) (st : host) =>
              trace st = trace s4
              /\ hst st hash = copy (hst s hash) (fst K) sizeof_hash
              /\ (forall k, (i <= k < 128)%nat ->
                            load (hst st hash2) (k * 64) 64
                            = load (dev s hash_gpu) (k * 64) 64)
              /\ (forall a, (a < PS * 128)%nat -> hst st programs a = snd K a)).
  destruct (for_each_seq P body 128 0 s4) as (s5 & F & T5 & _).
  { repeat split.
    - intros k I. apply Seeds. lia.
    - intros a A. subst s4. cbn [hst set_host hostbuf_eqb].
      apply copy_inside. rewrite SZ. exact A. }
  { intros i st I (T & H & S2 & Pr).
    unfold body. unfold bind at 1. unfold modify_host at 1.
    unfold bind at 1. unfold get_host at 1.
    cbn [hst]. unfold ref_fill.
    destruct (fillAes1Rx4_ref aesdec aesenc key0 key1 key2 key3 (hst st hash2)
                (i * 64) PS (hst st programs) (PS * (NUM_SCRATCHPADS_TEST + i)))
      as [state' buffer'] eqn:R.
    cbn [set_host hostbuf_eqb].
    assert (C1 : memcmp_eq (hst st hash) (i * 64) state' (i * 64) 64 = true).
    { apply memcmp_eq_true. rewrite H.
      transitivity (load (fst K) (i * 64) 64).
      - apply load_eq_pointwise. intros b B. apply copy_inside.
        change (Z.to_nat sizeof_hash) with (128 * 64)%nat. lia.
      - change state' with (fst (state', buffer')). rewrite <- R.
        apply (state_matches aesdec aesenc key0 key1 key2 key3 PS (PS / 64));
          [exact E | lia | lia | apply S2; lia]. }
    assert (C2 : memcmp_eq buffer' (i * PS) buffer'
                   ((NUM_SCRATCHPADS_TEST + i) * PS) PS = true).
    { apply memcmp_eq_true.
      transitivity (load (snd K) (i * PS) PS).
      - apply load_eq_pointwise. intros b B.
        change buffer' with (snd (state', buffer')). rewrite <- R.
        rewrite reference_buffer_frame by (unfold NUM_SCRATCHPADS_TEST; nia).
        apply Pr. nia.
      - change buffer' with (snd (state', buffer')). rewrite <- R.
        replace ((NUM_SCRATCHPADS_TEST + i) * PS)%nat
          with (PS * (NUM_SCRATCHPADS_TEST + i))%nat by lia.
        apply (contiguous_matches aesdec aesenc key0 key1 key2 key3 PS (PS / 64));
          [exact E | lia | lia | apply S2; lia]. }
    unfold bind, fail_if. rewrite C1, C2. cbn [negb ret].
    eexists. split; [reflexivity|].
    repeat split; cbn [trace hst set_host hostbuf_eqb].
    - exact T.
    - exact H.
    - intros k Kk. rewrite <- S2 by lia.
      apply load_eq_pointwise. intros b B.
      change state' with (fst (state', buffer')). rewrite <- R.
      apply reference_state_frame. lia.
    - intros a A. rewrite <- Pr by exact A.
      change buffer' with (snd (state', buffer')). rewrite <- R.
      apply reference_buffer_frame. unfold NUM_SCRATCHPADS_TEST. nia. }
  eexists. split.
  - rewrite (bind_next _ _ _ _ _ F). reflexivity.
  - cbn [emit trace]. rewrite T5. subst s4. cbn [trace].
    unfold size_t. change (Z.of_nat NUM_SCRATCHPADS_TEST) with 128.
    rewrite Z.mod_small by lia. rewrite <- !app_assoc. reflexivity.
Qed.


Lemma steps_of_whole_chunks size n j :
  size = (64 * n)%nat -> In j (steps size 64) -> exists q, (q < n)%nat /\ j = (q * 64)%nat.
Proof.
  intros -> I. unfold steps in I. apply in_map_iff in I. destruct I as (q & <- & I).
  apply in_seq in I. exists q. split; [|reflexivity].
  assert ((64 * n + (64 - 1)) / 64 = n)%nat.
  { symmetry. apply (Nat.div_unique _ 64 n 63); lia. }
  lia.
Qed.

(** The scratchpad test of [tests] passes on the modelled kernel: the chunks
    it reads back at a stride of the batch size are the reference's. *)
Lemma test_fill_scratchpads_passes (s : host) :
  0 <= SCRATCHPAD_SIZE -> SCRATCHPAD_SIZE * 128 < 2 ^ 64 ->
  (Z.to_nat SCRATCHPAD_SIZE mod 64 = 0)%nat ->
  (forall i, (i < 128)%nat ->
             load (hst s hash2) (i * 64) 64 = load (dev s hash_gpu) (i * 64) 64) ->
  exists s',
    test_fill_scratchpads SCRATCHPAD_SIZE env gpu aesdec aesenc key0 key1 key2 key3 s
    = (Next tt, s')
    /\ trace s'
       = trace s
         ++ [ EvLaunch (Launch (fillAes1Rx4 SCRATCHPAD_SIZE true) 4 128
                               hash_gpu scratchpads_gpu 128);
              EvDeviceSynchronize;
              EvMemcpyDtoH hash hash_gpu sizeof_hash;
              EvMemcpyDtoH scratchpads scratchpads_gpu (SCRATCHPAD_SIZE * 128);
              EvPrintf "fillAes1Rx4 (scratchpads) test passed\n" [] ].
Proof.
  intros P0 P64 W Seeds.
  set (SP := Z.to_nat SCRATCHPAD_SIZE) in *.
  assert (E : SP = (64 * (SP / 64))%nat) by (apply Nat.Div0.div_exact; exact W).
  set (K := fillAes1Rx4_kernel aesdec aesenc key0 key1 key2 key3 SP true 4 128
              (dev s hash_gpu) (dev s scratchpads_gpu) 128).
  assert (D : gpu (Launch (fillAes1Rx4 SCRATCHPAD_SIZE true)
                          (Z.of_nat NUM_SCRATCHPADS_TEST / 32) (32 * 4)
                          hash_gpu scratchpads_gpu (Z.of_nat NUM_SCRATCHPADS_TEST)) (dev s)
              = set_buf (set_buf (dev s) hash_gpu (fst K)) scratchpads_gpu (snd K)).
  { unfold device_code. cbn [l_kernel l_grid l_block l_arg0 l_arg1 l_scalar].
    change (Z.to_nat (Z.of_nat NUM_SCRATCHPADS_TEST / 32)) with 4%nat.
    change (Z.to_nat (32 * 4)) with 128%nat.
    change (Z.to_nat (Z.of_nat NUM_SCRATCHPADS_TEST)) with 128%nat.
    fold SP. fold K. now destruct K. }
  assert (SZ : Z.to_nat (size_t (SCRATCHPAD_SIZE * Z.of_nat NUM_SCRATCHPADS_TEST))
               = (SP * 128)%nat).
  { unfold size_t. change (Z.of_nat NUM_SCRATCHPADS_TEST) with 128.
    rewrite Z.mod_small by lia. subst SP. rewrite Z2Nat.inj_mul by lia. reflexivity. }
  unfold test_fill_scratchpads. fold SP.
  set (body := fun i : nat => _).
  unfold bind at 1. unfold launch_kernel.
  cbn [is_success emit trace last_error n_meminfo n_memcpy n_launch n_sync live dev hst].
  rewrite launches_succeed, D.
  cbn [is_success emit trace last_error n_meminfo n_memcpy n_launch n_sync live dev hst].
  unfold bind at 1. unfold sync_checked, bind at 1. unfold cudaDeviceSynchronize.
  cbn [is_success emit trace last_error n_meminfo n_memcpy n_launch n_sync live dev hst].
  rewrite syncs_succeed.
  cbn [is_success negb fail_if ret].
  unfold bind at 1. unfold memcpy_to_host at 1, bind at 1. unfold cudaMemcpyDeviceToHost.
  cbn [is_success emit trace last_error n_meminfo n_memcpy n_launch n_sync live dev hst].
  rewrite memcpys_succeed.
  cbn [is_success negb fail_if ret].
  unfold bind at 1. unfold memcpy_to_host at 1, bind at 1. unfold cudaMemcpyDeviceToHost.
  cbn [is_success emit trace last_error n_meminfo n_memcpy n_launch n_sync live dev hst].
  rewrite memcpys_succeed.
  cbn [is_success negb fail_if ret set_buf buffer_eqb set_host hostbuf_eqb].
  match goal with
  | |- exists s', (for_each _ _ ;; _) ?st = _ /\ _ => set (s4 := st)
  end.
  set (P := fun (i : nat) (st : host) =>
              trace st = trace s4
              /\ hst st hash = copy (hst s hash) (fst K) sizeof_hash
              /\ (forall k, (i <= k < 128)%nat ->
                            load (hst st hash2) (k * 64) 64
                            = load (dev s hash_gpu) (k * 64) 64)
              /\ (forall a, (a < SP * 128)%nat -> hst st scratchpads a = snd K a)).
  destruct (for_each_seq P body 128 0 s4) as (s5 & F & T5 & _).
  { repeat split.
    - intros k I. apply Seeds. lia.
    - intros a A. subst s4. cbn [hst set_host hostbuf_eqb].
      apply copy_inside. rewrite SZ. exact A. }
  { intros i st I (T & H & S2 & Pr).
    unfold body. unfold bind at 1. unfold modify_host at 1.
    unfold bind at 1. unfold get_host at 1.
    cbn [hst]. unfold ref_fill.
    destruct (fillAes1Rx4_ref aesdec aesenc key0 key1 key2 key3 (hst st hash2)
                (i * 64) SP (hst st scratchpads) (SP * (NUM_SCRATCHPADS_TEST + i)))
      as [state' buffer'] eqn:R.
    cbn [set_host hostbuf_eqb].
    assert (C1 : memcmp_eq (hst st hash) (i * 64) state' (i * 64) 64 = true).
    { apply memcmp_eq_true. rewrite H.
      transitivity (load (fst K) (i * 64) 64).
      - apply load_eq_pointwise. intros b B. apply copy_inside.
        change (Z.to_nat sizeof_hash) with (128 * 64)%nat. lia.
      - change state' with (fst (state', buffer')). rewrite <- R.
        apply (state_matches aesdec aesenc key0 key1 key2 key3 SP (SP / 64));
          [exact E | lia | lia | apply S2; lia]. }
    unfold bind at 1. unfold fail_if at 1. rewrite C1. cbn [negb ret].
    rewrite for_each_checks.
    - eexists. split; [reflexivity|].
      repeat split; cbn [trace hst set_host hostbuf_eqb].
      + exact T.
      + exact H.
      + intros k Kk. rewrite <- S2 by lia.
        apply load_eq_pointwise. intros b B.
        change state' with (fst (state', buffer')). rewrite <- R.
        apply reference_state_frame. lia.
      + intros a A. rewrite <- Pr by exact A.
        change buffer' with (snd (state', buffer')). rewrite <- R.
        apply reference_buffer_frame. unfold NUM_SCRATCHPADS_TEST. nia.
    - intros j J. destruct (steps_of_whole_chunks SP (SP / 64) j E J) as (q & Q & ->).
      apply memcmp_eq_true.
      transitivity (load (snd K) (i * 64 + q * 64 * NUM_SCRATCHPADS_TEST) 64).
      + apply load_eq_pointwise. intros b B.
        change buffer' with (snd (state', buffer')). rewrite <- R.
        rewrite reference_buffer_frame by (unfold NUM_SCRATCHPADS_TEST; nia).
        apply Pr. unfold NUM_SCRATCHPADS_TEST. nia.
      + change buffer' with (snd (state', buffer')). rewrite <- R.
        replace (SP * (NUM_SCRATCHPADS_TEST + i) + q * 64)%nat
          with (SP * (NUM_SCRATCHPADS_TEST + i) + 64 * q)%nat by lia.
        rewrite <- (chunk_matches aesdec aesenc key0 key1 key2 key3 SP (SP / 64)
                      128 4 128 i (dev s hash_gpu) (dev s scratchpads_gpu)
                      (hst st hash2) (hst st scratchpads) (i * 64)
                      (SP * (NUM_SCRATCHPADS_TEST + i)) E ltac:(lia) ltac:(lia)
                      ltac:(apply S2; lia) true q Q).
        fold K. f_equal. unfold fill_slot, NUM_SCRATCHPADS_TEST.
        rewrite (Nat.mul_comm 4 i), Nat.div_mul, Nat.Div0.mod_mul by lia. lia. }
  eexists. split.
  - rewrite (bind_next _ _ _ _ _ F). reflexivity.
  - cbn [emit trace]. rewrite T5. subst s4. cbn [trace].
    unfold size_t. change (Z.of_nat NUM_SCRATCHPADS_TEST) with 128.
    rewrite Z.mod_small by lia. rewrite <- !app_assoc. reflexivity.
Qed.

End HarnessFill.

Section HarnessHash.

Variable REGISTERS_SIZE : Z.
Variable env : cuda_env.
Variables aesdec aesenc : Z -> Z -> Z.
Variables key0 key1 key2 key3 : Z.
Variable initGroupA_registers_kernel : nat -> nat -> mem -> mem -> mem.
Variable hashAes1Rx4_kernel : Z -> Z -> Z -> nat -> nat -> mem -> mem -> nat -> mem.

Hypothesis launches_succeed : forall n, launch_status env n = cudaSuccess.
Hypothesis syncs_succeed : forall n, sync_status env n = cudaSuccess.
Hypothesis memcpys_succeed : forall n, memcpy_status env n = cudaSuccess.

Local Abbreviation gpu :=
  (device_code aesdec aesenc key0 key1 key2 key3
               initGroupA_registers_kernel hashAes1Rx4_kernel).

Lemma set_nonce_load m1 m2 nonce :
  (forall a, (a < 76)%nat -> (a < 39 \/ 43 <= a)%nat -> m1 a = m2 a) ->
  load (set_nonce m1 nonce) 0 76 = load (set_nonce m2 nonce) 0 76.
Proof.
  intros H. apply load_ext. intros a A. unfold set_nonce, nonce_offset.
  destruct (Nat.lt_ge_cases a 39) as [L|L];
    [|destruct (Nat.lt_ge_cases a 43) as [L'|L']].
  - rewrite !store_outside by (cbn; lia). apply H; lia.
  - rewrite !store_inside by (cbn; lia). reflexivity.
  - rewrite !store_outside by (cbn; lia). apply H; lia.
Qed.

(** The first test of [tests] passes on the modelled kernel, whatever the
    nonce field of the template held when it was uploaded. *)
Lemma test_blake2b_initial_hash_passes (s : host) :
  (forall a, (a < 76)%nat -> (a < 39 \/ 43 <= a)%nat ->
             hst s blockTemplate a = dev s block_template_gpu a) ->
  exists s',
    test_blake2b_initial_hash env gpu s = (Next tt, s')
    /\ trace s'
       = trace s
         ++ [ EvLaunch (Launch (blake2b_initial_hash sizeof_blockTemplate) 4 32
                               hash_gpu block_template_gpu 0);
              EvDeviceSynchronize;
              EvMemcpyDtoH hash hash_gpu sizeof_hash;
              EvPrintf "blake2b_initial_hash test passed\n" [] ].
Proof.
  intros Tm.
  set (K := Kernels.blake2b_initial_hash 76 4 32 (dev s hash_gpu)
              (dev s block_template_gpu) 0).
  set (digest := fun k : nat =>
                   Blake2b.blake2b 64
                     (load (set_nonce (dev s block_template_gpu) (Z.of_nat k)) 0 76)).
  assert (KL : forall k, (k < 128)%nat -> load K (k * 64) 64 = digest k).
  { intros k Hk. unfold K, Kernels.blake2b_initial_hash.
    rewrite (lanes_lookup (Kernels.initial_hash_lane 76 (dev s block_template_gpu) 0) 64).
    - unfold Kernels.initial_hash_lane, digest, uint32_t.
      rewrite Z.add_0_l, Z.mod_small; [reflexivity|].
      change (2 ^ 32) with 4294967296. lia.
    - intros g. apply blake2b_length. lia.
    - apply seq_NoDup.
    - apply in_seq. cbn. lia. }
  unfold test_blake2b_initial_hash.
  set (body := fun i : nat => _).
  unfold bind at 1. unfold launch_kernel.
  cbn [is_success emit trace last_error n_meminfo n_memcpy n_launch n_sync live dev hst].
  rewrite launches_succeed.
  cbn [is_success emit trace last_error n_meminfo n_memcpy n_launch n_sync live dev hst].
  unfold bind at 1. unfold sync_checked, bind at 1. unfold cudaDeviceSynchronize.
  cbn [is_success emit trace last_error n_meminfo n_memcpy n_launch n_sync live dev hst].
  rewrite syncs_succeed.
  cbn [is_success negb fail_if ret].
  unfold bind at 1. unfold memcpy_to_host at 1, bind at 1. unfold cudaMemcpyDeviceToHost.
  cbn [is_success emit trace last_error n_meminfo n_memcpy n_launch n_sync live dev hst].
  rewrite memcpys_succeed.
  cbn [is_success negb fail_if ret].
  unfold device_code at 1.
  cbn [l_kernel l_grid l_block l_arg0 l_arg1 l_scalar set_buf buffer_eqb].
  change (Z.to_nat sizeof_blockTemplate) with 76%nat.
  change (Z.to_nat (Z.of_nat NUM_SCRATCHPADS_TEST / 32)) with 4%nat.
  change (Z.to_nat 32) with 32%nat.
  fold K.
  match goal with
  | |- exists s', (for_each _ _ ;; _) ?st = _ /\ _ => set (s4 := st)
  end.
  set (P := fun (i : nat) (st : host) =>
              trace st = trace s4
              /\ hst st hash = copy (hst s hash) K sizeof_hash
              /\ (forall a, (a < 76)%nat -> (a < 39 \/ 43 <= a)%nat ->
                            hst st blockTemplate a = dev s block_template_gpu a)
              /\ (forall k, (k < i)%nat -> load (hst st hash2) (k * 64) 64 = digest k)).
  destruct (for_each_seq P body NUM_SCRATCHPADS_TEST 0 s4) as (s5 & F & T5 & H5 & _ & D5).
  { repeat split.
    - exact Tm.
    - intros k Hk. lia. }
  { intros i st I (T & H & B & Dg).
    unfold body, bind, modify_host.
    cbn [trace last_error n_meminfo n_memcpy n_launch n_sync live dev hst
         set_host hostbuf_eqb].
    eexists. split; [reflexivity|].
    cbn [trace last_error n_meminfo n_memcpy n_launch n_sync live dev hst
         set_host hostbuf_eqb].
    assert (L : load (set_nonce (hst st blockTemplate) (Z.of_nat i)) 0 76
                = load (set_nonce (dev s block_template_gpu) (Z.of_nat i)) 0 76)
      by (apply set_nonce_load; exact B).
    repeat split; cbn [trace hst set_host hostbuf_eqb].
    - exact T.
    - exact H.
    - intros a A1 A2. unfold set_nonce, nonce_offset.
      rewrite store_outside by (cbn; lia). now apply B.
    - intros k Hk. change (Z.to_nat sizeof_blockTemplate) with 76%nat. rewrite L.
      fold (digest i).
      assert (LD : forall g, List.length (digest g) = 64%nat)
        by (intros g; apply blake2b_length; lia).
      destruct (Nat.eq_dec k i) as [->|Ne].
      + rewrite <- (LD i) at 2. apply load_store.
      + rewrite <- (Dg k) by lia. apply load_ext. intros a A.
        apply store_outside. rewrite LD. lia. }
  unfold bind at 1. rewrite F.
  unfold bind at 1. unfold get_host.
  assert (C : memcmp_eq (hst s5 hash) 0 (hst s5 hash2) 0 (Z.to_nat sizeof_hash) = true).
  { apply memcmp_eq_true. change (Z.to_nat sizeof_hash) with (128 * 64)%nat.
    apply load_eq_pointwise. intros b B.
    pose proof (Nat.div_mod_eq b 64) as E.
    assert (Q : (b / 64 < 128)%nat) by (apply Nat.Div0.div_lt_upper_bound; lia).
    assert (R : (b mod 64 < 64)%nat) by (apply Nat.mod_upper_bound; lia).
    rewrite H5, copy_inside by (change (Z.to_nat sizeof_hash) with (128 * 64)%nat; lia).
    replace (0 + b)%nat with (b / 64 * 64 + b mod 64)%nat by lia.
    apply (load_eq_inv _ _ _ _ 64); [|exact R].
    rewrite KL by exact Q. symmetry. apply D5. exact Q. }
  unfold bind, fail_if. rewrite C. cbn [negb ret].
  eexists. split; [reflexivity|].
  cbn [printf tell emit trace]. rewrite T5. subst s4. cbn [trace].
  rewrite <- !app_assoc. reflexivity.
Qed.

(** The register-hash tests of [tests] pass on the modelled kernel for
    either width, once the reference registers are the device's. *)
Lemma test_blake2b_hash_registers_passes (outlen : nat) (failed passed : string)
    (s : host) :
  (outlen <= 64)%nat ->
  last_error s = cudaSuccess ->
  (forall i, (i < 128)%nat ->
             load (hst s registers2) (i * Z.to_nat REGISTERS_SIZE) (Z.to_nat REGISTERS_SIZE)
             = load (dev s registers_gpu) (i * Z.to_nat REGISTERS_SIZE)
                    (Z.to_nat REGISTERS_SIZE)) ->
  exists s',
    test_blake2b_hash_registers REGISTERS_SIZE env gpu outlen failed passed s
    = (Next tt, s')
    /\ trace s'
       = trace s
         ++ [ EvLaunch (Launch (blake2b_hash_registers REGISTERS_SIZE (Z.of_nat outlen))
                               4 32 hash_gpu registers_gpu 0);
              EvGetLastError;
              EvMemcpyDtoH hash hash_gpu sizeof_hash;
              EvPrintf passed [] ].
Proof.
  intros W LE Regs.
  set (RS := Z.to_nat REGISTERS_SIZE) in *.
  set (K := Kernels.blake2b_hash_registers RS outlen 4 32 (dev s hash_gpu)
              (dev s registers_gpu)).
  set (digest := fun k : nat => Blake2b.blake2b outlen (load (dev s registers_gpu) (k * RS) RS)).
  assert (LD : forall g, List.length (digest g) = outlen)
    by (intros g; apply blake2b_length; exact W).
  assert (KL : forall k, (k < 128)%nat -> load K (k * outlen) outlen = digest k).
  { intros k Hk. unfold K, Kernels.blake2b_hash_registers.
    rewrite (lanes_lookup (Kernels.hash_registers_lane RS outlen (dev s registers_gpu))
               outlen).
    - reflexivity.
    - exact LD.
    - apply seq_NoDup.
    - apply in_seq. cbn. lia. }
  assert (D : gpu (Launch (blake2b_hash_registers REGISTERS_SIZE (Z.of_nat outlen))
                          (Z.of_nat NUM_SCRATCHPADS_TEST / 32) 32
                          hash_gpu registers_gpu 0) (dev s) hash_gpu = K).
  { unfold device_code.
    cbn [l_kernel l_grid l_block l_arg0 l_arg1 l_scalar set_buf buffer_eqb].
    now rewrite Nat2Z.id. }
  unfold test_blake2b_hash_registers. fold RS.
  set (body := fun i : nat => _).
  unfold bind at 1. unfold launch_kernel.
  cbn [is_success emit trace last_error n_meminfo n_memcpy n_launch n_sync live dev hst].
  rewrite launches_succeed.
  cbn [is_success emit trace last_error n_meminfo n_memcpy n_launch n_sync live dev hst].
  unfold bind at 1. unfold cudaGetLastError.
  cbn [is_success emit trace last_error n_meminfo n_memcpy n_launch n_sync live dev hst].
  rewrite LE.
  unfold bind at 1. cbn [is_success negb fail_if ret].
  unfold bind at 1. unfold memcpy_to_host at 1, bind at 1. unfold cudaMemcpyDeviceToHost.
  cbn [is_success emit trace last_error n_meminfo n_memcpy n_launch n_sync live dev hst].
  rewrite memcpys_succeed.
  cbn [is_success negb fail_if ret].
  rewrite D.
  match goal with
  | |- exists s', (for_each _ _ ;; _) ?st = _ /\ _ => set (s4 := st)
  end.
  set (P := fun (i : nat) (st : host) =>
              trace st = trace s4
              /\ hst st hash = copy (hst s hash) K sizeof_hash
              /\ hst st registers2 = hst s registers2
              /\ (forall k, (k < i)%nat ->
                            load (hst st hash2) (k * outlen) outlen = digest k)).
  destruct (for_each_seq P body NUM_SCRATCHPADS_TEST 0 s4) as (s5 & F & T5 & H5 & _ & D5).
  { repeat split; try reflexivity. intros k Hk. lia. }
  { intros i st I (T & H & B & Dg).
    unfold body, modify_host. cbn [hst set_host hostbuf_eqb].
    eexists. split; [reflexivity|].
    repeat split; cbn [trace hst set_host hostbuf_eqb].
    - exact T.
    - exact H.
    - exact B.
    - intros k Hk. unfold NUM_SCRATCHPADS_TEST in I.
      rewrite B, Regs by lia. fold (digest i).
      destruct (Nat.eq_dec k i) as [->|Ne].
      + pose proof (load_store (hst st hash2) (i * outlen) (digest i)) as X.
        rewrite LD in X. exact X.
      + rewrite <- (Dg k) by lia. apply load_ext. intros a A.
        apply store_outside. rewrite LD. nia. }
  unfold bind at 1. rewrite F.
  unfold bind at 1. unfold get_host.
  assert (C : memcmp_eq (hst s5 hash) 0 (hst s5 hash2) 0 (NUM_SCRATCHPADS_TEST * outlen)
              = true).
  { apply memcmp_eq_true. unfold NUM_SCRATCHPADS_TEST in *.
    apply load_eq_pointwise. intros b B.
    destruct outlen as [|o]; [lia|].
    pose proof (Nat.div_mod_eq b (S o)) as E.
    assert (Q : (b / S o < 128)%nat) by (apply Nat.Div0.div_lt_upper_bound; lia).
    assert (R : (b mod S o < S o)%nat) by (apply Nat.mod_upper_bound; lia).
    rewrite H5, copy_inside by (change (Z.to_nat sizeof_hash) with (128 * 64)%nat; nia).
    replace (0 + b)%nat with (b / S o * S o + b mod S o)%nat by lia.
    apply (load_eq_inv _ _ _ _ (S o)); [|exact R].
    rewrite KL by exact Q. symmetry. apply D5. exact Q. }
  unfold bind, fail_if. rewrite C. cbn [negb ret].
  eexists. split; [reflexivity|].
  cbn [printf tell emit trace]. rewrite T5. subst s4. cbn [trace].
  rewrite <- !app_assoc. reflexivity.
Qed.

End HarnessHash.

(** Had the program fill interleaved its output, the program test of
    [tests] would report a failure: on programs of two chunks it finds lane
    1's first chunk where lane 0's second should be. *)
Lemma interleaved_programs_fail_the_program_test :
  let run := test_fill_programs 128 (Example.env_ok (2 ^ 33) (2 ^ 34))
               Example.interleaving_gpu Example.mix Example.mix 1 2 3 4 Example.seeded in
  fst run = Returned tt
  /\ trace (snd run)
     = [ EvLaunch (Launch (fillAes1Rx4 128 false) 4 128 hash_gpu programs_gpu 128);
         EvDeviceSynchronize;
         EvMemcpyDtoH hash hash_gpu 8192;
         EvMemcpyDtoH programs programs_gpu 16384;
         EvStderr "fillAes1Rx4 test (program) failed!" ].
Proof. lazy. auto. Qed.

(** ** The two layouts are different layouts

    Whatever the cipher: read with the stride of the scratchpad layout, the
    program buffer gives for the start of lane 1's program the second block
    of lane 0's stream, where the expansion of lane 1's seed has the first
    block of lane 1's stream. *)

Lemma firstn_load m off k n :
  (k <= n)%nat -> firstn k (load m off n) = load m off k.
Proof.
  revert off n. induction k as [|k IH]; intros off n K; [reflexivity|].
  destruct n as [|n]; [lia|].
  unfold load in *. cbn [seq map firstn]. f_equal. apply IH. lia.
Qed.

Section Layouts.

Variables aesdec aesenc : Z -> Z -> Z.
Variables key0 key1 key2 key3 : Z.
Variables outputSize n batch_size grid block : nat.
Variables state out rstate rbuf : mem.
Variables soff boff : nat.

Hypothesis whole_chunks : outputSize = (64 * n)%nat.
Hypothesis two_chunks : (2 <= n)%nat.
Hypothesis two_lanes : (2 <= batch_size)%nat.
Hypothesis enough_threads : (batch_size * 4 <= grid * block)%nat.
Hypothesis same_seed : load rstate soff 64 = load state (1 * 64) 64.

Local Abbreviation round := (fill_round aesdec aesenc key0 key1 key2 key3).
Local Abbreviation programs :=
  (snd (fillAes1Rx4_kernel aesdec aesenc key0 key1 key2 key3
                           outputSize false grid block state out batch_size)).
Local Abbreviation expansion :=
  (load (snd (fillAes1Rx4_ref aesdec aesenc key0 key1 key2 key3
                              rstate soff outputSize rbuf boff)) boff outputSize).

Lemma strided_read_of_programs :
  firstn 16 (deinterleave programs batch_size 1 n)
  = le_bytes 16 (round 0 (round 0 (load_block state 0))).
Proof.
  destruct n as [|m]; [lia|].
  unfold deinterleave. cbn [seq flat_map].
  rewrite firstn_app, firstn_load, load_length by lia.
  cbn [Nat.sub firstn]. rewrite app_nil_r.
  pose proof (kernel_block aesdec aesenc key0 key1 key2 key3 outputSize (S m) batch_size
                grid block 0 state out whole_chunks ltac:(lia) enough_threads
                false 1 0 ltac:(lia) ltac:(lia)) as K.
  change (round 0 (round 0 (load_block state 0)))
    with (Nat.iter 2 (round 0) (load_block state (16 * (4 * 0 + 0)))).
  rewrite <- K. reflexivity.
Qed.

Lemma start_of_expansion :
  firstn 16 expansion = le_bytes 16 (round 0 (load_block state 64)).
Proof.
  rewrite firstn_load by lia.
  pose proof (reference_block aesdec aesenc key0 key1 key2 key3 outputSize n batch_size
                grid block 1 rstate rbuf soff boff whole_chunks ltac:(lia) enough_threads
                0 0 ltac:(lia) ltac:(lia)) as R.
  pose proof (seed_block outputSize n batch_size grid block 1 state rstate soff
                whole_chunks ltac:(lia) enough_threads same_seed 0 ltac:(lia)) as S.
  replace (boff + 64 * 0 + 16 * 0)%nat with boff in R by lia.
  rewrite R, S. reflexivity.
Qed.

(** Unless the cipher maps the first block of lane 0 twice to where it maps
    the first block of lane 1 once, the strided reading of the program
    buffer is not the expansion. *)
Lemma programs_are_not_strided :
  le_bytes 16 (round 0 (round 0 (load_block state 0)))
  <> le_bytes 16 (round 0 (load_block state 64)) ->
  deinterleave programs batch_size 1 n <> expansion.
Proof.
  intros D E. apply D.
  rewrite <- strided_read_of_programs, <- start_of_expansion. now rewrite E.
Qed.

End Layouts.

(** ** The template on the device

    With the device code above for the kernels, no launch of the search
    changes the template buffer: it is the second argument of
    [blake2b_initial_hash], which writes its first, and no argument of any
    other launch. *)

Section TemplateFrame.

Variables aesdec aesenc : Z -> Z -> Z.
Variables key0 key1 key2 key3 : Z.
Variable initGroupA_registers_kernel : nat -> nat -> mem -> mem -> mem.
Variable hashAes1Rx4_kernel : Z -> Z -> Z -> nat -> nat -> mem -> mem -> nat -> mem.

Variables DATASET_SIZE SCRATCHPAD_SIZE HASH_SIZE PROGRAM_SIZE REGISTERS_SIZE : Z.
Variable PROGRAM_COUNT : nat.

Local Abbreviation gpu :=
  (device_code aesdec aesenc key0 key1 key2 key3
               initGroupA_registers_kernel hashAes1Rx4_kernel).

Lemma fill_launch_frame outputSize flag grid block a0 a1 scalar d b :
  buffer_eqb b a0 = false -> buffer_eqb b a1 = false ->
  gpu (Launch (fillAes1Rx4 outputSize flag) grid block a0 a1 scalar) d b = d b.
Proof.
  intros A0 A1. unfold device_code. cbn [l_kernel l_arg0 l_arg1 l_grid l_block l_scalar].
  destruct (fillAes1Rx4_kernel _ _ _ _ _ _ _ _ _ _ _ _ _) as [st o].
  unfold set_buf. now rewrite A0, A1.
Qed.

Lemma round_launches_keep_template batch_size i l d :
  In l (round_launches SCRATCHPAD_SIZE PROGRAM_SIZE REGISTERS_SIZE PROGRAM_COUNT
                       batch_size i) ->
  gpu l d blockTemplate_gpu = d blockTemplate_gpu.
Proof.
  unfold round_launches. intros I. apply in_app_or in I. destruct I as [I|I].
  - destruct I as [<-|[<-|[]]]; [now apply fill_launch_frame | reflexivity].
  - destruct (i =? PROGRAM_COUNT - 1)%nat.
    + destruct I as [<-|[<-|[]]]; reflexivity.
    + destruct I as [<-|[]]; reflexivity.
Qed.

Lemma batch_launches_keep_template batch_size nonce l d :
  In l (batch_launches SCRATCHPAD_SIZE PROGRAM_SIZE REGISTERS_SIZE PROGRAM_COUNT
                       batch_size nonce) ->
  gpu l d blockTemplate_gpu = d blockTemplate_gpu.
Proof.
  unfold batch_launches, rounds_launches. intros I.
  apply in_app_or in I. destruct I as [I|I].
  - destruct I as [<-|[<-|[]]]; [reflexivity | now apply fill_launch_frame].
  - apply in_flat_map in I. destruct I as (i & _ & I).
    now apply (round_launches_keep_template batch_size i).
Qed.

Lemma search_launches_keep_template batch_size n : forall first l d,
  In l (search_launches SCRATCHPAD_SIZE PROGRAM_SIZE REGISTERS_SIZE PROGRAM_COUNT
                        batch_size first n) ->
  gpu l d blockTemplate_gpu = d blockTemplate_gpu.
Proof.
  induction n as [|n IH]; intros first l d I; [destruct I|].
  cbn [search_launches] in I. apply in_app_or in I. destruct I as [I|I].
  - now apply (batch_launches_keep_template batch_size (nonce_of_batch batch_size first)).
  - now apply (IH (S first)).
Qed.

Lemma fold_launches_frame (b : buffer) (ls : list launch) : forall d,
  (forall l d', In l ls -> gpu l d' b = d' b) ->
  fold_left (fun d l => gpu l d) ls d b = d b.
Proof.
  induction ls as [|l ls IH]; intros d F; [reflexivity|].
  cbn [fold_left]. rewrite IH by (intros; apply F; now right).
  apply F. now left.
Qed.

Variable env : cuda_env.
Variables free total left total' : Z.

Hypothesis first_query : mem_info env 0 = (cudaSuccess, (free, total)).
Hypothesis second_query : mem_info env 1 = (cudaSuccess, (left, total')).
Hypothesis mallocs_succeed : forall b, malloc_ok env b = true.
Hypothesis memset_succeeds : memset_status env = cudaSuccess.
Hypothesis memcpys_succeed : forall n, memcpy_status env n = cudaSuccess.
Hypothesis launches_succeed : forall n, launch_status env n = cudaSuccess.
Hypothesis syncs_succeed : forall n, sync_status env n = cudaSuccess.
Hypothesis enough : required_memory DATASET_SIZE SCRATCHPAD_SIZE < free.

(** However many batches the run has made, the template on the device is
    the one uploaded before the search. *)
Lemma template_unchanged_by_kernels fuel d h :
  let run := test_mining DATASET_SIZE SCRATCHPAD_SIZE HASH_SIZE PROGRAM_SIZE REGISTERS_SIZE
                         PROGRAM_COUNT env gpu fuel (Host [] cudaSuccess 0 0 0 0 [] d h) in
  load (dev (snd run) blockTemplate_gpu) 0 76 = load (h blockTemplate) 0 76.
Proof.
  cbv zeta.
  destruct (run_memory DATASET_SIZE SCRATCHPAD_SIZE HASH_SIZE PROGRAM_SIZE REGISTERS_SIZE
              PROGRAM_COUNT env gpu free total left total' first_query second_query
              mallocs_succeed memset_succeeds memcpys_succeed launches_succeed
              syncs_succeed enough fuel d h) as (d0 & D0 & ->).
  rewrite fold_launches_frame by (intros l d' I; eapply search_launches_keep_template, I).
  rewrite D0. apply load_eq_pointwise. intros a A.
  apply copy_inside. change (Z.to_nat sizeof_blockTemplate) with 76%nat. lia.
Qed.

End TemplateFrame.

(** ** Rules for statements *)

Lemma hoare_bind {R A B} (P : host -> Prop) (m : M R A) (k : A -> M R B) Qm Q E W :
  hoare P m Qm E W ->
  (forall a, hoare (Qm a) (k a) Q E W) ->
  hoare P (bind m k) Q E W.
Proof.
  intros Hm Hk s H. specialize (Hm s H). unfold bind.
  destruct (m s) as [[a|r|] s']; [exact (Hk a s' Hm) | exact Hm | exact Hm].
Qed.

Lemma hoare_pre {R A} (P P' : host -> Prop) (m : M R A) Q E W :
  (forall s, P s -> P' s) -> hoare P' m Q E W -> hoare P m Q E W.
Proof. intros I H s Hs. exact (H s (I s Hs)). Qed.

Lemma hoare_post {R A} (P : host -> Prop) (m : M R A)
    (Q Q' : A -> host -> Prop) (E E' : R -> host -> Prop) (W W' : host -> Prop) :
  hoare P m Q E W ->
  (forall a s, Q a s -> Q' a s) -> (forall r s, E r s -> E' r s) ->
  (forall s, W s -> W' s) ->
  hoare P m Q' E' W'.
Proof.
  intros H HQ HE HW s Hs. specialize (H s Hs).
  destruct (m s) as [[a|r|] s']; auto.
Qed.

Lemma keeps_bind {R A B} I (m : M R A) (k : A -> M R B) :
  keeps I m -> (forall a, keeps I (k a)) -> keeps I (bind m k).
Proof. intros Hm Hk. exact (hoare_bind I m k _ _ _ _ Hm Hk). Qed.

Lemma keeps_ret {R A} I (a : A) : keeps I (@ret R A a).
Proof. intros s H. exact H. Qed.

Lemma keeps_return {R A} I (r : R) : keeps I (@return_ R A r).
Proof. intros s H. exact H. Qed.

Lemma keeps_if {R A} I (c : bool) (m1 m2 : M R A) :
  keeps I m1 -> keeps I m2 -> keeps I (if c then m1 else m2).
Proof. now destruct c. Qed.

Lemma keeps_for_each {R} I (body : nat -> M R unit) l :
  (forall i, keeps I (body i)) -> keeps I (for_each l body).
Proof.
  intros H. induction l as [|i l IH]; [apply keeps_ret|].
  cbn [for_each]. apply keeps_bind; [apply H | intros _; exact IH].
Qed.

Lemma keeps_in_sequence I (blocks : list (M unit unit)) :
  Forall (keeps I) blocks -> keeps I (in_sequence blocks).
Proof.
  induction 1 as [|b rest Hb _ IH]; [apply keeps_ret|].
  cbn [in_sequence]. apply keeps_bind; [exact Hb | intros _; exact IH].
Qed.

(** ** No device memory is leaked or released twice *)

Lemma replay_snoc env tr e :
  replay env (tr ++ [e]) = replay_event env (replay env tr) e.
Proof. unfold replay. now rewrite fold_left_app. Qed.

Lemma buffer_eqb_refl b : buffer_eqb b b = true.
Proof. now destruct b. Qed.

Lemma buffer_eqb_eq a b : buffer_eqb a b = true -> a = b.
Proof. destruct a, b; (reflexivity || discriminate). Qed.

Lemma replay_frees env l : forall st rest,
  st = Some (l ++ rest) ->
  fold_left (replay_event env) (map EvFree l) st = Some rest.
Proof.
  induction l as [|b l IH]; intros st rest ->; [reflexivity|].
  cbn [map fold_left app replay_event]. rewrite buffer_eqb_refl. now apply IH.
Qed.

Section Accounting.

Variable env : cuda_env.
Variable gpu : gpu_kernels.

Local Abbreviation ok := (keeps (accounted env)).

Lemma accounted_emit e s tr' le nm nc nl ns d h :
  plain e = true -> accounted env s -> tr' = trace s ++ [e] ->
  accounted env (Host tr' le nm nc nl ns (live s) d h).
Proof.
  intros Pe H ->. unfold accounted in *. cbn [trace live].
  rewrite replay_snoc, H. now destruct e.
Qed.

Lemma keeps_tell {R} e : plain e = true -> ok (@tell R e).
Proof.
  intros Pe s H. unfold tell, emit. now apply (accounted_emit e s).
Qed.

Lemma keeps_printf {R} fmt args : ok (@printf R fmt args).
Proof. now apply keeps_tell. Qed.

Lemma keeps_fail_if {R} c msg (r : R) : ok (fail_if c msg r).
Proof.
  unfold fail_if. apply keeps_if; [|apply keeps_ret].
  apply keeps_bind; [now apply keeps_tell | intros _; apply keeps_return].
Qed.

Lemma keeps_GPUPtr_new {R} b size : ok (@GPUPtr_new env R b size).
Proof.
  intros s H. unfold GPUPtr_new, emit, accounted in *.
  destruct (malloc_ok env b) eqn:Mb; cbn [trace live];
    rewrite replay_snoc, H; cbn [replay_event]; now rewrite Mb.
Qed.

Lemma keeps_GPUPtr_end {R} b : ok (@GPUPtr_end R b).
Proof.
  intros s H. unfold GPUPtr_end, accounted in *.
  destruct (live s) as [|b' rest] eqn:L; [now rewrite L|].
  destruct (buffer_eqb b' b) eqn:Eb; cbn [trace live]; [|now rewrite L].
  rewrite replay_snoc, H. cbn [replay_event]. now rewrite Eb.
Qed.

Lemma keeps_cudaMemGetInfo {R} : ok (@cudaMemGetInfo env R).
Proof. intros s H. unfold cudaMemGetInfo, emit. now apply (accounted_emit EvMemGetInfo s). Qed.

Lemma keeps_cudaMemset {R} b size : ok (@cudaMemset env R b size).
Proof. intros s H. unfold cudaMemset, emit. now apply (accounted_emit (EvMemset b size) s). Qed.

Lemma keeps_cudaMemcpyHostToDevice {R} dst src size :
  ok (@cudaMemcpyHostToDevice env R dst src size).
Proof.
  intros s H. unfold cudaMemcpyHostToDevice, emit.
  now apply (accounted_emit (EvMemcpyHtoD dst src size) s).
Qed.

Lemma keeps_cudaMemcpyDeviceToHost {R} dst src size :
  ok (@cudaMemcpyDeviceToHost env R dst src size).
Proof.
  intros s H. unfold cudaMemcpyDeviceToHost, emit.
  now apply (accounted_emit (EvMemcpyDtoH dst src size) s).
Qed.

Lemma keeps_launch_kernel {R} l : ok (@launch_kernel env gpu R l).
Proof. intros s H. unfold launch_kernel, emit. now apply (accounted_emit (EvLaunch l) s). Qed.

Lemma keeps_cudaGetLastError {R} : ok (@cudaGetLastError R).
Proof. intros s H. unfold cudaGetLastError, emit. now apply (accounted_emit EvGetLastError s). Qed.

Lemma keeps_cudaDeviceSynchronize {R} : ok (@cudaDeviceSynchronize env R).
Proof.
  intros s H. unfold cudaDeviceSynchronize, emit.
  now apply (accounted_emit EvDeviceSynchronize s).
Qed.

Lemma keeps_get_host {R} : ok (@get_host R).
Proof. intros s H. exact H. Qed.

Lemma keeps_modify_host {R} f : ok (@modify_host R f).
Proof. intros s H. exact H. Qed.

Lemma accounted_destroy_all s :
  accounted env s -> accounted env (destroy_all s) /\ live (destroy_all s) = [].
Proof.
  intros H. split; [|reflexivity]. unfold accounted, destroy_all, replay in *.
  cbn [trace live]. rewrite fold_left_app. apply replay_frees.
  now rewrite app_nil_r.
Qed.

Ltac keeps_step :=
  first [ simple apply keeps_bind; [|intros ?]
        | simple apply keeps_for_each; intros ?
        | simple apply keeps_ret | simple apply keeps_return
        | simple apply keeps_fail_if | simple apply keeps_printf
        | simple apply keeps_tell; reflexivity
        | simple apply keeps_GPUPtr_new | simple apply keeps_GPUPtr_end
        | simple apply keeps_cudaMemGetInfo | simple apply keeps_cudaMemset
        | simple apply keeps_cudaMemcpyHostToDevice
        | simple apply keeps_cudaMemcpyDeviceToHost
        | simple apply keeps_launch_kernel | simple apply keeps_cudaGetLastError
        | simple apply keeps_cudaDeviceSynchronize
        | simple apply keeps_get_host | simple apply keeps_modify_host
        | simple apply keeps_if ].

Section AccountingMining.

Variables DATASET_SIZE SCRATCHPAD_SIZE HASH_SIZE PROGRAM_SIZE REGISTERS_SIZE : Z.
Variable PROGRAM_COUNT : nat.

Lemma keeps_launch_checked l msg : ok (launch_checked env gpu l msg).
Proof. unfold launch_checked. repeat keeps_step. Qed.

Lemma keeps_program_rounds todo batch_size : forall i,
  ok (program_rounds SCRATCHPAD_SIZE PROGRAM_SIZE REGISTERS_SIZE PROGRAM_COUNT env gpu
                     todo batch_size i).
Proof.
  induction todo as [|todo IH]; intros i; cbn [program_rounds]; [apply keeps_ret|].
  apply keeps_bind; [|intros _; apply IH].
  unfold program_round. repeat first [apply keeps_launch_checked | keeps_step].
Qed.

Lemma keeps_batch batch_size nonce k :
  ok (batch SCRATCHPAD_SIZE PROGRAM_SIZE REGISTERS_SIZE PROGRAM_COUNT env gpu
            batch_size nonce k).
Proof.
  unfold batch, report_rate.
  repeat first [apply keeps_launch_checked | apply keeps_program_rounds | keeps_step].
Qed.

Lemma keeps_search_loop fuel batch_size : forall nonce k,
  ok (search_loop SCRATCHPAD_SIZE PROGRAM_SIZE REGISTERS_SIZE PROGRAM_COUNT env gpu
                  fuel batch_size nonce k).
Proof.
  induction fuel as [|fuel IH]; intros nonce k; cbn [search_loop].
  - intros s H. exact H.
  - apply keeps_if; [|apply keeps_ret].
    apply keeps_bind; [apply keeps_batch | intros _; apply IH].
Qed.

Lemma keeps_test_mining_body fuel :
  ok (test_mining_body DATASET_SIZE SCRATCHPAD_SIZE HASH_SIZE PROGRAM_SIZE REGISTERS_SIZE
                       PROGRAM_COUNT env gpu fuel).
Proof.
  unfold test_mining_body. cbv zeta.
  repeat first [apply keeps_search_loop | keeps_step].
Qed.

End AccountingMining.

Section AccountingTests.

Variables SCRATCHPAD_SIZE PROGRAM_SIZE REGISTERS_SIZE : Z.
Variables aesdec aesenc : Z -> Z -> Z.
Variables key0 key1 key2 key3 : Z.
Variable hashAes1Rx4_ref : list Z -> list Z.

Lemma keeps_tests_body :
  ok (tests_body SCRATCHPAD_SIZE PROGRAM_SIZE REGISTERS_SIZE env gpu
                 aesdec aesenc key0 key1 key2 key3 hashAes1Rx4_ref).
Proof.
  unfold tests_body. apply keeps_bind.
  - unfold tests_setup, alloc_checked. repeat keeps_step.
  - intros _. apply keeps_in_sequence. unfold test_cases.
    repeat apply Forall_cons; try apply Forall_nil;
      unfold test_blake2b_initial_hash, test_fill_scratchpads, test_fill_programs,
        test_hashAes1Rx4, test_blake2b_hash_registers, sync_checked, memcpy_to_host;
      cbv zeta; repeat keeps_step.
Qed.

End AccountingTests.

End Accounting.

(** X1: whatever the runtime answers and however [test_mining] ends, its
    frees follow its allocations as a stack: every [cudaFree] releases the
    innermost allocation that succeeded and is still alive (none is released
    twice, no null pointer is released), and when [test_mining] returns no
    allocation is left alive. *)
Theorem test_mining_releases_its_allocations
    (DATASET_SIZE SCRATCHPAD_SIZE HASH_SIZE PROGRAM_SIZE REGISTERS_SIZE : Z)
    (PROGRAM_COUNT : nat) (env : cuda_env) (gpu : gpu_kernels)
    (fuel : nat) (d : devmem) (h : hostmem) :
  let run := test_mining DATASET_SIZE SCRATCHPAD_SIZE HASH_SIZE PROGRAM_SIZE REGISTERS_SIZE
                         PROGRAM_COUNT env gpu fuel (Host [] cudaSuccess 0 0 0 0 [] d h) in
  replay env (trace (snd run)) = Some (live (snd run))
  /\ match fst run with
     | Returned _ => live (snd run) = []
     | _ => True
     end.
Proof.
  cbv zeta. unfold test_mining.
  pose proof (keeps_test_mining_body env gpu DATASET_SIZE SCRATCHPAD_SIZE HASH_SIZE
                PROGRAM_SIZE REGISTERS_SIZE PROGRAM_COUNT fuel
                (Host [] cudaSuccess 0 0 0 0 [] d h) eq_refl) as K.
  destruct (test_mining_body _ _ _ _ _ _ _ _ _ _) as [[a|r|] s']; cbn [fst snd].
  - now split.
  - destruct (accounted_destroy_all env s' K) as [A L]. now split.
  - now split.
Qed.

(** X2: the same for [tests], up to the end of its last test case: whichever
    allocation, copy, launch or comparison fails, the frees follow the
    allocations as a stack, and on return nothing is left alive. *)
Theorem tests_releases_its_allocations
    (SCRATCHPAD_SIZE PROGRAM_SIZE REGISTERS_SIZE : Z) (env : cuda_env) (gpu : gpu_kernels)
    (aesdec aesenc : Z -> Z -> Z) (key0 key1 key2 key3 : Z)
    (hashAes1Rx4_ref : list Z -> list Z) (d : devmem) (h : hostmem) :
  let run := tests SCRATCHPAD_SIZE PROGRAM_SIZE REGISTERS_SIZE env gpu
                   aesdec aesenc key0 key1 key2 key3 hashAes1Rx4_ref
                   (Host [] cudaSuccess 0 0 0 0 [] d h) in
  replay env (trace (snd run)) = Some (live (snd run))
  /\ match fst run with
     | Returned _ => live (snd run) = []
     | _ => True
     end.
Proof.
  cbv zeta. unfold tests.
  pose proof (keeps_tests_body env gpu SCRATCHPAD_SIZE PROGRAM_SIZE REGISTERS_SIZE
                aesdec aesenc key0 key1 key2 key3 hashAes1Rx4_ref
                (Host [] cudaSuccess 0 0 0 0 [] d h) eq_refl) as K.
  destruct (tests_body _ _ _ _ _ _ _ _ _ _ _ _ _) as [[a|r|] s']; cbn [fst snd].
  - now split.
  - destruct (accounted_destroy_all env s' K) as [A L]. now split.
  - now split.
Qed.

(** ** Statements that cannot fail *)

Ltac neutral_tac :=
  intros s;
  repeat match goal with
         | |- context [if ?c then _ else _] => destruct c
         | |- context [match live ?s with _ => _ end] => destruct (live s)
         end;
  do 2 eexists; (split; [reflexivity|]); cbn; auto.

Section Neutral.

Variable env : cuda_env.

Lemma neutral_ret {R A} (a : A) : neutral (@ret R A a).
Proof. unfold ret. neutral_tac. Qed.

Lemma neutral_tell {R} e : neutral (@tell R e).
Proof. unfold tell, emit. neutral_tac. Qed.

Lemma neutral_printf {R} fmt args : neutral (@printf R fmt args).
Proof. apply neutral_tell. Qed.

Lemma neutral_GPUPtr_new {R} b size : neutral (@GPUPtr_new env R b size).
Proof. unfold GPUPtr_new, emit. neutral_tac. Qed.

Lemma neutral_GPUPtr_end {R} b : neutral (@GPUPtr_end R b).
Proof. unfold GPUPtr_end. neutral_tac. Qed.

Lemma neutral_cudaMemGetInfo {R} : neutral (@cudaMemGetInfo env R).
Proof. unfold cudaMemGetInfo, emit. neutral_tac. Qed.

Lemma neutral_cudaMemset {R} b size : neutral (@cudaMemset env R b size).
Proof. unfold cudaMemset, emit. neutral_tac. Qed.

Lemma neutral_cudaMemcpyHostToDevice {R} dst src size :
  neutral (@cudaMemcpyHostToDevice env R dst src size).
Proof. unfold cudaMemcpyHostToDevice, emit. neutral_tac. Qed.

Lemma neutral_cudaMemcpyDeviceToHost {R} dst src size :
  neutral (@cudaMemcpyDeviceToHost env R dst src size).
Proof. unfold cudaMemcpyDeviceToHost, emit. neutral_tac. Qed.

Lemma neutral_get_host {R} : neutral (@get_host R).
Proof. unfold get_host. neutral_tac. Qed.

Lemma neutral_modify_host {R} f : neutral (@modify_host R f).
Proof. unfold modify_host. neutral_tac. Qed.

Lemma hoare_neutral {R A} (m : M R A) F E W :
  neutral m -> hoare (on_counters F) m (fun _ => on_counters F) E W.
Proof.
  intros N s H. destruct (N s) as (a & s' & -> & E1 & E2 & E3).
  unfold on_counters in *. now rewrite E1, E2, E3.
Qed.

Lemma hoare_fail_if {R} (P : host -> Prop) (E : R -> host -> Prop) W c msg r :
  (forall s, P s -> c = true -> E r (emit (EvStderr msg) s)) ->
  hoare P (fail_if c msg r) (fun _ s => P s /\ c = false) E W.
Proof.
  intros H s Hs. unfold fail_if. destruct c; cbn; auto.
Qed.

End Neutral.

(** ** Failed launches and synchronisations are caught *)

Section VigilanceProofs.

Variable env : cuda_env.
Variable gpu : gpu_kernels.

Lemma launched_le n m : (n <= m)%nat -> launched env m -> launched env n.
Proof. intros L H i I. apply H. lia. Qed.

Lemma synchronised_le n m : (n <= m)%nat -> synchronised env m -> synchronised env n.
Proof. intros L H i I. apply H. lia. Qed.

Lemma clean_caught s : clean env s -> caught env s.
Proof.
  unfold clean, caught, on_counters. intros (_ & L & Y).
  split; [(eapply launched_le; [|exact L]; lia) | (eapply synchronised_le; [|exact Y]; lia)].
Qed.

Lemma clean_unchecked s : clean env s -> unchecked env 0 s.
Proof.
  unfold clean, unchecked, on_counters. intros (_ & L & Y).
  rewrite Nat.sub_0_r. auto.
Qed.

Lemma vigilant_bind {R A B} (m : M R A) (k : A -> M R B) :
  vigilant env m -> (forall a, vigilant env (k a)) -> vigilant env (bind m k).
Proof. intros Hm Hk. exact (hoare_bind _ m k _ _ _ _ Hm Hk). Qed.

Lemma vigilant_neutral {R A} (m : M R A) : neutral m -> vigilant env m.
Proof. intros N. unfold vigilant, clean. now apply hoare_neutral. Qed.

Lemma vigilant_return {R A} (r : R) : vigilant env (@return_ R A r).
Proof. intros s H. now apply clean_caught. Qed.

Lemma vigilant_if {R A} (c : bool) (m1 m2 : M R A) :
  vigilant env m1 -> vigilant env m2 -> vigilant env (if c then m1 else m2).
Proof. now destruct c. Qed.

Lemma vigilant_fail_if {R} c msg (r : R) : vigilant env (fail_if c msg r).
Proof.
  intros s H. unfold fail_if. destruct c; cbn; [|exact H].
  now apply clean_caught.
Qed.

Lemma vigilant_for_each {R} (body : nat -> M R unit) l :
  (forall i, vigilant env (body i)) -> vigilant env (for_each l body).
Proof.
  intros H. induction l as [|i l IH]; [now apply vigilant_neutral, neutral_ret|].
  cbn [for_each]. apply vigilant_bind; [apply H | intros _; exact IH].
Qed.

Lemma vigilant_in_sequence (blocks : list (M unit unit)) :
  Forall (vigilant env) blocks -> vigilant env (in_sequence blocks).
Proof.
  induction 1 as [|b rest Hb _ IH]; [now apply vigilant_neutral, neutral_ret|].
  cbn [in_sequence]. apply vigilant_bind; [exact Hb | intros _; exact IH].
Qed.

(** A launch adds one to the launches not yet checked. *)
Lemma launch_unchecked {R} k l (E : R -> host -> Prop) W :
  hoare (unchecked env k) (@launch_kernel env gpu R l) (fun _ => unchecked env (S k)) E W.
Proof.
  intros s (L & C & Y). unfold launch_kernel, emit, unchecked, on_counters in *.
  cbn [last_error n_launch n_sync].
  replace (S (n_launch s) - S k)%nat with (n_launch s - k)%nat by lia.
  split; [exact L|]. split; [|exact Y].
  destruct (launch_status env (n_launch s)) eqn:St; cbn [is_success]; [|discriminate].
  intros e i I. destruct (Nat.eq_dec i (n_launch s)) as [->|]; [exact St|].
  apply (C e). lia.
Qed.

(** [cudaGetLastError] and the test of its status, after at most two
    launches: the program goes on only if they were issued. *)
Lemma check_catches {R} k msg (r : R) W :
  (k <= 2)%nat ->
  hoare (unchecked env k)
        (cudaStatus <- cudaGetLastError ;; fail_if (negb (is_success cudaStatus)) msg r)
        (fun _ => clean env) (fun _ => caught env) W.
Proof.
  intros K s (L & C & Y). unfold bind, cudaGetLastError, fail_if, emit.
  cbn [last_error n_launch n_sync trace].
  destruct (last_error s) eqn:Es; cbn [is_success negb]; cbn.
  - unfold clean, on_counters. cbn. auto.
  - unfold caught, on_counters. cbn. split.
    + (eapply launched_le; [|exact L]; lia).
    + (eapply synchronised_le; [|exact Y]; lia).
Qed.

Lemma launch_checked_catches k l msg W :
  (k <= 1)%nat ->
  hoare (unchecked env k) (launch_checked env gpu l msg)
        (fun _ => clean env) (fun _ => caught env) W.
Proof.
  intros K. unfold launch_checked.
  eapply hoare_bind; [apply launch_unchecked|].
  intros ?. apply check_catches. lia.
Qed.

Lemma vigilant_launch_checked l msg : vigilant env (launch_checked env gpu l msg).
Proof.
  eapply hoare_pre; [apply clean_unchecked|]. apply launch_checked_catches; lia.
Qed.

(** [cudaDeviceSynchronize] and the test of its status. *)
Lemma vigilant_synchronize {R} msg (r : R) :
  vigilant env (cudaStatus <- cudaDeviceSynchronize env ;;
                fail_if (negb (is_success cudaStatus)) msg r).
Proof.
  intros s (Es & L & Y). unfold bind, cudaDeviceSynchronize, fail_if, emit.
  cbn [last_error n_launch n_sync trace].
  destruct (sync_status env (n_sync s)) eqn:St; cbn [is_success negb]; cbn.
  - unfold clean, on_counters. cbn. repeat split; auto.
    intros i I. destruct (Nat.eq_dec i (n_sync s)) as [->|]; [exact St|]. apply Y. lia.
  - unfold caught, on_counters. cbn. split.
    + (eapply launched_le; [|exact L]; lia).
    + now rewrite Nat.sub_0_r.
Qed.

Ltac vigilant_step :=
  first [ simple apply vigilant_launch_checked
        | simple apply vigilant_synchronize
        | simple apply vigilant_bind; [|intros ?]
        | simple apply vigilant_for_each; intros ?
        | simple apply vigilant_return
        | simple apply vigilant_fail_if
        | simple apply vigilant_if
        | simple apply vigilant_neutral;
          first [ simple apply neutral_ret | simple apply neutral_printf
                | simple apply neutral_tell
                | simple apply neutral_GPUPtr_new | simple apply neutral_GPUPtr_end
                | simple apply neutral_cudaMemGetInfo | simple apply neutral_cudaMemset
                | simple apply neutral_cudaMemcpyHostToDevice
                | simple apply neutral_cudaMemcpyDeviceToHost
                | simple apply neutral_get_host | simple apply neutral_modify_host ] ].

Section VigilanceMining.

Variables DATASET_SIZE SCRATCHPAD_SIZE HASH_SIZE PROGRAM_SIZE REGISTERS_SIZE : Z.
Variable PROGRAM_COUNT : nat.

(** A round: the launch of [initGroupA_registers] is checked together with
    the launch that follows it. *)
Lemma vigilant_program_round batch_size i :
  vigilant env (program_round SCRATCHPAD_SIZE PROGRAM_SIZE REGISTERS_SIZE PROGRAM_COUNT
                              env gpu batch_size i).
Proof.
  unfold program_round.
  apply vigilant_bind; [apply vigilant_launch_checked | intros ?].
  eapply hoare_bind.
  - eapply hoare_pre; [apply clean_unchecked | apply launch_unchecked].
  - intros ?. destruct (i =? PROGRAM_COUNT - 1)%nat.
    + eapply hoare_bind; [apply launch_checked_catches; lia|].
      intros ?. apply vigilant_launch_checked.
    + apply launch_checked_catches; lia.
Qed.

Lemma vigilant_program_rounds todo batch_size : forall i,
  vigilant env (program_rounds SCRATCHPAD_SIZE PROGRAM_SIZE REGISTERS_SIZE PROGRAM_COUNT
                               env gpu todo batch_size i).
Proof.
  induction todo as [|todo IH]; intros i; cbn [program_rounds].
  - now apply vigilant_neutral, neutral_ret.
  - apply vigilant_bind; [apply vigilant_program_round | intros ?; apply IH].
Qed.

Lemma vigilant_batch batch_size nonce k :
  vigilant env (batch SCRATCHPAD_SIZE PROGRAM_SIZE REGISTERS_SIZE PROGRAM_COUNT env gpu
                      batch_size nonce k).
Proof.
  unfold batch, report_rate.
  repeat first [simple apply vigilant_program_rounds | vigilant_step].
Qed.

Lemma vigilant_search_loop fuel batch_size : forall nonce k,
  vigilant env (search_loop SCRATCHPAD_SIZE PROGRAM_SIZE REGISTERS_SIZE PROGRAM_COUNT
                            env gpu fuel batch_size nonce k).
Proof.
  induction fuel as [|fuel IH]; intros nonce k; cbn [search_loop].
  - intros s H. exact H.
  - apply vigilant_if; [|now apply vigilant_neutral, neutral_ret].
    apply vigilant_bind; [apply vigilant_batch | intros ?; apply IH].
Qed.

Lemma vigilant_test_mining_body fuel :
  vigilant env (test_mining_body DATASET_SIZE SCRATCHPAD_SIZE HASH_SIZE PROGRAM_SIZE
                                 REGISTERS_SIZE PROGRAM_COUNT env gpu fuel).
Proof.
  unfold test_mining_body. cbv zeta.
  repeat first [simple apply vigilant_search_loop | vigilant_step].
Qed.

(** The counters of a run of [test_mining] from the start of the program. *)
Lemma test_mining_counters fuel d h :
  let run := test_mining DATASET_SIZE SCRATCHPAD_SIZE HASH_SIZE PROGRAM_SIZE REGISTERS_SIZE
                         PROGRAM_COUNT env gpu fuel (Host [] cudaSuccess 0 0 0 0 [] d h) in
  match fst run with
  | Returned _ => caught env (snd run)
  | _ => clean env (snd run)
  end.
Proof.
  cbv zeta. unfold test_mining.
  assert (C : clean env (Host [] cudaSuccess 0 0 0 0 [] d h)).
  { unfold clean, on_counters. cbn. repeat split; intros i I; lia. }
  pose proof (vigilant_test_mining_body fuel _ C) as K.
  destruct (test_mining_body _ _ _ _ _ _ _ _ _ _) as [[a|r|] s']; cbn [fst snd]; auto.
Qed.

End VigilanceMining.

End VigilanceProofs.

(** ** [test_mining] returns only to report a failure *)

Section Loud.

Variable env : cuda_env.
Variable gpu : gpu_kernels.

Lemma loud_bind {A B} (m : M bool A) (k : A -> M bool B) :
  loud m -> (forall a, loud (k a)) -> loud (bind m k).
Proof. intros Hm Hk. exact (hoare_bind _ m k _ _ _ _ Hm Hk). Qed.

Lemma loud_neutral {A} (m : M bool A) : neutral m -> loud m.
Proof. intros N s _. now destruct (N s) as (a & s' & -> & _). Qed.

Lemma loud_if {A} (c : bool) (m1 m2 : M bool A) :
  loud m1 -> loud m2 -> loud (if c then m1 else m2).
Proof. now destruct c. Qed.

Lemma loud_fail_if c msg : loud (fail_if c msg false).
Proof.
  intros s _. unfold fail_if. destruct c; cbn; [|exact I].
  split; [reflexivity|]. now exists (trace s), msg.
Qed.

Lemma loud_launch_kernel l : loud (launch_kernel env gpu l).
Proof. intros s _. exact I. Qed.

Lemma loud_cudaGetLastError : loud cudaGetLastError.
Proof. intros s _. exact I. Qed.

Lemma loud_cudaDeviceSynchronize : loud (cudaDeviceSynchronize env).
Proof. intros s _. exact I. Qed.

Ltac loud_step :=
  first [ simple apply loud_bind; [|intros ?]
        | simple apply loud_fail_if
        | simple apply loud_launch_kernel
        | simple apply loud_cudaGetLastError
        | simple apply loud_cudaDeviceSynchronize
        | simple apply loud_if
        | simple apply loud_neutral;
          first [ simple apply neutral_ret | simple apply neutral_printf
                | simple apply neutral_tell
                | simple apply neutral_GPUPtr_new | simple apply neutral_GPUPtr_end
                | simple apply neutral_cudaMemGetInfo | simple apply neutral_cudaMemset
                | simple apply neutral_cudaMemcpyHostToDevice ] ].

Variables DATASET_SIZE SCRATCHPAD_SIZE HASH_SIZE PROGRAM_SIZE REGISTERS_SIZE : Z.
Variable PROGRAM_COUNT : nat.

Lemma loud_program_rounds todo batch_size : forall i,
  loud (program_rounds SCRATCHPAD_SIZE PROGRAM_SIZE REGISTERS_SIZE PROGRAM_COUNT
                       env gpu todo batch_size i).
Proof.
  induction todo as [|todo IH]; intros i; cbn [program_rounds].
  - now apply loud_neutral, neutral_ret.
  - apply loud_bind; [|intros ?; apply IH].
    unfold program_round, launch_checked. repeat loud_step.
Qed.

Lemma loud_batch batch_size nonce k :
  loud (batch SCRATCHPAD_SIZE PROGRAM_SIZE REGISTERS_SIZE PROGRAM_COUNT env gpu
              batch_size nonce k).
Proof.
  unfold batch, report_rate, launch_checked.
  repeat first [simple apply loud_program_rounds | loud_step].
Qed.

(** With a batch size that is a multiple of 32 the loop is never left by its
    guard: it ends only by a [return] in its body. *)
Lemma search_loop_never_ends fuel batch_size :
  batch_size mod 32 = 0 ->
  forall first,
  hoare (fun _ => True)
        (search_loop SCRATCHPAD_SIZE PROGRAM_SIZE REGISTERS_SIZE PROGRAM_COUNT env gpu fuel
                     batch_size (nonce_of_batch batch_size first)
                     (uint32_t (Z.of_nat first)))
        (fun _ _ => False) (fun r s => r = false /\ reported s) (fun _ => True).
Proof.
  intros A. induction fuel as [|fuel IH]; intros first; cbn [search_loop].
  - intros s _. exact I.
  - rewrite (nonce_guard batch_size first A).
    eapply hoare_bind; [apply loud_batch|]. intros ?.
    change (uint32_t (nonce_of_batch batch_size first + batch_size))
      with (nonce_of_batch batch_size (S first)).
    rewrite uint32_t_succ. apply IH.
Qed.

Lemma loud_test_mining_body fuel :
  loud (test_mining_body DATASET_SIZE SCRATCHPAD_SIZE HASH_SIZE PROGRAM_SIZE
                         REGISTERS_SIZE PROGRAM_COUNT env gpu fuel).
Proof.
  unfold test_mining_body. cbv zeta.
  repeat lazymatch goal with
         | |- loud (bind (search_loop _ _ _ _ _ _ _ _ _ _) _) => fail
         | _ => loud_step
         end.
  eapply hoare_bind.
  - exact (search_loop_never_ends fuel _ (batch_size_aligned _ _ _) 0%nat).
  - intros ? s [].
Qed.

(** What a run of [test_mining] from the start of the program leaves when it
    returns. *)
Lemma test_mining_returned fuel d h r :
  let run := test_mining DATASET_SIZE SCRATCHPAD_SIZE HASH_SIZE PROGRAM_SIZE REGISTERS_SIZE
                         PROGRAM_COUNT env gpu fuel (Host [] cudaSuccess 0 0 0 0 [] d h) in
  fst run = Returned r ->
  r = false
  /\ exists pre msg frees, trace (snd run) = pre ++ EvStderr msg :: map EvFree frees.
Proof.
  cbv zeta. unfold test_mining.
  pose proof (loud_test_mining_body fuel (Host [] cudaSuccess 0 0 0 0 [] d h) I) as K.
  destruct (test_mining_body _ _ _ _ _ _ _ _ _ _) as [[a|r'|] s']; cbn [fst snd];
    intros H; try discriminate H.
  injection H as ->. destruct K as (-> & pre & msg & T). split; [reflexivity|].
  exists pre, msg, (live s'). unfold destroy_all. cbn [trace].
  rewrite T, <- app_assoc. reflexivity.
Qed.

End Loud.

(** ** The error handling of [test_mining], whatever the runtime answers *)

(** X3: whatever the runtime answers, [test_mining] returns only [false],
    and only after it has written a message to [stderr]: the trace of a run
    that returned ends with the message and the release of the buffers.  It
    never returns [true]. *)
Theorem test_mining_returns_only_to_report_a_failure
    (DATASET_SIZE SCRATCHPAD_SIZE HASH_SIZE PROGRAM_SIZE REGISTERS_SIZE : Z)
    (PROGRAM_COUNT : nat) (env : cuda_env) (gpu : gpu_kernels)
    (fuel : nat) (d : devmem) (h : hostmem) (r : bool) :
  let run := test_mining DATASET_SIZE SCRATCHPAD_SIZE HASH_SIZE PROGRAM_SIZE REGISTERS_SIZE
                         PROGRAM_COUNT env gpu fuel (Host [] cudaSuccess 0 0 0 0 [] d h) in
  fst run = Returned r ->
  r = false
  /\ exists pre msg frees, trace (snd run) = pre ++ EvStderr msg :: map EvFree frees.
Proof. apply test_mining_returned. Qed.

(** A device that reports no free memory. *)
Lemma test_mining_returns_only_to_report_a_failure_witness :
  false = false
  /\ exists pre msg frees,
       trace (snd (test_mining Example.DATASET_SIZE Example.SCRATCHPAD_SIZE
                     Example.HASH_SIZE Example.PROGRAM_SIZE Example.REGISTERS_SIZE
                     Example.PROGRAM_COUNT (Example.env_ok 0 0) Example.idle_gpu 1
                     (Host [] cudaSuccess 0 0 0 0 [] Example.zero_dev Example.host_memory)))
       = pre ++ EvStderr msg :: map EvFree frees.
Proof.
  apply (test_mining_returns_only_to_report_a_failure
           Example.DATASET_SIZE Example.SCRATCHPAD_SIZE Example.HASH_SIZE
           Example.PROGRAM_SIZE Example.REGISTERS_SIZE Example.PROGRAM_COUNT
           (Example.env_ok 0 0) Example.idle_gpu 1 Example.zero_dev Example.host_memory
           false).
  vm_compute. reflexivity.
Defined.

(** X4: a launch that could not be issued does not go unnoticed, whatever
    else the runtime answers: if launch number [i] of the run failed, then
    [test_mining] has returned [false], and it issued at most one more
    launch after the failed one. *)
Theorem failed_launch_ends_the_run
    (DATASET_SIZE SCRATCHPAD_SIZE HASH_SIZE PROGRAM_SIZE REGISTERS_SIZE : Z)
    (PROGRAM_COUNT : nat) (env : cuda_env) (gpu : gpu_kernels)
    (fuel : nat) (d : devmem) (h : hostmem) (i : nat) :
  let run := test_mining DATASET_SIZE SCRATCHPAD_SIZE HASH_SIZE PROGRAM_SIZE REGISTERS_SIZE
                         PROGRAM_COUNT env gpu fuel (Host [] cudaSuccess 0 0 0 0 [] d h) in
  (i < n_launch (snd run))%nat ->
  is_success (launch_status env i) = false ->
  fst run = Returned false /\ (n_launch (snd run) <= i + 2)%nat.
Proof.
  cbv zeta. intros I F.
  pose proof (test_mining_counters env gpu DATASET_SIZE SCRATCHPAD_SIZE HASH_SIZE
                PROGRAM_SIZE REGISTERS_SIZE PROGRAM_COUNT fuel d h) as C.
  pose proof (test_mining_returned env gpu DATASET_SIZE SCRATCHPAD_SIZE HASH_SIZE
                PROGRAM_SIZE REGISTERS_SIZE PROGRAM_COUNT fuel d h) as L.
  cbv zeta in C, L.
  destruct (fst (test_mining _ _ _ _ _ _ _ _ _ _)) as [a|r|].
  - destruct C as (_ & C & _). rewrite (C i I) in F. discriminate F.
  - destruct (L r eq_refl) as [-> _]. split; [reflexivity|].
    destruct C as [C _].
    destruct (le_lt_dec (n_launch (snd (test_mining DATASET_SIZE SCRATCHPAD_SIZE HASH_SIZE
                PROGRAM_SIZE REGISTERS_SIZE PROGRAM_COUNT env gpu fuel
                (Host [] cudaSuccess 0 0 0 0 [] d h)))) (i + 2)) as [Le|Gt]; [exact Le|].
    rewrite (C i) in F by lia. discriminate F.
  - destruct C as (_ & C & _). rewrite (C i I) in F. discriminate F.
Qed.

(** The launch numbered 3, [initGroupA_registers] of the first round, fails:
    one more launch follows it. *)
Lemma failed_launch_ends_the_run_witness :
  let run := test_mining Example.DATASET_SIZE Example.SCRATCHPAD_SIZE Example.HASH_SIZE
               Example.PROGRAM_SIZE Example.REGISTERS_SIZE Example.PROGRAM_COUNT
               (Example.env_launch_fails (2 ^ 33) (2 ^ 34) 3) Example.idle_gpu 1
               (Host [] cudaSuccess 0 0 0 0 [] Example.zero_dev Example.host_memory) in
  fst run = Returned false /\ (n_launch (snd run) <= 3 + 2)%nat.
Proof.
  apply (failed_launch_ends_the_run
           Example.DATASET_SIZE Example.SCRATCHPAD_SIZE Example.HASH_SIZE
           Example.PROGRAM_SIZE Example.REGISTERS_SIZE Example.PROGRAM_COUNT
           (Example.env_launch_fails (2 ^ 33) (2 ^ 34) 3) Example.idle_gpu 1
           Example.zero_dev Example.host_memory 3).
  - vm_compute. lia.
  - reflexivity.
Defined.

(** X5: a synchronisation that failed ends the run, whatever else the
    runtime answers: if synchronisation number [i] failed, then
    [test_mining] has returned [false] and made no further synchronisation:
    the batch is not retried and no later batch is run to its end. *)
Theorem failed_synchronisation_ends_the_run
    (DATASET_SIZE SCRATCHPAD_SIZE HASH_SIZE PROGRAM_SIZE REGISTERS_SIZE : Z)
    (PROGRAM_COUNT : nat) (env : cuda_env) (gpu : gpu_kernels)
    (fuel : nat) (d : devmem) (h : hostmem) (i : nat) :
  let run := test_mining DATASET_SIZE SCRATCHPAD_SIZE HASH_SIZE PROGRAM_SIZE REGISTERS_SIZE
                         PROGRAM_COUNT env gpu fuel (Host [] cudaSuccess 0 0 0 0 [] d h) in
  (i < n_sync (snd run))%nat ->
  is_success (sync_status env i) = false ->
  fst run = Returned false /\ n_sync (snd run) = S i.
Proof.
  cbv zeta. intros I F.
  pose proof (test_mining_counters env gpu DATASET_SIZE SCRATCHPAD_SIZE HASH_SIZE
                PROGRAM_SIZE REGISTERS_SIZE PROGRAM_COUNT fuel d h) as C.
  pose proof (test_mining_returned env gpu DATASET_SIZE SCRATCHPAD_SIZE HASH_SIZE
                PROGRAM_SIZE REGISTERS_SIZE PROGRAM_COUNT fuel d h) as L.
  cbv zeta in C, L.
  destruct (fst (test_mining _ _ _ _ _ _ _ _ _ _)) as [a|r|].
  - destruct C as (_ & _ & C). rewrite (C i I) in F. discriminate F.
  - destruct (L r eq_refl) as [-> _]. split; [reflexivity|].
    destruct C as [_ C].
    destruct (Nat.eq_dec (n_sync (snd (test_mining DATASET_SIZE SCRATCHPAD_SIZE HASH_SIZE
                PROGRAM_SIZE REGISTERS_SIZE PROGRAM_COUNT env gpu fuel
                (Host [] cudaSuccess 0 0 0 0 [] d h)))) (S i)) as [Eq|Ne]; [exact Eq|].
    rewrite (C i) in F by lia. discriminate F.
  - destruct C as (_ & _ & C). rewrite (C i I) in F. discriminate F.
Qed.

(** The synchronisation that ends the second batch fails; ten batches were
    asked for. *)
Lemma failed_synchronisation_ends_the_run_witness :
  let run := test_mining Example.DATASET_SIZE Example.SCRATCHPAD_SIZE Example.HASH_SIZE
               Example.PROGRAM_SIZE Example.REGISTERS_SIZE Example.PROGRAM_COUNT
               (Scenario.env_sync_fails (2 ^ 33) (2 ^ 34) 1) Example.idle_gpu 10
               (Host [] cudaSuccess 0 0 0 0 [] Example.zero_dev Example.host_memory) in
  fst run = Returned false /\ n_sync (snd run) = 2%nat.
Proof.
  apply (failed_synchronisation_ends_the_run
           Example.DATASET_SIZE Example.SCRATCHPAD_SIZE Example.HASH_SIZE
           Example.PROGRAM_SIZE Example.REGISTERS_SIZE Example.PROGRAM_COUNT
           (Scenario.env_sync_fails (2 ^ 33) (2 ^ 34) 1) Example.idle_gpu 10
           Example.zero_dev Example.host_memory 1).
  - vm_compute. lia.
  - reflexivity.
Defined.

(** ** Nothing is launched before the setup is complete *)

Ltac prologue_step :=
  cbn -[search_loop batch_size_of required_memory size_t Z.shiftr Z.leb];
  repeat (match goal with
          | H : mem_info _ _ = _ |- _ => rewrite H
          | H : malloc_ok _ _ = _ |- _ => rewrite H
          | H : memset_status _ = _ |- _ => rewrite H
          | H : memcpy_status _ _ = _ |- _ => rewrite H
          | H : (_ <=? _) = _ |- _ => rewrite H
          end;
          cbn -[search_loop batch_size_of required_memory size_t Z.shiftr Z.leb]).

(** X6: [test_mining] launches a kernel only after its whole setup has
    succeeded: both memory queries, the test of the free memory, the six
    allocations, the clearing of the registers and the upload of the
    template.  If any of them fails, the run ends without a single launch. *)
Theorem no_launch_before_the_setup_succeeds
    (DATASET_SIZE SCRATCHPAD_SIZE HASH_SIZE PROGRAM_SIZE REGISTERS_SIZE : Z)
    (PROGRAM_COUNT : nat) (env : cuda_env) (gpu : gpu_kernels)
    (fuel : nat) (d : devmem) (h : hostmem) :
  let run := test_mining DATASET_SIZE SCRATCHPAD_SIZE HASH_SIZE PROGRAM_SIZE REGISTERS_SIZE
                         PROGRAM_COUNT env gpu fuel (Host [] cudaSuccess 0 0 0 0 [] d h) in
  launches_of (trace (snd run)) <> [] ->
  fst (mem_info env 0) = cudaSuccess
  /\ required_memory DATASET_SIZE SCRATCHPAD_SIZE < fst (snd (mem_info env 0))
  /\ Forall (fun b => malloc_ok env b = true)
            [ dataset_gpu; scratchpads_gpu; hashes_gpu; programs_gpu; registers_gpu;
              blockTemplate_gpu ]
  /\ memset_status env = cudaSuccess
  /\ memcpy_status env 0 = cudaSuccess
  /\ fst (mem_info env 1) = cudaSuccess.
Proof.
  cbv zeta.
  unfold test_mining, test_mining_body, bind, GPUPtr_new, GPUPtr_end, cudaMemGetInfo,
    cudaMemset, cudaMemcpyHostToDevice, fail_if, printf, fprintf_stderr, tell, ret,
    return_, emit.
  destruct (malloc_ok env tmp) eqn:M0; prologue_step.
  all: destruct (mem_info env 0) as [st0 [free total]] eqn:Q0; destruct st0; prologue_step;
    [|intros H; now contradiction H].
  all: destruct (free <=? required_memory DATASET_SIZE SCRATCHPAD_SIZE) eqn:Enough;
    prologue_step; [intros H; now contradiction H|].
  all: apply Z.leb_gt in Enough.
  all: destruct (malloc_ok env dataset_gpu) eqn:M1; prologue_step;
    [|intros H; now contradiction H].
  all: destruct (malloc_ok env scratchpads_gpu) eqn:M2; prologue_step;
    [|intros H; now contradiction H].
  all: destruct (malloc_ok env hashes_gpu) eqn:M3; prologue_step;
    [|intros H; now contradiction H].
  all: destruct (malloc_ok env programs_gpu) eqn:M4; prologue_step;
    [|intros H; now contradiction H].
  all: destruct (malloc_ok env registers_gpu) eqn:M5; prologue_step;
    [|intros H; now contradiction H].
  all: destruct (memset_status env) eqn:S0; prologue_step;
    [|intros H; now contradiction H].
  all: destruct (malloc_ok env blockTemplate_gpu) eqn:M6; prologue_step;
    [|intros H; now contradiction H].
  all: destruct (memcpy_status env 0) eqn:C0; prologue_step;
    [|intros H; now contradiction H].
  all: destruct (mem_info env 1) as [st1 [left total']] eqn:Q1; destruct st1; prologue_step;
    [|intros H; now contradiction H].
  all: intros _; repeat split; auto; repeat constructor; assumption.
Qed.

(** The run of the search on a device with 8 GB free. *)
Lemma no_launch_before_the_setup_succeeds_witness :
  let env := Example.env_ok (2 ^ 33) (2 ^ 34) in
  fst (mem_info env 0) = cudaSuccess
  /\ required_memory Example.DATASET_SIZE Example.SCRATCHPAD_SIZE < fst (snd (mem_info env 0))
  /\ Forall (fun b => malloc_ok env b = true)
            [ dataset_gpu; scratchpads_gpu; hashes_gpu; programs_gpu; registers_gpu;
              blockTemplate_gpu ]
  /\ memset_status env = cudaSuccess
  /\ memcpy_status env 0 = cudaSuccess
  /\ fst (mem_info env 1) = cudaSuccess.
Proof.
  apply (no_launch_before_the_setup_succeeds
           Example.DATASET_SIZE Example.SCRATCHPAD_SIZE Example.HASH_SIZE
           Example.PROGRAM_SIZE Example.REGISTERS_SIZE Example.PROGRAM_COUNT
           (Example.env_ok (2 ^ 33) (2 ^ 34)) Example.idle_gpu 1
           Example.zero_dev Example.host_memory).
  vm_compute. discriminate.
Defined.

(** ** The entry point *)

Section MainProofs.

Variables DATASET_SIZE SCRATCHPAD_SIZE HASH_SIZE PROGRAM_SIZE REGISTERS_SIZE : Z.
Variable PROGRAM_COUNT : nat.
Variable env : cuda_env.
Variable gpu : gpu_kernels.
Variables aesdec aesenc : Z -> Z -> Z.
Variables key0 key1 key2 key3 : Z.
Variable hashAes1Rx4_ref : list Z -> list Z.

Local Abbreviation main' :=
  (main DATASET_SIZE SCRATCHPAD_SIZE HASH_SIZE PROGRAM_SIZE REGISTERS_SIZE PROGRAM_COUNT
        env gpu aesdec aesenc key0 key1 key2 key3 hashAes1Rx4_ref).
Local Abbreviation run_mode' :=
  (run_mode DATASET_SIZE SCRATCHPAD_SIZE HASH_SIZE PROGRAM_SIZE REGISTERS_SIZE PROGRAM_COUNT
            env gpu aesdec aesenc key0 key1 key2 key3 hashAes1Rx4_ref).

(** The calls [test_mining();] and [tests();] are statements: whatever the
    function returns, [main] goes on. *)
Lemma run_mode_falls_through fuel mode s :
  match fst (run_mode' fuel mode s) with Returned _ => False | _ => True end.
Proof.
  unfold run_mode.
  destruct (String.eqb mode "--mine").
  - destruct (test_mining _ _ _ _ _ _ _ _ _ _) as [[a|r|] s']; exact I.
  - destruct (String.eqb mode "--test"); [|exact I].
    destruct (tests _ _ _ _ _ _ _ _ _ _ _ _ _) as [[a|r|] s']; exact I.
Qed.

Lemma main_outcome fuel argv s :
  match fst (main' fuel argv s) with
  | Returned r =>
      r = if (List.length argv <? 3)%nat then 0
          else if is_success (set_device_status env) && is_success (reset_status env)
               then 0 else 1
  | Running =>
      (3 <= List.length argv)%nat /\ is_success (set_device_status env) = true
  | Next _ => False
  end.
Proof.
  unfold main. destruct (List.length argv <? 3)%nat eqn:A; [reflexivity|].
  apply Nat.ltb_ge in A.
  unfold bind at 1. unfold tell. unfold bind at 1. unfold fail_if.
  destruct (set_device_status env); cbn [is_success negb andb]; [|reflexivity].
  cbn [ret]. unfold bind at 1.
  pose proof (run_mode_falls_through fuel (nth 1 argv EmptyString)
                (emit (EvSetDevice (atoi (nth 2 argv EmptyString))) s)) as F.
  destruct (run_mode' _ _ _) as [[a|r|] s']; cbn [fst] in F; [|contradiction|].
  - unfold bind, tell, fail_if.
    destruct (reset_status env); reflexivity.
  - cbn [fst]. now split.
Qed.

End MainProofs.

(** X7: the exit status of [main] depends on the number of arguments and on
    the two calls [cudaSetDevice] and [cudaDeviceReset] only: it is 1 when
    there are at least three arguments and one of the two calls fails, and 0
    otherwise.  What [test_mining] or [tests] did, and whether it failed,
    does not show in the exit status. *)
Theorem main_exit_status
    (DATASET_SIZE SCRATCHPAD_SIZE HASH_SIZE PROGRAM_SIZE REGISTERS_SIZE : Z)
    (PROGRAM_COUNT : nat) (env : cuda_env) (gpu : gpu_kernels)
    (aesdec aesenc : Z -> Z -> Z) (key0 key1 key2 key3 : Z)
    (hashAes1Rx4_ref : list Z -> list Z)
    (fuel : nat) (argv : list string) (s : host) :
  match fst (main DATASET_SIZE SCRATCHPAD_SIZE HASH_SIZE PROGRAM_SIZE REGISTERS_SIZE
                  PROGRAM_COUNT env gpu aesdec aesenc key0 key1 key2 key3 hashAes1Rx4_ref
                  fuel argv s) with
  | Returned r =>
      r = if (List.length argv <? 3)%nat then 0
          else if is_success (set_device_status env) && is_success (reset_status env)
               then 0 else 1
  | Running =>
      (3 <= List.length argv)%nat /\ is_success (set_device_status env) = true
  | Next _ => False
  end.
Proof. apply main_outcome. Qed.

(** X8: with fewer than three arguments [main] prints the usage and returns
    0 without a single call of the runtime, whatever the arguments are. *)
Theorem main_prints_usage
    (DATASET_SIZE SCRATCHPAD_SIZE HASH_SIZE PROGRAM_SIZE REGISTERS_SIZE : Z)
    (PROGRAM_COUNT : nat) (env : cuda_env) (gpu : gpu_kernels)
    (aesdec aesenc : Z -> Z -> Z) (key0 key1 key2 key3 : Z)
    (hashAes1Rx4_ref : list Z -> list Z)
    (fuel : nat) (argv : list string) (s : host) :
  (List.length argv < 3)%nat ->
  main DATASET_SIZE SCRATCHPAD_SIZE HASH_SIZE PROGRAM_SIZE REGISTERS_SIZE
       PROGRAM_COUNT env gpu aesdec aesenc key0 key1 key2 key3 hashAes1Rx4_ref
       fuel argv s
  = (Returned 0,
     emit (EvPrintf "Examples:\nRandomX_CUDA.exe --test 0\nRandomX_CUDA.exe --mine 0\n" [])
       (emit (EvPrintf "Usage: RandomX_CUDA.exe --[mine|test] device_id\n" []) s)).
Proof.
  intros A. apply Nat.ltb_lt in A. unfold main. rewrite A. reflexivity.
Qed.

(** The mode without a device number. *)
Lemma main_prints_usage_witness :
  main Example.DATASET_SIZE Example.SCRATCHPAD_SIZE Example.HASH_SIZE
       Example.PROGRAM_SIZE Example.REGISTERS_SIZE Example.PROGRAM_COUNT
       (Example.env_ok (2 ^ 33) (2 ^ 34)) Example.idle_gpu
       Example.mix Example.mix 1 2 3 4 (fun _ => [])
       1 ["RandomX_CUDA.exe"; "--mine"]%string (Example.start Example.zero_dev)
  = (Returned 0,
     emit (EvPrintf "Examples:\nRandomX_CUDA.exe --test 0\nRandomX_CUDA.exe --mine 0\n" [])
       (emit (EvPrintf "Usage: RandomX_CUDA.exe --[mine|test] device_id\n" [])
          (Example.start Example.zero_dev))).
Proof.
  apply (main_prints_usage
           Example.DATASET_SIZE Example.SCRATCHPAD_SIZE Example.HASH_SIZE
           Example.PROGRAM_SIZE Example.REGISTERS_SIZE Example.PROGRAM_COUNT
           (Example.env_ok (2 ^ 33) (2 ^ 34)) Example.idle_gpu
           Example.mix Example.mix 1 2 3 4 (fun _ => [])
           1 ["RandomX_CUDA.exe"; "--mine"]%string (Example.start Example.zero_dev)).
  cbn. lia.
Defined.

(** X9: when [cudaSetDevice] fails, [main] reports it and returns 1 at
    once, whatever the mode: neither [test_mining] nor [tests] is run, and
    the device is not reset. *)
Theorem main_without_a_device
    (DATASET_SIZE SCRATCHPAD_SIZE HASH_SIZE PROGRAM_SIZE REGISTERS_SIZE : Z)
    (PROGRAM_COUNT : nat) (env : cuda_env) (gpu : gpu_kernels)
    (aesdec aesenc : Z -> Z -> Z) (key0 key1 key2 key3 : Z)
    (hashAes1Rx4_ref : list Z -> list Z)
    (fuel : nat) (prog mode device : string) (rest : list string) (s : host) :
  is_success (set_device_status env) = false ->
  main DATASET_SIZE SCRATCHPAD_SIZE HASH_SIZE PROGRAM_SIZE REGISTERS_SIZE
       PROGRAM_COUNT env gpu aesdec aesenc key0 key1 key2 key3 hashAes1Rx4_ref
       fuel (prog :: mode :: device :: rest) s
  = (Returned 1,
     emit (EvStderr "cudaSetDevice failed! Do you have a CUDA-capable GPU installed?")
       (emit (EvSetDevice (atoi device)) s)).
Proof.
  intros F. unfold main. cbn [List.length Nat.ltb Nat.leb nth].
  unfold bind at 1. unfold tell. unfold bind at 1. unfold fail_if. rewrite F.
  reflexivity.
Qed.

Lemma main_without_a_device_witness :
  main Example.DATASET_SIZE Example.SCRATCHPAD_SIZE Example.HASH_SIZE
       Example.PROGRAM_SIZE Example.REGISTERS_SIZE Example.PROGRAM_COUNT
       Scenario.env_no_device Example.idle_gpu
       Example.mix Example.mix 1 2 3 4 (fun _ => [])
       1 ["RandomX_CUDA.exe"; "--mine"; "7"]%string (Example.start Example.zero_dev)
  = (Returned 1,
     emit (EvStderr "cudaSetDevice failed! Do you have a CUDA-capable GPU installed?")
       (emit (EvSetDevice 7) (Example.start Example.zero_dev))).
Proof.
  apply (main_without_a_device
           Example.DATASET_SIZE Example.SCRATCHPAD_SIZE Example.HASH_SIZE
           Example.PROGRAM_SIZE Example.REGISTERS_SIZE Example.PROGRAM_COUNT
           Scenario.env_no_device Example.idle_gpu
           Example.mix Example.mix 1 2 3 4 (fun _ => [])
           1 "RandomX_CUDA.exe"%string "--mine"%string "7"%string []
           (Example.start Example.zero_dev)).
  reflexivity.
Defined.

(** X10: a mode that is neither [--mine] nor [--test] is not an error:
    [main] selects the device, runs nothing, resets the device and returns
    0, without a message. *)
Theorem main_unknown_mode
    (DATASET_SIZE SCRATCHPAD_SIZE HASH_SIZE PROGRAM_SIZE REGISTERS_SIZE : Z)
    (PROGRAM_COUNT : nat) (env : cuda_env) (gpu : gpu_kernels)
    (aesdec aesenc : Z -> Z -> Z) (key0 key1 key2 key3 : Z)
    (hashAes1Rx4_ref : list Z -> list Z)
    (fuel : nat) (prog mode device : string) (rest : list string) (s : host) :
  String.eqb mode "--mine" = false ->
  String.eqb mode "--test" = false ->
  is_success (set_device_status env) = true ->
  is_success (reset_status env) = true ->
  main DATASET_SIZE SCRATCHPAD_SIZE HASH_SIZE PROGRAM_SIZE REGISTERS_SIZE
       PROGRAM_COUNT env gpu aesdec aesenc key0 key1 key2 key3 hashAes1Rx4_ref
       fuel (prog :: mode :: device :: rest) s
  = (Returned 0, emit EvDeviceReset (emit (EvSetDevice (atoi device)) s)).
Proof.
  intros M T D R. unfold main. cbn [List.length Nat.ltb Nat.leb nth].
  unfold bind at 1. unfold tell. unfold bind at 1. unfold fail_if. rewrite D.
  cbn [negb ret]. unfold bind at 1. unfold run_mode. rewrite M, T.
  unfold bind, tell, fail_if. rewrite R. reflexivity.
Qed.

Lemma main_unknown_mode_witness :
  main Example.DATASET_SIZE Example.SCRATCHPAD_SIZE Example.HASH_SIZE
       Example.PROGRAM_SIZE Example.REGISTERS_SIZE Example.PROGRAM_COUNT
       (Example.env_ok (2 ^ 33) (2 ^ 34)) Example.idle_gpu
       Example.mix Example.mix 1 2 3 4 (fun _ => [])
       1 ["RandomX_CUDA.exe"; "--bench"; "0"]%string (Example.start Example.zero_dev)
  = (Returned 0,
     emit EvDeviceReset (emit (EvSetDevice 0) (Example.start Example.zero_dev))).
Proof.
  apply (main_unknown_mode
           Example.DATASET_SIZE Example.SCRATCHPAD_SIZE Example.HASH_SIZE
           Example.PROGRAM_SIZE Example.REGISTERS_SIZE Example.PROGRAM_COUNT
           (Example.env_ok (2 ^ 33) (2 ^ 34)) Example.idle_gpu
           Example.mix Example.mix 1 2 3 4 (fun _ => [])
           1 "RandomX_CUDA.exe"%string "--bench"%string "0"%string []
           (Example.start Example.zero_dev)); reflexivity.
Defined.

(** ** The batch fills the free memory *)

(** X11: when the check of the free memory passes (and the sizes do not wrap
    in 64 bits), the batch is the largest multiple of 32 lanes whose
    scratchpads fit beside the dataset and the 64 MB of headroom: that many
    fit, 32 more would not. *)
Theorem batch_is_the_largest_that_fits (DATASET_SIZE SCRATCHPAD_SIZE free : Z) :
  0 < SCRATCHPAD_SIZE ->
  0 <= DATASET_SIZE ->
  DATASET_SIZE + 32 * SCRATCHPAD_SIZE + 2 ^ 26 < free ->
  free < 2 ^ 64 ->
  let L := batch_size_of DATASET_SIZE SCRATCHPAD_SIZE free in
  DATASET_SIZE + L * SCRATCHPAD_SIZE + 2 ^ 26 <= free
  /\ free < DATASET_SIZE + (L + 32) * SCRATCHPAD_SIZE + 2 ^ 26.
Proof.
  intros S0 D0 E F. cbv zeta.
  assert (B : batch_size_of DATASET_SIZE SCRATCHPAD_SIZE free
              = (free - DATASET_SIZE - 2 ^ 26) / SCRATCHPAD_SIZE / 32 * 32)
    by (apply batch_size_exact; lia).
  rewrite B. clear B.
  change (2 ^ 26) with 67108864 in *.
  set (X := free - DATASET_SIZE - 67108864) in *.
  assert (X0 : 0 <= X) by (subst X; lia).
  pose proof (Z.mul_div_le X SCRATCHPAD_SIZE S0) as A1.
  pose proof (Z.mul_succ_div_gt X SCRATCHPAD_SIZE S0) as A2.
  pose proof (Z.mul_div_le (X / SCRATCHPAD_SIZE) 32 ltac:(lia)) as B1.
  pose proof (Z.mul_succ_div_gt (X / SCRATCHPAD_SIZE) 32 ltac:(lia)) as B2.
  set (q := X / SCRATCHPAD_SIZE) in *. set (p := q / 32) in *.
  split; subst X; nia.
Qed.

(** A device with 8 GB free: 2 GB of dataset, 2 MB scratchpads. *)
Lemma batch_is_the_largest_that_fits_witness :
  let L := batch_size_of Example.DATASET_SIZE Example.SCRATCHPAD_SIZE (2 ^ 33) in
  Example.DATASET_SIZE + L * Example.SCRATCHPAD_SIZE + 2 ^ 26 <= 2 ^ 33
  /\ 2 ^ 33 < Example.DATASET_SIZE + (L + 32) * Example.SCRATCHPAD_SIZE + 2 ^ 26.
Proof.
  apply (batch_is_the_largest_that_fits Example.DATASET_SIZE Example.SCRATCHPAD_SIZE (2 ^ 33));
    now vm_compute.
Defined.

(** ** What [test_mining] does with its buffers *)

Section Emits.

Variable A : event -> Prop.

Lemma emits_bind {R X Y} (m : M R X) (k : X -> M R Y) :
  emits_only A m -> (forall a, emits_only A (k a)) -> emits_only A (bind m k).
Proof.
  intros Hm Hk s. unfold bind. destruct (Hm s) as (e1 & T1 & F1).
  destruct (m s) as [[a|r|] s']; cbn [snd] in *; try (now exists e1).
  destruct (Hk a s') as (e2 & T2 & F2). exists (e1 ++ e2). split.
  - now rewrite T2, T1, app_assoc.
  - now apply Forall_app.
Qed.

Lemma emits_nothing {R X} (m : M R X) :
  (forall s, trace (snd (m s)) = trace s) -> emits_only A m.
Proof. intros H s. exists []. rewrite app_nil_r. now split. Qed.

Lemma emits_one {R X} (m : M R X) e :
  A e -> (forall s, trace (snd (m s)) = trace s ++ [e]) -> emits_only A m.
Proof. intros He H s. exists [e]. split; [apply H | now constructor]. Qed.

Lemma emits_ret {R X} (a : X) : emits_only A (@ret R X a).
Proof. now apply emits_nothing. Qed.

Lemma emits_return {R X} (r : R) : emits_only A (@return_ R X r).
Proof. now apply emits_nothing. Qed.

Lemma emits_if {R X} (c : bool) (m1 m2 : M R X) :
  emits_only A m1 -> emits_only A m2 -> emits_only A (if c then m1 else m2).
Proof. now destruct c. Qed.

Lemma emits_tell {R} e : A e -> emits_only A (@tell R e).
Proof. intros He. now apply (emits_one _ e). Qed.

Lemma emits_fail_if {R} c msg (r : R) : A (EvStderr msg) -> emits_only A (fail_if c msg r).
Proof.
  intros He. unfold fail_if. apply emits_if; [|apply emits_ret].
  apply emits_bind; [now apply emits_tell | intros ?; apply emits_return].
Qed.

Variable env : cuda_env.
Variable gpu : gpu_kernels.

Lemma emits_GPUPtr_new {R} b size :
  A (EvMalloc b size) -> emits_only A (@GPUPtr_new env R b size).
Proof.
  intros He. apply (emits_one _ (EvMalloc b size) He). intros s.
  unfold GPUPtr_new. now destruct (malloc_ok env b).
Qed.

Lemma emits_GPUPtr_end {R} b : A (EvFree b) -> emits_only A (@GPUPtr_end R b).
Proof.
  intros He s. unfold GPUPtr_end. destruct (live s) as [|b' rest].
  - exists []. rewrite app_nil_r. now split.
  - destruct (buffer_eqb b' b).
    + exists [EvFree b]. split; [reflexivity | now constructor].
    + exists []. rewrite app_nil_r. now split.
Qed.

Lemma emits_cudaMemGetInfo {R} : A EvMemGetInfo -> emits_only A (@cudaMemGetInfo env R).
Proof. intros He. now apply (emits_one _ EvMemGetInfo). Qed.

Lemma emits_cudaMemset {R} b size :
  A (EvMemset b size) -> emits_only A (@cudaMemset env R b size).
Proof. intros He. now apply (emits_one _ (EvMemset b size)). Qed.

Lemma emits_cudaMemcpyHostToDevice {R} dst src size :
  A (EvMemcpyHtoD dst src size) -> emits_only A (@cudaMemcpyHostToDevice env R dst src size).
Proof. intros He. now apply (emits_one _ (EvMemcpyHtoD dst src size)). Qed.

Lemma emits_launch_kernel {R} l :
  A (EvLaunch l) -> emits_only A (@launch_kernel env gpu R l).
Proof. intros He. now apply (emits_one _ (EvLaunch l)). Qed.

Lemma emits_cudaGetLastError {R} : A EvGetLastError -> emits_only A (@cudaGetLastError R).
Proof. intros He. now apply (emits_one _ EvGetLastError). Qed.

Lemma emits_cudaDeviceSynchronize {R} :
  A EvDeviceSynchronize -> emits_only A (@cudaDeviceSynchronize env R).
Proof. intros He. now apply (emits_one _ EvDeviceSynchronize). Qed.

End Emits.

Ltac emits_step :=
  first [ simple apply emits_bind; [|intros ?]
        | simple apply emits_ret | simple apply emits_return
        | simple apply emits_fail_if; exact I
        | simple apply emits_tell; exact I
        | simple apply emits_GPUPtr_new; exact I
        | simple apply emits_GPUPtr_end; exact I
        | simple apply emits_cudaMemGetInfo; exact I
        | simple apply emits_cudaMemset; reflexivity
        | simple apply emits_cudaMemcpyHostToDevice; repeat split
        | simple apply emits_launch_kernel; split; reflexivity
        | simple apply emits_cudaGetLastError; exact I
        | simple apply emits_cudaDeviceSynchronize; exact I
        | simple apply emits_if ].

Section MiningEvents.

Variables DATASET_SIZE SCRATCHPAD_SIZE HASH_SIZE PROGRAM_SIZE REGISTERS_SIZE : Z.
Variable PROGRAM_COUNT : nat.
Variable env : cuda_env.
Variable gpu : gpu_kernels.

Lemma emits_program_rounds todo batch_size : forall i,
  emits_only mining_event
    (program_rounds SCRATCHPAD_SIZE PROGRAM_SIZE REGISTERS_SIZE PROGRAM_COUNT
                    env gpu todo batch_size i).
Proof.
  induction todo as [|todo IH]; intros i; cbn [program_rounds]; [apply emits_ret|].
  apply emits_bind; [|intros ?; apply IH].
  unfold program_round, launch_checked. repeat emits_step.
Qed.

Lemma emits_search_loop fuel batch_size : forall nonce k,
  emits_only mining_event
    (search_loop SCRATCHPAD_SIZE PROGRAM_SIZE REGISTERS_SIZE PROGRAM_COUNT
                 env gpu fuel batch_size nonce k).
Proof.
  induction fuel as [|fuel IH]; intros nonce k; cbn [search_loop].
  - now apply emits_nothing.
  - apply emits_if; [|apply emits_ret].
    apply emits_bind; [|intros ?; apply IH].
    unfold batch, report_rate, launch_checked, printf.
    repeat first [simple apply emits_program_rounds | emits_step].
Qed.

Lemma emits_test_mining_body fuel :
  emits_only mining_event
    (test_mining_body DATASET_SIZE SCRATCHPAD_SIZE HASH_SIZE PROGRAM_SIZE REGISTERS_SIZE
                      PROGRAM_COUNT env gpu fuel).
Proof.
  unfold test_mining_body, printf. cbv zeta.
  repeat first [simple apply emits_search_loop | emits_step].
Qed.

(** Every event of a run of [test_mining] from the start of the program. *)
Lemma test_mining_events fuel d h :
  Forall mining_event
    (trace (snd (test_mining DATASET_SIZE SCRATCHPAD_SIZE HASH_SIZE PROGRAM_SIZE
                   REGISTERS_SIZE PROGRAM_COUNT env gpu fuel
                   (Host [] cudaSuccess 0 0 0 0 [] d h)))).
Proof.
  unfold test_mining.
  destruct (emits_test_mining_body fuel (Host [] cudaSuccess 0 0 0 0 [] d h))
    as (evs & T & F).
  destruct (test_mining_body _ _ _ _ _ _ _ _ _ _) as [[a|r|] s']; cbn [snd trace app] in *;
    try (now rewrite T).
  unfold destroy_all. cbn [trace]. rewrite T.
  apply Forall_app. split; [exact F|].
  apply Forall_forall. intros e I. apply in_map_iff in I. now destruct I as (b & <- & _).
Qed.

End MiningEvents.

Lemma mining_events_dataset tr :
  Forall mining_event tr ->
  filter (uses dataset_gpu) (launches_of tr) = [] /\ host_writes dataset_gpu tr = 0%nat.
Proof.
  unfold host_writes, launches_of.
  induction 1 as [|e tr He _ [IH1 IH2]]; [now split|].
  cbn [flat_map filter]. rewrite filter_app, IH1.
  destruct e; cbn in He |- *; try (now split).
  - subst b. now split.
  - destruct He as (-> & _). now split.
  - destruct He as [-> _]. now split.
Qed.

Lemma mining_events_transfers tr :
  Forall mining_event tr ->
  existsb is_read_back tr = false
  /\ Forall (fun e => match e with
                      | EvMemcpyHtoD dst src size =>
                          dst = blockTemplate_gpu /\ src = blockTemplate
                          /\ size = sizeof_blockTemplate
                      | _ => True
                      end) tr.
Proof.
  induction 1 as [|e tr He _ [IH1 IH2]]; [now split|].
  cbn [existsb]. rewrite IH1. split.
  - destruct e; cbn in He |- *; try reflexivity. contradiction.
  - constructor; [|exact IH2]. destruct e; auto.
Qed.

(** X12: whatever the runtime answers, [test_mining] allocates the dataset
    and then leaves it alone: no copy or [cudaMemset] writes it, and no
    kernel is launched with it among its arguments. *)
Theorem dataset_is_never_used
    (DATASET_SIZE SCRATCHPAD_SIZE HASH_SIZE PROGRAM_SIZE REGISTERS_SIZE : Z)
    (PROGRAM_COUNT : nat) (env : cuda_env) (gpu : gpu_kernels)
    (fuel : nat) (d : devmem) (h : hostmem) :
  let run := test_mining DATASET_SIZE SCRATCHPAD_SIZE HASH_SIZE PROGRAM_SIZE REGISTERS_SIZE
                         PROGRAM_COUNT env gpu fuel (Host [] cudaSuccess 0 0 0 0 [] d h) in
  filter (uses dataset_gpu) (launches_of (trace (snd run))) = []
  /\ host_writes dataset_gpu (trace (snd run)) = 0%nat.
Proof. cbv zeta. apply mining_events_dataset, test_mining_events. Qed.

(** X13: whatever the runtime answers, [test_mining] copies nothing back
    from the device, so that the digests of a batch never reach the host;
    and the one thing it uploads is the 76-byte template. *)
Theorem no_result_is_read_back
    (DATASET_SIZE SCRATCHPAD_SIZE HASH_SIZE PROGRAM_SIZE REGISTERS_SIZE : Z)
    (PROGRAM_COUNT : nat) (env : cuda_env) (gpu : gpu_kernels)
    (fuel : nat) (d : devmem) (h : hostmem) :
  let run := test_mining DATASET_SIZE SCRATCHPAD_SIZE HASH_SIZE PROGRAM_SIZE REGISTERS_SIZE
                         PROGRAM_COUNT env gpu fuel (Host [] cudaSuccess 0 0 0 0 [] d h) in
  existsb is_read_back (trace (snd run)) = false
  /\ Forall (fun e => match e with
                      | EvMemcpyHtoD dst src size =>
                          dst = blockTemplate_gpu /\ src = blockTemplate
                          /\ size = sizeof_blockTemplate
                      | _ => True
                      end) (trace (snd run)).
Proof. cbv zeta. apply mining_events_transfers, test_mining_events. Qed.

(** ** The launches of a run on which nothing fails *)

Lemma count_events_app p tr1 tr2 : count_events p (tr1 ++ tr2) = (count_events p tr1 + count_events p tr2)%nat.
Proof. unfold count_events. now rewrite filter_app, length_app. Qed.

Section RunShape.

Variables DATASET_SIZE SCRATCHPAD_SIZE HASH_SIZE PROGRAM_SIZE REGISTERS_SIZE : Z.
Variable PROGRAM_COUNT : nat.

Local Abbreviation round_launches' :=
  (round_launches SCRATCHPAD_SIZE PROGRAM_SIZE REGISTERS_SIZE PROGRAM_COUNT).
Local Abbreviation search_launches' :=
  (search_launches SCRATCHPAD_SIZE PROGRAM_SIZE REGISTERS_SIZE PROGRAM_COUNT).
Local Abbreviation search_events' :=
  (search_events SCRATCHPAD_SIZE PROGRAM_SIZE REGISTERS_SIZE PROGRAM_COUNT).
Local Abbreviation batch_events' :=
  (batch_events SCRATCHPAD_SIZE PROGRAM_SIZE REGISTERS_SIZE PROGRAM_COUNT).

Lemma launches_of_search_events batch_size n : forall first,
  launches_of (search_events' batch_size first n) = search_launches' batch_size first n.
Proof.
  induction n as [|n IH]; intros first; [reflexivity|].
  cbn [search_events search_launches].
  now rewrite launches_of_app, launches_of_batch_events, IH.
Qed.

(** One per round and one more in the last round. *)
Lemma length_over_rounds {X} (g : nat -> list X) a :
  (forall i, List.length (g i)
             = (a + if (i =? PROGRAM_COUNT - 1)%nat then 1 else 0)%nat) ->
  forall cnt first,
  List.length (flat_map g (seq first cnt))
  = (a * cnt
     + if ((first <=? PROGRAM_COUNT - 1) && (PROGRAM_COUNT - 1 <? first + cnt))%nat
       then 1 else 0)%nat.
Proof.
  intros G. induction cnt as [|cnt IH]; intros first.
  - cbn [seq flat_map List.length].
    destruct (first <=? PROGRAM_COUNT - 1)%nat eqn:E1;
      destruct (PROGRAM_COUNT - 1 <? first + 0)%nat eqn:E2; cbn [andb]; try lia.
    apply Nat.leb_le in E1. apply Nat.ltb_lt in E2. lia.
  - cbn [seq flat_map]. rewrite length_app, IH, G.
    destruct (first =? PROGRAM_COUNT - 1)%nat eqn:E;
      destruct (S first <=? PROGRAM_COUNT - 1)%nat eqn:E1;
      destruct (first <=? PROGRAM_COUNT - 1)%nat eqn:E2;
      destruct (PROGRAM_COUNT - 1 <? S first + cnt)%nat eqn:E3;
      destruct (PROGRAM_COUNT - 1 <? first + S cnt)%nat eqn:E4;
      cbn [andb];
      repeat match goal with
             | H : (_ =? _)%nat = true |- _ => apply Nat.eqb_eq in H
             | H : (_ =? _)%nat = false |- _ => apply Nat.eqb_neq in H
             | H : (_ <=? _)%nat = true |- _ => apply Nat.leb_le in H
             | H : (_ <=? _)%nat = false |- _ => apply Nat.leb_gt in H
             | H : (_ <? _)%nat = true |- _ => apply Nat.ltb_lt in H
             | H : (_ <? _)%nat = false |- _ => apply Nat.ltb_ge in H
             end; lia.
Qed.

Lemma filter_flat_map {X Y} (p : Y -> bool) (f : X -> list Y) l :
  filter p (flat_map f l) = flat_map (fun x => filter p (f x)) l.
Proof.
  induction l as [|x l IH]; [reflexivity|].
  cbn [flat_map]. now rewrite filter_app, IH.
Qed.

(** Every launch of the search has the threads of the whole batch, and the
    cipher kernels are passed its size. *)
Lemma search_launches_cover batch_size n :
  batch_size mod 32 = 0 ->
  forall first,
  Forall (fun l => l_grid l * l_block l = batch_size * threads_per_lane (l_kernel l)
                   /\ (threads_per_lane (l_kernel l) = 4 -> l_scalar l = batch_size))
         (search_launches' batch_size first n).
Proof.
  intros A.
  assert (E : batch_size / 32 * 32 = batch_size).
  { rewrite Z.mul_comm. symmetry. apply Z.div_exact; [lia | exact A]. }
  induction n as [|n IH]; intros first; [constructor|].
  cbn [search_launches]. apply Forall_app. split; [|apply IH].
  unfold batch_launches, rounds_launches. apply Forall_app. split.
  - repeat constructor; cbn [l_grid l_block l_kernel l_scalar threads_per_lane]; lia.
  - apply Forall_flat_map. apply Forall_forall. intros i _.
    unfold round_launches. destruct (i =? PROGRAM_COUNT - 1)%nat;
      repeat constructor; cbn [l_grid l_block l_kernel l_scalar threads_per_lane]; lia.
Qed.

Hypothesis rounds : (1 <= PROGRAM_COUNT)%nat.

Lemma last_round_is_a_round :
  ((0 <=? PROGRAM_COUNT - 1) && (PROGRAM_COUNT - 1 <? 0 + PROGRAM_COUNT))%nat = true.
Proof.
  apply andb_true_intro. split; [apply Nat.leb_le | apply Nat.ltb_lt]; lia.
Qed.

Lemma batch_counts batch_size nonce k :
  let evs := batch_events' batch_size nonce k in
  List.length (launches_of evs) = (3 * PROGRAM_COUNT + 3)%nat
  /\ count_events is_check evs = (2 * PROGRAM_COUNT + 3)%nat
  /\ count_events is_sync evs = 1%nat.
Proof.
  cbv zeta. split; [|split].
  - rewrite launches_of_batch_events. unfold batch_launches, rounds_launches.
    rewrite length_app, (length_over_rounds _ 3), last_round_is_a_round.
    + cbn [head_launches List.length]. lia.
    + intros i. unfold round_launches. destruct (i =? PROGRAM_COUNT - 1)%nat; reflexivity.
  - unfold batch_events, rounds_events. rewrite !count_events_app.
    unfold count_events at 3. rewrite filter_flat_map, (length_over_rounds _ 2),
      last_round_is_a_round.
    + assert (R : count_events is_check (rate_events k) = 0%nat).
      { unfold rate_events. destruct (k mod 16 =? 0); [destruct (0 <? k)|]; reflexivity. }
      rewrite R. cbn. lia.
    + intros i. unfold round_events, round_launches.
      destruct (i =? PROGRAM_COUNT - 1)%nat; reflexivity.
  - unfold batch_events, rounds_events. rewrite !count_events_app.
    unfold count_events at 3. rewrite filter_flat_map.
    assert (Z0 : forall l, flat_map (fun x => filter is_sync
                  (round_events SCRATCHPAD_SIZE PROGRAM_SIZE REGISTERS_SIZE PROGRAM_COUNT
                                batch_size x)) l = []).
    { induction l as [|i l IH]; [reflexivity|]. cbn [flat_map]. rewrite IH, app_nil_r.
      unfold round_events, round_launches.
      destruct (i =? PROGRAM_COUNT - 1)%nat; reflexivity. }
    rewrite Z0.
    assert (R : count_events is_sync (rate_events k) = 0%nat).
    { unfold rate_events. destruct (k mod 16 =? 0); [destruct (0 <? k)|]; reflexivity. }
    rewrite R. reflexivity.
Qed.

Lemma search_counts batch_size n : forall first,
  let evs := search_events' batch_size first n in
  List.length (launches_of evs) = (n * (3 * PROGRAM_COUNT + 3))%nat
  /\ count_events is_check evs = (n * (2 * PROGRAM_COUNT + 3))%nat
  /\ count_events is_sync evs = n.
Proof.
  induction n as [|n IH]; intros first; [now cbn|].
  cbv zeta. cbn [search_events].
  destruct (IH (S first)) as (I1 & I2 & I3).
  destruct (batch_counts batch_size (nonce_of_batch batch_size first)
              (uint32_t (Z.of_nat first))) as (B1 & B2 & B3).
  rewrite launches_of_app, length_app, !count_events_app, I1, I2, I3, B1, B2, B3. lia.
Qed.

End RunShape.

Section RunShapeTheorems.

Variables DATASET_SIZE SCRATCHPAD_SIZE HASH_SIZE PROGRAM_SIZE REGISTERS_SIZE : Z.
Variable PROGRAM_COUNT : nat.
Variable env : cuda_env.
Variable gpu : gpu_kernels.
Variables free total left total' : Z.

Hypothesis first_query : mem_info env 0 = (cudaSuccess, (free, total)).
Hypothesis second_query : mem_info env 1 = (cudaSuccess, (left, total')).
Hypothesis mallocs_succeed : forall b, malloc_ok env b = true.
Hypothesis memset_succeeds : memset_status env = cudaSuccess.
Hypothesis memcpys_succeed : forall n, memcpy_status env n = cudaSuccess.
Hypothesis launches_succeed : forall n, launch_status env n = cudaSuccess.
Hypothesis syncs_succeed : forall n, sync_status env n = cudaSuccess.
Hypothesis enough : required_memory DATASET_SIZE SCRATCHPAD_SIZE < free.

(** X14: on a runtime that does not fail, every launch of the run has the
    threads of the whole batch and no more: the grid times the block is the
    batch size for the keyed-hash kernels and [initGroupA_registers], and
    four times the batch size for the two cipher kernels, which are also
    passed the batch size.  No lane is left without its threads. *)
Theorem launches_cover_the_batch (fuel : nat) (d : devmem) (h : hostmem) :
  let run := test_mining DATASET_SIZE SCRATCHPAD_SIZE HASH_SIZE PROGRAM_SIZE REGISTERS_SIZE
                         PROGRAM_COUNT env gpu fuel (Host [] cudaSuccess 0 0 0 0 [] d h) in
  let batch_size := batch_size_of DATASET_SIZE SCRATCHPAD_SIZE free in
  Forall (fun l => l_grid l * l_block l = batch_size * threads_per_lane (l_kernel l)
                   /\ (threads_per_lane (l_kernel l) = 4 -> l_scalar l = batch_size))
         (launches_of (trace (snd run))).
Proof.
  cbv zeta.
  destruct (run_ok DATASET_SIZE SCRATCHPAD_SIZE HASH_SIZE PROGRAM_SIZE REGISTERS_SIZE
              PROGRAM_COUNT env gpu free total left total' first_query second_query
              mallocs_succeed memset_succeeds memcpys_succeed launches_succeed
              syncs_succeed enough fuel d h) as (_ & -> & _).
  rewrite launches_of_app, launches_of_search_events.
  apply Forall_app. split; [apply Forall_nil|].
  apply search_launches_cover, batch_size_aligned.
Qed.

(** X15: on a runtime that does not fail and with at least one program per
    hash, a run of [n] batches makes [n (3 N + 3)] launches for [N] programs,
    [n (2 N + 3)] calls of [cudaGetLastError] and [n] synchronisations: one
    synchronisation per batch, and in every batch [N] launches that no check
    follows. *)
Theorem cost_of_a_batch (fuel : nat) (d : devmem) (h : hostmem) :
  (1 <= PROGRAM_COUNT)%nat ->
  let run := test_mining DATASET_SIZE SCRATCHPAD_SIZE HASH_SIZE PROGRAM_SIZE REGISTERS_SIZE
                         PROGRAM_COUNT env gpu fuel (Host [] cudaSuccess 0 0 0 0 [] d h) in
  List.length (launches_of (trace (snd run))) = (fuel * (3 * PROGRAM_COUNT + 3))%nat
  /\ count_events is_check (trace (snd run)) = (fuel * (2 * PROGRAM_COUNT + 3))%nat
  /\ count_events is_sync (trace (snd run)) = fuel.
Proof.
  intros N. cbv zeta.
  destruct (run_ok DATASET_SIZE SCRATCHPAD_SIZE HASH_SIZE PROGRAM_SIZE REGISTERS_SIZE
              PROGRAM_COUNT env gpu free total left total' first_query second_query
              mallocs_succeed memset_succeeds memcpys_succeed launches_succeed
              syncs_succeed enough fuel d h) as (_ & -> & _).
  destruct (search_counts SCRATCHPAD_SIZE PROGRAM_SIZE REGISTERS_SIZE PROGRAM_COUNT N
              (batch_size_of DATASET_SIZE SCRATCHPAD_SIZE free) fuel 0) as (C1 & C2 & C3).
  rewrite launches_of_app, length_app, !count_events_app, C1, C2, C3. cbn. lia.
Qed.

End RunShapeTheorems.

(** Three batches on a device with 8 GB free. *)
Lemma launches_cover_the_batch_witness :
  let run := test_mining Example.DATASET_SIZE Example.SCRATCHPAD_SIZE Example.HASH_SIZE
               Example.PROGRAM_SIZE Example.REGISTERS_SIZE Example.PROGRAM_COUNT
               (Example.env_ok (2 ^ 33) (2 ^ 34)) Example.idle_gpu 3
               (Host [] cudaSuccess 0 0 0 0 [] Example.zero_dev Example.host_memory) in
  let batch_size := batch_size_of Example.DATASET_SIZE Example.SCRATCHPAD_SIZE (2 ^ 33) in
  Forall (fun l => l_grid l * l_block l = batch_size * threads_per_lane (l_kernel l)
                   /\ (threads_per_lane (l_kernel l) = 4 -> l_scalar l = batch_size))
         (launches_of (trace (snd run))).
Proof.
  apply (launches_cover_the_batch
           Example.DATASET_SIZE Example.SCRATCHPAD_SIZE Example.HASH_SIZE
           Example.PROGRAM_SIZE Example.REGISTERS_SIZE Example.PROGRAM_COUNT
           (Example.env_ok (2 ^ 33) (2 ^ 34)) Example.idle_gpu
           (2 ^ 33) (2 ^ 34) (2 ^ 33) (2 ^ 34)); try reflexivity.
Defined.

Lemma cost_of_a_batch_witness :
  let run := test_mining Example.DATASET_SIZE Example.SCRATCHPAD_SIZE Example.HASH_SIZE
               Example.PROGRAM_SIZE Example.REGISTERS_SIZE Example.PROGRAM_COUNT
               (Example.env_ok (2 ^ 33) (2 ^ 34)) Example.idle_gpu 3
               (Host [] cudaSuccess 0 0 0 0 [] Example.zero_dev Example.host_memory) in
  List.length (launches_of (trace (snd run))) = (3 * (3 * Example.PROGRAM_COUNT + 3))%nat
  /\ count_events is_check (trace (snd run)) = (3 * (2 * Example.PROGRAM_COUNT + 3))%nat
  /\ count_events is_sync (trace (snd run)) = 3%nat.
Proof.
  apply (cost_of_a_batch
           Example.DATASET_SIZE Example.SCRATCHPAD_SIZE Example.HASH_SIZE
           Example.PROGRAM_SIZE Example.REGISTERS_SIZE Example.PROGRAM_COUNT
           (Example.env_ok (2 ^ 33) (2 ^ 34)) Example.idle_gpu
           (2 ^ 33) (2 ^ 34) (2 ^ 33) (2 ^ 34)); try reflexivity.
  unfold Example.PROGRAM_COUNT. lia.
Defined.

(** ** What a passed test case has checked *)

Lemma bind_Next_inv {R A B} (m : M R A) (k : A -> M R B) s b s' :
  bind m k s = (Next b, s') ->
  exists a s1, m s = (Next a, s1) /\ k a s1 = (Next b, s').
Proof.
  unfold bind. destruct (m s) as [[a|r|] s1]; intros H; try discriminate H.
  now exists a, s1.
Qed.

Lemma fail_if_Next {R} c msg (r : R) s a s' :
  fail_if c msg r s = (Next a, s') -> c = false /\ s' = s.
Proof.
  unfold fail_if. destruct c; cbn; intros H; [discriminate H|].
  injection H as _ <-. now split.
Qed.

Lemma get_host_Next {R} s h s' : @get_host R s = (Next h, s') -> h = hst s /\ s' = s.
Proof. unfold get_host. intros H. injection H as <- <-. now split. Qed.

Lemma modify_host_Next {R} f s a s' :
  @modify_host R f s = (Next a, s') -> dev s' = dev s /\ hst s' = f (hst s).
Proof. unfold modify_host. intros H. injection H as _ <-. now split. Qed.

Lemma printf_Next {R} fmt args s a s' :
  @printf R fmt args s = (Next a, s') -> dev s' = dev s /\ hst s' = hst s.
Proof. unfold printf, tell, emit. intros H. injection H as _ <-. now split. Qed.

Lemma memcmp_eq_load m1 o1 m2 o2 n :
  memcmp_eq m1 o1 m2 o2 n = true -> load m1 o1 n = load m2 o2 n.
Proof.
  unfold memcmp_eq. intros H. apply load_eq_pointwise. intros b B.
  apply Z.eqb_eq. apply (proj1 (forallb_forall _ _) H). apply in_seq. lia.
Qed.

(** A part of two equal regions. *)
Lemma load_part m1 o1 m2 o2 n k j :
  load m1 o1 n = load m2 o2 n -> (k + j <= n)%nat ->
  load m1 (o1 + k) j = load m2 (o2 + k) j.
Proof.
  intros E L. apply load_eq_pointwise. intros b B.
  rewrite <- !Nat.add_assoc. apply (load_eq_inv _ _ _ _ n); [exact E | lia].
Qed.

Lemma for_each_Next_inv {R : Type} (P : nat -> host -> Prop) (body : nat -> M R unit) cnt :
  forall first s s',
  P first s ->
  (forall i s s1, (first <= i < first + cnt)%nat -> P i s ->
                  body i s = (Next tt, s1) -> P (S i) s1) ->
  for_each (seq first cnt) body s = (Next tt, s') ->
  P (first + cnt)%nat s'.
Proof.
  induction cnt as [|cnt IH]; intros first s s' H0 Hstep F.
  - cbn in F. injection F as <-. now rewrite Nat.add_0_r.
  - cbn [seq for_each] in F. apply bind_Next_inv in F as ([] & s1 & B & F).
    replace (first + S cnt)%nat with (S first + cnt)%nat by lia.
    apply (IH (S first) s1 s'); [|intros i t t1 I; apply Hstep; lia|exact F].
    apply (Hstep first s s1); [lia | exact H0 | exact B].
Qed.

Section HarnessSteps.

Variable env : cuda_env.
Variable gpu : gpu_kernels.

Lemma launch_kernel_Next {R} l s a s' :
  @launch_kernel env gpu R l s = (Next a, s') -> hst s' = hst s.
Proof. unfold launch_kernel. intros H. now injection H as _ <-. Qed.

Lemma cudaGetLastError_Next {R} s a s' :
  @cudaGetLastError R s = (Next a, s') -> dev s' = dev s /\ hst s' = hst s.
Proof. unfold cudaGetLastError. intros H. injection H as _ <-. now split. Qed.

Lemma sync_checked_Next s a s' :
  sync_checked env s = (Next a, s') -> dev s' = dev s /\ hst s' = hst s.
Proof.
  unfold sync_checked. intros H. apply bind_Next_inv in H as (st & s1 & S & F).
  apply fail_if_Next in F as [_ ->]. unfold cudaDeviceSynchronize in S.
  injection S as _ <-. now split.
Qed.

Lemma memcpy_to_host_Next dst src size s a s' :
  memcpy_to_host env dst src size s = (Next a, s') ->
  dev s' = dev s
  /\ hst s' = set_host (hst s) dst (copy (hst s dst) (dev s src) size).
Proof.
  unfold memcpy_to_host. intros H. apply bind_Next_inv in H as (st & s1 & C & F).
  apply fail_if_Next in F as [St ->]. unfold cudaMemcpyDeviceToHost in C.
  injection C as <- <-. cbn [dev hst emit].
  destruct (memcpy_status env (n_memcpy s)); [now split | discriminate St].
Qed.

End HarnessSteps.

Section InitialHashTest.

Variable env : cuda_env.
Variable gpu : gpu_kernels.

Lemma set_nonce_twice m x y a : set_nonce (set_nonce m x) y a = set_nonce m y a.
Proof.
  unfold set_nonce, nonce_offset.
  destruct (Nat.lt_ge_cases a 39) as [L|L];
    [|destruct (Nat.lt_ge_cases a 43) as [L'|L']].
  - now rewrite !store_outside by (cbn; lia).
  - now rewrite !store_inside by (cbn; lia).
  - now rewrite !store_outside by (cbn; lia).
Qed.

(** The reference loop of the first test case: it leaves the digest of the
    template with nonce [k] in slot [k] of [hash2], and the last nonce in
    the template. *)
Lemma initial_hash_reference_loop s s' :
  @for_each unit (seq 0 NUM_SCRATCHPADS_TEST) (fun i =>
    modify_host (fun h =>
      set_host h blockTemplate (set_nonce (h blockTemplate) (Z.of_nat i))) ;;
    modify_host (fun h =>
      set_host h hash2
        (store (h hash2) (i * 64)
           (Blake2b.blake2b 64 (load (h blockTemplate) 0 (Z.to_nat sizeof_blockTemplate))))))
    s = (Next tt, s') ->
  dev s' = dev s
  /\ hst s' hash = hst s hash
  /\ (forall a, hst s' blockTemplate a = set_nonce (hst s blockTemplate) 127 a)
  /\ (forall k, (k < 128)%nat ->
        load (hst s' hash2) (k * 64) 64
        = Blake2b.blake2b 64 (load (set_nonce (hst s blockTemplate) (Z.of_nat k)) 0 76)).
Proof.
  intros F.
  set (digest := fun k : nat =>
                   Blake2b.blake2b 64 (load (set_nonce (hst s blockTemplate) (Z.of_nat k)) 0 76)).
  assert (LD : forall g, List.length (digest g) = 64%nat)
    by (intros g; apply blake2b_length; lia).
  set (P := fun (i : nat) (t : host) =>
              dev t = dev s /\ hst t hash = hst s hash
              /\ (forall a, hst t blockTemplate a
                            = match i with
                              | O => hst s blockTemplate a
                              | S j => set_nonce (hst s blockTemplate) (Z.of_nat j) a
                              end)
              /\ (forall k, (k < i)%nat -> load (hst t hash2) (k * 64) 64 = digest k)).
  assert (E : P (0 + NUM_SCRATCHPADS_TEST)%nat s').
  { refine (for_each_Next_inv P _ _ 0%nat s s' _ _ F); clear F.
    - repeat split. intros k K. lia.
    - intros i t t1 I (D & H & B & G) Bd.
      apply bind_Next_inv in Bd as (? & t0 & M1 & M2).
      apply modify_host_Next in M1 as [D1 H1]. apply modify_host_Next in M2 as [D2 H2].
      assert (T : forall a, hst t0 blockTemplate a
                            = set_nonce (hst s blockTemplate) (Z.of_nat i) a).
      { intros a. rewrite H1. cbn [set_host hostbuf_eqb].
        destruct i as [|j].
        - unfold set_nonce. unfold store. now rewrite !B.
        - transitivity (set_nonce (set_nonce (hst s blockTemplate) (Z.of_nat j))
                                  (Z.of_nat (S j)) a); [|apply set_nonce_twice].
          unfold set_nonce, store. now rewrite !B. }
      repeat split.
      + congruence.
      + rewrite H2, H1. cbn [set_host hostbuf_eqb]. exact H.
      + intros a. rewrite H2. cbn [set_host hostbuf_eqb]. apply T.
      + intros k K. rewrite H2. cbn [set_host hostbuf_eqb].
        change (Z.to_nat sizeof_blockTemplate) with 76%nat.
        assert (L : load (hst t0 blockTemplate) 0 76
                    = load (set_nonce (hst s blockTemplate) (Z.of_nat i)) 0 76)
          by (apply load_ext; intros a _; apply T).
        rewrite L. fold (digest i).
        assert (H20 : hst t0 hash2 = hst t hash2) by (now rewrite H1).
        rewrite H20.
        destruct (Nat.eq_dec k i) as [->|Ne].
        * rewrite <- (LD i) at 2. apply load_store.
        * rewrite <- (G k) by lia. apply load_ext. intros a A.
          apply store_outside. rewrite LD. lia. }
  destruct E as (D & H & B & G). repeat split; auto.
Qed.

Lemma initial_hash_test_checks s i :
  fst (test_blake2b_initial_hash env gpu s) = Next tt ->
  (i < 128)%nat ->
  load (dev (snd (test_blake2b_initial_hash env gpu s)) hash_gpu) (i * 64) 64
  = Blake2b.blake2b 64 (load (set_nonce (hst s blockTemplate) (Z.of_nat i)) 0 76).
Proof.
  destruct (test_blake2b_initial_hash env gpu s) as [o s'] eqn:T. cbn [fst snd].
  intros -> I. unfold test_blake2b_initial_hash in T.
  apply bind_Next_inv in T as (? & s1 & L & T). apply launch_kernel_Next in L.
  apply bind_Next_inv in T as (? & s2 & S & T). apply sync_checked_Next in S as [D2 H2].
  apply bind_Next_inv in T as (? & s3 & C & T).
  apply memcpy_to_host_Next in C as [D3 H3].
  apply bind_Next_inv in T as ([] & s4 & F & T).
  apply initial_hash_reference_loop in F as (D4 & H4 & _ & G).
  apply bind_Next_inv in T as (h & s5 & Gh & T). apply get_host_Next in Gh as [-> ->].
  apply bind_Next_inv in T as (? & s6 & Fi & T). apply fail_if_Next in Fi as [Cm ->].
  apply printf_Next in T as [D6 _].
  apply negb_false_iff, memcmp_eq_load in Cm.
  change (Z.to_nat sizeof_hash) with (128 * 64)%nat in Cm.
  pose proof (load_part _ _ _ _ _ (i * 64) 64 Cm ltac:(lia)) as Li.
  cbn [Nat.add] in Li. rewrite G in Li by exact I.
  assert (B : hst s3 blockTemplate = hst s blockTemplate)
    by (rewrite H3, H2, L; reflexivity).
  rewrite B in Li. rewrite <- Li, H4, H3. cbn [set_host hostbuf_eqb].
  rewrite D6, D4, D3. apply load_ext. intros a A. rewrite copy_inside; [reflexivity|].
  change (Z.to_nat sizeof_hash) with (128 * 64)%nat. lia.
Qed.

End InitialHashTest.

Section RegisterHashTest.

Variable REGISTERS_SIZE : Z.
Variable env : cuda_env.
Variable gpu : gpu_kernels.

Local Abbreviation RS := (Z.to_nat REGISTERS_SIZE).

(** The reference loop of the last two test cases: slot [k] of [hash2]
    gets the digest of register file [k] of [registers2]. *)
Lemma register_hash_reference_loop outlen s s' :
  (outlen <= 64)%nat ->
  @for_each unit (seq 0 NUM_SCRATCHPADS_TEST) (fun i =>
    modify_host (fun h =>
      set_host h hash2
        (store (h hash2) (i * outlen)
           (Blake2b.blake2b outlen (load (h registers2) (i * RS) RS)))))
    s = (Next tt, s') ->
  dev s' = dev s
  /\ hst s' hash = hst s hash
  /\ (forall k, (k < 128)%nat ->
        load (hst s' hash2) (k * outlen) outlen
        = Blake2b.blake2b outlen (load (hst s registers2) (k * RS) RS)).
Proof.
  intros O F.
  set (digest := fun k : nat =>
                   Blake2b.blake2b outlen (load (hst s registers2) (k * RS) RS)).
  assert (LD : forall g, List.length (digest g) = outlen)
    by (intros g; apply blake2b_length; exact O).
  set (P := fun (i : nat) (t : host) =>
              dev t = dev s /\ hst t hash = hst s hash
              /\ hst t registers2 = hst s registers2
              /\ (forall k, (k < i)%nat -> load (hst t hash2) (k * outlen) outlen = digest k)).
  assert (E : P (0 + NUM_SCRATCHPADS_TEST)%nat s').
  { refine (for_each_Next_inv P _ _ 0%nat s s' _ _ F); clear F.
    - repeat split. intros k K. lia.
    - intros i t t1 I (D & H & B & G) Bd.
      apply modify_host_Next in Bd as [D1 H1].
      repeat split.
      + congruence.
      + rewrite H1. cbn [set_host hostbuf_eqb]. exact H.
      + rewrite H1. cbn [set_host hostbuf_eqb]. exact B.
      + intros k K. rewrite H1. cbn [set_host hostbuf_eqb]. rewrite B. fold (digest i).
        destruct (Nat.eq_dec k i) as [->|Ne].
        * pose proof (load_store (hst t hash2) (i * outlen) (digest i)) as LS.
          rewrite LD in LS. exact LS.
        * rewrite <- (G k) by lia. apply load_ext. intros a A.
          apply store_outside. rewrite LD. nia. }
  destruct E as (D & H & B & G). repeat split; auto.
Qed.

Lemma register_hash_test_checks outlen failed passed s i :
  (outlen <= 64)%nat ->
  fst (test_blake2b_hash_registers REGISTERS_SIZE env gpu outlen failed passed s) = Next tt ->
  (i < 128)%nat ->
  load (dev (snd (test_blake2b_hash_registers REGISTERS_SIZE env gpu outlen failed passed s))
            hash_gpu) (i * outlen) outlen
  = Blake2b.blake2b outlen (load (hst s registers2) (i * RS) RS).
Proof.
  intros O.
  destruct (test_blake2b_hash_registers _ _ _ _ _ _ s) as [o s'] eqn:T. cbn [fst snd].
  intros -> I. unfold test_blake2b_hash_registers in T.
  apply bind_Next_inv in T as (? & s1 & L & T). apply launch_kernel_Next in L.
  apply bind_Next_inv in T as (st & s2 & S & T).
  apply cudaGetLastError_Next in S as [D2 H2].
  apply bind_Next_inv in T as (? & s2' & Fi & T). apply fail_if_Next in Fi as [_ ->].
  apply bind_Next_inv in T as (? & s3 & C & T).
  apply memcpy_to_host_Next in C as [D3 H3].
  apply bind_Next_inv in T as ([] & s4 & F & T).
  apply (register_hash_reference_loop outlen _ _ O) in F as (D4 & H4 & G).
  apply bind_Next_inv in T as (h & s5 & Gh & T). apply get_host_Next in Gh as [-> ->].
  apply bind_Next_inv in T as (? & s6 & Fi & T). apply fail_if_Next in Fi as [Cm ->].
  apply printf_Next in T as [D6 _].
  apply negb_false_iff, memcmp_eq_load in Cm.
  change NUM_SCRATCHPADS_TEST with 128%nat in Cm.
  pose proof (load_part _ _ _ _ _ (i * outlen) outlen Cm ltac:(nia)) as Li.
  cbn [Nat.add] in Li. rewrite G in Li by exact I.
  assert (B : hst s3 registers2 = hst s registers2)
    by (rewrite H3, H2, L; reflexivity).
  rewrite B in Li. rewrite <- Li, H4, H3. cbn [set_host hostbuf_eqb].
  rewrite D6, D4, D3. apply load_ext. intros a A. rewrite copy_inside; [reflexivity|].
  change (Z.to_nat sizeof_hash) with (128 * 64)%nat. nia.
Qed.

End RegisterHashTest.

Section ReferenceExt.

Variables aesdec aesenc : Z -> Z -> Z.
Variables key0 key1 key2 key3 : Z.

Local Abbreviation reference := (fillAes1Rx4_ref aesdec aesenc key0 key1 key2 key3).

Lemma quarter m1 o1 m2 o2 sub :
  load m1 o1 64 = load m2 o2 64 -> (sub < 4)%nat ->
  load_block m1 (o1 + 16 * sub) = load_block m2 (o2 + 16 * sub).
Proof.
  intros E S4. unfold load_block. f_equal. apply (load_part _ _ _ _ 64); [exact E | lia].
Qed.

(** What the reference writes depends on the 64 bytes of the seed only,
    not on where the seed and the buffer are. *)
Lemma reference_ext size n rs1 so1 rb1 bo1 rs2 so2 rb2 bo2 :
  size = (64 * n)%nat ->
  load rs1 so1 64 = load rs2 so2 64 ->
  load (snd (reference rs1 so1 size rb1 bo1)) bo1 size
  = load (snd (reference rs2 so2 size rb2 bo2)) bo2 size
  /\ load (fst (reference rs1 so1 size rb1 bo1)) so1 64
     = load (fst (reference rs2 so2 size rb2 bo2)) so2 64.
Proof.
  intros W E. split.
  - rewrite W at 2 4. rewrite <- !load_chunks.
    apply flat_map_ext_within. intros j I. apply in_seq in I.
    apply load_eq_pointwise. intros b B.
    pose proof (Nat.div_mod_eq b 16) as Eb.
    assert (S4 : (b / 16 < 4)%nat) by (apply Nat.Div0.div_lt_upper_bound; lia).
    assert (C : (b mod 16 < 16)%nat) by (apply Nat.mod_upper_bound; lia).
    replace (bo1 + 64 * j + b)%nat with (bo1 + 64 * j + 16 * (b / 16) + b mod 16)%nat by lia.
    replace (bo2 + 64 * j + b)%nat with (bo2 + 64 * j + 16 * (b / 16) + b mod 16)%nat by lia.
    apply (load_eq_inv _ _ _ _ 16); [|exact C].
    rewrite (reference_block aesdec aesenc key0 key1 key2 key3 size n 1 4 1 0
               rs1 rb1 so1 bo1 W ltac:(lia) ltac:(lia) j (b / 16) ltac:(lia) S4).
    rewrite (reference_block aesdec aesenc key0 key1 key2 key3 size n 1 4 1 0
               rs2 rb2 so2 bo2 W ltac:(lia) ltac:(lia) j (b / 16) ltac:(lia) S4).
    now rewrite (quarter _ _ _ _ _ E S4).
  - apply load_eq_pointwise. intros b B.
    pose proof (Nat.div_mod_eq b 16) as Eb.
    assert (S4 : (b / 16 < 4)%nat) by (apply Nat.Div0.div_lt_upper_bound; lia).
    assert (C : (b mod 16 < 16)%nat) by (apply Nat.mod_upper_bound; lia).
    replace (so1 + b)%nat with (so1 + 16 * (b / 16) + b mod 16)%nat by lia.
    replace (so2 + b)%nat with (so2 + 16 * (b / 16) + b mod 16)%nat by lia.
    apply (load_eq_inv _ _ _ _ 16); [|exact C].
    rewrite (reference_state aesdec aesenc key0 key1 key2 key3 size n 1 4 1 0
               rs1 rb1 so1 bo1 W ltac:(lia) ltac:(lia) (b / 16) S4).
    rewrite (reference_state aesdec aesenc key0 key1 key2 key3 size n 1 4 1 0
               rs2 rb2 so2 bo2 W ltac:(lia) ltac:(lia) (b / 16) S4).
    now rewrite (quarter _ _ _ _ _ E S4).
Qed.

End ReferenceExt.

Section FillTests.

Variable env : cuda_env.
Variable gpu : gpu_kernels.
Variables aesdec aesenc : Z -> Z -> Z.
Variables key0 key1 key2 key3 : Z.

Local Abbreviation reference := (fillAes1Rx4_ref aesdec aesenc key0 key1 key2 key3).

(** What [ref_fill] does to the host arrays. *)
Lemma ref_fill_hst buf size i h :
  hostbuf_eqb buf hash2 = false ->
  let r := reference (h hash2) (i * 64) size (h buf) (size * (NUM_SCRATCHPADS_TEST + i)) in
  ref_fill aesdec aesenc key0 key1 key2 key3 buf size i h hash2 = fst r
  /\ ref_fill aesdec aesenc key0 key1 key2 key3 buf size i h buf = snd r
  /\ (forall b, hostbuf_eqb b hash2 = false -> hostbuf_eqb b buf = false ->
                ref_fill aesdec aesenc key0 key1 key2 key3 buf size i h b = h b).
Proof.
  intros Nb. cbv zeta. unfold ref_fill.
  destruct (reference _ _ _ _ _) as [st bf]. cbn [fst snd]. unfold set_host.
  assert (Rb : hostbuf_eqb buf buf = true) by now destruct buf.
  assert (Hb : hostbuf_eqb hash2 buf = false) by now destruct buf.
  rewrite Rb, Hb. cbn [hostbuf_eqb]. repeat split.
  intros b B1 B2. now rewrite B1, B2.
Qed.

Variable PROGRAM_SIZE : Z.
Local Abbreviation PS := (Z.to_nat PROGRAM_SIZE).

Hypothesis size_nonneg : 0 <= PROGRAM_SIZE.
Hypothesis size_fits : PROGRAM_SIZE * 128 < 2 ^ 64.
Hypothesis whole_chunks : (PS mod 64 = 0)%nat.

Lemma program_test_checks s i :
  fst (test_fill_programs PROGRAM_SIZE env gpu aesdec aesenc key0 key1 key2 key3 s)
  = Next tt ->
  (i < 128)%nat ->
  let s' := snd (test_fill_programs PROGRAM_SIZE env gpu
                                    aesdec aesenc key0 key1 key2 key3 s) in
  let r := reference (hst s hash2) (i * 64) PS zero_mem 0 in
  load (dev s' hash_gpu) (i * 64) 64 = load (fst r) (i * 64) 64
  /\ load (dev s' programs_gpu) (i * PS) PS = load (snd r) 0 PS.
Proof.
  assert (W : PS = (64 * (PS / 64))%nat) by (apply Nat.Div0.div_exact; exact whole_chunks).
  assert (SZ : Z.to_nat (size_t (PROGRAM_SIZE * Z.of_nat NUM_SCRATCHPADS_TEST))
               = (PS * 128)%nat).
  { unfold size_t. change (Z.of_nat NUM_SCRATCHPADS_TEST) with 128.
    rewrite Z.mod_small by lia. rewrite Z2Nat.inj_mul by lia. reflexivity. }
  destruct (test_fill_programs _ _ _ _ _ _ _ _ _ s) as [o s'] eqn:T. cbn [fst snd].
  intros -> I. cbv zeta. unfold test_fill_programs in T.
  apply bind_Next_inv in T as (? & s1 & L & T). apply launch_kernel_Next in L.
  apply bind_Next_inv in T as (? & s2 & S & T). apply sync_checked_Next in S as [D2 H2].
  apply bind_Next_inv in T as (? & s3 & C & T).
  apply memcpy_to_host_Next in C as [D3 H3].
  apply bind_Next_inv in T as (? & s4 & C & T).
  apply memcpy_to_host_Next in C as [D4 H4].
  apply bind_Next_inv in T as ([] & s5 & F & T).
  apply printf_Next in T as [D6 _].
  set (checked := fun j : nat =>
         load (dev s4 hash_gpu) (j * 64) 64
         = load (fst (reference (hst s hash2) (j * 64) PS zero_mem 0)) (j * 64) 64
         /\ load (dev s4 programs_gpu) (j * PS) PS
            = load (snd (reference (hst s hash2) (j * 64) PS zero_mem 0)) 0 PS).
  set (P := fun (k : nat) (t : host) =>
              dev t = dev s4
              /\ hst t hash = hst s4 hash
              /\ (forall a, (a < PS * 128)%nat -> hst t programs a = hst s4 programs a)
              /\ (forall j, (k <= j < 128)%nat ->
                    load (hst t hash2) (j * 64) 64 = load (hst s hash2) (j * 64) 64)
              /\ (forall j, (j < k)%nat -> checked j)).
  assert (E : P (0 + NUM_SCRATCHPADS_TEST)%nat s5).
  { refine (for_each_Next_inv P _ _ 0%nat s4 s5 _ _ F); clear F.
    - repeat split; try (intros; lia).
      intros j J. rewrite H4, H3, H2, L. reflexivity.
    - intros k t t1 K (Dt & Hh & Hp & Hs & Ck) Bd.
      assert (K' : (k < 128)%nat) by (unfold NUM_SCRATCHPADS_TEST in K; lia). clear K.
      apply bind_Next_inv in Bd as (? & t2 & M & Bd).
      apply modify_host_Next in M as [Dm Hm].
      apply bind_Next_inv in Bd as (h & t3 & Gh & Bd). apply get_host_Next in Gh as [-> ->].
      apply bind_Next_inv in Bd as (? & t4 & F1 & Bd). apply fail_if_Next in F1 as [C1 ->].
      apply fail_if_Next in Bd as [C2 ->].
      apply negb_false_iff, memcmp_eq_load in C1.
      apply negb_false_iff, memcmp_eq_load in C2.
      destruct (ref_fill_hst programs PS k (hst t) eq_refl) as (R1 & R2 & R3).
      cbv zeta in R1, R2, R3. rewrite Hm in C1, C2. rewrite R1 in C1. rewrite R2 in C2.
      rewrite (R3 hash eq_refl eq_refl) in C1.
      set (boff := (PS * (NUM_SCRATCHPADS_TEST + k))%nat) in *.
      destruct (reference_ext aesdec aesenc key0 key1 key2 key3 PS (PS / 64)
                  (hst t hash2) (k * 64) (hst t programs) boff
                  (hst s hash2) (k * 64) zero_mem 0 W (Hs k ltac:(lia))) as [X1 X2].
      split; [|split; [|split; [|split]]].
      + congruence.
      + rewrite Hm. rewrite (R3 hash eq_refl eq_refl). exact Hh.
      + intros a A. rewrite Hm, R2.
        rewrite reference_buffer_frame by (left; unfold boff, NUM_SCRATCHPADS_TEST; nia).
        now apply Hp.
      + intros j J. rewrite Hm, R1. rewrite <- Hs by lia.
        apply load_ext. intros a A. apply reference_state_frame. lia.
      + intros j J. destruct (Nat.eq_dec j k) as [->|Ne]; [|apply Ck; lia].
        split.
        * rewrite <- X2, <- C1, Hh, H4. cbn [set_host hostbuf_eqb]. rewrite H3.
          cbn [set_host hostbuf_eqb]. rewrite D4, D3.
          apply load_ext. intros a A. rewrite copy_inside; [reflexivity|].
          change (Z.to_nat sizeof_hash) with (128 * 64)%nat. lia.
        * rewrite <- X1.
          replace ((NUM_SCRATCHPADS_TEST + k) * PS)%nat with boff in C2
            by (unfold boff; lia).
          rewrite <- C2.
          apply load_ext. intros a A.
          rewrite reference_buffer_frame
            by (left; unfold boff, NUM_SCRATCHPADS_TEST in *; nia).
          rewrite Hp by (unfold NUM_SCRATCHPADS_TEST in *; nia).
          rewrite H4. cbn [set_host hostbuf_eqb]. rewrite D4.
          rewrite copy_inside; [reflexivity|].
          rewrite SZ. unfold NUM_SCRATCHPADS_TEST in *. nia. }
  destruct E as (D5 & _ & _ & _ & Ck).
  destruct (Ck i I) as [K1 K2]. rewrite D6, D5. split; assumption.
Qed.

End FillTests.

Lemma for_each_checks_Next {R : Type} (c : nat -> bool) (msg : string) (r : R) l s s' :
  for_each l (fun j => fail_if (negb (c j)) msg r) s = (Next tt, s') ->
  s' = s /\ forall j, In j l -> c j = true.
Proof.
  revert s. induction l as [|j l IH]; intros s F.
  - cbn in F. injection F as <-. split; [reflexivity | intros j []].
  - cbn [for_each] in F. apply bind_Next_inv in F as (? & s1 & C & F).
    apply fail_if_Next in C as [C ->]. apply negb_false_iff in C.
    destruct (IH s F) as [-> A]. split; [reflexivity|].
    intros k [<-|I]; [exact C | now apply A].
Qed.

Lemma steps_of_chunks size n :
  size = (64 * n)%nat -> steps size 64 = map (fun q => (q * 64)%nat) (seq 0 n).
Proof.
  intros ->. unfold steps. f_equal. f_equal.
  replace (64 * n + (64 - 1))%nat with (63 + n * 64)%nat by lia.
  rewrite Nat.div_add by lia. reflexivity.
Qed.

Section ScratchpadTest.

Variable env : cuda_env.
Variable gpu : gpu_kernels.
Variables aesdec aesenc : Z -> Z -> Z.
Variables key0 key1 key2 key3 : Z.

Local Abbreviation reference := (fillAes1Rx4_ref aesdec aesenc key0 key1 key2 key3).

Variable SCRATCHPAD_SIZE : Z.
Local Abbreviation SP := (Z.to_nat SCRATCHPAD_SIZE).

Hypothesis size_nonneg : 0 <= SCRATCHPAD_SIZE.
Hypothesis size_fits : SCRATCHPAD_SIZE * 128 < 2 ^ 64.
Hypothesis whole_chunks : (SP mod 64 = 0)%nat.

Lemma scratchpad_test_checks s i :
  fst (test_fill_scratchpads SCRATCHPAD_SIZE env gpu aesdec aesenc key0 key1 key2 key3 s)
  = Next tt ->
  (i < 128)%nat ->
  let s' := snd (test_fill_scratchpads SCRATCHPAD_SIZE env gpu
                                       aesdec aesenc key0 key1 key2 key3 s) in
  let r := reference (hst s hash2) (i * 64) SP zero_mem 0 in
  load (dev s' hash_gpu) (i * 64) 64 = load (fst r) (i * 64) 64
  /\ deinterleave (dev s' scratchpads_gpu) 128 i (SP / 64) = load (snd r) 0 SP.
Proof.
  assert (W : SP = (64 * (SP / 64))%nat) by (apply Nat.Div0.div_exact; exact whole_chunks).
  set (n := (SP / 64)%nat) in *.
  assert (SZ : Z.to_nat (size_t (SCRATCHPAD_SIZE * Z.of_nat NUM_SCRATCHPADS_TEST))
               = (SP * 128)%nat).
  { unfold size_t. change (Z.of_nat NUM_SCRATCHPADS_TEST) with 128.
    rewrite Z.mod_small by lia. rewrite Z2Nat.inj_mul by lia. reflexivity. }
  destruct (test_fill_scratchpads _ _ _ _ _ _ _ _ _ s) as [o s'] eqn:T. cbn [fst snd].
  intros -> I. cbv zeta. unfold test_fill_scratchpads in T.
  apply bind_Next_inv in T as (? & s1 & L & T). apply launch_kernel_Next in L.
  apply bind_Next_inv in T as (? & s2 & S & T). apply sync_checked_Next in S as [D2 H2].
  apply bind_Next_inv in T as (? & s3 & C & T).
  apply memcpy_to_host_Next in C as [D3 H3].
  apply bind_Next_inv in T as (? & s4 & C & T).
  apply memcpy_to_host_Next in C as [D4 H4].
  apply bind_Next_inv in T as ([] & s5 & F & T).
  apply printf_Next in T as [D6 _].
  set (checked := fun j : nat =>
         load (dev s4 hash_gpu) (j * 64) 64
         = load (fst (reference (hst s hash2) (j * 64) SP zero_mem 0)) (j * 64) 64
         /\ deinterleave (dev s4 scratchpads_gpu) 128 j n
            = load (snd (reference (hst s hash2) (j * 64) SP zero_mem 0)) 0 SP).
  set (P := fun (k : nat) (t : host) =>
              dev t = dev s4
              /\ hst t hash = hst s4 hash
              /\ (forall a, (a < SP * 128)%nat -> hst t scratchpads a = hst s4 scratchpads a)
              /\ (forall j, (k <= j < 128)%nat ->
                    load (hst t hash2) (j * 64) 64 = load (hst s hash2) (j * 64) 64)
              /\ (forall j, (j < k)%nat -> checked j)).
  assert (E : P (0 + NUM_SCRATCHPADS_TEST)%nat s5).
  { refine (for_each_Next_inv P _ _ 0%nat s4 s5 _ _ F); clear F.
    - repeat split; try (intros; lia).
      intros j J. rewrite H4, H3, H2, L. reflexivity.
    - intros k t t1 K (Dt & Hh & Hp & Hs & Ck) Bd.
      assert (K' : (k < 128)%nat) by (unfold NUM_SCRATCHPADS_TEST in K; lia). clear K.
      apply bind_Next_inv in Bd as (? & t2 & M & Bd).
      apply modify_host_Next in M as [Dm Hm].
      apply bind_Next_inv in Bd as (h & t3 & Gh & Bd). apply get_host_Next in Gh as [-> ->].
      apply bind_Next_inv in Bd as (? & t4 & F1 & Bd). apply fail_if_Next in F1 as [C1 ->].
      cbv zeta in Bd. apply for_each_checks_Next in Bd as [-> C2].
      apply negb_false_iff, memcmp_eq_load in C1.
      destruct (ref_fill_hst aesdec aesenc key0 key1 key2 key3 scratchpads SP k (hst t)
                  eq_refl) as (R1 & R2 & R3).
      cbv zeta in R1, R2, R3. rewrite Hm in C1, C2. rewrite R1 in C1. rewrite R2 in C2.
      rewrite (R3 hash eq_refl eq_refl) in C1.
      set (boff := (SP * (NUM_SCRATCHPADS_TEST + k))%nat) in *.
      destruct (reference_ext aesdec aesenc key0 key1 key2 key3 SP n
                  (hst t hash2) (k * 64) (hst t scratchpads) boff
                  (hst s hash2) (k * 64) zero_mem 0 W (Hs k ltac:(lia))) as [X1 X2].
      split; [|split; [|split; [|split]]].
      + congruence.
      + rewrite Hm. rewrite (R3 hash eq_refl eq_refl). exact Hh.
      + intros a A. rewrite Hm, R2.
        rewrite reference_buffer_frame by (left; unfold boff, NUM_SCRATCHPADS_TEST; nia).
        now apply Hp.
      + intros j J. rewrite Hm, R1. rewrite <- Hs by lia.
        apply load_ext. intros a A. apply reference_state_frame. lia.
      + intros j J. destruct (Nat.eq_dec j k) as [->|Ne]; [|apply Ck; lia].
        split.
        * rewrite <- X2, <- C1, Hh, H4. cbn [set_host hostbuf_eqb]. rewrite H3.
          cbn [set_host hostbuf_eqb]. rewrite D4, D3.
          apply load_ext. intros a A. rewrite copy_inside; [reflexivity|].
          change (Z.to_nat sizeof_hash) with (128 * 64)%nat. lia.
        * rewrite <- X1. rewrite W at 2. rewrite <- load_chunks. unfold deinterleave.
          apply flat_map_ext_within. intros q Q. apply in_seq in Q.
          assert (Cq : memcmp_eq
                         (snd (reference (hst t hash2) (k * 64) SP (hst t scratchpads) boff))
                         (k * 64 + q * 64 * NUM_SCRATCHPADS_TEST)
                         (snd (reference (hst t hash2) (k * 64) SP (hst t scratchpads) boff))
                         (boff + q * 64) 64 = true).
          { apply (C2 (q * 64)%nat). rewrite (steps_of_chunks SP n W).
            apply in_map_iff. exists q. split; [reflexivity | apply in_seq; lia]. }
          apply memcmp_eq_load in Cq.
          replace (boff + 64 * q)%nat with (boff + q * 64)%nat by lia.
          rewrite <- Cq. change NUM_SCRATCHPADS_TEST with 128%nat.
          apply load_ext. intros a A.
          rewrite reference_buffer_frame
            by (left; unfold boff, NUM_SCRATCHPADS_TEST in *; nia).
          rewrite Hp by nia.
          rewrite H4. cbn [set_host hostbuf_eqb]. rewrite D4.
          rewrite copy_inside; [reflexivity|].
          rewrite SZ. nia. }
  destruct E as (D5 & _ & _ & _ & Ck).
  destruct (Ck i I) as [K1 K2]. rewrite D6, D5. split; assumption.
Qed.

End ScratchpadTest.

Section CompressionTest.

Variables SCRATCHPAD_SIZE REGISTERS_SIZE : Z.
Variable env : cuda_env.
Variable gpu : gpu_kernels.
Variable hashAes1Rx4_ref : list Z -> list Z.

Local Abbreviation SP := (Z.to_nat SCRATCHPAD_SIZE).
Local Abbreviation RS := (Z.to_nat REGISTERS_SIZE).

Hypothesis size_fits : 128 * REGISTERS_SIZE < 2 ^ 64.
Hypothesis room : (256 <= RS)%nat.
Hypothesis ref_length : forall x, List.length (hashAes1Rx4_ref x) = 64%nat.

Local Abbreviation body :=
  (fun i : nat =>
     @modify_host unit (fun h =>
       set_host h registers2
         (store (h registers2) (RS * i + 192)
            (hashAes1Rx4_ref (load (h scratchpads) (SP * (NUM_SCRATCHPADS_TEST + i)) SP)))) ;;
     h <- get_host ;;
     fail_if (negb (memcmp_eq (h registers) (i * RS) (h registers2) (i * RS) RS))
             "hashAes1Rx4 test failed!" tt).

Local Abbreviation expected :=
  (expected_registers SCRATCHPAD_SIZE REGISTERS_SIZE hashAes1Rx4_ref).

Lemma compression_loop_checks s s' :
  for_each (seq 0 NUM_SCRATCHPADS_TEST) body s = (Next tt, s') ->
  dev s' = dev s
  /\ forall k, (k < 128)%nat ->
       load (hst s registers) (k * RS) RS = expected (hst s) k.
Proof.
  intros F.
  set (P := fun (k : nat) (t : host) =>
              dev t = dev s
              /\ hst t registers = hst s registers
              /\ hst t scratchpads = hst s scratchpads
              /\ (forall a, (k * RS <= a)%nat -> hst t registers2 a = hst s registers2 a)
              /\ (forall j, (j < k)%nat ->
                    load (hst s registers) (j * RS) RS = expected (hst s) j)).
  assert (E : P (0 + NUM_SCRATCHPADS_TEST)%nat s').
  { refine (for_each_Next_inv P _ _ 0%nat s s' _ _ F); clear F.
    - repeat split; intros; lia.
    - intros k t t1 K (Dt & Hr & Hsp & Hf & Ck) Bd.
      apply bind_Next_inv in Bd as (? & t2 & M & Bd).
      apply modify_host_Next in M as [Dm Hm].
      apply bind_Next_inv in Bd as (h & t3 & Gh & Bd). apply get_host_Next in Gh as [-> ->].
      apply fail_if_Next in Bd as [C ->].
      apply negb_false_iff, memcmp_eq_load in C.
      rewrite Hm in C. cbn [set_host hostbuf_eqb] in C. rewrite Hr, Hsp in C.
      split; [|split; [|split; [|split]]].
      + congruence.
      + rewrite Hm. cbn [set_host hostbuf_eqb]. exact Hr.
      + rewrite Hm. cbn [set_host hostbuf_eqb]. exact Hsp.
      + intros a A. rewrite Hm. cbn [set_host hostbuf_eqb].
        rewrite store_outside by (rewrite ref_length; nia). apply Hf. nia.
      + intros j J. destruct (Nat.eq_dec j k) as [->|Ne]; [|apply Ck; lia].
        rewrite C. unfold expected_registers. apply load_ext. intros a A.
        destruct (Nat.lt_ge_cases a (RS * k + 192)) as [Lo|Hi];
          [|destruct (Nat.lt_ge_cases a (RS * k + 192 + 64)) as [In|Out]].
        * rewrite !store_outside by (rewrite ref_length; lia). apply Hf. lia.
        * rewrite !store_inside by (rewrite ref_length; lia). reflexivity.
        * rewrite !store_outside by (rewrite ref_length; lia). apply Hf. lia. }
  destruct E as (D & _ & _ & _ & Ck). split; [exact D | exact Ck].
Qed.

Lemma compression_loop_passes s :
  (forall k, (k < 128)%nat ->
     load (hst s registers) (k * RS) RS = expected (hst s) k) ->
  exists s', for_each (seq 0 NUM_SCRATCHPADS_TEST) body s = (Next tt, s')
             /\ trace s' = trace s.
Proof.
  intros G.
  set (P := fun (k : nat) (t : host) =>
              trace t = trace s
              /\ hst t registers = hst s registers
              /\ hst t scratchpads = hst s scratchpads
              /\ (forall a, (k * RS <= a)%nat -> hst t registers2 a = hst s registers2 a)).
  destruct (for_each_seq P body NUM_SCRATCHPADS_TEST 0 s) as (s' & F & T & _).
  - repeat split.
  - intros k t K (Tt & Hr & Hsp & Hf).
    assert (K' : (k < 128)%nat) by (unfold NUM_SCRATCHPADS_TEST in K; lia).
    unfold bind, modify_host, get_host. cbn [hst].
    assert (C : memcmp_eq
                  (set_host (hst t) registers2
                     (store (hst t registers2) (RS * k + 192)
                        (hashAes1Rx4_ref
                           (load (hst t scratchpads) (SP * (NUM_SCRATCHPADS_TEST + k)) SP)))
                     registers) (k * RS)
                  (set_host (hst t) registers2
                     (store (hst t registers2) (RS * k + 192)
                        (hashAes1Rx4_ref
                           (load (hst t scratchpads) (SP * (NUM_SCRATCHPADS_TEST + k)) SP)))
                     registers2) (k * RS) RS = true).
    { apply memcmp_eq_true. cbn [set_host hostbuf_eqb]. rewrite Hr, Hsp, (G k K').
      unfold expected_registers. apply load_ext. intros a A.
      destruct (Nat.lt_ge_cases a (RS * k + 192)) as [Lo|Hi];
        [|destruct (Nat.lt_ge_cases a (RS * k + 192 + 64)) as [In|Out]].
      - rewrite !store_outside by (rewrite ref_length; lia). symmetry. apply Hf. lia.
      - rewrite !store_inside by (rewrite ref_length; lia). reflexivity.
      - rewrite !store_outside by (rewrite ref_length; lia). symmetry. apply Hf. lia. }
    unfold fail_if. rewrite C. cbn [negb ret].
    eexists. split; [reflexivity|].
    split; [|split; [|split]]; cbn [trace hst set_host hostbuf_eqb]; auto.
    intros a A. rewrite store_outside by (rewrite ref_length; nia). apply Hf. nia.
  - exists s'. split; [exact F | exact T].
Qed.

Lemma registers_copied s3 s d a :
  hst s3 = set_host (hst s) registers
             (copy (hst s registers) d
                   (size_t (Z.of_nat NUM_SCRATCHPADS_TEST * REGISTERS_SIZE))) ->
  0 <= REGISTERS_SIZE ->
  (a < 128 * RS)%nat ->
  hst s3 registers a = d a.
Proof.
  intros H R A. rewrite H. cbn [set_host hostbuf_eqb]. apply copy_inside.
  unfold size_t. change (Z.of_nat NUM_SCRATCHPADS_TEST) with 128.
  rewrite Z.mod_small by lia. rewrite Z2Nat.inj_mul by lia. exact A.
Qed.

Lemma compression_test_checks s i :
  fst (test_hashAes1Rx4 SCRATCHPAD_SIZE REGISTERS_SIZE env gpu hashAes1Rx4_ref s)
  = Next tt ->
  (i < 128)%nat ->
  load (dev (snd (test_hashAes1Rx4 SCRATCHPAD_SIZE REGISTERS_SIZE env gpu
                                   hashAes1Rx4_ref s)) registers_gpu) (i * RS) RS
  = expected (hst s) i.
Proof.
  assert (R0 : 0 <= REGISTERS_SIZE) by lia.
  destruct (test_hashAes1Rx4 _ _ _ _ _ s) as [o s'] eqn:T. cbn [fst snd].
  intros -> I. unfold test_hashAes1Rx4 in T.
  apply bind_Next_inv in T as (? & s1 & L & T). apply launch_kernel_Next in L.
  apply bind_Next_inv in T as (? & s2 & S & T). apply sync_checked_Next in S as [D2 H2].
  apply bind_Next_inv in T as (? & s3 & C & T).
  apply memcpy_to_host_Next in C as [D3 H3].
  apply bind_Next_inv in T as ([] & s4 & F & T).
  apply printf_Next in T as [D6 _].
  apply compression_loop_checks in F as [D4 G].
  specialize (G i I).
  assert (X : expected (hst s3) i = expected (hst s) i).
  { unfold expected_registers. rewrite H3. cbn [set_host hostbuf_eqb].
    now rewrite H2, L. }
  rewrite X in G. rewrite <- G, D6, D4, D3.
  apply load_ext. intros a A. symmetry.
  apply (registers_copied s3 s2 _ a H3 R0). nia.
Qed.

End CompressionTest.

Section CompressionTestPasses.

Variables SCRATCHPAD_SIZE REGISTERS_SIZE : Z.
Variable env : cuda_env.
Variable gpu : gpu_kernels.
Variable hashAes1Rx4_ref : list Z -> list Z.

Local Abbreviation RS := (Z.to_nat REGISTERS_SIZE).

Hypothesis size_fits : 128 * REGISTERS_SIZE < 2 ^ 64.
Hypothesis room : (256 <= RS)%nat.
Hypothesis ref_length : forall x, List.length (hashAes1Rx4_ref x) = 64%nat.
Hypothesis syncs_succeed : forall n, sync_status env n = cudaSuccess.
Hypothesis memcpys_succeed : forall n, memcpy_status env n = cudaSuccess.

(** The fourth test case passes when the device holds the expected register
    files after the launch. *)
Lemma compression_test_passes s :
  let launched :=
    snd (@launch_kernel env gpu unit
           (Launch (hashAes1Rx4 SCRATCHPAD_SIZE 192 REGISTERS_SIZE)
                   (Z.of_nat NUM_SCRATCHPADS_TEST / 32) (32 * 4)
                   scratchpads_gpu registers_gpu (Z.of_nat NUM_SCRATCHPADS_TEST)) s) in
  (forall k, (k < 128)%nat ->
     load (dev launched registers_gpu) (k * RS) RS
     = expected_registers SCRATCHPAD_SIZE REGISTERS_SIZE hashAes1Rx4_ref (hst s) k) ->
  fst (test_hashAes1Rx4 SCRATCHPAD_SIZE REGISTERS_SIZE env gpu hashAes1Rx4_ref s) = Next tt.
Proof.
  cbv zeta. intros G. assert (R0 : 0 <= REGISTERS_SIZE) by lia.
  unfold test_hashAes1Rx4.
  destruct (launch_kernel env gpu _ s) as [o1 s1] eqn:E1.
  assert (O1 : o1 = Next tt) by (unfold launch_kernel in E1; now injection E1 as <- _).
  subst o1. pose proof (launch_kernel_Next env gpu _ _ _ _ E1) as H1.
  rewrite (bind_next _ _ _ _ _ E1). cbn [snd] in G.
  unfold sync_checked, memcpy_to_host.
  unfold bind at 1. unfold bind at 1. unfold cudaDeviceSynchronize.
  cbn [emit trace last_error n_meminfo n_memcpy n_launch n_sync live dev hst].
  rewrite syncs_succeed. cbn [is_success negb fail_if ret].
  unfold bind at 1. unfold bind at 1. unfold cudaMemcpyDeviceToHost.
  cbn [emit trace last_error n_meminfo n_memcpy n_launch n_sync live dev hst].
  rewrite memcpys_succeed. cbn [is_success negb fail_if ret].
  match goal with
  | |- fst ((for_each _ _ ;; _) ?st) = _ => set (s3 := st)
  end.
  destruct (compression_loop_passes SCRATCHPAD_SIZE REGISTERS_SIZE hashAes1Rx4_ref
              room ref_length s3) as (s4 & F & _).
  { intros k K. subst s3. cbn [hst]. unfold expected_registers.
    cbn [set_host hostbuf_eqb]. rewrite H1.
    pose proof (G k K) as Gk. unfold expected_registers in Gk. rewrite <- Gk.
    apply load_ext. intros a A. apply copy_inside.
    unfold size_t. change (Z.of_nat NUM_SCRATCHPADS_TEST) with 128.
    rewrite Z.mod_small by lia. rewrite Z2Nat.inj_mul by lia.
    change (Z.to_nat 128) with 128%nat. nia. }
  rewrite (bind_next _ _ _ _ _ F). reflexivity.
Qed.

End CompressionTestPasses.

(** ** The test cases of [tests], whatever the device code *)

(** X16: the first test case passes only if the device holds, for each of
    the 128 lanes, the sequential BLAKE2b-512 of the host's template with
    the lane's index in its nonce field: a pass means that every lane was
    compared and agreed, whatever code ran on the device. *)
Theorem initial_hash_test_is_sound (env : cuda_env) (gpu : gpu_kernels) (s : host) (i : nat) :
  fst (test_blake2b_initial_hash env gpu s) = Next tt ->
  (i < 128)%nat ->
  let s' := snd (test_blake2b_initial_hash env gpu s) in
  load (dev s' hash_gpu) (i * 64) 64
  = Blake2b.blake2b 64 (load (set_nonce (hst s blockTemplate) (Z.of_nat i)) 0 76).
Proof. cbv zeta. apply initial_hash_test_checks. Qed.

Lemma initial_hash_test_is_sound_witness :
  load (dev (snd (test_blake2b_initial_hash (Example.env_ok (2 ^ 33) (2 ^ 34))
                    Scenario.model_gpu Example.seeded)) hash_gpu) (5 * 64) 64
  = Blake2b.blake2b 64 (load (set_nonce (hst Example.seeded blockTemplate) 5) 0 76).
Proof.
  apply (initial_hash_test_is_sound (Example.env_ok (2 ^ 33) (2 ^ 34))
           Scenario.model_gpu Example.seeded 5).
  - destruct (test_blake2b_initial_hash_passes (Example.env_ok (2 ^ 33) (2 ^ 34))
                Example.mix Example.mix 1 2 3 4
                (fun _ _ _ regs => regs) (fun _ _ _ _ _ _ regs _ => regs)
                (fun _ => eq_refl) (fun _ => eq_refl) (fun _ => eq_refl)
                Example.seeded (fun _ _ _ => eq_refl)) as (s' & E & _).
    unfold Scenario.model_gpu. rewrite E. reflexivity.
  - lia.
Defined.

Section FillTestTheorems.

Variable env : cuda_env.
Variable gpu : gpu_kernels.
Variables aesdec aesenc : Z -> Z -> Z.
Variables key0 key1 key2 key3 : Z.
Variable size : Z.

Hypothesis size_nonneg : 0 <= size.
Hypothesis size_fits : size * 128 < 2 ^ 64.
Hypothesis whole_chunks : (Z.to_nat size mod 64 = 0)%nat.

(** X17: the scratchpad test passes only if, for each of the 128 lanes, the
    device's hash state is the state the sequential [fillAes1Rx4] leaves,
    and the lane's scratchpad, read from the device 128 chunks apart, is the
    sequential expansion of the lane's seed in [hash2]: every 64-byte chunk
    of every lane was compared. *)
Theorem scratchpad_test_is_sound (s : host) (i : nat) :
  fst (test_fill_scratchpads size env gpu aesdec aesenc key0 key1 key2 key3 s) = Next tt ->
  (i < 128)%nat ->
  let s' := snd (test_fill_scratchpads size env gpu aesdec aesenc key0 key1 key2 key3 s) in
  let r := fillAes1Rx4_ref aesdec aesenc key0 key1 key2 key3
                           (hst s hash2) (i * 64) (Z.to_nat size) zero_mem 0 in
  load (dev s' hash_gpu) (i * 64) 64 = load (fst r) (i * 64) 64
  /\ deinterleave (dev s' scratchpads_gpu) 128 i (Z.to_nat size / 64)
     = load (snd r) 0 (Z.to_nat size).
Proof.
  exact (scratchpad_test_checks env gpu aesdec aesenc key0 key1 key2 key3 size
           size_nonneg size_fits whole_chunks s i).
Qed.

(** X18: the program test passes only if, for each of the 128 lanes, the
    device's hash state is the state the sequential [fillAes1Rx4] leaves and
    the lane's program, read from the device as one contiguous region, is
    the sequential expansion of the lane's seed in [hash2]. *)
Theorem program_test_is_sound (s : host) (i : nat) :
  fst (test_fill_programs size env gpu aesdec aesenc key0 key1 key2 key3 s) = Next tt ->
  (i < 128)%nat ->
  let s' := snd (test_fill_programs size env gpu aesdec aesenc key0 key1 key2 key3 s) in
  let r := fillAes1Rx4_ref aesdec aesenc key0 key1 key2 key3
                           (hst s hash2) (i * 64) (Z.to_nat size) zero_mem 0 in
  load (dev s' hash_gpu) (i * 64) 64 = load (fst r) (i * 64) 64
  /\ load (dev s' programs_gpu) (i * Z.to_nat size) (Z.to_nat size)
     = load (snd r) 0 (Z.to_nat size).
Proof.
  exact (program_test_checks env gpu aesdec aesenc key0 key1 key2 key3 size
           size_nonneg size_fits whole_chunks s i).
Qed.

End FillTestTheorems.

Lemma scratchpad_test_is_sound_witness :
  let s' := snd (test_fill_scratchpads 128 (Example.env_ok (2 ^ 33) (2 ^ 34))
                   Scenario.model_gpu Example.mix Example.mix 1 2 3 4 Example.seeded) in
  let r := fillAes1Rx4_ref Example.mix Example.mix 1 2 3 4
                           (hst Example.seeded hash2) (5 * 64) (Z.to_nat 128) zero_mem 0 in
  load (dev s' hash_gpu) (5 * 64) 64 = load (fst r) (5 * 64) 64
  /\ deinterleave (dev s' scratchpads_gpu) 128 5 (Z.to_nat 128 / 64)
     = load (snd r) 0 (Z.to_nat 128).
Proof.
  apply (scratchpad_test_is_sound (Example.env_ok (2 ^ 33) (2 ^ 34)) Scenario.model_gpu
           Example.mix Example.mix 1 2 3 4 128 ltac:(lia) ltac:(lia) eq_refl
           Example.seeded 5).
  - destruct (test_fill_scratchpads_passes 128 (Example.env_ok (2 ^ 33) (2 ^ 34))
                Example.mix Example.mix 1 2 3 4
                (fun _ _ _ regs => regs) (fun _ _ _ _ _ _ regs _ => regs)
                (fun _ => eq_refl) (fun _ => eq_refl) (fun _ => eq_refl)
                Example.seeded ltac:(lia) ltac:(lia) eq_refl (fun _ _ => eq_refl))
      as (s' & E & _).
    unfold Scenario.model_gpu. rewrite E. reflexivity.
  - lia.
Defined.

Lemma program_test_is_sound_witness :
  let s' := snd (test_fill_programs 128 (Example.env_ok (2 ^ 33) (2 ^ 34))
                   Scenario.model_gpu Example.mix Example.mix 1 2 3 4 Example.seeded) in
  let r := fillAes1Rx4_ref Example.mix Example.mix 1 2 3 4
                           (hst Example.seeded hash2) (5 * 64) (Z.to_nat 128) zero_mem 0 in
  load (dev s' hash_gpu) (5 * 64) 64 = load (fst r) (5 * 64) 64
  /\ load (dev s' programs_gpu) (5 * Z.to_nat 128) (Z.to_nat 128)
     = load (snd r) 0 (Z.to_nat 128).
Proof.
  apply (program_test_is_sound (Example.env_ok (2 ^ 33) (2 ^ 34)) Scenario.model_gpu
           Example.mix Example.mix 1 2 3 4 128 ltac:(lia) ltac:(lia) eq_refl
           Example.seeded 5).
  - destruct (test_fill_programs_passes 128 (Example.env_ok (2 ^ 33) (2 ^ 34))
                Example.mix Example.mix 1 2 3 4
                (fun _ _ _ regs => regs) (fun _ _ _ _ _ _ regs _ => regs)
                (fun _ => eq_refl) (fun _ => eq_refl) (fun _ => eq_refl)
                Example.seeded ltac:(lia) ltac:(lia) eq_refl (fun _ _ => eq_refl))
      as (s' & E & _).
    unfold Scenario.model_gpu. rewrite E. reflexivity.
  - lia.
Defined.

(** X19: the compression test passes only if every register file on the
    device agrees with the reference in its first 256 bytes: the 64 bytes at
    offset 192 are the sequential [hashAes1Rx4] of the lane's reference
    scratchpad, and the 192 bytes before them are what [registers2] holds
    there, bytes that neither the test nor the reference ever writes. *)
Theorem compression_test_is_sound
    (SCRATCHPAD_SIZE REGISTERS_SIZE : Z) (env : cuda_env) (gpu : gpu_kernels)
    (hashAes1Rx4_ref : list Z -> list Z) (s : host) (i : nat) :
  128 * REGISTERS_SIZE < 2 ^ 64 ->
  (256 <= Z.to_nat REGISTERS_SIZE)%nat ->
  (forall x, List.length (hashAes1Rx4_ref x) = 64%nat) ->
  fst (test_hashAes1Rx4 SCRATCHPAD_SIZE REGISTERS_SIZE env gpu hashAes1Rx4_ref s) = Next tt ->
  (i < 128)%nat ->
  let s' := snd (test_hashAes1Rx4 SCRATCHPAD_SIZE REGISTERS_SIZE env gpu hashAes1Rx4_ref s) in
  let RS := Z.to_nat REGISTERS_SIZE in
  let SP := Z.to_nat SCRATCHPAD_SIZE in
  load (dev s' registers_gpu) (i * RS + 192) 64
  = hashAes1Rx4_ref (load (hst s scratchpads) (SP * (128 + i)) SP)
  /\ load (dev s' registers_gpu) (i * RS) 192 = load (hst s registers2) (i * RS) 192.
Proof.
  intros F R L P I. cbv zeta.
  pose proof (compression_test_checks SCRATCHPAD_SIZE REGISTERS_SIZE env gpu
                hashAes1Rx4_ref F R L s i P I) as C.
  unfold expected_registers in C. split.
  - rewrite (load_part _ _ _ _ _ 192 64 C ltac:(lia)).
    replace (i * Z.to_nat REGISTERS_SIZE + 192)%nat
      with (Z.to_nat REGISTERS_SIZE * i + 192)%nat by lia.
    pose proof (load_store (hst s registers2) (Z.to_nat REGISTERS_SIZE * i + 192)
                  (hashAes1Rx4_ref
                     (load (hst s scratchpads)
                        (Z.to_nat SCRATCHPAD_SIZE * (NUM_SCRATCHPADS_TEST + i))
                        (Z.to_nat SCRATCHPAD_SIZE)))) as LS.
    rewrite L in LS. exact LS.
  - pose proof (load_part _ _ _ _ _ 0 192 C ltac:(lia)) as C0.
    rewrite !Nat.add_0_r in C0. rewrite C0.
    apply load_ext. intros a A. apply store_outside. lia.
Qed.

Lemma blank_registers_expected k :
  load (Example.zero_dev registers_gpu) (k * Z.to_nat 256) (Z.to_nat 256)
  = expected_registers 128 256 Scenario.zero_hash (hst Scenario.blank) k.
Proof.
  unfold expected_registers. apply load_ext. intros a _.
  unfold store, Scenario.zero_hash, Scenario.blank, Example.zero_dev, zero_mem. cbn [hst].
  destruct (_ && _); [|reflexivity]. symmetry. apply nth_repeat.
Qed.

Lemma compression_test_is_sound_witness :
  let s' := snd (test_hashAes1Rx4 128 256 (Example.env_ok (2 ^ 33) (2 ^ 34))
                   Example.idle_gpu Scenario.zero_hash Scenario.blank) in
  let RS := Z.to_nat 256 in
  let SP := Z.to_nat 128 in
  load (dev s' registers_gpu) (5 * RS + 192) 64
  = Scenario.zero_hash (load (hst Scenario.blank scratchpads) (SP * (128 + 5)) SP)
  /\ load (dev s' registers_gpu) (5 * RS) 192
     = load (hst Scenario.blank registers2) (5 * RS) 192.
Proof.
  apply (compression_test_is_sound 128 256 (Example.env_ok (2 ^ 33) (2 ^ 34))
           Example.idle_gpu Scenario.zero_hash Scenario.blank 5).
  - lia.
  - cbn. lia.
  - intros x. apply repeat_length.
  - apply (compression_test_passes 128 256 (Example.env_ok (2 ^ 33) (2 ^ 34))
             Example.idle_gpu Scenario.zero_hash).
    + lia.
    + cbn. lia.
    + intros x. apply repeat_length.
    + intros n. reflexivity.
    + intros n. reflexivity.
    + intros k K. apply blank_registers_expected.
  - lia.
Defined.

(** X20: each of the two register-hash test cases passes only if the
    device holds, for each of the 128 lanes, the sequential BLAKE2b of the
    tested width over the lane's register file in the host's [registers2]. *)
Theorem register_hash_test_is_sound
    (REGISTERS_SIZE : Z) (env : cuda_env) (gpu : gpu_kernels)
    (outlen : nat) (failed passed : string) (s : host) (i : nat) :
  (outlen <= 64)%nat ->
  fst (test_blake2b_hash_registers REGISTERS_SIZE env gpu outlen failed passed s) = Next tt ->
  (i < 128)%nat ->
  let s' := snd (test_blake2b_hash_registers REGISTERS_SIZE env gpu outlen failed passed s) in
  load (dev s' hash_gpu) (i * outlen) outlen
  = Blake2b.blake2b outlen
      (load (hst s registers2) (i * Z.to_nat REGISTERS_SIZE) (Z.to_nat REGISTERS_SIZE)).
Proof. cbv zeta. apply register_hash_test_checks. Qed.

Lemma register_hash_test_is_sound_witness :
  let s' := snd (test_blake2b_hash_registers 256 (Example.env_ok (2 ^ 33) (2 ^ 34))
                   Scenario.model_gpu 32 "failed" "passed" Example.seeded) in
  load (dev s' hash_gpu) (5 * 32) 32
  = Blake2b.blake2b 32 (load (hst Example.seeded registers2) (5 * Z.to_nat 256) (Z.to_nat 256)).
Proof.
  apply (register_hash_test_is_sound 256 (Example.env_ok (2 ^ 33) (2 ^ 34))
           Scenario.model_gpu 32 "failed" "passed" Example.seeded 5).
  - lia.
  - destruct (test_blake2b_hash_registers_passes 256 (Example.env_ok (2 ^ 33) (2 ^ 34))
                Example.mix Example.mix 1 2 3 4
                (fun _ _ _ regs => regs) (fun _ _ _ _ _ _ regs _ => regs)
                (fun _ => eq_refl) (fun _ => eq_refl)
                32%nat "failed"%string "passed"%string Example.seeded
                ltac:(lia) eq_refl (fun _ _ => eq_refl)) as (s' & E & _).
    unfold Scenario.model_gpu. rewrite E. reflexivity.
  - lia.
Defined.

(** ** The returns of [tests] *)

Section Reports.

Variable env : cuda_env.
Variable gpu : gpu_kernels.
Variable X : Prop.

Lemma reports_bind {R A B} (m : M R A) (k : A -> M R B) :
  reports X m -> (forall a, reports X (k a)) -> reports X (bind m k).
Proof. intros Hm Hk. exact (hoare_bind _ m k _ _ _ _ Hm Hk). Qed.

Lemma reports_neutral {R A} (m : M R A) : neutral m -> reports X m.
Proof. intros N s _. now destruct (N s) as (a & s' & -> & _). Qed.

Lemma reports_fail_if {R} c msg (r : R) : reports X (fail_if c msg r).
Proof.
  intros s _. unfold fail_if. destruct c; cbn; [|exact I].
  left. now exists (trace s), msg.
Qed.

Lemma reports_launch_kernel {R} l : reports X (@launch_kernel env gpu R l).
Proof. intros s _. exact I. Qed.

Lemma reports_cudaGetLastError {R} : reports X (@cudaGetLastError R).
Proof. intros s _. exact I. Qed.

Lemma reports_cudaDeviceSynchronize {R} : reports X (@cudaDeviceSynchronize env R).
Proof. intros s _. exact I. Qed.

Lemma reports_for_each {R} (body : nat -> M R unit) l :
  (forall i, reports X (body i)) -> reports X (for_each l body).
Proof.
  intros H. induction l as [|i l IH]; [now apply reports_neutral, neutral_ret|].
  cbn [for_each]. apply reports_bind; [apply H | intros ?; exact IH].
Qed.

Lemma reports_in_sequence (blocks : list (M unit unit)) :
  Forall (reports X) blocks -> reports X (in_sequence blocks).
Proof.
  induction 1 as [|b rest Hb _ IH]; [now apply reports_neutral, neutral_ret|].
  cbn [in_sequence]. apply reports_bind; [exact Hb | intros ?; exact IH].
Qed.

End Reports.

Ltac reports_step :=
  first [ simple apply reports_bind; [|intros ?]
        | simple apply reports_for_each; intros ?
        | simple apply reports_fail_if
        | simple apply reports_launch_kernel
        | simple apply reports_cudaGetLastError
        | simple apply reports_cudaDeviceSynchronize
        | simple apply reports_neutral;
          first [ simple apply neutral_ret | simple apply neutral_printf
                | simple apply neutral_tell
                | simple apply neutral_GPUPtr_new | simple apply neutral_GPUPtr_end
                | simple apply neutral_cudaMemcpyHostToDevice
                | simple apply neutral_cudaMemcpyDeviceToHost
                | simple apply neutral_get_host | simple apply neutral_modify_host ] ].

Section TestsReports.

Variables SCRATCHPAD_SIZE PROGRAM_SIZE REGISTERS_SIZE : Z.
Variable env : cuda_env.
Variable gpu : gpu_kernels.
Variables aesdec aesenc : Z -> Z -> Z.
Variables key0 key1 key2 key3 : Z.
Variable hashAes1Rx4_ref : list Z -> list Z.

Local Abbreviation silent := (malloc_ok env states_gpu = false).

Lemma reports_tests_setup :
  reports silent (tests_setup SCRATCHPAD_SIZE REGISTERS_SIZE env).
Proof.
  unfold tests_setup, alloc_checked.
  do 3 (apply reports_bind; [repeat reports_step | intros ?]).
  eapply hoare_bind.
  - intros s _. unfold GPUPtr_new.
    instantiate (1 := fun null _ => null = negb (malloc_ok env states_gpu)).
    destruct (malloc_ok env states_gpu); reflexivity.
  - intros null. destruct null.
    + intros s N. cbn. right. now destruct (malloc_ok env states_gpu).
    + eapply hoare_pre; [intros s _; exact I|]. repeat reports_step.
Qed.

Lemma reports_tests_body :
  reports silent (tests_body SCRATCHPAD_SIZE PROGRAM_SIZE REGISTERS_SIZE env gpu
                             aesdec aesenc key0 key1 key2 key3 hashAes1Rx4_ref).
Proof.
  unfold tests_body. apply reports_bind; [apply reports_tests_setup | intros ?].
  apply reports_in_sequence. unfold test_cases.
  repeat apply Forall_cons; try apply Forall_nil;
    unfold test_blake2b_initial_hash, test_fill_scratchpads, test_fill_programs,
      test_hashAes1Rx4, test_blake2b_hash_registers, sync_checked, memcpy_to_host;
    cbv zeta; repeat reports_step.
Qed.

End TestsReports.

(** X21: when [tests] returns before the end of its test cases, it has
    written a message to [stderr] just before (the trace ends with the
    message and the release of the buffers), for every failure of the
    runtime and every mismatch, with one exception: when the allocation of
    [states_gpu] fails, it returns without a word. *)
Theorem tests_reports_its_failures
    (SCRATCHPAD_SIZE PROGRAM_SIZE REGISTERS_SIZE : Z) (env : cuda_env) (gpu : gpu_kernels)
    (aesdec aesenc : Z -> Z -> Z) (key0 key1 key2 key3 : Z)
    (hashAes1Rx4_ref : list Z -> list Z) (s : host) :
  let run := tests SCRATCHPAD_SIZE PROGRAM_SIZE REGISTERS_SIZE env gpu
                   aesdec aesenc key0 key1 key2 key3 hashAes1Rx4_ref s in
  fst run = Returned tt ->
  malloc_ok env states_gpu = true ->
  exists pre msg frees, trace (snd run) = pre ++ EvStderr msg :: map EvFree frees.
Proof.
  cbv zeta. unfold tests.
  pose proof (reports_tests_body SCRATCHPAD_SIZE PROGRAM_SIZE REGISTERS_SIZE env gpu
                aesdec aesenc key0 key1 key2 key3 hashAes1Rx4_ref s I) as K.
  destruct (tests_body _ _ _ _ _ _ _ _ _ _ _ _ _) as [[a|r|] s']; cbn [fst snd];
    intros H M; try discriminate H.
  destruct K as [(pre & msg & T)|K]; [|congruence].
  exists pre, msg, (live s'). unfold destroy_all. cbn [trace].
  rewrite T, <- app_assoc. reflexivity.
Qed.

(** The device code computes nothing: the first test case fails. *)
Lemma tests_reports_its_failures_witness :
  exists pre msg frees,
    trace (snd (tests Example.SCRATCHPAD_SIZE Example.PROGRAM_SIZE Example.REGISTERS_SIZE
                  (Example.env_ok (2 ^ 33) (2 ^ 34)) Example.idle_gpu
                  Example.mix Example.mix 1 2 3 4 (fun _ => [])
                  (Example.start Example.zero_dev)))
    = pre ++ EvStderr msg :: map EvFree frees.
Proof.
  apply (tests_reports_its_failures
           Example.SCRATCHPAD_SIZE Example.PROGRAM_SIZE Example.REGISTERS_SIZE
           (Example.env_ok (2 ^ 33) (2 ^ 34)) Example.idle_gpu
           Example.mix Example.mix 1 2 3 4 (fun _ => [])
           (Example.start Example.zero_dev)).
  - lazy. reflexivity.
  - reflexivity.
Defined.

(** X22: when the allocation of [states_gpu] fails after the three before
    it succeeded, [tests] releases those three and returns without any
    message: the run shows four allocations, three releases and nothing
    else. *)
Theorem tests_is_silent_without_states
    (SCRATCHPAD_SIZE PROGRAM_SIZE REGISTERS_SIZE : Z) (env : cuda_env) (gpu : gpu_kernels)
    (aesdec aesenc : Z -> Z -> Z) (key0 key1 key2 key3 : Z)
    (hashAes1Rx4_ref : list Z -> list Z) (d : devmem) (h : hostmem) :
  malloc_ok env hash_gpu = true ->
  malloc_ok env block_template_gpu = true ->
  malloc_ok env nonce_gpu = true ->
  malloc_ok env states_gpu = false ->
  let run := tests SCRATCHPAD_SIZE PROGRAM_SIZE REGISTERS_SIZE env gpu
                   aesdec aesenc key0 key1 key2 key3 hashAes1Rx4_ref
                   (Host [] cudaSuccess 0 0 0 0 [] d h) in
  fst run = Returned tt
  /\ trace (snd run)
     = [ EvMalloc hash_gpu sizeof_hash;
         EvMalloc block_template_gpu sizeof_blockTemplate;
         EvMalloc nonce_gpu 8;
         EvMalloc states_gpu (sizeof_hash * Z.of_nat NUM_SCRATCHPADS_BENCH);
         EvFree nonce_gpu; EvFree block_template_gpu; EvFree hash_gpu ].
Proof.
  intros M1 M2 M3 M4. cbv zeta.
  unfold tests, tests_body, tests_setup, alloc_checked, bind, GPUPtr_new, fail_if, emit.
  cbn -[in_sequence sizeof_hash sizeof_blockTemplate NUM_SCRATCHPADS_BENCH Z.mul Z.of_nat].
  rewrite M1.
  cbn -[in_sequence sizeof_hash sizeof_blockTemplate NUM_SCRATCHPADS_BENCH Z.mul Z.of_nat].
  rewrite M2.
  cbn -[in_sequence sizeof_hash sizeof_blockTemplate NUM_SCRATCHPADS_BENCH Z.mul Z.of_nat].
  rewrite M3.
  cbn -[in_sequence sizeof_hash sizeof_blockTemplate NUM_SCRATCHPADS_BENCH Z.mul Z.of_nat].
  rewrite M4.
  cbn -[in_sequence sizeof_hash sizeof_blockTemplate NUM_SCRATCHPADS_BENCH Z.mul Z.of_nat].
  split; reflexivity.
Qed.

Lemma tests_is_silent_without_states_witness :
  let run := tests Example.SCRATCHPAD_SIZE Example.PROGRAM_SIZE Example.REGISTERS_SIZE
                   (Scenario.env_malloc_fails (2 ^ 33) (2 ^ 34) states_gpu) Example.idle_gpu
                   Example.mix Example.mix 1 2 3 4 (fun _ => [])
                   (Host [] cudaSuccess 0 0 0 0 [] Example.zero_dev Example.host_memory) in
  fst run = Returned tt
  /\ trace (snd run)
     = [ EvMalloc hash_gpu sizeof_hash;
         EvMalloc block_template_gpu sizeof_blockTemplate;
         EvMalloc nonce_gpu 8;
         EvMalloc states_gpu (sizeof_hash * Z.of_nat NUM_SCRATCHPADS_BENCH);
         EvFree nonce_gpu; EvFree block_template_gpu; EvFree hash_gpu ].
Proof.
  apply (tests_is_silent_without_states
           Example.SCRATCHPAD_SIZE Example.PROGRAM_SIZE Example.REGISTERS_SIZE
           (Scenario.env_malloc_fails (2 ^ 33) (2 ^ 34) states_gpu) Example.idle_gpu
           Example.mix Example.mix 1 2 3 4 (fun _ => [])
           Example.zero_dev Example.host_memory); reflexivity.
Defined.

(** ** The benchmarks *)

Section BenchmarkProofs.

Variable env : cuda_env.
Variable gpu : gpu_kernels.

Hypothesis launches_succeed : forall n, launch_status env n = cudaSuccess.
Hypothesis syncs_succeed : forall n, sync_status env n = cudaSuccess.

Lemma launch_checked_void_ok l msg s :
  last_error s = cudaSuccess ->
  exists s',
    launch_checked_void env gpu l msg s = (Next tt, s')
    /\ trace s' = trace s ++ [EvLaunch l; EvGetLastError]
    /\ last_error s' = cudaSuccess
    /\ n_launch s' = S (n_launch s) /\ n_sync s' = n_sync s
    /\ dev s' = gpu l (dev s).
Proof.
  intros E. unfold launch_checked_void, bind, launch_kernel, cudaGetLastError, fail_if, emit.
  cbn [trace last_error n_meminfo n_memcpy n_launch n_sync live dev hst].
  rewrite launches_succeed, E. cbn [is_success negb ret].
  eexists. split; [reflexivity|]. cbn [trace last_error n_launch n_sync dev].
  rewrite <- app_assoc. repeat split.
Qed.

(** The ten launches of a round. *)
Lemma ten_launches_ok l msg cnt : forall s,
  last_error s = cudaSuccess ->
  exists s',
    @for_each unit (seq 0 cnt) (fun _ => launch_checked_void env gpu l msg) s = (Next tt, s')
    /\ trace s' = trace s ++ flat_map (fun _ => [EvLaunch l; EvGetLastError]) (seq 0 cnt)
    /\ last_error s' = cudaSuccess
    /\ n_launch s' = (n_launch s + cnt)%nat /\ n_sync s' = n_sync s
    /\ dev s' = Nat.iter cnt (gpu l) (dev s).
Proof.
  set (P := fun (i : nat) (s0 t : host) =>
              trace t = trace s0 ++ flat_map (fun _ => [EvLaunch l; EvGetLastError]) (seq 0 i)
              /\ last_error t = cudaSuccess
              /\ n_launch t = (n_launch s0 + i)%nat /\ n_sync t = n_sync s0
              /\ dev t = Nat.iter i (gpu l) (dev s0)).
  intros s E.
  destruct (for_each_seq (fun i => P i s) (fun _ => launch_checked_void env gpu l msg)
              cnt 0 s) as (s' & F & H).
  - unfold P. cbn. rewrite app_nil_r, Nat.add_0_r. repeat split. exact E.
  - intros i t _ (T & Le & Nl & Ns & D).
    destruct (launch_checked_void_ok l msg t Le) as (t' & R & T' & Le' & Nl' & Ns' & D').
    exists t'. split; [exact R|]. unfold P.
    rewrite seq_S, flat_map_app, T', T. cbn [flat_map Nat.add].
    rewrite app_nil_r, <- app_assoc. repeat split; try congruence; try lia.
    rewrite D', D. reflexivity.
  - exists s'. split; [exact F | exact H].
Qed.

Lemma benchmark_ok progress l launch_msg sync_msg s :
  last_error s = cudaSuccess ->
  exists s',
    benchmark env gpu progress l launch_msg sync_msg s = (Next tt, s')
    /\ launches_of (trace s') = launches_of (trace s) ++ benchmark_launches l 100
    /\ count_events is_check (trace s') = (count_events is_check (trace s) + 1000)%nat
    /\ count_events is_sync (trace s') = (count_events is_sync (trace s) + 100)%nat
    /\ last_error s' = cudaSuccess
    /\ dev s' = Nat.iter 1000 (gpu l) (dev s)
    /\ exists evs, trace s' = trace s ++ evs.
Proof.
  intros E. unfold benchmark.
  set (body := fun i : nat => _).
  set (P := fun (i : nat) (t : host) =>
              launches_of (trace t) = launches_of (trace s) ++ benchmark_launches l i
              /\ count_events is_check (trace t) = (count_events is_check (trace s) + i * 10)%nat
              /\ count_events is_sync (trace t) = (count_events is_sync (trace s) + i)%nat
              /\ last_error t = cudaSuccess
              /\ dev t = Nat.iter (i * 10) (gpu l) (dev s)
              /\ exists evs, trace t = trace s ++ evs).
  unfold bind at 1. unfold tell at 1.
  destruct (for_each_seq P body 100 0 (emit EvClock s))
    as (s' & F & L & C & Y & Le & D & (evs' & Tr)).
  - unfold P, emit, benchmark_launches. cbn [trace last_error dev].
    rewrite launches_of_app, !count_events_app. cbn. rewrite !app_nil_r, !Nat.add_0_r.
    repeat split; [exact E | now exists [EvClock]].
  - intros i t _ (L & C & Y & Le & D & (evs0 & Tr)). unfold body.
    set (t1 := snd ((printf progress [Z.of_nat i + 1] ;;
                     (if (0 <? i)%nat
                      then tell EvClock ;; printf ", %.0f scratchpads/s" []
                      else ret tt) ;;
                     @printf unit "\r" []) t)).
    assert (H1 : exists evs,
               (printf progress [Z.of_nat i + 1] ;;
                (if (0 <? i)%nat
                 then tell EvClock ;; printf ", %.0f scratchpads/s" []
                 else ret tt) ;;
                @printf unit "\r" []) t
               = (Next tt, Host (trace t ++ evs) (last_error t) (n_meminfo t) (n_memcpy t)
                                (n_launch t) (n_sync t) (live t) (dev t) (hst t))
               /\ launches_of evs = [] /\ count_events is_check evs = 0%nat
               /\ count_events is_sync evs = 0%nat).
    { unfold bind, printf, tell, emit, ret. destruct (0 <? i)%nat; cbn;
        eexists; (split; [rewrite <- !app_assoc; reflexivity|]); repeat split. }
    destruct H1 as (evs & R1 & Z1 & Z2 & Z3).
    match goal with
    | |- exists s', (?a ;; ?b ;; ?c ;; ?rest) t = _ /\ _ =>
        assert (A : (a ;; b ;; c ;; rest) t = ((a ;; b ;; c) ;; rest) t)
    end.
    { unfold bind. destruct (printf progress [Z.of_nat i + 1] t) as [[?|?|] ?];
        try reflexivity.
      destruct (if (0 <? i)%nat then _ else _) as [[?|?|] ?]; reflexivity. }
    rewrite A. rewrite (bind_next _ _ _ _ _ R1).
    match goal with
    | |- exists s', (for_each _ _ ;; _) ?st = _ /\ _ => set (t2 := st)
    end.
    destruct (ten_launches_ok l launch_msg 10 t2 Le) as (t3 & R3 & T3 & Le3 & Nl3 & Ns3 & D3).
    rewrite (bind_next _ _ _ _ _ R3).
    unfold bind, cudaDeviceSynchronize, fail_if, emit.
    cbn [trace last_error n_meminfo n_memcpy n_launch n_sync live dev hst].
    rewrite syncs_succeed. cbn [is_success negb ret].
    eexists. split; [reflexivity|]. unfold P. cbn [trace last_error dev].
    rewrite T3. subst t2. cbn [trace dev] in *.
    rewrite !launches_of_app, !count_events_app, L, C, Y, Z1, Z2, Z3, D3, D.
    replace (S i * 10)%nat with (i * 10 + 10)%nat by lia.
    unfold benchmark_launches. replace (S i * 10)%nat with (i * 10 + 10)%nat by lia.
    rewrite repeat_app.
    replace (Nat.iter (i * 10 + 10) (gpu l) (dev s))
      with (Nat.iter (10 + i * 10) (gpu l) (dev s)) by (f_equal; lia).
    cbn. rewrite ?app_nil_r, <- ?app_assoc.
    repeat split; try reflexivity; try lia; [exact Le3|].
    rewrite Tr, <- !app_assoc. eexists. reflexivity.
  - rewrite (bind_next _ _ _ _ _ F). unfold printf, tell, emit.
    eexists. split; [reflexivity|]. cbn [trace last_error dev].
    rewrite launches_of_app, !count_events_app, L, C, Y. cbn. rewrite app_nil_r, !Nat.add_0_r.
    repeat split; auto.
    rewrite Tr, <- app_assoc. eexists. reflexivity.
Qed.

End BenchmarkProofs.

Section BenchmarkTheorems.

Variable SCRATCHPAD_SIZE : Z.
Variable env : cuda_env.
Variable gpu : gpu_kernels.

(** X23: on a runtime that does not fail, the two cipher benchmarks of
    [tests] make a thousand launches each, all with the same arguments and
    2048 lanes, every launch followed by a check of its status, and a
    hundred synchronisations each, one after every ten launches; then the
    template is uploaded again. *)
Theorem benchmarks_make_a_thousand_launches_each (s : host) :
  (forall n, launch_status env n = cudaSuccess) ->
  (forall n, sync_status env n = cudaSuccess) ->
  (forall n, memcpy_status env n = cudaSuccess) ->
  last_error s = cudaSuccess ->
  let run := benchmarks SCRATCHPAD_SIZE env gpu s in
  fst run = Next tt
  /\ launches_of (trace (snd run))
     = launches_of (trace s)
       ++ repeat (fill_benchmark_launch SCRATCHPAD_SIZE) 1000
       ++ repeat (hash_benchmark_launch SCRATCHPAD_SIZE) 1000
  /\ count_events is_check (trace (snd run)) = (count_events is_check (trace s) + 2000)%nat
  /\ count_events is_sync (trace (snd run)) = (count_events is_sync (trace s) + 200)%nat
  /\ exists evs,
       trace (snd run)
       = trace s ++ evs
         ++ [EvMemcpyHtoD block_template_gpu blockTemplate sizeof_blockTemplate].
Proof.
  intros Ls Ss Ms E. cbv zeta. unfold benchmarks, benchmark_fillAes1Rx4, benchmark_hashAes1Rx4.
  destruct (benchmark_ok env gpu Ls Ss "Benchmarking fillAes1Rx4 %d/100"
              (fill_benchmark_launch SCRATCHPAD_SIZE) "fillAes1Rx4 launch failed: %s\n"
              "cudaDeviceSynchronize returned error code %d after launching fillAes1Rx4!\n"
              s E) as (s1 & R1 & L1 & C1 & Y1 & E1 & _ & (ev1 & T1)).
  destruct (benchmark_ok env gpu Ls Ss "Benchmarking hashAes1Rx4 %d/100"
              (hash_benchmark_launch SCRATCHPAD_SIZE) "hashAes1Rx4 launch failed: %s\n"
              "cudaDeviceSynchronize returned error code %d after launching hashAes1Rx4!\n"
              s1 E1) as (s2 & R2 & L2 & C2 & Y2 & E2 & _ & (ev2 & T2)).
  rewrite (bind_next _ _ _ _ _ R1), (bind_next _ _ _ _ _ R2).
  unfold bind, cudaMemcpyHostToDevice, fail_if, emit.
  cbn [trace last_error n_meminfo n_memcpy n_launch n_sync live dev hst].
  rewrite Ms. cbn [is_success negb ret fst snd trace].
  rewrite launches_of_app, !count_events_app, L2, L1, C2, C1, Y2, Y1.
  unfold benchmark_launches. cbn [launches_of flat_map count_events filter is_check is_sync
                                  List.length app].
  rewrite app_nil_r, <- app_assoc, !Nat.add_0_r.
  repeat split; try lia.
  exists (ev1 ++ ev2). rewrite T2, T1, <- !app_assoc. reflexivity.
Qed.

End BenchmarkTheorems.

Section Swift.

Variable env : cuda_env.
Variable gpu : gpu_kernels.
Variable first : nat.

Lemma prompt_late s : prompt env first s -> late env first s.
Proof.
  unfold prompt, late, on_counters. intros [_ L] i I. apply L. lia.
Qed.

Lemma swift_bind {R A B} (m : M R A) (k : A -> M R B) :
  swift env first m -> (forall a, swift env first (k a)) -> swift env first (bind m k).
Proof. intros Hm Hk. exact (hoare_bind _ m k _ _ _ _ Hm Hk). Qed.

Lemma swift_neutral {R A} (m : M R A) : neutral m -> swift env first m.
Proof. intros N. unfold swift, prompt. now apply hoare_neutral. Qed.

Lemma swift_fail_if {R} c msg (r : R) : swift env first (fail_if c msg r).
Proof.
  intros s H. unfold fail_if. destruct c; cbn; [|exact H]. now apply prompt_late.
Qed.

Lemma swift_if {R A} (c : bool) (m1 m2 : M R A) :
  swift env first m1 -> swift env first m2 -> swift env first (if c then m1 else m2).
Proof. now destruct c. Qed.

Lemma swift_for_each {R} (body : nat -> M R unit) l :
  (forall i, swift env first (body i)) -> swift env first (for_each l body).
Proof.
  intros H. induction l as [|i l IH]; [now apply swift_neutral, neutral_ret|].
  cbn [for_each]. apply swift_bind; [apply H | intros ?; exact IH].
Qed.

Lemma swift_launch_checked_void l msg : swift env first (launch_checked_void env gpu l msg).
Proof.
  intros s [E L]. unfold launch_checked_void, bind, launch_kernel, cudaGetLastError,
    fail_if, emit.
  cbn [trace last_error n_meminfo n_memcpy n_launch n_sync live dev hst].
  destruct (launch_status env (n_launch s)) eqn:St; cbn [is_success].
  - rewrite E. cbn [is_success negb ret]. split; [reflexivity|].
    cbn [n_launch]. intros i I.
    destruct (Nat.eq_dec i (n_launch s)) as [->|]; [exact St | apply L; lia].
  - cbn [is_success negb]. cbn. unfold late, on_counters. cbn [n_launch].
    intros i I. cbn in I. apply L. lia.
Qed.

Lemma swift_synchronize {R} msg (r : R) :
  swift env first (cudaStatus <- cudaDeviceSynchronize env ;;
                   fail_if (negb (is_success cudaStatus)) msg r).
Proof.
  intros s [E L]. unfold bind, cudaDeviceSynchronize, fail_if, emit.
  cbn [trace last_error n_meminfo n_memcpy n_launch n_sync live dev hst].
  destruct (sync_status env (n_sync s)); cbn [is_success negb]; cbn.
  - now split.
  - unfold late, on_counters. cbn [n_launch]. intros i I. cbn in I. apply L. lia.
Qed.

Lemma swift_benchmark progress l launch_msg sync_msg :
  swift env first (benchmark env gpu progress l launch_msg sync_msg).
Proof.
  unfold benchmark.
  repeat first [ simple apply swift_launch_checked_void
               | simple apply swift_synchronize
               | simple apply swift_bind; [|intros ?]
               | simple apply swift_for_each; intros ?
               | simple apply swift_if
               | simple apply swift_neutral;
                 first [ simple apply neutral_ret | simple apply neutral_printf
                       | simple apply neutral_tell ] ].
Qed.

Lemma swift_benchmarks SCRATCHPAD_SIZE :
  swift env first (benchmarks SCRATCHPAD_SIZE env gpu).
Proof.
  unfold benchmarks, benchmark_fillAes1Rx4, benchmark_hashAes1Rx4.
  repeat first [ simple apply swift_benchmark
               | simple apply swift_bind; [|intros ?]
               | simple apply swift_fail_if
               | simple apply swift_neutral; simple apply neutral_cudaMemcpyHostToDevice ].
Qed.

End Swift.

(** X24: in the benchmarks every launch is checked before the next:
    whatever the runtime answers, if a launch of the benchmarks could not be
    issued, [tests] has returned, and the failed launch was its last. *)
Theorem failed_benchmark_launch_is_the_last
    (SCRATCHPAD_SIZE : Z) (env : cuda_env) (gpu : gpu_kernels) (s : host) (i : nat) :
  last_error s = cudaSuccess ->
  let run := benchmarks SCRATCHPAD_SIZE env gpu s in
  (n_launch s <= i < n_launch (snd run))%nat ->
  is_success (launch_status env i) = false ->
  fst run = Returned tt /\ n_launch (snd run) = S i.
Proof.
  intros E. cbv zeta. intros I F.
  assert (P : prompt env (n_launch s) s).
  { split; [exact E|]. intros j J. lia. }
  pose proof (swift_benchmarks env gpu (n_launch s) SCRATCHPAD_SIZE s P) as K.
  destruct (benchmarks SCRATCHPAD_SIZE env gpu s) as [[[]|[]|] s']; cbn [fst snd] in *.
  - destruct K as [_ L]. rewrite (L i I) in F. discriminate F.
  - split; [reflexivity|].
    destruct (Nat.eq_dec (n_launch s') (S i)) as [Eq|Ne]; [exact Eq|].
    unfold late, on_counters in K. rewrite (K i) in F by lia. discriminate F.
  - destruct K as [_ L]. rewrite (L i I) in F. discriminate F.
Qed.

(** The launch numbered 25, in the third round of the first benchmark,
    fails. *)
Lemma failed_benchmark_launch_is_the_last_witness :
  let run := benchmarks Example.SCRATCHPAD_SIZE
               (Example.env_launch_fails (2 ^ 33) (2 ^ 34) 25) Example.idle_gpu
               (Example.start Example.zero_dev) in
  fst run = Returned tt /\ n_launch (snd run) = 26%nat.
Proof.
  apply (failed_benchmark_launch_is_the_last Example.SCRATCHPAD_SIZE
           (Example.env_launch_fails (2 ^ 33) (2 ^ 34) 25) Example.idle_gpu
           (Example.start Example.zero_dev) 25).
  - reflexivity.
  - vm_compute. lia.
  - reflexivity.
Defined.

Lemma benchmarks_make_a_thousand_launches_each_witness :
  let s := Example.start Example.zero_dev in
  let run := benchmarks Example.SCRATCHPAD_SIZE (Example.env_ok (2 ^ 33) (2 ^ 34))
                        Example.idle_gpu s in
  fst run = Next tt
  /\ launches_of (trace (snd run))
     = launches_of (trace s)
       ++ repeat (fill_benchmark_launch Example.SCRATCHPAD_SIZE) 1000
       ++ repeat (hash_benchmark_launch Example.SCRATCHPAD_SIZE) 1000
  /\ count_events is_check (trace (snd run)) = (count_events is_check (trace s) + 2000)%nat
  /\ count_events is_sync (trace (snd run)) = (count_events is_sync (trace s) + 200)%nat
  /\ exists evs,
       trace (snd run)
       = trace s ++ evs
         ++ [EvMemcpyHtoD block_template_gpu blockTemplate sizeof_blockTemplate].
Proof.
  apply (benchmarks_make_a_thousand_launches_each Example.SCRATCHPAD_SIZE
           (Example.env_ok (2 ^ 33) (2 ^ 34)) Example.idle_gpu
           (Example.start Example.zero_dev)); try reflexivity.
Defined.

(** X25: the first test case writes into the global [blockTemplate]: when
    it has passed, the nonce field of the template holds 127, the index of
    the last lane, and the other 72 bytes are as before.  What is uploaded
    as the template later in [tests] is this one. *)
Theorem first_test_case_changes_the_template (env : cuda_env) (gpu : gpu_kernels) (s : host) :
  fst (test_blake2b_initial_hash env gpu s) = Next tt ->
  let s' := snd (test_blake2b_initial_hash env gpu s) in
  load (hst s' blockTemplate) 0 76 = load (set_nonce (hst s blockTemplate) 127) 0 76.
Proof.
  destruct (test_blake2b_initial_hash env gpu s) as [o s'] eqn:T. cbn [fst snd].
  intros ->. cbv zeta. unfold test_blake2b_initial_hash in T.
  apply bind_Next_inv in T as (? & s1 & L & T). apply (launch_kernel_Next env gpu) in L.
  apply bind_Next_inv in T as (? & s2 & S & T). apply sync_checked_Next in S as [_ H2].
  apply bind_Next_inv in T as (? & s3 & C & T).
  apply memcpy_to_host_Next in C as [_ H3].
  apply bind_Next_inv in T as ([] & s4 & F & T).
  apply initial_hash_reference_loop in F as (_ & _ & B & _).
  apply bind_Next_inv in T as (h & s5 & Gh & T). apply get_host_Next in Gh as [-> ->].
  apply bind_Next_inv in T as (? & s6 & Fi & T). apply fail_if_Next in Fi as [_ ->].
  apply printf_Next in T as [_ H6].
  apply load_ext. intros a _. rewrite H6, B, H3. cbn [set_host hostbuf_eqb].
  now rewrite H2, L.
Qed.

Lemma first_test_case_changes_the_template_witness :
  let s' := snd (test_blake2b_initial_hash (Example.env_ok (2 ^ 33) (2 ^ 34))
                   Scenario.model_gpu Example.seeded) in
  load (hst s' blockTemplate) 0 76
  = load (set_nonce (hst Example.seeded blockTemplate) 127) 0 76.
Proof.
  apply (first_test_case_changes_the_template (Example.env_ok (2 ^ 33) (2 ^ 34))
           Scenario.model_gpu Example.seeded).
  destruct (test_blake2b_initial_hash_passes (Example.env_ok (2 ^ 33) (2 ^ 34))
              Example.mix Example.mix 1 2 3 4
              (fun _ _ _ regs => regs) (fun _ _ _ _ _ _ regs _ => regs)
              (fun _ => eq_refl) (fun _ => eq_refl) (fun _ => eq_refl)
              Example.seeded (fun _ _ _ => eq_refl)) as (s' & E & _).
  unfold Scenario.model_gpu. rewrite E. reflexivity.
Defined.

(** ** What [tests] writes to the device *)

Section TestsEvents.

Variables SCRATCHPAD_SIZE PROGRAM_SIZE REGISTERS_SIZE : Z.
Variable env : cuda_env.
Variable gpu : gpu_kernels.
Variables aesdec aesenc : Z -> Z -> Z.
Variables key0 key1 key2 key3 : Z.
Variable hashAes1Rx4_ref : list Z -> list Z.

Lemma emits_cudaMemcpyDeviceToHost A {R} dst src size :
  A (EvMemcpyDtoH dst src size) -> emits_only A (@cudaMemcpyDeviceToHost env R dst src size).
Proof. intros He. now apply (emits_one _ _ (EvMemcpyDtoH dst src size)). Qed.

Lemma emits_get_host A {R} : emits_only A (@get_host R).
Proof. now apply emits_nothing. Qed.

Lemma emits_modify_host A {R} f : emits_only A (@modify_host R f).
Proof. now apply emits_nothing. Qed.

Lemma emits_for_each A {R} (body : nat -> M R unit) l :
  (forall i, emits_only A (body i)) -> emits_only A (for_each l body).
Proof.
  intros H. induction l as [|i l IH]; [apply emits_ret|].
  cbn [for_each]. apply emits_bind; [apply H | intros ?; exact IH].
Qed.

Lemma emits_in_sequence A (blocks : list (M unit unit)) :
  Forall (emits_only A) blocks -> emits_only A (in_sequence blocks).
Proof.
  induction 1 as [|b rest Hb _ IH]; [apply emits_ret|].
  cbn [in_sequence]. apply emits_bind; [exact Hb | intros ?; exact IH].
Qed.

Ltac tests_emits_step :=
  first [ simple apply emits_bind; [|intros ?]
        | simple apply emits_for_each; intros ?
        | simple apply emits_ret | simple apply emits_return
        | simple apply emits_fail_if; exact I
        | simple apply emits_tell; exact I
        | simple apply emits_GPUPtr_new; exact I
        | simple apply emits_cudaMemcpyHostToDevice; repeat split
        | simple apply emits_cudaMemcpyDeviceToHost; exact I
        | simple apply emits_launch_kernel; exact I
        | simple apply emits_cudaGetLastError; exact I
        | simple apply emits_cudaDeviceSynchronize; exact I
        | simple apply emits_get_host | simple apply emits_modify_host
        | simple apply emits_if ].

Lemma emits_tests_body :
  emits_only tests_event
    (tests_body SCRATCHPAD_SIZE PROGRAM_SIZE REGISTERS_SIZE env gpu
                aesdec aesenc key0 key1 key2 key3 hashAes1Rx4_ref).
Proof.
  unfold tests_body. apply emits_bind.
  - unfold tests_setup, alloc_checked. repeat tests_emits_step.
  - intros ?. apply emits_in_sequence. unfold test_cases.
    repeat apply Forall_cons; try apply Forall_nil;
      unfold test_blake2b_initial_hash, test_fill_scratchpads, test_fill_programs,
        test_hashAes1Rx4, test_blake2b_hash_registers, sync_checked, memcpy_to_host,
        printf;
      cbv zeta; repeat tests_emits_step.
Qed.

(** X26: whatever the runtime answers, the one thing [tests] writes to the
    device from the host, up to the end of its test cases, is the template:
    it never clears a buffer and uploads nothing else.  The register files
    that the compression test compares in full are never initialised by
    [tests]. *)
Theorem tests_uploads_the_template_only (d : devmem) (h : hostmem) :
  Forall tests_event
    (trace (snd (tests SCRATCHPAD_SIZE PROGRAM_SIZE REGISTERS_SIZE env gpu
                       aesdec aesenc key0 key1 key2 key3 hashAes1Rx4_ref
                       (Host [] cudaSuccess 0 0 0 0 [] d h)))).
Proof.
  unfold tests.
  destruct (emits_tests_body (Host [] cudaSuccess 0 0 0 0 [] d h)) as (evs & T & F).
  destruct (tests_body _ _ _ _ _ _ _ _ _ _ _ _ _) as [[a|r|] s']; cbn [snd trace app] in *;
    try (now rewrite T).
  unfold destroy_all. cbn [trace]. rewrite T.
  apply Forall_app. split; [exact F|].
  apply Forall_forall. intros e I. apply in_map_iff in I. now destruct I as (b & <- & _).
Qed.

End TestsEvents.
